(** * Office resource booking: floor-plan grids, interval conflicts, parking

    A shallow embedding of the service layer of the office-management
    backend:

    - [app/services/floor_plan_service.py]  (access gate, grid validation,
      version store, listings of versions, cells and slots, metadata
      update, soft delete),
    - [app/api/v1/endpoints/floor_plans.py]  (the access check of the
      endpoints),
    - [app/services/desk_service.py] and
      [unified-office-management/app/services/cafeteria_service.py]
      (cell validation, interval overlap check, create, update and cancel,
      the desks on offer),
    - [app/services/parking_service.py] (slot validation, availability scan,
      allocation, visitor assignment, entry and exit).

    The embedding follows the services: a row carries the columns the
    services read and write, and a request object the attributes they read.
    The database is a record of tables; every table is the list of its rows
    in storage order.  A service method becomes a function from the database
    (and its arguments) to the new database and an outcome: the returned
    Python tuple, or the exception that escapes the method.  Nothing is
    committed when a method returns early or raises, so the database is
    returned unchanged on those paths.  What the environment supplies, a
    fresh primary key ([uuid4]) or the reading of the clock, is an argument.
    Text is ASCII.  A [float] is a binary64 number, and the arithmetic on
    floats rounds as IEEE 754 does. *)

From Stdlib Require Import ZArith Lia Ascii String Sorted.
From stdpp Require Import base option list gmap strings.

Local Open Scope string_scope.
Local Open Scope Z_scope.

(** ** Python and SQLAlchemy primitives *)

Module Py.

(** The exceptions that can escape the modelled methods. *)
Inductive exn : Type :=
| ValueError
| IndexError
| MultipleResultsFound
| DBAPIError.   (* a constraint of the schema rejects the commit *)

(** What a call produces: a value, or an escaping exception. *)
Inductive outcome (A : Type) : Type :=
| Return (a : A)
| Raise (e : exn).
Arguments Return {A} a.
Arguments Raise {A} e.

#[global] Instance outcome_ret : MRet outcome := fun _ a => Return a.
#[global] Instance outcome_bind : MBind outcome :=
  fun _ _ k m => match m with Return a => k a | Raise e => Raise e end.

(** [Result.scalar_one_or_none()]: [None] on no row, the row when there is
    exactly one, and [MultipleResultsFound] otherwise. *)
Definition scalar_one_or_none {A : Type} (rows : list A) : outcome (option A) :=
  match rows with
  | [] => Return None
  | [r] => Return (Some r)
  | _ :: _ :: _ => Raise MultipleResultsFound
  end.

(** Scalar JSON values, as stored in the cells of a grid.  (Nested arrays
    and objects, which the services never read, are left out.) *)
Inductive json : Type :=
| JNull
| JBool (b : bool)
| JNum (z : Z)
| JStr (s : string).

(** Python truthiness of a scalar. *)
Definition truthy (v : json) : bool :=
  match v with
  | JNull => false
  | JBool b => b
  | JNum z => negb (z =? 0)
  | JStr s => negb (String.eqb s "")
  end.

(** [v == s] for a string [s]. *)
Definition eq_str (v : json) (s : string) : bool :=
  match v with
  | JStr t => String.eqb t s
  | _ => false
  end.

(** [v in l] for a list (or set) of strings. *)
Definition in_strs (v : json) (l : list string) : bool :=
  existsb (eq_str v) l.

(** A cell is a Python dict with string keys. *)
Abbreviation dict := (gmap string json).

(** [d.get(k)] *)
Definition get (d : dict) (k : string) : json :=
  match d !! k with
  | Some v => v
  | None => JNull
  end.

(** [d.get(k, default)] *)
Definition get_default (d : dict) (k : string) (default : json) : json :=
  match d !! k with
  | Some v => v
  | None => default
  end.

(** [l[i]] for a Python int [i]: negative indices count from the end,
    anything outside [-len, len) raises [IndexError]. *)
Definition index {A : Type} (l : list A) (i : Z) : outcome A :=
  let n := Z.of_nat (length l) in
  let j := if i <? 0 then i + n else i in
  if (j <? 0) || (n <=? j) then Raise IndexError
  else match l !! Z.to_nat j with
       | Some x => Return x
       | None => Raise IndexError
       end.

Definition is_ascii_digit (c : ascii) : bool :=
  let n := nat_of_ascii c in ((48 <=? n) && (n <=? 57))%nat.

Definition digit_val (c : ascii) : Z := Z.of_nat (nat_of_ascii c) - 48.

Fixpoint all_digits (s : string) : bool :=
  match s with
  | EmptyString => true
  | String c s' => is_ascii_digit c && all_digits s'
  end.

(** [s.isdigit()] on ASCII text: non-empty and only digits. *)
Definition isdigit (s : string) : bool :=
  match s with
  | EmptyString => false
  | _ => all_digits s
  end.

Fixpoint digits_value (acc : Z) (s : string) : Z :=
  match s with
  | EmptyString => acc
  | String c s' => digits_value (10 * acc + digit_val c) s'
  end.

(** [int(s)] on ASCII text: an optional sign followed by one or more
    digits; anything else raises [ValueError].  (Surrounding blanks and
    underscore separators, which [int] also accepts, are left out.) *)
Definition int (s : string) : outcome Z :=
  match s with
  | String "-" s' =>
      if isdigit s' then Return (- digits_value 0 s') else Raise ValueError
  | String "+" s' =>
      if isdigit s' then Return (digits_value 0 s') else Raise ValueError
  | _ =>
      if isdigit s then Return (digits_value 0 s) else Raise ValueError
  end.

(** [str(n)] for a Python int. *)
Fixpoint nat_digits (fuel n : nat) (acc : string) : string :=
  match fuel with
  | O => acc
  | S fuel' =>
      let acc' := String (ascii_of_nat (48 + n mod 10)) acc in
      if (n <? 10)%nat then acc' else nat_digits fuel' (n / 10) acc'
  end.

Definition str_of_Z (z : Z) : string :=
  let n := Z.to_nat (Z.abs z) in
  let body := nat_digits (S n) n "" in
  if z <? 0 then String "-" body else body.

(** Whitespace in the sense of [str.strip] and of the regular-expression
    class [\s], on ASCII text. *)
Definition is_space (c : ascii) : bool :=
  let n := nat_of_ascii c in
  (((9 <=? n) && (n <=? 13)) || ((28 <=? n) && (n <=? 32)))%nat.

Fixpoint lstrip (s : string) : string :=
  match s with
  | String c s' => if is_space c then lstrip s' else s
  | EmptyString => EmptyString
  end.

Fixpoint rstrip (s : string) : string :=
  match s with
  | EmptyString => EmptyString
  | String c s' =>
      match rstrip s' with
      | EmptyString => if is_space c then EmptyString else String c EmptyString
      | t => String c t
      end
  end.

(** [s.strip()] *)
Definition strip (s : string) : string := rstrip (lstrip s).

(** [s.isascii()] *)
Fixpoint isascii (s : string) : bool :=
  match s with
  | EmptyString => true
  | String c s' => (nat_of_ascii c <? 128)%nat && isascii s'
  end.

(** [sys.get_int_max_str_digits()]: [int(s)] raises [ValueError] on a longer
    numeral.  The model of [int] has no such limit. *)
Definition MAX_STR_DIGITS : nat := 4300.

(** *** Floats

    A finite [float] is an IEEE 754 binary64 number: an integer multiple of
    2^-1074 whose significand has at most 53 bits.  It is represented by
    that multiple, an integer.  The operations round to the nearest float,
    ties to even.  (Infinities, NaN and the overflow of a quotient beyond
    2^1024 are left out: the quotients taken here are of an int of less
    than 2^63 by a positive int.) *)
Abbreviation float := Z (only parsing).

Definition float_unit : Z := 2 ^ 1074.

(** The integer nearest to [n / d], ties to the even one, for [0 < d]. *)
Definition round_half_even (n d : Z) : Z :=
  let q := n / d in
  let r := n mod d in
  if 2 * r <? d then q
  else if d <? 2 * r then q + 1
  else if Z.even q then q else q + 1.

(** The float nearest to [n / d] units of 2^-1074, for [0 ≤ n] and [0 < d]:
    below 2^53 units every integer is a float; above, the quotient keeps its
    53 leading bits. *)
Definition nearest_float (n d : Z) : float :=
  let s := Z.max 0 (Z.log2 (n / d) - 52) in
  round_half_even n (d * 2 ^ s) * 2 ^ s.

(** [a / b] for two ints, [0 < b]: the float nearest to the quotient. *)
Definition int_truediv (a b : Z) : float :=
  Z.sgn a * nearest_float (Z.abs a * float_unit) b.

(** [x / b] for a float [x] and an int [0 < b] that is itself a float. *)
Definition float_div_int (x : float) (b : Z) : float :=
  Z.sgn x * nearest_float (Z.abs x) b.

(** [int(x)]: the float truncated towards zero. *)
Definition int_of_float (x : float) : Z := Z.quot x float_unit.

End Py.

Import Py.

(** ** Enumerations

    [UserRole], [CellType], [ParkingType] and [BookingStatus] are those of
    [unified-office-management/app/models/enums.py]. *)

Inductive UserRole := SUPER_ADMIN | ADMIN | MANAGER | TEAM_LEAD | EMPLOYEE.

(** Modelled from the spec: the module [app/models/enums.py] that declares
    [ManagerType] is missing; its members are those that the services, the
    endpoints and the test users name (section 4.4 of the specification
    names the three domain managers). *)
Inductive ManagerType :=
| MT_PARKING | MT_ATTENDANCE | MT_DESK_CONFERENCE | MT_CAFETERIA | MT_IT_SUPPORT.

(** Modelled from the spec: [FloorPlanType] is declared in the same missing
    module; section 3 of the specification and the floor-plan model give
    exactly these three. *)
Inductive FloorPlanType := DESK_AREA | CAFETERIA | PARKING.

Inductive CellType :=
| DESK | PARKING_SLOT | CAFETERIA_TABLE | PATH | WALL | WINDOW | ENTRY | EXIT | EMPTY.

Inductive ParkingType := PT_EMPLOYEE | PT_VISITOR.

Inductive BookingStatus := PENDING | CONFIRMED | CANCELLED | COMPLETED.

#[global] Instance UserRole_eq_dec : EqDecision UserRole.
Proof. solve_decision. Defined.
#[global] Instance ManagerType_eq_dec : EqDecision ManagerType.
Proof. solve_decision. Defined.
#[global] Instance FloorPlanType_eq_dec : EqDecision FloorPlanType.
Proof. solve_decision. Defined.
#[global] Instance CellType_eq_dec : EqDecision CellType.
Proof. solve_decision. Defined.
#[global] Instance ParkingType_eq_dec : EqDecision ParkingType.
Proof. solve_decision. Defined.
#[global] Instance BookingStatus_eq_dec : EqDecision BookingStatus.
Proof. solve_decision. Defined.

(** [CellType.X.value] *)
Definition cell_type_value (ct : CellType) : string :=
  match ct with
  | DESK => "desk"
  | PARKING_SLOT => "parking_slot"
  | CAFETERIA_TABLE => "cafeteria_table"
  | PATH => "path"
  | WALL => "wall"
  | WINDOW => "window"
  | ENTRY => "entry"
  | EXIT => "exit"
  | EMPTY => "empty"
  end.

(** [FloorPlanType.X.value] *)
Definition plan_type_value (pt : FloorPlanType) : string :=
  match pt with
  | DESK_AREA => "DESK_AREA"
  | CAFETERIA => "CAFETERIA"
  | PARKING => "PARKING"
  end.

(** ** Rows of the tables *)

(** Primary keys are UUIDs; only their identity matters. *)
Abbreviation UUID := Z (only parsing).

Record User := mkUser {
  user_id : UUID;
  user_role : UserRole;
  user_manager_type : option ManagerType
}.

Abbreviation Cell := (gmap string json) (only parsing).
Abbreviation Grid := (list (list (gmap string json))) (only parsing).

Record FloorPlan := mkFloorPlan {
  fp_id : UUID;
  fp_name : string;
  fp_plan_type : FloorPlanType;
  fp_rows : Z;
  fp_columns : Z;
  fp_description : option string;
  fp_is_active : bool;
  fp_current_version : Z;
  fp_created_by_id : UUID
}.

Record FloorPlanVersion := mkFloorPlanVersion {
  fpv_id : UUID;
  fpv_floor_plan_id : UUID;
  fpv_version : Z;
  fpv_grid_data : Grid;
  fpv_is_active : bool;
  fpv_created_by_id : UUID;
  fpv_change_notes : option string
}.

(** Times and dates are totally ordered scalars: a [time] is its number of
    microseconds after midnight, a [date] a number that grows with the day
    (the examples write 20240601), and a [datetime] its number of
    microseconds since the epoch. *)
Record DeskBooking := mkDeskBooking {
  dbk_id : UUID;
  dbk_floor_plan_id : UUID;
  dbk_floor_plan_version : string;
  dbk_desk_label : string;
  dbk_cell_row : string;
  dbk_cell_column : string;
  dbk_user_id : UUID;
  dbk_booking_date : Z;
  dbk_start_time : Z;
  dbk_end_time : Z;
  dbk_status : BookingStatus;
  dbk_notes : option string
}.

Record CafeteriaTableBooking := mkCafeteriaTableBooking {
  cbk_id : UUID;
  cbk_floor_plan_id : UUID;
  cbk_table_label : string;
  cbk_cell_row : string;
  cbk_cell_column : string;
  cbk_user_id : UUID;
  cbk_booking_date : Z;
  cbk_start_time : Z;
  cbk_end_time : Z;
  cbk_guest_count : string;
  cbk_status : BookingStatus;
  cbk_notes : option string
}.

Record ParkingAllocation := mkParkingAllocation {
  pa_id : UUID;
  pa_floor_plan_id : UUID;
  pa_slot_label : string;
  pa_cell_row : string;
  pa_cell_column : string;
  pa_parking_type : ParkingType;
  pa_user_id : option UUID;
  pa_visitor_name : option string;
  pa_visitor_phone : option string;
  pa_visitor_company : option string;
  pa_vehicle_number : option string;
  pa_entry_time : option Z;
  pa_exit_time : option Z;
  pa_is_active : bool;
  pa_notes : option string
}.

Record ParkingHistory := mkParkingHistory {
  ph_id : UUID;
  ph_allocation_id : UUID;
  ph_floor_plan_id : UUID;
  ph_slot_label : string;
  ph_parking_type : ParkingType;
  ph_user_id : option UUID;
  ph_visitor_name : option string;
  ph_vehicle_number : option string;
  ph_entry_time : Z;
  ph_exit_time : Z;
  ph_duration_minutes : string
}.

(** The database: one list of rows per table. *)
Record DB := mkDB {
  floor_plans : list FloorPlan;
  floor_plan_versions : list FloorPlanVersion;
  desk_bookings : list DeskBooking;
  cafeteria_table_bookings : list CafeteriaTableBooking;
  parking_allocations : list ParkingAllocation;
  parking_history : list ParkingHistory
}.

(** The commit of a changed row: the rows of the table that carry its primary
    key become that row. *)
Definition write_back {R : Type} (key : R → UUID) (b : R) (l : list R) : list R :=
  map (fun r => if decide (key r = key b) then b else r) l.

(** ** Error messages

    The services report a failure as the second component of the returned
    tuple, a message string.  Each message is a constructor here, carrying
    the values the source interpolates into the text. *)

Inductive Msg : Type :=
(* floor_plan_service.py *)
| Grid_must_have_exactly_rows (rows : Z)
| Row_must_have_exactly_columns (row_idx : nat) (columns : Z)
| Cell_missing_cell_type (row_idx col_idx : nat)
| Invalid_cell_type (cell_type : json) (plan_type : string)
                    (row_idx col_idx : nat) (valid_type_values : list string)
| Floor_plan_not_found
| No_permission_to_create (plan_type : string)
| No_permission_to_modify (plan_type : string)
| Floor_plan_name_exists (plan_type : string)
(* desk_service.py, cafeteria_service.py *)
| Booking_not_found
| Cell_coordinates_out_of_bounds
| Cell_is_not_a_desk
| Desk_is_not_active
| Cell_is_not_a_cafeteria_table
| Time_slot_overlaps
| Cannot_modify_another_users_booking
| Cannot_cancel_another_users_booking
(* parking_service.py *)
| Cell_row_and_column_must_be_numeric
| Floor_plan_is_not_a_parking_layout
| Floor_plan_version_not_found
| Cell_is_not_a_parking_slot
| Parking_slot_is_already_occupied
| User_ID_required
| User_already_has_active_parking
| Only_Security_Admin_can_allocate_visitor_parking
| Visitor_name_required
| Allocation_not_found
| Entry_already_recorded
| Only_Security_Admin_can_record_visitor_exits
| No_entry_recorded
| Exit_already_recorded
| Only_Security_Admin_can_assign_visitor_parking
| Visitor_name_minimum_2_characters
| Invalid_phone_number_format
| No_parking_floor_plans_available
| Invalid_parking_floor_plan
| Requested_slot_is_not_available
| Slot_not_found_in_floor_plan_grid
| No_parking_slots_available.

(** The error kinds of the specification (section 7).  The services do not
    carry a kind; [kind_of] files each message under the kind the
    specification's taxonomy gives for its condition. *)
Inductive ErrorKind :=
| ValidationError | NotFoundError | ConflictError | AuthorizationError | InvalidStateError.

Definition kind_of (m : Msg) : ErrorKind :=
  match m with
  | Grid_must_have_exactly_rows _ | Row_must_have_exactly_columns _ _
  | Cell_missing_cell_type _ _ | Invalid_cell_type _ _ _ _ _
  | Cell_coordinates_out_of_bounds | Cell_is_not_a_desk | Desk_is_not_active
  | Cell_is_not_a_cafeteria_table | Cell_row_and_column_must_be_numeric
  | Floor_plan_is_not_a_parking_layout | Cell_is_not_a_parking_slot
  | User_ID_required | Visitor_name_required
  | Visitor_name_minimum_2_characters | Invalid_phone_number_format
  | Invalid_parking_floor_plan => ValidationError
  | Floor_plan_not_found | Booking_not_found | Floor_plan_version_not_found
  | Allocation_not_found | No_parking_floor_plans_available
  | Slot_not_found_in_floor_plan_grid | No_parking_slots_available => NotFoundError
  | Floor_plan_name_exists _ | Time_slot_overlaps
  | Parking_slot_is_already_occupied | User_already_has_active_parking
  | Requested_slot_is_not_available => ConflictError
  | No_permission_to_create _ | No_permission_to_modify _
  | Cannot_modify_another_users_booking | Cannot_cancel_another_users_booking
  | Only_Security_Admin_can_allocate_visitor_parking
  | Only_Security_Admin_can_record_visitor_exits
  | Only_Security_Admin_can_assign_visitor_parking => AuthorizationError
  | Entry_already_recorded | No_entry_recorded | Exit_already_recorded => InvalidStateError
  end.

(** A service method returns the pair [(value, error)]. *)
Abbreviation Reply A := (outcome (option A * option Msg)) (only parsing).

(** ** [floor_plan_service.py] *)

Module FloorPlanService.

(** [PLAN_TYPE_TO_MANAGER_TYPE] *)
Definition PLAN_TYPE_TO_MANAGER_TYPE : list (FloorPlanType * ManagerType) :=
  [ (DESK_AREA, MT_DESK_CONFERENCE);
    (CAFETERIA, MT_CAFETERIA);
    (PARKING, MT_PARKING) ].

(** [VALID_CELL_TYPES] *)
Definition VALID_CELL_TYPES : list (FloorPlanType * list CellType) :=
  [ (DESK_AREA, [DESK; PATH; WALL; ENTRY; EXIT; EMPTY]);
    (CAFETERIA, [CAFETERIA_TABLE; PATH; WALL; ENTRY; EXIT; EMPTY]);
    (PARKING, [PARKING_SLOT; PATH; WALL; ENTRY; EXIT; EMPTY]) ].

(** [table.get(key)] on a dict literal written as an association list. *)
Fixpoint assoc_get {K V : Type} `{EqDecision K}
    (table : list (K * V)) (key : K) : option V :=
  match table with
  | [] => None
  | (k, v) :: rest => if decide (k = key) then Some v else assoc_get rest key
  end.

Definition can_manage_plan_type (user : User) (plan_type : FloorPlanType) : bool :=
  if decide (user_role user = SUPER_ADMIN) then true
  else if decide (user_role user = ADMIN) then true
  else if negb (bool_decide (user_role user = MANAGER))
          || negb (bool_decide (is_Some (user_manager_type user)))
  then false
  else
    let required_manager_type := assoc_get PLAN_TYPE_TO_MANAGER_TYPE plan_type in
    bool_decide (user_manager_type user = required_manager_type).

Definition get_floor_plan_by_id (db : DB) (floor_plan_id : UUID)
    : outcome (option FloorPlan) :=
  scalar_one_or_none
    (filter (fun fp => fp_id fp = floor_plan_id) (floor_plans db)).

(** [ORDER BY version DESC LIMIT 1]: the row with the greatest version. *)
Definition order_by_version_desc_limit_1 (rows : list FloorPlanVersion)
    : list FloorPlanVersion :=
  match
    fold_left
      (fun best v =>
         match best with
         | None => Some v
         | Some b => if fpv_version b <? fpv_version v then Some v else Some b
         end)
      rows None
  with
  | None => []
  | Some v => [v]
  end.

Definition get_latest_version (db : DB) (floor_plan_id : UUID)
    : outcome (option FloorPlanVersion) :=
  scalar_one_or_none
    (order_by_version_desc_limit_1
       (filter (fun v => fpv_floor_plan_id v = floor_plan_id)
               (floor_plan_versions db))).

Definition get_version (db : DB) (floor_plan_id : UUID) (version : Z)
    : outcome (option FloorPlanVersion) :=
  scalar_one_or_none
    (filter (fun v => fpv_floor_plan_id v = floor_plan_id ∧ fpv_version v = version)
            (floor_plan_versions db)).

(** The inner loop of [validate_grid_data]: the cells of one row, from
    column [col_idx] on.  [Some] is the early [return False, message]. *)
Fixpoint validate_cells (valid_type_values : list string) (plan_type : FloorPlanType)
    (row_idx col_idx : nat) (row : list Cell) : option Msg :=
  match row with
  | [] => None
  | cell :: rest =>
      let cell_type := get cell "cell_type" in
      if negb (truthy cell_type) then
        Some (Cell_missing_cell_type row_idx col_idx)
      else if negb (in_strs cell_type valid_type_values) then
        Some (Invalid_cell_type cell_type (plan_type_value plan_type)
                                row_idx col_idx valid_type_values)
      else validate_cells valid_type_values plan_type row_idx (S col_idx) rest
  end.

(** The outer loop, from row [row_idx] on. *)
Fixpoint validate_rows (valid_type_values : list string) (plan_type : FloorPlanType)
    (columns : Z) (row_idx : nat) (grid_data : Grid) : option Msg :=
  match grid_data with
  | [] => None
  | row :: rest =>
      if negb (Z.of_nat (length row) =? columns) then
        Some (Row_must_have_exactly_columns row_idx columns)
      else
        match validate_cells valid_type_values plan_type row_idx 0 row with
        | Some e => Some e
        | None => validate_rows valid_type_values plan_type columns (S row_idx) rest
        end
  end.

Definition valid_type_values_of (plan_type : FloorPlanType) : list string :=
  let valid_types := default [] (assoc_get VALID_CELL_TYPES plan_type) in
  map cell_type_value valid_types.

Definition validate_grid_data (grid_data : Grid) (rows columns : Z)
    (plan_type : FloorPlanType) : bool * option Msg :=
  if negb (Z.of_nat (length grid_data) =? rows) then
    (false, Some (Grid_must_have_exactly_rows rows))
  else
    let valid_type_values := valid_type_values_of plan_type in
    match validate_rows valid_type_values plan_type columns 0 grid_data with
    | Some e => (false, Some e)
    | None => (true, None)
    end.

Record FloorPlanCreate := mkFloorPlanCreate {
  fpc_name : string;
  fpc_plan_type : FloorPlanType;
  fpc_rows : Z;
  fpc_columns : Z;
  fpc_description : option string;
  fpc_grid_data : Grid
}.

Record FloorPlanVersionCreate := mkFloorPlanVersionCreate {
  fpvc_grid_data : Grid;
  fpvc_change_notes : option string
}.

(** [db.add(version)] followed by the commit: the unique index on
    [(floor_plan_id, version)] rejects a second row with the same pair. *)
Definition version_pair_taken (db : DB) (v : FloorPlanVersion) : bool :=
  existsb
    (fun w => bool_decide (fpv_floor_plan_id w = fpv_floor_plan_id v
                           ∧ fpv_version w = fpv_version v))
    (floor_plan_versions db).

Definition with_floor_plans (db : DB) (fps : list FloorPlan) : DB :=
  mkDB fps (floor_plan_versions db) (desk_bookings db) (cafeteria_table_bookings db)
       (parking_allocations db) (parking_history db).

Definition with_versions (db : DB) (vs : list FloorPlanVersion) : DB :=
  mkDB (floor_plans db) vs (desk_bookings db) (cafeteria_table_bookings db)
       (parking_allocations db) (parking_history db).

(** The fresh primary keys ([uuid4]) are arguments. *)
Definition create_floor_plan (db : DB) (new_id new_version_id : UUID)
    (floor_plan_data : FloorPlanCreate) (created_by : User)
    : DB * Reply FloorPlan :=
  if negb (can_manage_plan_type created_by (fpc_plan_type floor_plan_data)) then
    (db, Return (None, Some (No_permission_to_create
                               (plan_type_value (fpc_plan_type floor_plan_data)))))
  else
    match scalar_one_or_none
            (filter (fun fp => fp_name fp = fpc_name floor_plan_data
                               ∧ fp_plan_type fp = fpc_plan_type floor_plan_data)
                    (floor_plans db)) with
    | Raise e => (db, Raise e)
    | Return (Some _) =>
        (db, Return (None, Some (Floor_plan_name_exists
                                   (plan_type_value (fpc_plan_type floor_plan_data)))))
    | Return None =>
        match validate_grid_data (fpc_grid_data floor_plan_data)
                (fpc_rows floor_plan_data) (fpc_columns floor_plan_data)
                (fpc_plan_type floor_plan_data) with
        | (false, error) => (db, Return (None, error))
        | (true, _) =>
            let floor_plan :=
              mkFloorPlan new_id (fpc_name floor_plan_data)
                (fpc_plan_type floor_plan_data) (fpc_rows floor_plan_data)
                (fpc_columns floor_plan_data) (fpc_description floor_plan_data)
                true 1 (user_id created_by) in
            let version :=
              mkFloorPlanVersion new_version_id new_id 1
                (fpc_grid_data floor_plan_data) true (user_id created_by)
                (Some "Initial version") in
            if version_pair_taken db version then (db, Raise DBAPIError)
            else
              (with_versions
                 (with_floor_plans db (floor_plans db ++ [floor_plan]))
                 (floor_plan_versions db ++ [version]),
               Return (Some floor_plan, None))
        end
    end.

(** [floor_plan.current_version = new_version_num] on the loaded row. *)
Definition set_current_version (floor_plan_id : UUID) (n : Z) (fp : FloorPlan)
    : FloorPlan :=
  if decide (fp_id fp = floor_plan_id) then
    mkFloorPlan (fp_id fp) (fp_name fp) (fp_plan_type fp) (fp_rows fp)
      (fp_columns fp) (fp_description fp) (fp_is_active fp) n
      (fp_created_by_id fp)
  else fp.

Definition create_version (db : DB) (new_version_id : UUID)
    (floor_plan_id : UUID) (version_data : FloorPlanVersionCreate)
    (created_by : User) : DB * Reply FloorPlanVersion :=
  match get_floor_plan_by_id db floor_plan_id with
  | Raise e => (db, Raise e)
  | Return None => (db, Return (None, Some Floor_plan_not_found))
  | Return (Some floor_plan) =>
      if negb (can_manage_plan_type created_by (fp_plan_type floor_plan)) then
        (db, Return (None, Some (No_permission_to_modify
                                   (plan_type_value (fp_plan_type floor_plan)))))
      else
        match validate_grid_data (fpvc_grid_data version_data)
                (fp_rows floor_plan) (fp_columns floor_plan)
                (fp_plan_type floor_plan) with
        | (false, error) => (db, Return (None, error))
        | (true, _) =>
            let new_version_num := fp_current_version floor_plan + 1 in
            let version :=
              mkFloorPlanVersion new_version_id floor_plan_id new_version_num
                (fpvc_grid_data version_data) true (user_id created_by)
                (fpvc_change_notes version_data) in
            if version_pair_taken db version then (db, Raise DBAPIError)
            else
              (with_versions
                 (with_floor_plans db
                    (map (set_current_version floor_plan_id new_version_num)
                         (floor_plans db)))
                 (floor_plan_versions db ++ [version]),
               Return (Some version, None))
        end
  end.

(** [FloorPlanUpdate], as [model_dump(exclude_unset=True)] sees it: a field
    is [None] when the request leaves it out and otherwise carries the value
    sent, which can be null.  [building_name] and [floor_number] are columns
    that no service reads; the rows do not carry them.  (An explicit null
    for [is_active], which the rows keep as a boolean, is left out.) *)
Record FloorPlanUpdate := mkFloorPlanUpdate {
  fpu_name : option (option string);
  fpu_is_active : option bool;
  fpu_description : option (option string);
  fpu_building_name : option (option string);
  fpu_floor_number : option (option string)
}.

(** [for field, value in update_data.items(): setattr(floor_plan, field,
    value)], for a name that is not null. *)
Definition apply_floor_plan_update (floor_plan_data : FloorPlanUpdate)
    (fp : FloorPlan) : FloorPlan :=
  mkFloorPlan (fp_id fp)
    (match fpu_name floor_plan_data with
     | Some (Some name) => name
     | _ => fp_name fp
     end)
    (fp_plan_type fp) (fp_rows fp) (fp_columns fp)
    (default (fp_description fp) (fpu_description floor_plan_data))
    (default (fp_is_active fp) (fpu_is_active floor_plan_data))
    (fp_current_version fp) (fp_created_by_id fp).

(** The commit of a null [name] breaks the NOT NULL constraint of the
    column. *)
Definition update_floor_plan (db : DB) (floor_plan_id : UUID)
    (floor_plan_data : FloorPlanUpdate) (updated_by : User)
    : DB * Reply FloorPlan :=
  match get_floor_plan_by_id db floor_plan_id with
  | Raise e => (db, Raise e)
  | Return None => (db, Return (None, Some Floor_plan_not_found))
  | Return (Some floor_plan) =>
      if negb (can_manage_plan_type updated_by (fp_plan_type floor_plan)) then
        (db, Return (None, Some (No_permission_to_modify
                                   (plan_type_value (fp_plan_type floor_plan)))))
      else if bool_decide (fpu_name floor_plan_data = Some None) then
        (db, Raise DBAPIError)
      else
        let floor_plan' := apply_floor_plan_update floor_plan_data floor_plan in
        (with_floor_plans db (write_back fp_id floor_plan' (floor_plans db)),
         Return (Some floor_plan', None))
  end.

(** [ORDER BY version DESC]: the rows sorted by falling version number.
    Rows with the same number, which the unique index on
    [(floor_plan_id, version)] excludes inside one floor plan, stay in
    storage order. *)
Fixpoint insert_by_version_desc (v : FloorPlanVersion)
    (sorted : list FloorPlanVersion) : list FloorPlanVersion :=
  match sorted with
  | [] => [v]
  | w :: rest =>
      if fpv_version v <? fpv_version w then w :: insert_by_version_desc v rest
      else v :: w :: rest
  end.

Definition order_by_version_desc (rows : list FloorPlanVersion)
    : list FloorPlanVersion :=
  foldr insert_by_version_desc [] rows.

Definition list_versions (db : DB) (floor_plan_id : UUID) : list FloorPlanVersion :=
  order_by_version_desc
    (filter (fun v => fpv_floor_plan_id v = floor_plan_id) (floor_plan_versions db)).

(** [{"row": row_idx, "column": col_idx, **cell}]: the keys of the cell are
    written last, so a cell that has a ["row"] or ["column"] key of its own
    keeps it. *)
Definition cell_with_position (row_idx col_idx : nat) (cell : Cell) : dict :=
  cell ∪ {[ "row" := JNum (Z.of_nat row_idx);
            "column" := JNum (Z.of_nat col_idx) ]}.

(** The inner loop of [get_cells_by_type], from column [col_idx] on. *)
Fixpoint cells_in_row (type_value : string) (row_idx col_idx : nat)
    (row : list Cell) (cells : list dict) : list dict :=
  match row with
  | [] => cells
  | cell :: rest =>
      cells_in_row type_value row_idx (S col_idx) rest
        (if eq_str (get cell "cell_type") type_value
         then cells ++ [cell_with_position row_idx col_idx cell]
         else cells)
  end.

(** The outer loop, from row [row_idx] on. *)
Fixpoint cells_in_grid (type_value : string) (row_idx : nat)
    (grid_data : Grid) (cells : list dict) : list dict :=
  match grid_data with
  | [] => cells
  | row :: rest =>
      cells_in_grid type_value (S row_idx) rest
        (cells_in_row type_value row_idx 0 row cells)
  end.

Definition get_cells_by_type (db : DB) (floor_plan_id : UUID)
    (cell_type : CellType) : outcome (list dict) :=
  version ← get_latest_version db floor_plan_id;
  match version with
  | None => Return []
  | Some version =>
      Return (cells_in_grid (cell_type_value cell_type) 0 (fpv_grid_data version) [])
  end.

(** [{"row": row_idx, "column": col_idx, "label": cell.get("label"), **cell}] *)
Definition slot_with_position (row_idx col_idx : nat) (cell : Cell) : dict :=
  cell ∪ {[ "row" := JNum (Z.of_nat row_idx);
            "column" := JNum (Z.of_nat col_idx);
            "label" := get cell "label" ]}.

(** The inner loop of [get_available_slots], from column [col_idx] on. *)
Fixpoint slots_in_row (type_value : string) (row_idx col_idx : nat)
    (row : list Cell) (slots : list dict) : list dict :=
  match row with
  | [] => slots
  | cell :: rest =>
      slots_in_row type_value row_idx (S col_idx) rest
        (if eq_str (get cell "cell_type") type_value then
           if truthy (get_default cell "is_active" (JBool true))
              && negb (truthy (get_default cell "is_occupied" (JBool false)))
           then slots ++ [slot_with_position row_idx col_idx cell]
           else slots
         else slots)
  end.

(** The outer loop, from row [row_idx] on. *)
Fixpoint slots_in_grid (type_value : string) (row_idx : nat)
    (grid_data : Grid) (slots : list dict) : list dict :=
  match grid_data with
  | [] => slots
  | row :: rest =>
      slots_in_grid type_value (S row_idx) rest
        (slots_in_row type_value row_idx 0 row slots)
  end.

Definition get_available_slots (db : DB) (floor_plan_id : UUID)
    (slot_type : CellType) : outcome (list dict) :=
  version ← get_latest_version db floor_plan_id;
  match version with
  | None => Return []
  | Some version =>
      Return (slots_in_grid (cell_type_value slot_type) 0 (fpv_grid_data version) [])
  end.

(** [floor_plan.is_active = False] on the loaded row. *)
Definition set_is_active (is_active : bool) (fp : FloorPlan) : FloorPlan :=
  mkFloorPlan (fp_id fp) (fp_name fp) (fp_plan_type fp) (fp_rows fp)
    (fp_columns fp) (fp_description fp) is_active (fp_current_version fp)
    (fp_created_by_id fp).

(** Returns [(success, error)], the error as the text the source builds. *)
Definition delete_floor_plan (db : DB) (floor_plan_id : UUID) (deleted_by : User)
    : DB * outcome (bool * option string) :=
  match get_floor_plan_by_id db floor_plan_id with
  | Raise e => (db, Raise e)
  | Return None => (db, Return (false, Some "Floor plan not found"))
  | Return (Some floor_plan) =>
      if negb (can_manage_plan_type deleted_by (fp_plan_type floor_plan)) then
        (db, Return (false,
                     Some ("You don't have permission to delete "
                           +:+ plan_type_value (fp_plan_type floor_plan)
                           +:+ " floor plans")))
      else
        (with_floor_plans db
           (write_back fp_id (set_is_active false floor_plan) (floor_plans db)),
         Return (true, None))
  end.

End FloorPlanService.

(** ** [desk_service.py] *)

Module DeskService.

Definition with_desk_bookings (db : DB) (bs : list DeskBooking) : DB :=
  mkDB (floor_plans db) (floor_plan_versions db) bs (cafeteria_table_bookings db)
       (parking_allocations db) (parking_history db).

Definition get_booking_by_id (db : DB) (booking_id : UUID)
    : outcome (option DeskBooking) :=
  scalar_one_or_none (filter (fun b => dbk_id b = booking_id) (desk_bookings db)).

(** Returns [(valid, error, version)]. *)
Definition validate_desk_cell (db : DB) (floor_plan_id : UUID)
    (cell_row cell_column : string) : outcome (bool * option Msg * option Z) :=
  version ← scalar_one_or_none
              (FloorPlanService.order_by_version_desc_limit_1
                 (filter (fun v => fpv_floor_plan_id v = floor_plan_id)
                         (floor_plan_versions db)));
  match version with
  | None => Return (false, Some Floor_plan_not_found, None)
  | Some version =>
      let grid_data := fpv_grid_data version in
      row_idx ← int cell_row;
      col_idx ← int cell_column;
      (* row_idx >= len(grid_data) or col_idx >= len(grid_data[0]) *)
      out_of_bounds ←
        (if row_idx >=? Z.of_nat (length grid_data) then Return true
         else row0 ← index grid_data 0;
              Return (col_idx >=? Z.of_nat (length row0)));
      if out_of_bounds : bool then
        Return (false, Some Cell_coordinates_out_of_bounds, None)
      else
        row ← index grid_data row_idx;
        cell ← index row col_idx;
        if negb (eq_str (get cell "cell_type") (cell_type_value DESK)) then
          Return (false, Some Cell_is_not_a_desk, None)
        else if negb (truthy (get_default cell "is_active" (JBool true))) then
          Return (false, Some Desk_is_not_active, None)
        else Return (true, None, Some (fpv_version version))
  end.

(** The [WHERE] clause of [check_booking_overlap], without the optional
    exclusion of one booking id. *)
Definition overlap_where (floor_plan_id : UUID) (desk_label : string)
    (booking_date start_time end_time : Z) (b : DeskBooking) : bool :=
  bool_decide (dbk_floor_plan_id b = floor_plan_id)
  && bool_decide (dbk_desk_label b = desk_label)
  && bool_decide (dbk_booking_date b = booking_date)
  && bool_decide (dbk_status b ∈ [PENDING; CONFIRMED])
  && (((dbk_start_time b <=? start_time) && (dbk_end_time b >? start_time))
      || ((dbk_start_time b <? end_time) && (dbk_end_time b >=? end_time))
      || ((dbk_start_time b >=? start_time) && (dbk_end_time b <=? end_time))).

Definition overlap_query (db : DB) (floor_plan_id : UUID) (desk_label : string)
    (booking_date start_time end_time : Z) (exclude_booking_id : option UUID)
    : list DeskBooking :=
  let query :=
    filter (fun b => overlap_where floor_plan_id desk_label booking_date
                                   start_time end_time b = true)
           (desk_bookings db) in
  match exclude_booking_id with
  | Some x => filter (fun b => dbk_id b ≠ x) query
  | None => query
  end.

Definition check_booking_overlap (db : DB) (floor_plan_id : UUID)
    (desk_label : string) (booking_date start_time end_time : Z)
    (exclude_booking_id : option UUID) : outcome bool :=
  r ← scalar_one_or_none
        (overlap_query db floor_plan_id desk_label booking_date
                       start_time end_time exclude_booking_id);
  Return (bool_decide (is_Some r)).

Record DeskBookingCreate := mkDeskBookingCreate {
  dbc_floor_plan_id : UUID;
  dbc_desk_label : string;
  dbc_cell_row : string;
  dbc_cell_column : string;
  dbc_booking_date : Z;
  dbc_start_time : Z;
  dbc_end_time : Z;
  dbc_notes : option string
}.

(** Every field is optional; [None] is a field the request leaves out. *)
Record DeskBookingUpdate := mkDeskBookingUpdate {
  dbu_start_time : option Z;
  dbu_end_time : option Z;
  dbu_status : option BookingStatus;
  dbu_notes : option string
}.

Definition create_booking (db : DB) (new_id : UUID)
    (booking_data : DeskBookingCreate) (user : User) : DB * Reply DeskBooking :=
  match validate_desk_cell db (dbc_floor_plan_id booking_data)
          (dbc_cell_row booking_data) (dbc_cell_column booking_data) with
  | Raise e => (db, Raise e)
  | Return (valid, error, version) =>
      if negb valid then (db, Return (None, error))
      else
        match check_booking_overlap db (dbc_floor_plan_id booking_data)
                (dbc_desk_label booking_data) (dbc_booking_date booking_data)
                (dbc_start_time booking_data) (dbc_end_time booking_data) None with
        | Raise e => (db, Raise e)
        | Return true => (db, Return (None, Some Time_slot_overlaps))
        | Return false =>
            let booking :=
              mkDeskBooking new_id (dbc_floor_plan_id booking_data)
                (str_of_Z (default 0 version)) (dbc_desk_label booking_data)
                (dbc_cell_row booking_data) (dbc_cell_column booking_data)
                (user_id user) (dbc_booking_date booking_data)
                (dbc_start_time booking_data) (dbc_end_time booking_data)
                CONFIRMED (dbc_notes booking_data) in
            (with_desk_bookings db (desk_bookings db ++ [booking]),
             Return (Some booking, None))
        end
  end.

(** [setattr(booking, field, value)] for every field the request sets. *)
Definition apply_update (u : DeskBookingUpdate) (b : DeskBooking) : DeskBooking :=
  mkDeskBooking (dbk_id b) (dbk_floor_plan_id b) (dbk_floor_plan_version b)
    (dbk_desk_label b) (dbk_cell_row b) (dbk_cell_column b) (dbk_user_id b)
    (dbk_booking_date b)
    (default (dbk_start_time b) (dbu_start_time u))
    (default (dbk_end_time b) (dbu_end_time u))
    (default (dbk_status b) (dbu_status u))
    (match dbu_notes u with Some n => Some n | None => dbk_notes b end).

Definition set_status (st : BookingStatus) (b : DeskBooking) : DeskBooking :=
  mkDeskBooking (dbk_id b) (dbk_floor_plan_id b) (dbk_floor_plan_version b)
    (dbk_desk_label b) (dbk_cell_row b) (dbk_cell_column b) (dbk_user_id b)
    (dbk_booking_date b) (dbk_start_time b) (dbk_end_time b) st (dbk_notes b).

(** The commit writes the changed row back. *)
Definition store (db : DB) (b : DeskBooking) : DB :=
  with_desk_bookings db (write_back dbk_id b (desk_bookings db)).

Definition update_booking (db : DB) (booking_id : UUID)
    (booking_data : DeskBookingUpdate) (user : User) : DB * Reply DeskBooking :=
  match get_booking_by_id db booking_id with
  | Raise e => (db, Raise e)
  | Return None => (db, Return (None, Some Booking_not_found))
  | Return (Some booking) =>
      if bool_decide (dbk_user_id booking ≠ user_id user)
         && bool_decide (user_role user ∉ [SUPER_ADMIN; ADMIN]) then
        (db, Return (None, Some Cannot_modify_another_users_booking))
      else
        let has_overlap :=
          if bool_decide (is_Some (dbu_start_time booking_data))
             || bool_decide (is_Some (dbu_end_time booking_data))
          then
            let start := default (dbk_start_time booking) (dbu_start_time booking_data) in
            let end_ := default (dbk_end_time booking) (dbu_end_time booking_data) in
            check_booking_overlap db (dbk_floor_plan_id booking)
              (dbk_desk_label booking) (dbk_booking_date booking)
              start end_ (Some booking_id)
          else Return false in
        match has_overlap with
        | Raise e => (db, Raise e)
        | Return true => (db, Return (None, Some Time_slot_overlaps))
        | Return false =>
            let booking' := apply_update booking_data booking in
            (store db booking', Return (Some booking', None))
        end
  end.

(** Returns [(success, error)]. *)
Definition cancel_booking (db : DB) (booking_id : UUID) (user : User)
    : DB * outcome (bool * option Msg) :=
  match get_booking_by_id db booking_id with
  | Raise e => (db, Raise e)
  | Return None => (db, Return (false, Some Booking_not_found))
  | Return (Some booking) =>
      if bool_decide (dbk_user_id booking ≠ user_id user)
         && bool_decide (user_role user ∉ [SUPER_ADMIN; ADMIN]) then
        (db, Return (false, Some Cannot_cancel_another_users_booking))
      else
        (store db (set_status CANCELLED booking), Return (true, None))
  end.

(** The [WHERE] clause of the query for the booked desks in
    [get_available_desks]. *)
Definition booked_where (floor_plan_id : UUID)
    (booking_date start_time end_time : Z) (b : DeskBooking) : bool :=
  bool_decide (dbk_floor_plan_id b = floor_plan_id)
  && bool_decide (dbk_booking_date b = booking_date)
  && bool_decide (dbk_status b ∈ [PENDING; CONFIRMED])
  && (((dbk_start_time b <=? start_time) && (dbk_end_time b >? start_time))
      || ((dbk_start_time b <? end_time) && (dbk_end_time b >=? end_time))
      || ((dbk_start_time b >=? start_time) && (dbk_end_time b <=? end_time))).

(** [booked_desks]: the labels of the rows the query returns. *)
Definition booked_desks_of (db : DB) (floor_plan_id : UUID)
    (booking_date start_time end_time : Z) : list string :=
  map dbk_desk_label
      (filter (fun b => booked_where floor_plan_id booking_date
                                     start_time end_time b = true)
              (desk_bookings db)).

(** The dict appended to [available]. *)
Record DeskInfo := mkDeskInfo {
  di_row : nat;
  di_column : nat;
  di_label : json;
  di_direction : json
}.

Definition default_desk_label (row_idx col_idx : nat) : string :=
  "Desk-" +:+ str_of_Z (Z.of_nat row_idx) +:+ "-" +:+ str_of_Z (Z.of_nat col_idx).

(** One step of the inner loop body of [get_available_desks]. *)
Definition visit_desk (booked_desks : list string) (row_idx col_idx : nat)
    (cell : Cell) (available : list DeskInfo) : list DeskInfo :=
  if eq_str (get cell "cell_type") (cell_type_value DESK) then
    if truthy (get_default cell "is_active" (JBool true)) then
      let label := get_default cell "label" (JStr (default_desk_label row_idx col_idx)) in
      if negb (in_strs label booked_desks) then
        available ++ [mkDeskInfo row_idx col_idx label (get cell "direction")]
      else available
    else available
  else available.

(** [for col_idx, cell in enumerate(row)], from column [col_idx] on. *)
Fixpoint scan_desk_row (booked_desks : list string) (row_idx col_idx : nat)
    (row : list Cell) (available : list DeskInfo) : list DeskInfo :=
  match row with
  | [] => available
  | cell :: rest =>
      scan_desk_row booked_desks row_idx (S col_idx) rest
                    (visit_desk booked_desks row_idx col_idx cell available)
  end.

(** [for row_idx, row in enumerate(version.grid_data)], from row [row_idx] on. *)
Fixpoint scan_desk_grid (booked_desks : list string) (row_idx : nat)
    (grid_data : Grid) (available : list DeskInfo) : list DeskInfo :=
  match grid_data with
  | [] => available
  | row :: rest =>
      scan_desk_grid booked_desks (S row_idx) rest
                     (scan_desk_row booked_desks row_idx 0 row available)
  end.

Definition get_available_desks (db : DB) (floor_plan_id : UUID)
    (booking_date start_time end_time : Z) : outcome (list DeskInfo) :=
  version ← scalar_one_or_none
              (FloorPlanService.order_by_version_desc_limit_1
                 (filter (fun v => fpv_floor_plan_id v = floor_plan_id)
                         (floor_plan_versions db)));
  match version with
  | None => Return []
  | Some version =>
      let booked_desks :=
        booked_desks_of db floor_plan_id booking_date start_time end_time in
      Return (scan_desk_grid booked_desks 0 (fpv_grid_data version) [])
  end.

End DeskService.

(** ** [cafeteria_service.py] *)

Module CafeteriaService.

Definition with_table_bookings (db : DB) (bs : list CafeteriaTableBooking) : DB :=
  mkDB (floor_plans db) (floor_plan_versions db) (desk_bookings db) bs
       (parking_allocations db) (parking_history db).

Definition get_booking_by_id (db : DB) (booking_id : UUID)
    : outcome (option CafeteriaTableBooking) :=
  scalar_one_or_none (filter (fun b => cbk_id b = booking_id) (cafeteria_table_bookings db)).

(** Returns [(valid, error)]. *)
Definition validate_table_cell (db : DB) (floor_plan_id : UUID)
    (cell_row cell_column : string) : outcome (bool * option Msg) :=
  version ← scalar_one_or_none
              (FloorPlanService.order_by_version_desc_limit_1
                 (filter (fun v => fpv_floor_plan_id v = floor_plan_id)
                         (floor_plan_versions db)));
  match version with
  | None => Return (false, Some Floor_plan_not_found)
  | Some version =>
      let grid_data := fpv_grid_data version in
      row_idx ← int cell_row;
      col_idx ← int cell_column;
      out_of_bounds ←
        (if row_idx >=? Z.of_nat (length grid_data) then Return true
         else row0 ← index grid_data 0;
              Return (col_idx >=? Z.of_nat (length row0)));
      if out_of_bounds : bool then
        Return (false, Some Cell_coordinates_out_of_bounds)
      else
        row ← index grid_data row_idx;
        cell ← index row col_idx;
        if negb (eq_str (get cell "cell_type") (cell_type_value CAFETERIA_TABLE)) then
          Return (false, Some Cell_is_not_a_cafeteria_table)
        else Return (true, None)
  end.

(** The [WHERE] clause of [check_booking_overlap], without the optional
    exclusion of one booking id. *)
Definition overlap_where (floor_plan_id : UUID) (table_label : string)
    (booking_date start_time end_time : Z) (b : CafeteriaTableBooking) : bool :=
  bool_decide (cbk_floor_plan_id b = floor_plan_id)
  && bool_decide (cbk_table_label b = table_label)
  && bool_decide (cbk_booking_date b = booking_date)
  && bool_decide (cbk_status b ∈ [PENDING; CONFIRMED])
  && (((cbk_start_time b <=? start_time) && (cbk_end_time b >? start_time))
      || ((cbk_start_time b <? end_time) && (cbk_end_time b >=? end_time))
      || ((cbk_start_time b >=? start_time) && (cbk_end_time b <=? end_time))).

Definition overlap_query (db : DB) (floor_plan_id : UUID) (table_label : string)
    (booking_date start_time end_time : Z) (exclude_booking_id : option UUID)
    : list CafeteriaTableBooking :=
  let query :=
    filter (fun b => overlap_where floor_plan_id table_label booking_date
                                   start_time end_time b = true)
           (cafeteria_table_bookings db) in
  match exclude_booking_id with
  | Some x => filter (fun b => cbk_id b ≠ x) query
  | None => query
  end.

Definition check_booking_overlap (db : DB) (floor_plan_id : UUID)
    (table_label : string) (booking_date start_time end_time : Z)
    (exclude_booking_id : option UUID) : outcome bool :=
  r ← scalar_one_or_none
        (overlap_query db floor_plan_id table_label booking_date
                       start_time end_time exclude_booking_id);
  Return (bool_decide (is_Some r)).

Record CafeteriaBookingCreate := mkCafeteriaBookingCreate {
  cbc_floor_plan_id : UUID;
  cbc_table_label : string;
  cbc_cell_row : string;
  cbc_cell_column : string;
  cbc_booking_date : Z;
  cbc_start_time : Z;
  cbc_end_time : Z;
  cbc_guest_count : string;
  cbc_notes : option string
}.

(** Every field is optional; [None] is a field the request leaves out. *)
Record CafeteriaBookingUpdate := mkCafeteriaBookingUpdate {
  cbu_start_time : option Z;
  cbu_end_time : option Z;
  cbu_guest_count : option string;
  cbu_status : option BookingStatus;
  cbu_notes : option string
}.

Definition create_booking (db : DB) (new_id : UUID)
    (booking_data : CafeteriaBookingCreate) (user : User)
    : DB * Reply CafeteriaTableBooking :=
  match validate_table_cell db (cbc_floor_plan_id booking_data)
          (cbc_cell_row booking_data) (cbc_cell_column booking_data) with
  | Raise e => (db, Raise e)
  | Return (valid, error) =>
      if negb valid then (db, Return (None, error))
      else
        match check_booking_overlap db (cbc_floor_plan_id booking_data)
                (cbc_table_label booking_data) (cbc_booking_date booking_data)
                (cbc_start_time booking_data) (cbc_end_time booking_data) None with
        | Raise e => (db, Raise e)
        | Return true => (db, Return (None, Some Time_slot_overlaps))
        | Return false =>
            let booking :=
              mkCafeteriaTableBooking new_id (cbc_floor_plan_id booking_data)
                (cbc_table_label booking_data)
                (cbc_cell_row booking_data) (cbc_cell_column booking_data)
                (user_id user) (cbc_booking_date booking_data)
                (cbc_start_time booking_data) (cbc_end_time booking_data)
                (cbc_guest_count booking_data)
                CONFIRMED (cbc_notes booking_data) in
            (with_table_bookings db (cafeteria_table_bookings db ++ [booking]),
             Return (Some booking, None))
        end
  end.

(** [setattr(booking, field, value)] for every field the request sets. *)
Definition apply_update (u : CafeteriaBookingUpdate) (b : CafeteriaTableBooking) : CafeteriaTableBooking :=
  mkCafeteriaTableBooking (cbk_id b) (cbk_floor_plan_id b)
    (cbk_table_label b) (cbk_cell_row b) (cbk_cell_column b) (cbk_user_id b)
    (cbk_booking_date b)
    (default (cbk_start_time b) (cbu_start_time u))
    (default (cbk_end_time b) (cbu_end_time u))
    (default (cbk_guest_count b) (cbu_guest_count u))
    (default (cbk_status b) (cbu_status u))
    (match cbu_notes u with Some n => Some n | None => cbk_notes b end).

Definition set_status (st : BookingStatus) (b : CafeteriaTableBooking) : CafeteriaTableBooking :=
  mkCafeteriaTableBooking (cbk_id b) (cbk_floor_plan_id b)
    (cbk_table_label b) (cbk_cell_row b) (cbk_cell_column b) (cbk_user_id b)
    (cbk_booking_date b) (cbk_start_time b) (cbk_end_time b) (cbk_guest_count b)
    st (cbk_notes b).

(** The commit writes the changed row back. *)
Definition store (db : DB) (b : CafeteriaTableBooking) : DB :=
  with_table_bookings db (write_back cbk_id b (cafeteria_table_bookings db)).

Definition update_booking (db : DB) (booking_id : UUID)
    (booking_data : CafeteriaBookingUpdate) (user : User) : DB * Reply CafeteriaTableBooking :=
  match get_booking_by_id db booking_id with
  | Raise e => (db, Raise e)
  | Return None => (db, Return (None, Some Booking_not_found))
  | Return (Some booking) =>
      if bool_decide (cbk_user_id booking ≠ user_id user)
         && bool_decide (user_role user ∉ [SUPER_ADMIN; ADMIN]) then
        (db, Return (None, Some Cannot_modify_another_users_booking))
      else
        let has_overlap :=
          if bool_decide (is_Some (cbu_start_time booking_data))
             || bool_decide (is_Some (cbu_end_time booking_data))
          then
            let start := default (cbk_start_time booking) (cbu_start_time booking_data) in
            let end_ := default (cbk_end_time booking) (cbu_end_time booking_data) in
            check_booking_overlap db (cbk_floor_plan_id booking)
              (cbk_table_label booking) (cbk_booking_date booking)
              start end_ (Some booking_id)
          else Return false in
        match has_overlap with
        | Raise e => (db, Raise e)
        | Return true => (db, Return (None, Some Time_slot_overlaps))
        | Return false =>
            let booking' := apply_update booking_data booking in
            (store db booking', Return (Some booking', None))
        end
  end.

(** Returns [(success, error)]. *)
Definition cancel_booking (db : DB) (booking_id : UUID) (user : User)
    : DB * outcome (bool * option Msg) :=
  match get_booking_by_id db booking_id with
  | Raise e => (db, Raise e)
  | Return None => (db, Return (false, Some Booking_not_found))
  | Return (Some booking) =>
      if bool_decide (cbk_user_id booking ≠ user_id user)
         && bool_decide (user_role user ∉ [SUPER_ADMIN; ADMIN]) then
        (db, Return (false, Some Cannot_cancel_another_users_booking))
      else
        (store db (set_status CANCELLED booking), Return (true, None))
  end.

End CafeteriaService.

(** ** [parking_service.py] *)

Module ParkingService.

Definition with_allocations (db : DB) (allocs : list ParkingAllocation) : DB :=
  mkDB (floor_plans db) (floor_plan_versions db) (desk_bookings db)
       (cafeteria_table_bookings db) allocs (parking_history db).

Definition with_history (db : DB) (h : list ParkingHistory) : DB :=
  mkDB (floor_plans db) (floor_plan_versions db) (desk_bookings db)
       (cafeteria_table_bookings db) (parking_allocations db) h.

Definition can_manage_parking (user : User) : bool :=
  if decide (user_role user = SUPER_ADMIN) then true
  else if decide (user_role user = ADMIN) then true
  else if bool_decide (user_role user = MANAGER)
          && bool_decide (user_manager_type user = Some MT_PARKING) then true
  else false.

Definition get_allocation_by_id (db : DB) (allocation_id : UUID)
    : outcome (option ParkingAllocation) :=
  scalar_one_or_none
    (filter (fun a => pa_id a = allocation_id) (parking_allocations db)).

Definition get_parking_floor_plans (db : DB) : list FloorPlan :=
  filter (fun fp => fp_plan_type fp = PARKING ∧ fp_is_active fp = true)
         (floor_plans db).

(** The query for the latest version, as every method of the service
    repeats it. *)
Definition latest_version (db : DB) (floor_plan_id : UUID)
    : outcome (option FloorPlanVersion) :=
  scalar_one_or_none
    (FloorPlanService.order_by_version_desc_limit_1
       (filter (fun v => fpv_floor_plan_id v = floor_plan_id)
               (floor_plan_versions db))).

(** Returns [(valid, error)]. *)
Definition validate_parking_slot (db : DB) (floor_plan_id : UUID)
    (cell_row cell_column : string) : outcome (bool * option Msg) :=
  if negb (isdigit cell_row) || negb (isdigit cell_column) then
    Return (false, Some Cell_row_and_column_must_be_numeric)
  else
    floor_plan ← scalar_one_or_none
                   (filter (fun fp => fp_id fp = floor_plan_id) (floor_plans db));
    match floor_plan with
    | None => Return (false, Some Floor_plan_not_found)
    | Some floor_plan =>
        if bool_decide (fp_plan_type floor_plan ≠ PARKING) then
          Return (false, Some Floor_plan_is_not_a_parking_layout)
        else
          version ← latest_version db floor_plan_id;
          match version with
          | None => Return (false, Some Floor_plan_version_not_found)
          | Some version =>
              let grid_data := fpv_grid_data version in
              row_idx ← int cell_row;
              col_idx ← int cell_column;
              out_of_bounds ←
                (if row_idx >=? Z.of_nat (length grid_data) then Return true
                 else row0 ← index grid_data 0;
                      Return (col_idx >=? Z.of_nat (length row0)));
              if out_of_bounds : bool then
                Return (false, Some Cell_coordinates_out_of_bounds)
              else
                row ← index grid_data row_idx;
                cell ← index row col_idx;
                if negb (eq_str (get cell "cell_type") (cell_type_value PARKING_SLOT)) then
                  Return (false, Some Cell_is_not_a_parking_slot)
                else Return (true, None)
          end
    end.

(** An allocation that occupies its slot: [is_active = true AND exit_time
    IS NULL]. *)
Definition occupying (a : ParkingAllocation) : Prop :=
  pa_is_active a = true ∧ pa_exit_time a = None.

#[global] Instance occupying_dec a : Decision (occupying a).
Proof. unfold occupying. apply _. Defined.

Definition check_user_active_parking (db : DB) (user_id : UUID)
    : outcome (option ParkingAllocation) :=
  scalar_one_or_none
    (filter (fun a => pa_user_id a = Some user_id ∧ occupying a)
            (parking_allocations db)).

Definition check_slot_availability (db : DB) (floor_plan_id : UUID)
    (slot_label : string) : outcome bool :=
  r ← scalar_one_or_none
        (filter (fun a => pa_floor_plan_id a = floor_plan_id
                          ∧ pa_slot_label a = slot_label ∧ occupying a)
                (parking_allocations db));
  Return (negb (bool_decide (is_Some r))).

(** The dict appended to [available]. *)
Record SlotInfo := mkSlotInfo {
  si_row : nat;
  si_column : nat;
  si_label : json;
  si_direction : json
}.

Definition default_slot_label (row_idx col_idx : nat) : string :=
  "Slot-" +:+ str_of_Z (Z.of_nat row_idx) +:+ "-" +:+ str_of_Z (Z.of_nat col_idx).

(** One step of the inner loop body of [get_available_slots]. *)
Definition visit_cell (occupied_slots : list string) (row_idx col_idx : nat)
    (cell : Cell) (available : list SlotInfo) : list SlotInfo :=
  if eq_str (get cell "cell_type") (cell_type_value PARKING_SLOT) then
    let label := get_default cell "label" (JStr (default_slot_label row_idx col_idx)) in
    if negb (in_strs label occupied_slots) then
      available ++ [mkSlotInfo row_idx col_idx label (get cell "direction")]
    else available
  else available.

(** [for col_idx, cell in enumerate(row)], from column [col_idx] on. *)
Fixpoint scan_row (occupied_slots : list string) (row_idx col_idx : nat)
    (row : list Cell) (available : list SlotInfo) : list SlotInfo :=
  match row with
  | [] => available
  | cell :: rest =>
      scan_row occupied_slots row_idx (S col_idx) rest
               (visit_cell occupied_slots row_idx col_idx cell available)
  end.

(** [for row_idx, row in enumerate(grid_data)], from row [row_idx] on. *)
Fixpoint scan_grid (occupied_slots : list string) (row_idx : nat)
    (grid_data : Grid) (available : list SlotInfo) : list SlotInfo :=
  match grid_data with
  | [] => available
  | row :: rest =>
      scan_grid occupied_slots (S row_idx) rest
                (scan_row occupied_slots row_idx 0 row available)
  end.

Definition occupied_slots_of (db : DB) (floor_plan_id : UUID) : list string :=
  map pa_slot_label
      (filter (fun a => pa_floor_plan_id a = floor_plan_id ∧ occupying a)
              (parking_allocations db)).

Definition get_available_slots (db : DB) (floor_plan_id : UUID)
    : outcome (list SlotInfo) :=
  floor_plan ← scalar_one_or_none
                 (filter (fun fp => fp_id fp = floor_plan_id) (floor_plans db));
  match floor_plan with
  | None => Return []
  | Some floor_plan =>
      if bool_decide (fp_plan_type floor_plan ≠ PARKING) then Return []
      else
        version ← latest_version db floor_plan_id;
        match version with
        | None => Return []
        | Some version =>
            Return (scan_grid (occupied_slots_of db floor_plan_id) 0
                              (fpv_grid_data version) [])
        end
  end.

Record VisitorParkingCreate := mkVisitorParkingCreate {
  vpc_visitor_name : string;
  vpc_visitor_phone : option string;
  vpc_visitor_company : option string;
  vpc_vehicle_number : option string;
  vpc_notes : option string;
  vpc_floor_plan_id : option UUID;
  vpc_slot_label : option string
}.

Fixpoint string_forallb (f : ascii → bool) (s : string) : bool :=
  match s with
  | EmptyString => true
  | String c s' => f c && string_forallb f s'
  end.

Fixpoint last_char (s : string) : option ascii :=
  match s with
  | EmptyString => None
  | String c EmptyString => Some c
  | String _ s' => last_char s'
  end.

(** [re.match(r'^\+?[\d\s-]{10,15}$', phone)] on ASCII text: an optional
    plus sign, then 10 to 15 digits, blanks or dashes up to the end of the
    text or up to a final newline. *)
Definition phone_body (s : string) : bool :=
  let n := String.length s in
  string_forallb (fun c => is_ascii_digit c || is_space c || Ascii.eqb c "-") s
  && (((10 <=? n) && (n <=? 15))%nat
      || ((n =? 16)%nat && bool_decide (last_char s = Some "010"%char))).

Definition match_phone_pattern (phone : string) : bool :=
  match phone with
  | String "+" rest => phone_body rest
  | _ => phone_body phone
  end.

(** The search of the grid for a requested label: the first cell, row by
    row, whose ["label"] equals it. *)
Fixpoint find_label_in_row (slot_label : string) (row_idx col_idx : nat)
    (row : list Cell) : option SlotInfo :=
  match row with
  | [] => None
  | cell :: rest =>
      if eq_str (get cell "label") slot_label then
        Some (mkSlotInfo row_idx col_idx (JStr slot_label) JNull)
      else find_label_in_row slot_label row_idx (S col_idx) rest
  end.

Fixpoint find_label_in_grid (slot_label : string) (row_idx : nat)
    (grid_data : Grid) : option SlotInfo :=
  match grid_data with
  | [] => None
  | row :: rest =>
      match find_label_in_row slot_label row_idx 0 row with
      | Some slot_info => Some slot_info
      | None => find_label_in_grid slot_label (S row_idx) rest
      end
  end.

(** The auto-assignment loop: the first floor plan with an available slot
    gives its first available slot. *)
Fixpoint auto_assign (db : DB) (floor_plans : list FloorPlan)
    : outcome (option (SlotInfo * FloorPlan)) :=
  match floor_plans with
  | [] => Return None
  | fp :: rest =>
      available ← get_available_slots db (fp_id fp);
      match available with
      | first :: _ => Return (Some (first, fp))
      | [] => auto_assign db rest
      end
  end.

(** The branch of [assign_visitor_slot] that serves a requested slot. *)
Definition requested_slot (db : DB) (floor_plan_id : UUID) (slot_label : string)
    : outcome ((SlotInfo * FloorPlan) + Msg) :=
  target_floor_plan ←
    scalar_one_or_none
      (filter (fun fp => fp_id fp = floor_plan_id ∧ fp_plan_type fp = PARKING)
              (floor_plans db));
  match target_floor_plan with
  | None => Return (inr Invalid_parking_floor_plan)
  | Some target_floor_plan =>
      free ← check_slot_availability db floor_plan_id slot_label;
      if negb free then Return (inr Requested_slot_is_not_available)
      else
        version ← latest_version db floor_plan_id;
        let slot_info :=
          match version with
          | Some version => find_label_in_grid slot_label 0 (fpv_grid_data version)
          | None => None
          end in
        match slot_info with
        | None => Return (inr Slot_not_found_in_floor_plan_grid)
        | Some slot_info => Return (inl (slot_info, target_floor_plan))
        end
  end.

(** [now] is the reading of the clock; [new_id] the fresh primary key. *)
Definition assign_visitor_slot (db : DB) (new_id : UUID) (now : Z)
    (visitor_data : VisitorParkingCreate) (assigned_by : User)
    : DB * Reply ParkingAllocation :=
  if negb (can_manage_parking assigned_by) then
    (db, Return (None, Some Only_Security_Admin_can_assign_visitor_parking))
  else if bool_decide (vpc_visitor_name visitor_data = "")
          || (String.length (strip (vpc_visitor_name visitor_data)) <? 2)%nat then
    (db, Return (None, Some Visitor_name_minimum_2_characters))
  else if match vpc_visitor_phone visitor_data with
          | Some phone =>
              negb (bool_decide (phone = "")) && negb (match_phone_pattern phone)
          | None => false
          end then
    (db, Return (None, Some Invalid_phone_number_format))
  else
    let floor_plans := get_parking_floor_plans db in
    match floor_plans with
    | [] => (db, Return (None, Some No_parking_floor_plans_available))
    | _ :: _ =>
        let found : outcome ((SlotInfo * FloorPlan) + Msg) :=
          match vpc_floor_plan_id visitor_data, vpc_slot_label visitor_data with
          | Some floor_plan_id, Some (String c l) =>
              requested_slot db floor_plan_id (String c l)
          | _, _ =>
              r ← auto_assign db floor_plans;
              match r with
              | Some hit => Return (inl hit)
              | None => Return (inr No_parking_slots_available)
              end
          end in
        match found with
        | Raise e => (db, Raise e)
        | Return (inr error) => (db, Return (None, Some error))
        | Return (inl (slot_info, target_floor_plan)) =>
            match si_label slot_info with
            | JStr slot_label =>
                let allocation :=
                  mkParkingAllocation new_id (fp_id target_floor_plan) slot_label
                    (str_of_Z (Z.of_nat (si_row slot_info)))
                    (str_of_Z (Z.of_nat (si_column slot_info)))
                    PT_VISITOR None
                    (Some (strip (vpc_visitor_name visitor_data)))
                    (vpc_visitor_phone visitor_data)
                    (vpc_visitor_company visitor_data)
                    (vpc_vehicle_number visitor_data)
                    (Some now) None true
                    (vpc_notes visitor_data) in
                (with_allocations db (parking_allocations db ++ [allocation]),
                 Return (Some allocation, None))
            | _ => (db, Raise DBAPIError)  (* slot_label is a non-null string column *)
            end
        end
    end.

Record ParkingAllocationCreate := mkParkingAllocationCreate {
  pac_floor_plan_id : UUID;
  pac_slot_label : string;
  pac_cell_row : string;
  pac_cell_column : string;
  pac_parking_type : ParkingType;
  pac_vehicle_number : option string;
  pac_notes : option string;
  pac_user_id : option UUID;
  pac_visitor_name : option string;
  pac_visitor_phone : option string;
  pac_visitor_company : option string
}.

Definition create_allocation (db : DB) (new_id : UUID)
    (allocation_data : ParkingAllocationCreate) (created_by : User)
    : DB * Reply ParkingAllocation :=
  match validate_parking_slot db (pac_floor_plan_id allocation_data)
          (pac_cell_row allocation_data) (pac_cell_column allocation_data) with
  | Raise e => (db, Raise e)
  | Return (false, error) => (db, Return (None, error))
  | Return (true, _) =>
      match check_slot_availability db (pac_floor_plan_id allocation_data)
              (pac_slot_label allocation_data) with
      | Raise e => (db, Raise e)
      | Return false => (db, Return (None, Some Parking_slot_is_already_occupied))
      | Return true =>
          (* For employee parking, check if user already has active parking *)
          match
            (if decide (pac_parking_type allocation_data = PT_EMPLOYEE) then
               match pac_user_id allocation_data with
               | None => Return (Some User_ID_required)
               | Some user_id =>
                   existing ← check_user_active_parking db user_id;
                   if bool_decide (is_Some existing)
                   then Return (Some User_already_has_active_parking)
                   else Return None
               end
             else Return None)
          with
          | Raise e => (db, Raise e)
          | Return (Some error) => (db, Return (None, Some error))
          | Return None =>
              (* For visitor parking, validate visitor info *)
              if bool_decide (pac_parking_type allocation_data = PT_VISITOR)
                 && negb (can_manage_parking created_by) then
                (db, Return (None, Some Only_Security_Admin_can_allocate_visitor_parking))
              else if bool_decide (pac_parking_type allocation_data = PT_VISITOR)
                      && bool_decide (pac_visitor_name allocation_data = None
                                      ∨ pac_visitor_name allocation_data = Some "") then
                (db, Return (None, Some Visitor_name_required))
              else
              let allocation :=
                mkParkingAllocation new_id (pac_floor_plan_id allocation_data)
                  (pac_slot_label allocation_data)
                  (pac_cell_row allocation_data) (pac_cell_column allocation_data)
                  (pac_parking_type allocation_data) (pac_user_id allocation_data)
                  (pac_visitor_name allocation_data)
                  (pac_visitor_phone allocation_data)
                  (pac_visitor_company allocation_data)
                  (pac_vehicle_number allocation_data)
                  None None true (pac_notes allocation_data) in
              (with_allocations db (parking_allocations db ++ [allocation]),
               Return (Some allocation, None))
          end
      end
  end.

(** The commit writes the changed row back. *)
Definition store (db : DB) (a : ParkingAllocation) : DB :=
  with_allocations db (write_back pa_id a (parking_allocations db)).

Definition set_entry_time (t : Z) (a : ParkingAllocation) : ParkingAllocation :=
  mkParkingAllocation (pa_id a) (pa_floor_plan_id a) (pa_slot_label a)
    (pa_cell_row a) (pa_cell_column a) (pa_parking_type a) (pa_user_id a)
    (pa_visitor_name a) (pa_visitor_phone a) (pa_visitor_company a)
    (pa_vehicle_number a) (Some t) (pa_exit_time a) (pa_is_active a) (pa_notes a).

(** [allocation.exit_time = exit_time; allocation.is_active = False] *)
Definition set_exit (t : Z) (a : ParkingAllocation) : ParkingAllocation :=
  mkParkingAllocation (pa_id a) (pa_floor_plan_id a) (pa_slot_label a)
    (pa_cell_row a) (pa_cell_column a) (pa_parking_type a) (pa_user_id a)
    (pa_visitor_name a) (pa_visitor_phone a) (pa_visitor_company a)
    (pa_vehicle_number a) (pa_entry_time a) (Some t) false (pa_notes a).

(** [timestamp or datetime.now(timezone.utc)] *)
Definition timestamp_or_now (timestamp : option Z) (now : Z) : Z :=
  default now timestamp.

Definition record_entry (db : DB) (now : Z) (allocation_id : UUID)
    (timestamp : option Z) : DB * Reply ParkingAllocation :=
  match get_allocation_by_id db allocation_id with
  | Raise e => (db, Raise e)
  | Return None => (db, Return (None, Some Allocation_not_found))
  | Return (Some allocation) =>
      if bool_decide (is_Some (pa_entry_time allocation)) then
        (db, Return (None, Some Entry_already_recorded))
      else
        let allocation' := set_entry_time (timestamp_or_now timestamp now) allocation in
        (store db allocation', Return (Some allocation', None))
  end.

Definition MICROSECONDS_PER_MINUTE : Z := 60000000.

(** [duration.total_seconds()]: the microseconds of the [timedelta] over
    10^6, a true division of two ints. *)
Definition total_seconds (duration : Z) : float := int_truediv duration (10 ^ 6).

(** [duration = exit_time - allocation.entry_time;
     duration_minutes = int(duration.total_seconds() / 60)] *)
Definition duration_minutes_of (entry_time exit_time : Z) : Z :=
  let duration := exit_time - entry_time in
  int_of_float (float_div_int (total_seconds duration) 60).

Definition record_exit (db : DB) (new_history_id : UUID) (now : Z)
    (allocation_id : UUID) (recorded_by : User) (timestamp : option Z)
    : DB * Reply ParkingAllocation :=
  match get_allocation_by_id db allocation_id with
  | Raise e => (db, Raise e)
  | Return None => (db, Return (None, Some Allocation_not_found))
  | Return (Some allocation) =>
      if bool_decide (pa_parking_type allocation = PT_VISITOR)
         && negb (can_manage_parking recorded_by) then
        (db, Return (None, Some Only_Security_Admin_can_record_visitor_exits))
      else
        match pa_entry_time allocation with
        | None => (db, Return (None, Some No_entry_recorded))
        | Some entry_time =>
            if bool_decide (is_Some (pa_exit_time allocation)) then
              (db, Return (None, Some Exit_already_recorded))
            else
              let exit_time := timestamp_or_now timestamp now in
              let allocation' := set_exit exit_time allocation in
              let duration_minutes := duration_minutes_of entry_time exit_time in
              let history :=
                mkParkingHistory new_history_id (pa_id allocation)
                  (pa_floor_plan_id allocation) (pa_slot_label allocation)
                  (pa_parking_type allocation) (pa_user_id allocation)
                  (pa_visitor_name allocation) (pa_vehicle_number allocation)
                  entry_time exit_time (str_of_Z duration_minutes) in
              (with_history (store db allocation') (parking_history db ++ [history]),
               Return (Some allocation', None))
        end
  end.

End ParkingService.

(** ** [api/v1/endpoints/floor_plans.py] *)

Module FloorPlansEndpoint.

(** The [detail] of the [HTTPException] that [check_floor_plan_access]
    raises, always with status 403.  The first one names the manager type
    that the plan type requires. *)
Inductive Forbidden : Type :=
| Only_manager_can_manage (required_type : option ManagerType) (plan_type : string)
| Manager_or_Admin_access_required.

(** The dict [type_mapping] of [check_floor_plan_access]. *)
Definition type_mapping : list (FloorPlanType * ManagerType) :=
  [ (DESK_AREA, MT_DESK_CONFERENCE);
    (CAFETERIA, MT_CAFETERIA);
    (PARKING, MT_PARKING) ].

(** [None] is the plain return, [Some] the exception raised. *)
Definition check_floor_plan_access (user : User) (plan_type : FloorPlanType)
    : option Forbidden :=
  if decide (user_role user = SUPER_ADMIN) then None
  else if decide (user_role user = ADMIN) then None
  else if decide (user_role user = MANAGER) then
    let required_type := FloorPlanService.assoc_get type_mapping plan_type in
    if bool_decide (user_manager_type user ≠ required_type) then
      Some (Only_manager_can_manage required_type (plan_type_value plan_type))
    else None
  else Some Manager_or_Admin_access_required.

End FloorPlansEndpoint.

(** ** Reference definitions

    The properties below compare the loops of the services with these
    direct descriptions. *)

Module Reference.

(** The cells of a grid with their coordinates, row by row and, inside a
    row, column by column. *)
Fixpoint cells_from (row_idx col_idx : nat) (row : list Cell)
    : list (nat * nat * Cell) :=
  match row with
  | [] => []
  | cell :: rest => (row_idx, col_idx, cell) :: cells_from row_idx (S col_idx) rest
  end.

Fixpoint rows_from (row_idx : nat) (grid : Grid) : list (nat * nat * Cell) :=
  match grid with
  | [] => []
  | row :: rest => cells_from row_idx 0 row ++ rows_from (S row_idx) rest
  end.

Definition row_major (grid : Grid) : list (nat * nat * Cell) := rows_from 0 grid.

(** *** Grid validation *)

(** What is wrong with one cell, if anything: its [cell_type] is missing or
    empty, or it is not allowed for the plan type. *)
Definition cell_violation (valid : list string) (plan_type : FloorPlanType)
    (pos : nat * nat * Cell) : option Msg :=
  let '(row_idx, col_idx, cell) := pos in
  let cell_type := get cell "cell_type" in
  if negb (truthy cell_type) then Some (Cell_missing_cell_type row_idx col_idx)
  else if negb (in_strs cell_type valid) then
    Some (Invalid_cell_type cell_type (plan_type_value plan_type)
                            row_idx col_idx valid)
  else None.

(** The violations of one row in scan order: its length first, then its
    cells from left to right. *)
Definition row_violations (valid : list string) (plan_type : FloorPlanType)
    (columns : Z) (row_idx : nat) (row : list Cell) : list Msg :=
  (if decide (Z.of_nat (length row) = columns) then []
   else [Row_must_have_exactly_columns row_idx columns])
  ++ omap (cell_violation valid plan_type) (cells_from row_idx 0 row).

Fixpoint rows_violations (valid : list string) (plan_type : FloorPlanType)
    (columns : Z) (row_idx : nat) (grid : Grid) : list Msg :=
  match grid with
  | [] => []
  | row :: rest =>
      row_violations valid plan_type columns row_idx row
      ++ rows_violations valid plan_type columns (S row_idx) rest
  end.

(** Every violation of a grid in scan order: the row count, then the rows
    from top to bottom. *)
Definition violations (grid : Grid) (rows columns : Z) (plan_type : FloorPlanType)
    : list Msg :=
  (if decide (Z.of_nat (length grid) = rows) then []
   else [Grid_must_have_exactly_rows rows])
  ++ rows_violations (FloorPlanService.valid_type_values_of plan_type)
                     plan_type columns 0 grid.

(** A cell that passes: a non-empty [cell_type] from the allowed set. *)
Definition cell_ok (plan_type : FloorPlanType) (cell : Cell) : Prop :=
  truthy (get cell "cell_type") = true
  ∧ ∃ ct allowed,
      FloorPlanService.assoc_get FloorPlanService.VALID_CELL_TYPES plan_type
        = Some allowed
      ∧ ct ∈ allowed ∧ get cell "cell_type" = JStr (cell_type_value ct).

(** A grid that passes: exactly [rows] rows of exactly [columns] cells,
    every one of them passing. *)
Definition grid_ok (grid : Grid) (rows columns : Z) (plan_type : FloorPlanType)
    : Prop :=
  Z.of_nat (length grid) = rows
  ∧ Forall (fun row => Z.of_nat (length row) = columns
                       ∧ Forall (cell_ok plan_type) row) grid.

(** *** The access gate *)

(** The fixed table of the specification: the manager domain in charge of
    each floor-plan type. *)
Definition domain_manager (plan_type : FloorPlanType) : ManagerType :=
  match plan_type with
  | DESK_AREA => MT_DESK_CONFERENCE
  | CAFETERIA => MT_CAFETERIA
  | PARKING => MT_PARKING
  end.

(** [canManage] as the specification words it, on the role and the manager
    domain alone. *)
Definition canManage (role : UserRole) (manager_domain : option ManagerType)
    (plan_type : FloorPlanType) : bool :=
  match role with
  | SUPER_ADMIN | ADMIN => true
  | MANAGER => bool_decide (manager_domain = Some (domain_manager plan_type))
  | TEAM_LEAD | EMPLOYEE => false
  end.

(** *** Interval overlap *)

(** The canonical rule: the half-open intervals [[s, e)] and
    [[start, end)] overlap when each starts before the other ends. *)
Definition canonical_overlap (s e start_time end_time : Z) : Prop :=
  s < end_time ∧ start_time < e.

(** A desk booking that blocks the candidate window: same floor plan, desk
    and date, status PENDING or CONFIRMED, not the excluded booking, and an
    interval that overlaps the window by the canonical rule. *)
Definition desk_blocks (floor_plan_id : UUID) (desk_label : string)
    (booking_date start_time end_time : Z) (exclude_booking_id : option UUID)
    (b : DeskBooking) : Prop :=
  dbk_floor_plan_id b = floor_plan_id
  ∧ dbk_desk_label b = desk_label
  ∧ dbk_booking_date b = booking_date
  ∧ (dbk_status b = PENDING ∨ dbk_status b = CONFIRMED)
  ∧ exclude_booking_id ≠ Some (dbk_id b)
  ∧ canonical_overlap (dbk_start_time b) (dbk_end_time b) start_time end_time.

(** The same for a cafeteria table booking. *)
Definition table_blocks (floor_plan_id : UUID) (table_label : string)
    (booking_date start_time end_time : Z) (exclude_booking_id : option UUID)
    (b : CafeteriaTableBooking) : Prop :=
  cbk_floor_plan_id b = floor_plan_id
  ∧ cbk_table_label b = table_label
  ∧ cbk_booking_date b = booking_date
  ∧ (cbk_status b = PENDING ∨ cbk_status b = CONFIRMED)
  ∧ exclude_booking_id ≠ Some (cbk_id b)
  ∧ canonical_overlap (cbk_start_time b) (cbk_end_time b) start_time end_time.

#[global] Instance canonical_overlap_dec s e st en :
  Decision (canonical_overlap s e st en).
Proof. unfold canonical_overlap. apply _. Defined.

#[global] Instance desk_blocks_dec f l d st en x b :
  Decision (desk_blocks f l d st en x b).
Proof. unfold desk_blocks. apply _. Defined.

#[global] Instance table_blocks_dec f l d st en x b :
  Decision (table_blocks f l d st en x b).
Proof. unfold table_blocks. apply _. Defined.

(** *** Parking availability *)

(** The label under which a parking-slot cell is allocated: its ["label"],
    or ["Slot-<row>-<col>"] when the cell has none. *)
Definition slot_label_of (pos : nat * nat * Cell) : json :=
  let '(row_idx, col_idx, cell) := pos in
  get_default cell "label" (JStr (ParkingService.default_slot_label row_idx col_idx)).

(** A free slot: a cell of type PARKING_SLOT whose label is not occupied. *)
Definition free_slot (occupied : list string) (pos : nat * nat * Cell) : bool :=
  eq_str (get pos.2 "cell_type") (cell_type_value PARKING_SLOT)
  && negb (in_strs (slot_label_of pos) occupied).

Definition slot_info_of (pos : nat * nat * Cell) : ParkingService.SlotInfo :=
  ParkingService.mkSlotInfo pos.1.1 pos.1.2 (slot_label_of pos) (get pos.2 "direction").

(** The free slots of a grid, in row-major order. *)
Definition free_slots (occupied : list string) (grid : Grid)
    : list ParkingService.SlotInfo :=
  map slot_info_of (filter (fun pos => free_slot occupied pos = true) (row_major grid)).

(** *** The version store *)

(** The version rows of a floor plan, oldest first, and their numbers. *)
Definition versions_of (db : DB) (floor_plan_id : UUID) : list FloorPlanVersion :=
  filter (fun v => fpv_floor_plan_id v = floor_plan_id) (floor_plan_versions db).

Definition version_numbers (db : DB) (floor_plan_id : UUID) : list Z :=
  map fpv_version (versions_of db floor_plan_id).

(** The floor plan exists once, its counter stands at [n], and its versions
    are numbered 1, 2, ..., [n] in the order of their creation. *)
Definition plan_at (db : DB) (floor_plan_id : UUID) (n : Z) : Prop :=
  1 ≤ n
  ∧ (∃ fp, filter (fun p => fp_id p = floor_plan_id) (floor_plans db) = [fp]
           ∧ fp_current_version fp = n)
  ∧ version_numbers db floor_plan_id = seqZ 1 n.

(** A call of [create_version] with its arguments. *)
Record VersionRequest := mkVersionRequest {
  vr_new_version_id : UUID;
  vr_floor_plan_id : UUID;
  vr_version_data : FloorPlanService.FloorPlanVersionCreate;
  vr_created_by : User
}.

(** The calls made one after the other, with the reply of each. *)
Fixpoint create_versions (db : DB) (requests : list VersionRequest)
    : DB * list (outcome (option FloorPlanVersion * option Msg)) :=
  match requests with
  | [] => (db, [])
  | request :: rest =>
      let '(db1, reply) :=
        FloorPlanService.create_version db (vr_new_version_id request)
          (vr_floor_plan_id request) (vr_version_data request)
          (vr_created_by request) in
      let '(db2, replies) := create_versions db1 rest in
      (db2, reply :: replies)
  end.

(** The versions that the successful calls on one floor plan returned. *)
Definition created_for (floor_plan_id : UUID)
    (replies : list (outcome (option FloorPlanVersion * option Msg)))
    : list FloorPlanVersion :=
  omap (fun reply =>
          match reply with
          | Return (Some v, _) =>
              if decide (fpv_floor_plan_id v = floor_plan_id) then Some v else None
          | _ => None
          end) replies.

(** *** Listings of the floor-plan service *)

(** [v] comes before [w] in a list sorted by falling version number. *)
Definition newer_or_same (v w : FloorPlanVersion) : Prop :=
  fpv_version w ≤ fpv_version v.

(** The first of the rows with the greatest version number, choosing between
    a row and the best of the rows after it. *)
Definition pick_first_newest (v : FloorPlanVersion) (best : option FloorPlanVersion)
    : option FloorPlanVersion :=
  match best with
  | None => Some v
  | Some b => if fpv_version v <? fpv_version b then Some b else Some v
  end.

(** The cells of a grid whose [cell_type] is the given one, with their
    coordinates, in row-major order. *)
Definition typed_cells (type_value : string) (grid : Grid) : list (nat * nat * Cell) :=
  filter (fun pos => eq_str (get pos.2 "cell_type") type_value = true) (row_major grid).

(** The dict that [get_cells_by_type] returns for a cell. *)
Definition cell_entry (pos : nat * nat * Cell) : dict :=
  FloorPlanService.cell_with_position pos.1.1 pos.1.2 pos.2.

(** A listed cell that counts as an available slot: [is_active] is absent
    or truthy, and [is_occupied] is absent or falsy. *)
Definition slot_open (d : dict) : bool :=
  truthy (get_default d "is_active" (JBool true))
  && negb (truthy (get_default d "is_occupied" (JBool false))).

(** The ["label"] key made explicit: a dict without one gets a null label. *)
Definition with_label (d : dict) : dict := d ∪ {[ "label" := get d "label" ]}.

(** *** Desk availability *)

(** The label under which a desk cell is booked: its ["label"], or
    ["Desk-<row>-<col>"] when the cell has none. *)
Definition desk_label_of (pos : nat * nat * Cell) : json :=
  let '(row_idx, col_idx, cell) := pos in
  get_default cell "label" (JStr (DeskService.default_desk_label row_idx col_idx)).

(** A free desk: an active cell of type DESK whose label is not booked. *)
Definition free_desk (booked : list string) (pos : nat * nat * Cell) : bool :=
  eq_str (get pos.2 "cell_type") (cell_type_value DESK)
  && truthy (get_default pos.2 "is_active" (JBool true))
  && negb (in_strs (desk_label_of pos) booked).

Definition desk_info_of (pos : nat * nat * Cell) : DeskService.DeskInfo :=
  DeskService.mkDeskInfo pos.1.1 pos.1.2 (desk_label_of pos) (get pos.2 "direction").

(** The free desks of a grid, in row-major order. *)
Definition free_desks (booked : list string) (grid : Grid)
    : list DeskService.DeskInfo :=
  map desk_info_of (filter (fun pos => free_desk booked pos = true) (row_major grid)).

End Reference.

(** ** Invariants

    What the services keep true of the tables from one call to the next. *)

Module Invariants.
Import Reference ParkingService.

(** *** The floor-plan tables *)

(** The state of the floor-plan tables that the floor-plan service keeps:
    - names are unique inside a plan type,
    - every floor plan exists once, and its versions are numbered from 1 to
      its counter in the order of their creation,
    - every version belongs to a floor plan whose dimensions and type its
      grid passes. *)
Record store_ok (db : DB) : Prop := mk_store_ok {
  names_unique :
    NoDup (map (fun fp => (fp_name fp, fp_plan_type fp)) (floor_plans db));
  counters :
    ∀ fp, fp ∈ floor_plans db → plan_at db (fp_id fp) (fp_current_version fp);
  versions_owned :
    ∀ v, v ∈ floor_plan_versions db →
      ∃ fp, fp ∈ floor_plans db ∧ fp_id fp = fpv_floor_plan_id v
            ∧ grid_ok (fpv_grid_data v) (fp_rows fp) (fp_columns fp) (fp_plan_type fp)
}.

(** The part of [store_ok] that is about the versions. *)
Definition versions_ok (db : DB) : Prop :=
  (∀ fp, fp ∈ floor_plans db → plan_at db (fp_id fp) (fp_current_version fp))
  ∧ (∀ v, v ∈ floor_plan_versions db →
       ∃ fp, fp ∈ floor_plans db ∧ fp_id fp = fpv_floor_plan_id v
             ∧ grid_ok (fpv_grid_data v) (fp_rows fp) (fp_columns fp)
                       (fp_plan_type fp)).

(** A primary key that no floor plan carries yet. *)
Definition fresh_plan_id (db : DB) (new_id : UUID) : Prop :=
  new_id ∉ map fp_id (floor_plans db).

(** *** The desk bookings *)

(** A booking that occupies its desk: PENDING or CONFIRMED. *)
Definition desk_active (b : DeskBooking) : Prop :=
  dbk_status b = PENDING ∨ dbk_status b = CONFIRMED.

(** Two bookings that claim the same desk at the same time. *)
Definition desk_clash (b1 b2 : DeskBooking) : Prop :=
  dbk_floor_plan_id b1 = dbk_floor_plan_id b2
  ∧ dbk_desk_label b1 = dbk_desk_label b2
  ∧ dbk_booking_date b1 = dbk_booking_date b2
  ∧ desk_active b1 ∧ desk_active b2
  ∧ canonical_overlap (dbk_start_time b1) (dbk_end_time b1)
                      (dbk_start_time b2) (dbk_end_time b2).

(** The desk bookings form a schedule: every booking has an id of its own
    and a window that ends after it starts, and no two bookings clash. *)
Record desk_schedule_ok (db : DB) : Prop := mk_desk_schedule_ok {
  desk_ids_unique : NoDup (map dbk_id (desk_bookings db));
  desk_windows :
    Forall (fun b => dbk_start_time b < dbk_end_time b) (desk_bookings db);
  desk_no_clash :
    ∀ b1 b2, b1 ∈ desk_bookings db → b2 ∈ desk_bookings db →
             dbk_id b1 ≠ dbk_id b2 → ¬ desk_clash b1 b2
}.

(** *** The cafeteria table bookings *)

(** A booking that occupies its table: PENDING or CONFIRMED. *)
Definition table_active (b : CafeteriaTableBooking) : Prop :=
  cbk_status b = PENDING ∨ cbk_status b = CONFIRMED.

(** Two bookings that claim the same table at the same time. *)
Definition table_clash (b1 b2 : CafeteriaTableBooking) : Prop :=
  cbk_floor_plan_id b1 = cbk_floor_plan_id b2
  ∧ cbk_table_label b1 = cbk_table_label b2
  ∧ cbk_booking_date b1 = cbk_booking_date b2
  ∧ table_active b1 ∧ table_active b2
  ∧ canonical_overlap (cbk_start_time b1) (cbk_end_time b1)
                      (cbk_start_time b2) (cbk_end_time b2).

(** The table bookings form a schedule: every booking has an id of its own
    and a window that ends after it starts, and no two bookings clash. *)
Record table_schedule_ok (db : DB) : Prop := mk_table_schedule_ok {
  table_ids_unique : NoDup (map cbk_id (cafeteria_table_bookings db));
  table_windows :
    Forall (fun b => cbk_start_time b < cbk_end_time b) (cafeteria_table_bookings db);
  table_no_clash :
    ∀ b1 b2, b1 ∈ cafeteria_table_bookings db → b2 ∈ cafeteria_table_bookings db →
             cbk_id b1 ≠ cbk_id b2 → ¬ table_clash b1 b2
}.

(** *** The parking allocations *)

(** The allocations that occupy one slot of one floor plan. *)
Definition occupants (db : DB) (floor_plan_id : UUID) (slot_label : string)
    : list ParkingAllocation :=
  filter (fun a => pa_floor_plan_id a = floor_plan_id
                   ∧ pa_slot_label a = slot_label ∧ occupying a)
         (parking_allocations db).

(** No slot is occupied twice. *)
Definition slots_exclusive (db : DB) : Prop :=
  ∀ floor_plan_id slot_label,
    (length (occupants db floor_plan_id slot_label) ≤ 1)%nat.

(** An allocation whose entry and exit are both recorded. *)
Definition closed (a : ParkingAllocation) : Prop :=
  is_Some (pa_entry_time a) ∧ is_Some (pa_exit_time a).

(** Every history row records a closed allocation: same slot, same times. *)
Definition history_backed (db : DB) : Prop :=
  ∀ h, h ∈ parking_history db →
    ∃ a, a ∈ parking_allocations db
         ∧ pa_id a = ph_allocation_id h
         ∧ pa_floor_plan_id a = ph_floor_plan_id h
         ∧ pa_slot_label a = ph_slot_label h
         ∧ pa_entry_time a = Some (ph_entry_time h)
         ∧ pa_exit_time a = Some (ph_exit_time h)
         ∧ pa_is_active a = false.

(** A call of one of the methods of the parking service that write. *)
Inductive ParkingCall :=
| Create_allocation (new_id : UUID) (allocation_data : ParkingAllocationCreate)
                    (created_by : User)
| Assign_visitor_slot (new_id : UUID) (now : Z)
                      (visitor_data : VisitorParkingCreate) (assigned_by : User)
| Record_entry (now : Z) (allocation_id : UUID) (timestamp : option Z)
| Record_exit (new_history_id : UUID) (now : Z) (allocation_id : UUID)
              (recorded_by : User) (timestamp : option Z).

(** The database that the call leaves. *)
Definition after (db : DB) (call : ParkingCall) : DB :=
  match call with
  | Create_allocation new_id allocation_data created_by =>
      (create_allocation db new_id allocation_data created_by).1
  | Assign_visitor_slot new_id now visitor_data assigned_by =>
      (assign_visitor_slot db new_id now visitor_data assigned_by).1
  | Record_entry now allocation_id timestamp =>
      (record_entry db now allocation_id timestamp).1
  | Record_exit new_history_id now allocation_id recorded_by timestamp =>
      (record_exit db new_history_id now allocation_id recorded_by timestamp).1
  end.

End Invariants.

(** ** Concrete states used by the examples *)

Module Examples.

Definition cell (cell_type : string) : Cell := {[ "cell_type" := JStr cell_type ]}.

Definition labelled (cell_type label : string) : Cell :=
  <[ "label" := JStr label ]> (cell cell_type).

Definition super_admin : User := mkUser 1 SUPER_ADMIN None.
Definition parking_manager : User := mkUser 2 MANAGER (Some MT_PARKING).
Definition alice : User := mkUser 10 EMPLOYEE None.
Definition bob : User := mkUser 11 EMPLOYEE None.

Definition empty_db : DB := mkDB [] [] [] [] [] [].

(** A two by two desk grid with two offending cells, at (0,1) and (1,0). *)
Definition two_violations : Grid :=
  [ [cell "path"; cell "parking_slot"];
    [cell ""; labelled "desk" "D1"] ].

(** A time of day, in microseconds after midnight. *)
Definition at_ (hours minutes : Z) : Z := (hours * 60 + minutes) * 60000000.

Definition desk_booking (id user : UUID) (start_time end_time : Z)
    (status : BookingStatus) : DeskBooking :=
  mkDeskBooking id 100 "1" "D1" "1" "1" user 20240601 start_time end_time status None.

Definition table_booking (id user : UUID) (start_time end_time : Z)
    (status : BookingStatus) : CafeteriaTableBooking :=
  mkCafeteriaTableBooking id 300 "T1" "1" "1" user 20240601 start_time end_time
    "1" status None.

(** Desk D1 and table T1 are each booked from 9:00 to 10:00 and from 10:00
    to 11:00 on the same day: two adjacent bookings that do not overlap. *)
Definition adjacent_bookings : DB :=
  mkDB [] []
    [ desk_booking 1 10 (at_ 9 0) (at_ 10 0) CONFIRMED;
      desk_booking 2 11 (at_ 10 0) (at_ 11 0) CONFIRMED ]
    [ table_booking 1 10 (at_ 9 0) (at_ 10 0) CONFIRMED;
      table_booking 2 11 (at_ 10 0) (at_ 11 0) CONFIRMED ]
    [] [].

(** Desk D1 and table T1 are booked once, from 9:00 to 10:00. *)
Definition one_booking (status : BookingStatus) : DB :=
  mkDB [] []
    [ desk_booking 1 10 (at_ 9 0) (at_ 10 0) status ]
    [ table_booking 1 10 (at_ 9 0) (at_ 10 0) status ]
    [] [].

(** A three by three parking floor with slots P1 at (1,1) and P2 at (1,2),
    and no allocation yet. *)
Definition parking_grid : Grid :=
  [ [cell "path"; cell "path"; cell "path"];
    [cell "wall"; labelled "parking_slot" "P1"; labelled "parking_slot" "P2"];
    [cell "entry"; cell "path"; cell "exit"] ].

Definition parking_plan : FloorPlan :=
  mkFloorPlan 200 "Basement" PARKING 3 3 None true 1 1.

Definition parking_floor : DB :=
  mkDB [parking_plan]
       [mkFloorPlanVersion 201 200 1 parking_grid true 1 (Some "Initial version")]
       [] [] [] [].

(** A three by three desk floor with desk D1 at (1,1). *)
Definition desk_grid : Grid :=
  [ [cell "path"; cell "path"; cell "path"];
    [cell "wall"; labelled "desk" "D1"; cell "wall"];
    [cell "entry"; cell "path"; cell "exit"] ].

Definition desk_floor : DB :=
  mkDB [mkFloorPlan 100 "Open space" DESK_AREA 3 3 None true 1 1]
       [mkFloorPlanVersion 101 100 1 desk_grid true 1 (Some "Initial version")]
       [] [] [] [].

Definition visitor_request : ParkingService.VisitorParkingCreate :=
  ParkingService.mkVisitorParkingCreate "Grace Hopper" (Some "+1 555-010-9999")
    None None None None None.

(** The creation of the desk floor, and four later layout updates of which
    the second is refused (no permission) and the third is invalid. *)
Definition desk_floor_create : FloorPlanService.FloorPlanCreate :=
  FloorPlanService.mkFloorPlanCreate "Open space" DESK_AREA 3 3 None desk_grid.

Definition layout_updates : list Reference.VersionRequest :=
  [ Reference.mkVersionRequest 102 100
      (FloorPlanService.mkFloorPlanVersionCreate desk_grid (Some "second")) super_admin;
    Reference.mkVersionRequest 103 100
      (FloorPlanService.mkFloorPlanVersionCreate desk_grid None) alice;
    Reference.mkVersionRequest 104 100
      (FloorPlanService.mkFloorPlanVersionCreate parking_grid None) super_admin;
    Reference.mkVersionRequest 105 100
      (FloorPlanService.mkFloorPlanVersionCreate desk_grid (Some "third")) super_admin ].

(** An instant, in microseconds since the epoch: 1 June 2024, 00:00 UTC,
    plus a time of day. *)
Definition on_day (time_of_day : Z) : Z := 1717200000000000 + time_of_day.

Definition employee_request (user : User) (slot_label cell_row cell_column : string)
    : ParkingService.ParkingAllocationCreate :=
  ParkingService.mkParkingAllocationCreate 200 slot_label cell_row cell_column
    PT_EMPLOYEE (Some "KA-01-1234") None (Some (user_id user)) None None None.

(** Alice is parked on P1 since 10:00:30. *)
Definition alice_on_P1 : ParkingAllocation :=
  mkParkingAllocation 500 200 "P1" "1" "1" PT_EMPLOYEE (Some 10) None None None
    (Some "KA-01-1234") (Some (on_day (at_ 10 0 + 30000000))) None true None.

Definition alice_parked : DB :=
  mkDB (floor_plans parking_floor) (floor_plan_versions parking_floor) [] []
       [alice_on_P1] [].

(** A visitor is parked on P2 since 9:00. *)
Definition visitor_on_P2 : ParkingAllocation :=
  mkParkingAllocation 501 200 "P2" "1" "2" PT_VISITOR None (Some "Grace Hopper")
    None None None (Some (on_day (at_ 9 0))) None true None.

Definition visitor_parked : DB :=
  mkDB (floor_plans parking_floor) (floor_plan_versions parking_floor) [] []
       [visitor_on_P2] [].

(** A one-row parking floor whose cells carry flags: P1 is plain, P3 is
    marked occupied, P4 is switched off, and P5 has a ["row"] key of its
    own. *)
Definition flagged (label key : string) (value : json) : Cell :=
  <[ key := value ]> (labelled "parking_slot" label).

Definition flagged_grid : Grid :=
  [ [ labelled "parking_slot" "P1";
      flagged "P3" "is_occupied" (JBool true);
      flagged "P4" "is_active" (JBool false);
      flagged "P5" "row" (JNum 7) ] ].

Definition flagged_floor : DB :=
  mkDB [mkFloorPlan 300 "Yard" PARKING 1 4 None true 1 1]
       [mkFloorPlanVersion 301 300 1 flagged_grid true 1 (Some "Initial version")]
       [] [] [] [].

(** The desk floor with desk D1 booked by Alice from 9:00 to 10:00. *)
Definition desk_booked : DB :=
  mkDB (floor_plans desk_floor) (floor_plan_versions desk_floor)
       [desk_booking 1 10 (at_ 9 0) (at_ 10 0) CONFIRMED] [] [] [].

(** A cafeteria floor with table T1 at (1,1), booked by Alice from 9:00 to
    10:00. *)
Definition table_grid : Grid :=
  [ [cell "path"; cell "path"; cell "path"];
    [cell "wall"; labelled "cafeteria_table" "T1"; cell "wall"];
    [cell "entry"; cell "path"; cell "exit"] ].

Definition table_booked : DB :=
  mkDB [mkFloorPlan 300 "Canteen" CAFETERIA 3 3 None true 1 1]
       [mkFloorPlanVersion 301 300 1 table_grid true 1 (Some "Initial version")]
       [] [table_booking 1 10 (at_ 9 0) (at_ 10 0) CONFIRMED] [] [].

(** The parking floor after a new layout: version 1 had its only slot, P0,
    at (0,0); version 2 is the grid with P1 and P2. *)
Definition first_parking_grid : Grid :=
  [ [labelled "parking_slot" "P0"; cell "path"; cell "path"];
    [cell "wall"; cell "path"; cell "path"];
    [cell "entry"; cell "path"; cell "exit"] ].

Definition relaid_parking_plan : FloorPlan :=
  mkFloorPlan 200 "Basement" PARKING 3 3 None true 2 1.

Definition second_parking_version : FloorPlanVersion :=
  mkFloorPlanVersion 202 200 2 parking_grid true 1 (Some "Two slots").

Definition relaid_parking_floor : DB :=
  mkDB [relaid_parking_plan]
       [mkFloorPlanVersion 201 200 1 first_parking_grid true 1 (Some "Initial version");
        second_parking_version]
       [] [] [] [].

(** A ramp with three slots in a row; Alice holds P1. *)
Definition ramp_grid : Grid :=
  [ [ labelled "parking_slot" "P1"; labelled "parking_slot" "P2";
      labelled "parking_slot" "P3" ] ].

Definition alice_on_ramp : ParkingAllocation :=
  mkParkingAllocation 510 400 "P1" "0" "0" PT_EMPLOYEE (Some 10) None None None
    (Some "KA-01-1234") None None true None.

Definition ramp_parked : DB :=
  mkDB [mkFloorPlan 400 "Ramp" PARKING 1 3 None true 1 1]
       [mkFloorPlanVersion 401 400 1 ramp_grid true 1 (Some "Initial version")]
       [] [] [alice_on_ramp] [].

(** A visitor-type request that carries Alice's user id. *)
Definition visitor_type_request_for_alice : ParkingService.ParkingAllocationCreate :=
  ParkingService.mkParkingAllocationCreate 400 "P2" "0" "1"
    PT_VISITOR (Some "KA-01-1234") None (Some 10) (Some "Alice") None None.

Definition ramp_request (slot_label cell_column : string)
    : ParkingService.ParkingAllocationCreate :=
  ParkingService.mkParkingAllocationCreate 400 slot_label "0" cell_column
    PT_EMPLOYEE (Some "KA-01-1234") None (Some 10) None None None.

(** The visitor of P2 has left at 9:30. *)
Definition visitor_left : DB :=
  mkDB (floor_plans parking_floor) (floor_plan_versions parking_floor) [] []
       [ParkingService.set_exit (on_day (at_ 9 30)) visitor_on_P2] [].

(** Two desk floors, and the request that gives the second one the name of
    the first. *)
Definition two_desk_floors : DB :=
  mkDB [mkFloorPlan 100 "Open space" DESK_AREA 3 3 None true 1 1;
        mkFloorPlan 110 "Annex" DESK_AREA 3 3 None true 1 1]
       [mkFloorPlanVersion 101 100 1 desk_grid true 1 (Some "Initial version");
        mkFloorPlanVersion 111 110 1 desk_grid true 1 (Some "Initial version")]
       [] [] [] [].

Definition rename_to_open_space : FloorPlanService.FloorPlanUpdate :=
  FloorPlanService.mkFloorPlanUpdate (Some (Some "Open space")) None None None None.

End Examples.

(** * Properties *)

Local Open Scope list_scope.

(** ** Facts about the primitives *)

Section Primitives.

Lemma eq_str_true v s : eq_str v s = true ↔ v = JStr s.
Proof.
  destruct v; cbn; try (split; [discriminate | intros; discriminate]).
  rewrite String.eqb_eq. split; [by intros -> | by intros [= ->]].
Qed.

Lemma in_strs_true v l : in_strs v l = true ↔ ∃ s, s ∈ l ∧ v = JStr s.
Proof.
  unfold in_strs. rewrite existsb_exists. split.
  - intros (s & Hin & Heq). exists s.
    split; [by apply list_elem_of_In | by apply eq_str_true].
  - intros (s & Hin & Heq). exists s.
    split; [by apply list_elem_of_In | by apply eq_str_true].
Qed.

Lemma head_app {A} (l1 l2 : list A) :
  head (l1 ++ l2) = match head l1 with Some x => Some x | None => head l2 end.
Proof. by destruct l1. Qed.

Lemma list_filter_iff_Forall {A} (P Q : A → Prop)
    `{!∀ x, Decision (P x), !∀ x, Decision (Q x)} (l : list A) :
  Forall (fun x => P x ↔ Q x) l → filter P l = filter Q l.
Proof.
  induction 1 as [|x l Hx _ IH]; [done|].
  rewrite !filter_cons, IH.
  destruct (decide (P x)), (decide (Q x)); tauto.
Qed.

End Primitives.

(** ** Rows and their primary key *)

Section Rows.
Context {R : Type} (key : R → Z).

Lemma filter_key_write_back (l : list R) (x : Z) (b : R) :
  key b = x →
  filter (fun r => key r = x) (write_back key b l)
  = map (fun _ => b) (filter (fun r => key r = x) l).
Proof.
  intros Hb. unfold write_back. induction l as [|r l IH]; [done|].
  cbn [map]. rewrite !filter_cons, IH.
  destruct (decide (key r = key b)) as [Heq|Hne].
  - rewrite !decide_True by congruence. done.
  - rewrite !decide_False by congruence. done.
Qed.

Lemma filter_other_key_write_back (l : list R) (x : Z) (b : R) :
  key b ≠ x →
  filter (fun r => key r = x) (write_back key b l) = filter (fun r => key r = x) l.
Proof.
  intros Hb. unfold write_back. induction l as [|r l IH]; [done|].
  cbn [map]. rewrite !filter_cons, IH.
  destruct (decide (key r = key b)) as [Heq|Hne]; [|done].
  rewrite !decide_False by congruence. done.
Qed.

Lemma write_back_same (l : list R) (b : R) :
  filter (fun r => key r = key b) l = [b] → write_back key b l = l.
Proof.
  intros Hone. unfold write_back.
  assert (∀ r, r ∈ l → key r = key b → r = b) as Huniq.
  { intros r Hr Hk.
    assert (r ∈ filter (fun r => key r = key b) l) as Hin
      by (apply list_elem_of_filter; done).
    rewrite Hone in Hin. by apply list_elem_of_singleton in Hin. }
  clear Hone. induction l as [|r l IH]; [done|].
  cbn [map]. rewrite IH by (intros; apply Huniq; [by right | done]).
  destruct (decide (key r = key b)) as [Heq|]; [|done].
  by rewrite (Huniq r) by (done || by left).
Qed.

Lemma scalar_one_or_none_Some (rows : list R) (r : R) :
  scalar_one_or_none rows = Return (Some r) ↔ rows = [r].
Proof.
  destruct rows as [|? [|? ?]]; cbn; split; intros H; by simplify_eq.
Qed.

Lemma scalar_one_or_none_None (rows : list R) :
  scalar_one_or_none rows = Return None ↔ rows = [].
Proof.
  destruct rows as [|? [|? ?]]; cbn; split; intros H; by simplify_eq.
Qed.

(** Writing back a row that fails [P], when every row that passes [P]
    carries its key, leaves no row that passes. *)
Lemma filter_write_back_gone (P : R → Prop) `{!∀ r, Decision (P r)}
    (b : R) (l : list R) :
  ¬ P b →
  (∀ r, r ∈ l → P r → key r = key b) →
  filter P (write_back key b l) = [].
Proof.
  intros Hb Hall. unfold write_back. induction l as [|r l IH]; [done|].
  cbn [map]. rewrite filter_cons, IH by (intros; apply Hall; [by right | done]).
  destruct (decide (key r = key b)) as [Heq|Hne].
  - by rewrite decide_False.
  - rewrite decide_False; [done|]. intros HP. apply Hne, Hall; [by left | done].
Qed.

Lemma filter_singleton_elem (P : R → Prop) `{!∀ r, Decision (P r)}
    (b : R) (l : list R) :
  filter P l = [b] → b ∈ l ∧ P b ∧ ∀ r, r ∈ l → P r → r = b.
Proof.
  intros Hone.
  assert (b ∈ filter P l) as Hin by (rewrite Hone; by left).
  apply list_elem_of_filter in Hin as [HP Hin]. split_and!; [done..|].
  intros r Hr HPr.
  assert (r ∈ filter P l) as Hrin by (by apply list_elem_of_filter).
  rewrite Hone in Hrin. by apply list_elem_of_singleton in Hrin.
Qed.

End Rows.


(** ** The access gate *)

Section AccessGate.
Import FloorPlanService Reference.

Lemma domain_manager_table plan_type :
  assoc_get PLAN_TYPE_TO_MANAGER_TYPE plan_type = Some (domain_manager plan_type).
Proof. by destruct plan_type. Qed.

(** The table is one to one. *)
Lemma domain_manager_inj : Inj (=) (=) domain_manager.
Proof. intros [] [] ?; by simplify_eq. Qed.

(** [can_manage_plan_type] is the gate of the specification. *)
Lemma can_manage_plan_type_canManage (user : User) (plan_type : FloorPlanType) :
  can_manage_plan_type user plan_type
  = canManage (user_role user) (user_manager_type user) plan_type.
Proof.
  unfold can_manage_plan_type, canManage.
  rewrite domain_manager_table.
  destruct (user_role user), (user_manager_type user) as [mt|]; reflexivity.
Qed.

(** C8: [can_manage_plan_type] is a function of the role and of the manager
    domain only: true for SUPER_ADMIN and ADMIN whatever the plan type, for
    a MANAGER true exactly when the manager domain is the one the fixed,
    one-to-one table gives for the plan type, and false for every other
    role. *)
Theorem can_manage_plan_type_spec (user : User) (plan_type : FloorPlanType) :
  can_manage_plan_type user plan_type
    = canManage (user_role user) (user_manager_type user) plan_type
  ∧ (user_role user = SUPER_ADMIN ∨ user_role user = ADMIN →
     can_manage_plan_type user plan_type = true)
  ∧ (user_role user = MANAGER →
     (can_manage_plan_type user plan_type = true
      ↔ user_manager_type user = Some (domain_manager plan_type)))
  ∧ (user_role user = TEAM_LEAD ∨ user_role user = EMPLOYEE →
     can_manage_plan_type user plan_type = false)
  ∧ (∀ other, domain_manager other = domain_manager plan_type → other = plan_type).
Proof.
  rewrite can_manage_plan_type_canManage. unfold canManage. split_and!.
  - done.
  - by intros [-> | ->].
  - intros ->. by rewrite bool_decide_eq_true.
  - by intros [-> | ->].
  - intros other. apply domain_manager_inj.
Qed.

(** The parking manager may manage the parking floor plans and no others. *)
Lemma can_manage_plan_type_spec_witness :
  can_manage_plan_type Examples.parking_manager PARKING = true
  ∧ can_manage_plan_type Examples.parking_manager DESK_AREA = false
  ∧ can_manage_plan_type Examples.super_admin CAFETERIA = true
  ∧ can_manage_plan_type Examples.alice PARKING = false.
Proof.
  split_and!.
  - destruct (can_manage_plan_type_spec Examples.parking_manager PARKING)
      as (_ & _ & Hmanager & _).
    by apply (Hmanager eq_refl).
  - destruct (can_manage_plan_type_spec Examples.parking_manager DESK_AREA)
      as (_ & _ & Hmanager & _).
    destruct (can_manage_plan_type Examples.parking_manager DESK_AREA) eqn:Hcan;
      [|reflexivity].
    by destruct (proj1 (Hmanager eq_refl) eq_refl).
  - destruct (can_manage_plan_type_spec Examples.super_admin CAFETERIA)
      as (_ & Hadmin & _).
    apply Hadmin. by left.
  - destruct (can_manage_plan_type_spec Examples.alice PARKING)
      as (_ & _ & _ & Hother & _).
    apply Hother. by right.
Defined.

End AccessGate.

(** ** Grid validation *)

Section GridValidation.
Import FloorPlanService Reference.

Lemma validate_cells_head valid pt r c row :
  validate_cells valid pt r c row
  = head (omap (cell_violation valid pt) (cells_from r c row)).
Proof.
  revert c. induction row as [|cell rest IH]; intros c; [done|].
  cbn [validate_cells cells_from omap list_omap]. unfold cell_violation at 1.
  destruct (negb (truthy (get cell "cell_type"))); [done|].
  destruct (negb (in_strs (get cell "cell_type") valid)); [done|].
  apply IH.
Qed.

Lemma validate_rows_head valid pt columns r grid :
  validate_rows valid pt columns r grid
  = head (rows_violations valid pt columns r grid).
Proof.
  revert r. induction grid as [|row rest IH]; intros r; [done|].
  cbn [validate_rows rows_violations]. unfold row_violations.
  case_decide as Hlen.
  - rewrite (proj2 (Z.eqb_eq _ _) Hlen). cbn [negb app].
    rewrite head_app, validate_cells_head.
    destruct (head _); [done|]. apply IH.
  - rewrite (proj2 (Z.eqb_neq _ _) Hlen). done.
Qed.

Lemma validate_grid_data_head grid rows columns pt :
  validate_grid_data grid rows columns pt
  = match violations grid rows columns pt with
    | [] => (true, None)
    | e :: _ => (false, Some e)
    end.
Proof.
  unfold validate_grid_data, violations.
  case_decide as Hlen.
  - rewrite (proj2 (Z.eqb_eq _ _) Hlen). cbn [negb app].
    rewrite validate_rows_head. by destruct (rows_violations _ _ _ _ _).
  - rewrite (proj2 (Z.eqb_neq _ _) Hlen). done.
Qed.
Lemma cell_type_value_inj : Inj (=) (=) cell_type_value.
Proof. intros [] [] ?; by simplify_eq. Qed.

Lemma cell_violation_none pt r c cell :
  cell_violation (valid_type_values_of pt) pt (r, c, cell) = None ↔ cell_ok pt cell.
Proof.
  unfold cell_violation, cell_ok, valid_type_values_of.
  destruct (truthy (get cell "cell_type")) eqn:Ht; cbn [negb].
  2:{ split; [done | intros [? _]; done]. }
  destruct (in_strs _ _) eqn:Hin; cbn [negb].
  - split; [intros _ | done]. split; [done|].
    apply in_strs_true in Hin as (s & Hs & Heq).
    apply list_elem_of_fmap in Hs as (ct & -> & Hct).
    destruct pt; cbn in Hct |- *; eauto.
  - split; [done|]. intros (_ & ct & allowed & Ha & Hct & Heq).
    rewrite Ha in Hin.
    change (in_strs (get cell "cell_type") (map cell_type_value allowed) = false) in Hin.
    assert (in_strs (get cell "cell_type") (map cell_type_value allowed) = true) as Hyes; [|congruence].
    apply in_strs_true. exists (cell_type_value ct). split; [|done].
    apply list_elem_of_fmap. eauto.
Qed.

Lemma omap_cell_violation_nil pt r c row :
  omap (cell_violation (valid_type_values_of pt) pt) (cells_from r c row) = []
  ↔ Forall (cell_ok pt) row.
Proof.
  revert c. induction row as [|cell rest IH]; intros c; cbn [cells_from omap list_omap].
  - split; [constructor | done].
  - rewrite Forall_cons, <- (IH (S c)), <- (cell_violation_none pt r c cell).
    destruct (cell_violation _ _ _); [split; [done | intros [? _]; done] |].
    split; [by intros -> | by intros [_ ->]].
Qed.

Lemma rows_violations_nil pt columns r grid :
  rows_violations (valid_type_values_of pt) pt columns r grid = []
  ↔ Forall (fun row => Z.of_nat (length row) = columns ∧ Forall (cell_ok pt) row) grid.
Proof.
  revert r. induction grid as [|row rest IH]; intros r; cbn [rows_violations].
  - split; [constructor | done].
  - rewrite Forall_cons, <- (IH (S r)), <- (omap_cell_violation_nil pt r 0 row).
    unfold row_violations. case_decide as Hlen; cbn [app].
    + split.
      * intros [H1 H2]%app_eq_nil. done.
      * intros [[_ ->] ->]. done.
    + split; [done | intros [[? _] _]; done].
Qed.

Lemma violations_nil grid rows columns pt :
  violations grid rows columns pt = [] ↔ grid_ok grid rows columns pt.
Proof.
  unfold violations, grid_ok. rewrite <- rows_violations_nil.
  case_decide as Hlen; cbn [app].
  - split; [by intros -> | by intros [_ ->]].
  - split; [done | intros [? _]; done].
Qed.

Lemma rows_violations_cells valid pt columns r grid :
  Forall (fun row => Z.of_nat (length row) = columns) grid →
  rows_violations valid pt columns r grid
  = omap (cell_violation valid pt) (rows_from r grid).
Proof.
  intros Hall. revert r. induction Hall as [|row rest Hrow _ IH]; intros r; [done|].
  cbn [rows_violations rows_from]. unfold row_violations.
  rewrite decide_True by done. cbn [app].
  by rewrite omap_app, IH.
Qed.

Lemma violations_cells grid rows columns pt :
  Z.of_nat (length grid) = rows →
  Forall (fun row => Z.of_nat (length row) = columns) grid →
  violations grid rows columns pt
  = omap (cell_violation (valid_type_values_of pt) pt) (row_major grid).
Proof.
  intros Hrows Hcols. unfold violations, row_major.
  rewrite decide_True by done. cbn [app]. by apply rows_violations_cells.
Qed.

(* position facts on row_major *)
Lemma cells_from_lookup r c row r' c' cell :
  (r', c', cell) ∈ cells_from r c row ↔ r' = r ∧ (c ≤ c')%nat ∧ row !! (c' - c)%nat = Some cell.
Proof.
  revert c. induction row as [|x rest IH]; intros c; cbn [cells_from].
  - split; [by intros ?%elem_of_nil | by intros (_ & _ & ?)].
  - rewrite elem_of_cons, IH. split.
    + intros [[= -> -> ->] | (-> & Hle & Hl)].
      * split; [done|]. split; [lia|]. by replace (c - c)%nat with 0%nat by lia.
      * split; [done|]. split; [lia|].
        replace (c' - c)%nat with (S (c' - S c)) by lia. done.
    + intros (-> & Hle & Hl). destruct (decide (c' = c)) as [->|Hne].
      * left. replace (c - c)%nat with 0%nat in Hl by lia. by simplify_eq/=.
      * right. split; [done|]. split; [lia|].
        replace (c' - c)%nat with (S (c' - S c)) in Hl by lia. done.
Qed.

Lemma rows_from_lookup r grid r' c' cell :
  (r', c', cell) ∈ rows_from r grid
  ↔ (r ≤ r')%nat ∧ ∃ row, grid !! (r' - r)%nat = Some row ∧ row !! c' = Some cell.
Proof.
  revert r. induction grid as [|row rest IH]; intros r; cbn [rows_from].
  - split; [by intros ?%elem_of_nil | by intros (_ & ? & ? & _)].
  - rewrite elem_of_app, cells_from_lookup, IH. split.
    + intros [(-> & _ & Hl) | (Hle & row' & Hr & Hl)].
      * split; [lia|]. exists row. replace (r - r)%nat with 0%nat by lia.
        split; [done|]. by replace (c' - 0)%nat with c' in Hl by lia.
      * split; [lia|]. exists row'.
        replace (r' - r)%nat with (S (r' - S r)) by lia. done.
    + intros (Hle & row' & Hr & Hl). destruct (decide (r' = r)) as [->|Hne].
      * left. replace (r - r)%nat with 0%nat in Hr by lia. simplify_eq/=.
        split; [done|]. split; [lia|]. by replace (c' - 0)%nat with c' by lia.
      * right. split; [lia|]. exists row'.
        replace (r' - r)%nat with (S (r' - S r)) in Hr by lia. done.
Qed.

Lemma row_major_lookup grid r c cell :
  (r, c, cell) ∈ row_major grid ↔ ∃ row, grid !! r = Some row ∧ row !! c = Some cell.
Proof.
  unfold row_major. rewrite rows_from_lookup.
  replace (r - 0)%nat with r by lia. split; [by intros [_ ?] | intros; split; [lia|done]].
Qed.

(** C4: [validate_grid_data] accepts exactly the grids with [rows] rows of
    [columns] cells whose cells all carry a non-empty, allowed [cell_type];
    on any other grid it returns the first violation in scan order; and when
    the dimensions are right, that is the violation of the first offending
    cell in row-major order, which carries the cell's row and column. *)
Theorem validate_grid_data_first_violation
    (grid : Grid) (rows columns : Z) (plan_type : FloorPlanType) :
  validate_grid_data grid rows columns plan_type
    = match violations grid rows columns plan_type with
      | [] => (true, None)
      | e :: _ => (false, Some e)
      end
  ∧ (grid_ok grid rows columns plan_type
     ↔ validate_grid_data grid rows columns plan_type = (true, None))
  ∧ (Z.of_nat (length grid) = rows →
     Forall (fun row => Z.of_nat (length row) = columns) grid →
     validate_grid_data grid rows columns plan_type
       = match omap (cell_violation (valid_type_values_of plan_type) plan_type)
                    (row_major grid) with
         | [] => (true, None)
         | e :: _ => (false, Some e)
         end).
Proof.
  split; [apply validate_grid_data_head|]. split.
  - rewrite validate_grid_data_head, <- violations_nil.
    destruct (violations grid rows columns plan_type); [done|].
    split; [done | intros [=]].
  - intros Hrows Hcols.
    by rewrite validate_grid_data_head, violations_cells.
Qed.

(** Of the two offending cells of [two_violations], only the one at (0,1),
    the earlier in row-major order, is reported. *)
Lemma validate_grid_data_first_violation_witness :
  validate_grid_data Examples.two_violations 2 2 DESK_AREA
  = (false,
     Some (Invalid_cell_type (JStr "parking_slot") "DESK_AREA" 0 1
             ["desk"; "path"; "wall"; "entry"; "exit"; "empty"])).
Proof.
  destruct (validate_grid_data_first_violation Examples.two_violations 2 2 DESK_AREA)
    as (_ & _ & Hcells).
  rewrite Hcells; [reflexivity | reflexivity | repeat constructor].
Defined.

End GridValidation.

(** ** Interval overlap *)

Section Overlap.
Import Reference.

(** The three disjuncts of the [WHERE] clause say the same as the canonical
    rule, for intervals that are not empty. *)
Lemma three_disjuncts_canonical (s e start_time end_time : Z) :
  s < e → start_time < end_time →
  ((s <=? start_time) && (e >? start_time)
   || (s <? end_time) && (e >=? end_time)
   || (s >=? start_time) && (e <=? end_time)) = true
  ↔ canonical_overlap s e start_time end_time.
Proof.
  intros Hse Hwin. unfold canonical_overlap.
  rewrite !orb_true_iff, !andb_true_iff, Z.gtb_ltb, !Z.geb_leb,
    !Z.leb_le, !Z.ltb_lt.
  lia.
Qed.

End Overlap.

(** ** Desk bookings *)

Section DeskBookings.
Import DeskService Reference.

(** The query of [check_booking_overlap] selects exactly the blocking
    bookings, as long as no interval is empty. *)
Lemma desk_overlap_query db fid label date st en excl :
  st < en →
  Forall (fun b => dbk_start_time b < dbk_end_time b) (desk_bookings db) →
  overlap_query db fid label date st en excl
  = filter (desk_blocks fid label date st en excl) (desk_bookings db).
Proof.
  intros Hwin Hrows. unfold overlap_query.
  assert (∀ b, dbk_start_time b < dbk_end_time b →
            overlap_where fid label date st en b = true
            ↔ desk_blocks fid label date st en None b) as Hwhere.
  { intros b Hb. unfold overlap_where, desk_blocks.
    rewrite !andb_true_iff, !bool_decide_eq_true.
    rewrite (three_disjuncts_canonical _ _ _ _ Hb Hwin).
    rewrite !elem_of_cons, elem_of_nil. intuition congruence. }
  destruct excl as [x|].
  - rewrite list_filter_filter. apply list_filter_iff_Forall.
    eapply Forall_impl; [exact Hrows|]. intros b Hb. cbn beta.
    rewrite (Hwhere b Hb). unfold desk_blocks. intuition congruence.
  - apply list_filter_iff_Forall.
    eapply Forall_impl; [exact Hrows|]. intros b Hb. cbn beta. by apply Hwhere.
Qed.

(** What [check_booking_overlap] does, by the number of blocking bookings:
    [False] for none, [True] for one, an exception for more. *)
Lemma desk_check_booking_overlap_cases db fid label date st en excl :
  st < en →
  Forall (fun b => dbk_start_time b < dbk_end_time b) (desk_bookings db) →
  check_booking_overlap db fid label date st en excl
  = match filter (desk_blocks fid label date st en excl) (desk_bookings db) with
    | [] => Return false
    | [_] => Return true
    | _ :: _ :: _ => Raise MultipleResultsFound
    end.
Proof.
  intros Hwin Hrows. unfold check_booking_overlap.
  rewrite desk_overlap_query by done.
  by destruct (filter _ _) as [|? [|? ?]].
Qed.

(** With at most one blocking booking, the answer is [True] exactly when
    there is one. *)
Lemma desk_check_booking_overlap_iff db fid label date st en excl :
  st < en →
  Forall (fun b => dbk_start_time b < dbk_end_time b) (desk_bookings db) →
  (length (filter (desk_blocks fid label date st en excl) (desk_bookings db)) ≤ 1)%nat →
  (check_booking_overlap db fid label date st en excl = Return true
   ↔ ∃ b, b ∈ desk_bookings db ∧ desk_blocks fid label date st en excl b)
  ∧ (check_booking_overlap db fid label date st en excl = Return false
   ↔ ¬ ∃ b, b ∈ desk_bookings db ∧ desk_blocks fid label date st en excl b).
Proof.
  intros Hwin Hrows Hone. rewrite desk_check_booking_overlap_cases by done.
  destruct (filter _ _) as [|b [|b' rest]] eqn:Hf; [| |cbn in Hone; lia].
  - assert (¬ ∃ b, b ∈ desk_bookings db ∧ desk_blocks fid label date st en excl b) as Hno.
    { intros (b & Hin & Hb).
      assert (b ∈ filter (desk_blocks fid label date st en excl) (desk_bookings db)) as Hbf
        by (by apply list_elem_of_filter).
      rewrite Hf in Hbf. by apply elem_of_nil in Hbf. }
    split; (split; [done || by intros _ | done || by intros ?]).
  - assert (∃ b, b ∈ desk_bookings db ∧ desk_blocks fid label date st en excl b) as Hyes.
    { exists b.
      assert (b ∈ filter (desk_blocks fid label date st en excl) (desk_bookings db)) as Hbf
        by (rewrite Hf; by left).
      apply list_elem_of_filter in Hbf. tauto. }
    split; (split; [done || by intros _ | done || by intros ?]).
Qed.

Lemma desk_store_write_back db b :
  store db b = with_desk_bookings db (write_back dbk_id b (desk_bookings db)).
Proof. done. Qed.

Lemma desk_set_status_same (b : DeskBooking) :
  dbk_status b = CANCELLED → set_status CANCELLED b = b.
Proof. destruct b; cbn; by intros ->. Qed.

(** [cancel_booking] never looks at the status: once the ownership gate is
    passed the booking is written back as CANCELLED. *)
Lemma desk_cancel_any_status
    (db : DB) (booking_id : UUID) (booking : DeskBooking) (user : User) :
  get_booking_by_id db booking_id = Return (Some booking) →
  dbk_user_id booking = user_id user
    ∨ user_role user = ADMIN ∨ user_role user = SUPER_ADMIN →
  let cancelled := set_status CANCELLED booking in
  cancel_booking db booking_id user = (store db cancelled, Return (true, None))
  ∧ get_booking_by_id (store db cancelled) booking_id = Return (Some cancelled)
  ∧ dbk_status cancelled = CANCELLED
  ∧ (dbk_status booking = CANCELLED → store db cancelled = db).
Proof.
  intros Hget Hmay cancelled.
  assert (bool_decide (dbk_user_id booking ≠ user_id user)
          && bool_decide (user_role user ∉ [SUPER_ADMIN; ADMIN]) = false) as Hgate.
  { rewrite andb_false_iff, !bool_decide_eq_false.
    destruct Hmay as [Ho|[Ha|Hs]]; [left; by intros ? | right..].
    - rewrite Ha. intros Hn. apply Hn. set_solver.
    - rewrite Hs. intros Hn. apply Hn. set_solver. }
  apply scalar_one_or_none_Some in Hget as Hrows.
  assert (dbk_id booking = booking_id) as Hid.
  { assert (booking ∈ filter (fun b => dbk_id b = booking_id) (desk_bookings db)) as Hin
      by (rewrite Hrows; by left).
    by apply list_elem_of_filter in Hin as [? _]. }
  split_and!.
  - unfold cancel_booking. rewrite Hget, Hgate. done.
  - unfold get_booking_by_id. rewrite desk_store_write_back.
    cbn [desk_bookings with_desk_bookings].
    rewrite filter_key_write_back by done. by rewrite Hrows.
  - done.
  - intros Hst. unfold cancelled. rewrite desk_set_status_same by done.
    rewrite desk_store_write_back, write_back_same by (by rewrite Hid).
    by destruct db.
Qed.

End DeskBookings.

(** ** Cafeteria table bookings *)

Section TableBookings.
Import CafeteriaService Reference.

(** The query of [check_booking_overlap] selects exactly the blocking
    bookings, as long as no interval is empty. *)
Lemma table_overlap_query db fid label date st en excl :
  st < en →
  Forall (fun b => cbk_start_time b < cbk_end_time b) (cafeteria_table_bookings db) →
  overlap_query db fid label date st en excl
  = filter (table_blocks fid label date st en excl) (cafeteria_table_bookings db).
Proof.
  intros Hwin Hrows. unfold overlap_query.
  assert (∀ b, cbk_start_time b < cbk_end_time b →
            overlap_where fid label date st en b = true
            ↔ table_blocks fid label date st en None b) as Hwhere.
  { intros b Hb. unfold overlap_where, table_blocks.
    rewrite !andb_true_iff, !bool_decide_eq_true.
    rewrite (three_disjuncts_canonical _ _ _ _ Hb Hwin).
    rewrite !elem_of_cons, elem_of_nil. intuition congruence. }
  destruct excl as [x|].
  - rewrite list_filter_filter. apply list_filter_iff_Forall.
    eapply Forall_impl; [exact Hrows|]. intros b Hb. cbn beta.
    rewrite (Hwhere b Hb). unfold table_blocks. intuition congruence.
  - apply list_filter_iff_Forall.
    eapply Forall_impl; [exact Hrows|]. intros b Hb. cbn beta. by apply Hwhere.
Qed.

(** What [check_booking_overlap] does, by the number of blocking bookings:
    [False] for none, [True] for one, an exception for more. *)
Lemma table_check_booking_overlap_cases db fid label date st en excl :
  st < en →
  Forall (fun b => cbk_start_time b < cbk_end_time b) (cafeteria_table_bookings db) →
  check_booking_overlap db fid label date st en excl
  = match filter (table_blocks fid label date st en excl) (cafeteria_table_bookings db) with
    | [] => Return false
    | [_] => Return true
    | _ :: _ :: _ => Raise MultipleResultsFound
    end.
Proof.
  intros Hwin Hrows. unfold check_booking_overlap.
  rewrite table_overlap_query by done.
  by destruct (filter _ _) as [|? [|? ?]].
Qed.

(** With at most one blocking booking, the answer is [True] exactly when
    there is one. *)
Lemma table_check_booking_overlap_iff db fid label date st en excl :
  st < en →
  Forall (fun b => cbk_start_time b < cbk_end_time b) (cafeteria_table_bookings db) →
  (length (filter (table_blocks fid label date st en excl) (cafeteria_table_bookings db)) ≤ 1)%nat →
  (check_booking_overlap db fid label date st en excl = Return true
   ↔ ∃ b, b ∈ cafeteria_table_bookings db ∧ table_blocks fid label date st en excl b)
  ∧ (check_booking_overlap db fid label date st en excl = Return false
   ↔ ¬ ∃ b, b ∈ cafeteria_table_bookings db ∧ table_blocks fid label date st en excl b).
Proof.
  intros Hwin Hrows Hone. rewrite table_check_booking_overlap_cases by done.
  destruct (filter _ _) as [|b [|b' rest]] eqn:Hf; [| |cbn in Hone; lia].
  - assert (¬ ∃ b, b ∈ cafeteria_table_bookings db ∧ table_blocks fid label date st en excl b) as Hno.
    { intros (b & Hin & Hb).
      assert (b ∈ filter (table_blocks fid label date st en excl) (cafeteria_table_bookings db)) as Hbf
        by (by apply list_elem_of_filter).
      rewrite Hf in Hbf. by apply elem_of_nil in Hbf. }
    split; (split; [done || by intros _ | done || by intros ?]).
  - assert (∃ b, b ∈ cafeteria_table_bookings db ∧ table_blocks fid label date st en excl b) as Hyes.
    { exists b.
      assert (b ∈ filter (table_blocks fid label date st en excl) (cafeteria_table_bookings db)) as Hbf
        by (rewrite Hf; by left).
      apply list_elem_of_filter in Hbf. tauto. }
    split; (split; [done || by intros _ | done || by intros ?]).
Qed.

Lemma table_store_write_back db b :
  store db b = with_table_bookings db (write_back cbk_id b (cafeteria_table_bookings db)).
Proof. done. Qed.

Lemma table_set_status_same (b : CafeteriaTableBooking) :
  cbk_status b = CANCELLED → set_status CANCELLED b = b.
Proof. destruct b; cbn; by intros ->. Qed.

(** [cancel_booking] never looks at the status: once the ownership gate is
    passed the booking is written back as CANCELLED. *)
Lemma table_cancel_any_status
    (db : DB) (booking_id : UUID) (booking : CafeteriaTableBooking) (user : User) :
  get_booking_by_id db booking_id = Return (Some booking) →
  cbk_user_id booking = user_id user
    ∨ user_role user = ADMIN ∨ user_role user = SUPER_ADMIN →
  let cancelled := set_status CANCELLED booking in
  cancel_booking db booking_id user = (store db cancelled, Return (true, None))
  ∧ get_booking_by_id (store db cancelled) booking_id = Return (Some cancelled)
  ∧ cbk_status cancelled = CANCELLED
  ∧ (cbk_status booking = CANCELLED → store db cancelled = db).
Proof.
  intros Hget Hmay cancelled.
  assert (bool_decide (cbk_user_id booking ≠ user_id user)
          && bool_decide (user_role user ∉ [SUPER_ADMIN; ADMIN]) = false) as Hgate.
  { rewrite andb_false_iff, !bool_decide_eq_false.
    destruct Hmay as [Ho|[Ha|Hs]]; [left; by intros ? | right..].
    - rewrite Ha. intros Hn. apply Hn. set_solver.
    - rewrite Hs. intros Hn. apply Hn. set_solver. }
  apply scalar_one_or_none_Some in Hget as Hrows.
  assert (cbk_id booking = booking_id) as Hid.
  { assert (booking ∈ filter (fun b => cbk_id b = booking_id) (cafeteria_table_bookings db)) as Hin
      by (rewrite Hrows; by left).
    by apply list_elem_of_filter in Hin as [? _]. }
  split_and!.
  - unfold cancel_booking. rewrite Hget, Hgate. done.
  - unfold get_booking_by_id. rewrite table_store_write_back.
    cbn [cafeteria_table_bookings with_table_bookings].
    rewrite filter_key_write_back by done. by rewrite Hrows.
  - done.
  - intros Hst. unfold cancelled. rewrite table_set_status_same by done.
    rewrite table_store_write_back, write_back_same by (by rewrite Hid).
    by destruct db.
Qed.

End TableBookings.

(** ** The booking claims *)

Section BookingClaims.
Import Reference Examples.

(** The overlap law on one booking from 9:00 to 10:00: a window from 9:30 to
    10:30 overlaps, the touching window from 10:00 to 11:00 does not, a
    window that contains the booking or lies inside it overlaps, and a
    CANCELLED or COMPLETED booking blocks nothing. *)
Lemma overlap_law_examples :
  DeskService.check_booking_overlap (one_booking CONFIRMED) 100 "D1" 20240601
    (at_ 9 30) (at_ 10 30) None = Return true
  ∧ DeskService.check_booking_overlap (one_booking CONFIRMED) 100 "D1" 20240601
      (at_ 10 0) (at_ 11 0) None = Return false
  ∧ DeskService.check_booking_overlap (one_booking PENDING) 100 "D1" 20240601
      (at_ 8 0) (at_ 12 0) None = Return true
  ∧ DeskService.check_booking_overlap (one_booking CONFIRMED) 100 "D1" 20240601
      (at_ 9 15) (at_ 9 45) None = Return true
  ∧ DeskService.check_booking_overlap (one_booking CONFIRMED) 100 "D1" 20240601
      (at_ 9 30) (at_ 10 30) (Some 1) = Return false
  ∧ DeskService.check_booking_overlap (one_booking CANCELLED) 100 "D1" 20240601
      (at_ 9 30) (at_ 10 30) None = Return false
  ∧ CafeteriaService.check_booking_overlap (one_booking CONFIRMED) 300 "T1" 20240601
      (at_ 9 30) (at_ 10 30) None = Return true
  ∧ CafeteriaService.check_booking_overlap (one_booking COMPLETED) 300 "T1" 20240601
      (at_ 9 30) (at_ 10 30) None = Return false.
Proof. vm_compute. repeat split. Qed.

(** The scenario of the specification: desk D1 at (1,1) of a three by three
    desk floor is booked from 9:00 to 11:00; a request from 10:00 to 12:00
    is refused as overlapping; the adjacent request from 11:00 to 12:00 is
    served. *)
Lemma end_to_end_scenario :
  let request start_hour end_hour :=
    DeskService.mkDeskBookingCreate 100 "D1" "1" "1" 20240601
      (at_ start_hour 0) (at_ end_hour 0) None in
  let first := DeskService.create_booking desk_floor 1 (request 9 11) alice in
  (∃ booking, first.2 = Return (Some booking, None)
              ∧ dbk_status booking = CONFIRMED)
  ∧ (DeskService.create_booking first.1 2 (request 10 12) bob).2
    = Return (None, Some Time_slot_overlaps)
  ∧ (∃ booking,
       (DeskService.create_booking first.1 3 (request 11 12) bob).2
       = Return (Some booking, None)).
Proof.
  intros request first. split_and!.
  - eexists. split; vm_compute; reflexivity.
  - vm_compute. reflexivity.
  - eexists. vm_compute. reflexivity.
Qed.

(** The example floors are what [create_floor_plan] leaves behind. *)
Lemma example_floors_created :
  (FloorPlanService.create_floor_plan empty_db 100 101 desk_floor_create super_admin).1
    = desk_floor
  ∧ (FloorPlanService.create_floor_plan empty_db 200 201
       (FloorPlanService.mkFloorPlanCreate "Basement" PARKING 3 3 None parking_grid)
       super_admin).1
    = parking_floor.
Proof. split; reflexivity. Qed.

(** C1 (where the code departs from the claim): on the desk floor, D1 is
    booked from 9:00 to 10:00 and from 10:00 to 11:00, two adjacent bookings
    that [create_booking] both accepts.  Both block the window from 9:30 to
    10:30, yet [check_booking_overlap] does not answer [True]:
    [scalar_one_or_none] finds two rows and raises [MultipleResultsFound],
    and so does a [create_booking] for that window.  The cafeteria service
    does the same on table T1. *)
Theorem check_booking_overlap_raises_on_two_hits :
  let request start_time end_time :=
    DeskService.mkDeskBookingCreate 100 "D1" "1" "1" 20240601
      start_time end_time None in
  let db1 :=
    (DeskService.create_booking desk_floor 1 (request (at_ 9 0) (at_ 10 0)) alice).1 in
  let db2 :=
    (DeskService.create_booking db1 2 (request (at_ 10 0) (at_ 11 0)) bob).1 in
  map dbk_status (desk_bookings db2) = [CONFIRMED; CONFIRMED]
  ∧ filter (desk_blocks 100 "D1" 20240601 (at_ 9 30) (at_ 10 30) None)
           (desk_bookings db2)
    = desk_bookings db2
  ∧ DeskService.check_booking_overlap db2 100 "D1" 20240601
      (at_ 9 30) (at_ 10 30) None = Raise MultipleResultsFound
  ∧ DeskService.create_booking db2 3 (request (at_ 9 30) (at_ 10 30)) alice
    = (db2, Raise MultipleResultsFound)
  ∧ filter (table_blocks 300 "T1" 20240601 (at_ 9 30) (at_ 10 30) None)
           (cafeteria_table_bookings adjacent_bookings)
    = cafeteria_table_bookings adjacent_bookings
  ∧ CafeteriaService.check_booking_overlap adjacent_bookings 300 "T1" 20240601
      (at_ 9 30) (at_ 10 30) None = Raise MultipleResultsFound.
Proof. vm_compute. repeat split. Qed.

(** C6, as stated, fails: the owner cancels a booking that is already
    CANCELLED and the call is accepted. *)
Lemma cancel_booking_accepts_cancelled :
  ¬ (∀ (db : DB) (booking_id : UUID) (booking : DeskBooking) (user : User),
        DeskService.get_booking_by_id db booking_id = Return (Some booking) →
        dbk_status booking = CANCELLED ∨ dbk_status booking = COMPLETED →
        ∃ e, DeskService.cancel_booking db booking_id user
               = (db, Return (false, Some e))
             ∧ kind_of e = InvalidStateError).
Proof.
  intros Hclaim.
  destruct (Hclaim (one_booking CANCELLED) 1
              (desk_booking 1 10 (at_ 9 0) (at_ 10 0) CANCELLED) alice
              eq_refl (or_introl eq_refl)) as (e & Hreply & _).
  vm_compute in Hreply. discriminate Hreply.
Qed.

(** C6, amended: [cancel_booking] has no guard on the current status.  For
    the owner of a booking, an ADMIN or a SUPER_ADMIN the call succeeds
    whatever the status is and leaves the booking CANCELLED; on a booking
    that is already CANCELLED nothing changes, and a COMPLETED booking
    becomes CANCELLED.  The same holds for desks and for cafeteria tables. *)
Theorem cancel_booking_ignores_status (db : DB) (booking_id : UUID) (user : User) :
  (∀ booking : DeskBooking,
     DeskService.get_booking_by_id db booking_id = Return (Some booking) →
     dbk_user_id booking = user_id user
       ∨ user_role user = ADMIN ∨ user_role user = SUPER_ADMIN →
     let cancelled := DeskService.set_status CANCELLED booking in
     DeskService.cancel_booking db booking_id user
       = (DeskService.store db cancelled, Return (true, None))
     ∧ DeskService.get_booking_by_id (DeskService.store db cancelled) booking_id
       = Return (Some cancelled)
     ∧ dbk_status cancelled = CANCELLED
     ∧ (dbk_status booking = CANCELLED → DeskService.store db cancelled = db))
  ∧ (∀ booking : CafeteriaTableBooking,
     CafeteriaService.get_booking_by_id db booking_id = Return (Some booking) →
     cbk_user_id booking = user_id user
       ∨ user_role user = ADMIN ∨ user_role user = SUPER_ADMIN →
     let cancelled := CafeteriaService.set_status CANCELLED booking in
     CafeteriaService.cancel_booking db booking_id user
       = (CafeteriaService.store db cancelled, Return (true, None))
     ∧ CafeteriaService.get_booking_by_id (CafeteriaService.store db cancelled) booking_id
       = Return (Some cancelled)
     ∧ cbk_status cancelled = CANCELLED
     ∧ (cbk_status booking = CANCELLED → CafeteriaService.store db cancelled = db)).
Proof.
  split; intros booking Hget Hmay.
  - by apply desk_cancel_any_status.
  - by apply table_cancel_any_status.
Qed.

Lemma cancel_booking_ignores_status_witness :
  DeskService.cancel_booking (one_booking CANCELLED) 1 alice
    = (one_booking CANCELLED, Return (true, None))
  ∧ CafeteriaService.cancel_booking (one_booking COMPLETED) 1 super_admin
    = (CafeteriaService.store (one_booking COMPLETED)
         (table_booking 1 10 (at_ 9 0) (at_ 10 0) CANCELLED),
       Return (true, None)).
Proof.
  split.
  - destruct (cancel_booking_ignores_status (one_booking CANCELLED) 1 alice)
      as [Hdesk _].
    destruct (Hdesk (desk_booking 1 10 (at_ 9 0) (at_ 10 0) CANCELLED)
                eq_refl (or_introl eq_refl)) as (Hreply & _ & _ & Hsame).
    rewrite Hreply, Hsame; reflexivity.
  - destruct (cancel_booking_ignores_status (one_booking COMPLETED) 1 super_admin)
      as [_ Htable].
    destruct (Htable (table_booking 1 10 (at_ 9 0) (at_ 10 0) COMPLETED)
                eq_refl (or_intror (or_intror eq_refl))) as (Hreply & _).
    exact Hreply.
Defined.

(** C10: for a booking that exists and an acting user who is neither its
    owner nor an ADMIN or SUPER_ADMIN, [update_booking] and [cancel_booking]
    return the ownership error and the database they return is the one they
    were given: no field of the booking is modified. *)
Theorem booking_ownership_gate
    (db : DB) (booking_id : UUID) (booking : DeskBooking)
    (booking_data : DeskService.DeskBookingUpdate) (user : User) :
  DeskService.get_booking_by_id db booking_id = Return (Some booking) →
  dbk_user_id booking ≠ user_id user →
  user_role user ≠ ADMIN →
  user_role user ≠ SUPER_ADMIN →
  DeskService.update_booking db booking_id booking_data user
    = (db, Return (None, Some Cannot_modify_another_users_booking))
  ∧ DeskService.cancel_booking db booking_id user
    = (db, Return (false, Some Cannot_cancel_another_users_booking))
  ∧ kind_of Cannot_modify_another_users_booking = AuthorizationError
  ∧ kind_of Cannot_cancel_another_users_booking = AuthorizationError.
Proof.
  intros Hget Howner Hadmin Hsuper.
  assert (bool_decide (dbk_user_id booking ≠ user_id user)
          && bool_decide (user_role user ∉ [SUPER_ADMIN; ADMIN]) = true) as Hgate.
  { rewrite andb_true_iff, !bool_decide_eq_true. split; [done|].
    rewrite !not_elem_of_cons. split_and!; [done..|]. apply not_elem_of_nil. }
  unfold DeskService.update_booking, DeskService.cancel_booking.
  rewrite Hget, Hgate. done.
Qed.

Lemma booking_ownership_gate_witness :
  DeskService.update_booking (one_booking CONFIRMED) 1
    (DeskService.mkDeskBookingUpdate (Some (at_ 8 0)) None (Some CANCELLED) (Some "mine")) bob
    = (one_booking CONFIRMED, Return (None, Some Cannot_modify_another_users_booking))
  ∧ DeskService.cancel_booking (one_booking CONFIRMED) 1 bob
    = (one_booking CONFIRMED, Return (false, Some Cannot_cancel_another_users_booking)).
Proof.
  destruct (booking_ownership_gate (one_booking CONFIRMED) 1
              (desk_booking 1 10 (at_ 9 0) (at_ 10 0) CONFIRMED)
              (DeskService.mkDeskBookingUpdate (Some (at_ 8 0)) None (Some CANCELLED)
                 (Some "mine")) bob)
    as (Hupdate & Hcancel & _); [reflexivity | discriminate..|].
  split; assumption.
Defined.

End BookingClaims.

(** ** The version store *)

Section VersionStore.
Import FloorPlanService Reference.

Lemma seqZ_snoc (m n : Z) : 0 ≤ n → seqZ m (n + 1) = seqZ m n ++ [m + n].
Proof.
  intros Hn. rewrite seqZ_app by lia.
  rewrite (seqZ_cons (m + n) 1) by lia.
  by rewrite (seqZ_nil _ (Z.pred 1)) by lia.
Qed.

(** On rows whose versions increase one by one, the [ORDER BY ... LIMIT 1]
    query returns the last row. *)
Lemma pick_latest_increasing (rows : list FloorPlanVersion) (best : option FloorPlanVersion) (a : Z) :
  map fpv_version rows = seqZ a (Z.of_nat (length rows)) →
  (∀ b, best = Some b → fpv_version b < a) →
  fold_left
    (fun best v =>
       match best with
       | None => Some v
       | Some b => if fpv_version b <? fpv_version v then Some v else Some b
       end) rows best
  = match last rows with Some v => Some v | None => best end.
Proof.
  revert best a. induction rows as [|r rest IH]; intros best a Hseq Hbest; [done|].
  cbn [fold_left]. rewrite seqZ_cons in Hseq by (cbn [length]; lia).
  replace (Z.pred (Z.of_nat (length (r :: rest)))) with (Z.of_nat (length rest)) in Hseq
    by (cbn [length]; lia).
  cbn [map] in Hseq. injection Hseq as Hr Hrest.
  assert (match best with
          | None => Some r
          | Some b => if fpv_version b <? fpv_version r then Some r else Some b
          end = Some r) as ->.
  { destruct best as [b|]; [|done].
    specialize (Hbest b eq_refl). by rewrite (proj2 (Z.ltb_lt _ _)) by lia. }
  rewrite (IH (Some r) (Z.succ a)); [|done|intros ? [= <-]; lia].
  rewrite last_cons. by destruct (last rest).
Qed.

Lemma get_latest_version_plan_at db fid n :
  plan_at db fid n →
  ∃ v, get_latest_version db fid = Return (Some v)
       ∧ fpv_version v = n ∧ fpv_floor_plan_id v = fid
       ∧ last (versions_of db fid) = Some v.
Proof.
  intros (Hn & _ & Hnums). unfold version_numbers in Hnums.
  assert (Z.of_nat (length (versions_of db fid)) = n) as Hlen.
  { rewrite <- (length_map fpv_version), Hnums, length_seqZ. lia. }
  destruct (last (versions_of db fid)) as [v|] eqn:Hlast.
  2:{ apply last_None in Hlast. rewrite Hlast in Hlen. cbn in Hlen. lia. }
  exists v. split_and!; [| | |done].
  - unfold get_latest_version, order_by_version_desc_limit_1.
    fold (versions_of db fid).
    rewrite (pick_latest_increasing _ None 1); [by rewrite Hlast |by rewrite Hlen|done].
  - apply last_Some in Hlast as (front & Hfront).
    rewrite Hfront, map_app in Hnums. cbn [map] in Hnums.
    rewrite Hfront, length_app in Hlen. cbn [length] in Hlen.
    replace n with (Z.of_nat (length front) + 1) in Hnums by lia.
    rewrite seqZ_snoc in Hnums by lia.
    apply app_inj_tail in Hnums as [_ Hv]. lia.
  - assert (v ∈ versions_of db fid) as Hin.
    { apply last_Some in Hlast as (front & ->). set_solver. }
    by apply list_elem_of_filter in Hin as [? _].
Qed.

(** The branch of a call that gives up: the database is the one it was
    given and the reply carries no value. *)
Local Ltac refused :=
  intros [= <- <-]; left; split; [done | by intros ? ?].

(** What one call of [create_version] does. *)
Lemma create_version_cases db vid fid data user db' reply :
  create_version db vid fid data user = (db', reply) →
  (db' = db ∧ ∀ v e, reply ≠ Return (Some v, e))
  ∨ ∃ fp, filter (fun p => fp_id p = fid) (floor_plans db) = [fp]
          ∧ can_manage_plan_type user (fp_plan_type fp) = true
          ∧ validate_grid_data (fpvc_grid_data data) (fp_rows fp) (fp_columns fp)
                               (fp_plan_type fp) = (true, None)
          ∧ let v := mkFloorPlanVersion vid fid (fp_current_version fp + 1)
                       (fpvc_grid_data data) true (user_id user)
                       (fpvc_change_notes data) in
            version_pair_taken db v = false
            ∧ reply = Return (Some v, None)
            ∧ db' = with_versions
                      (with_floor_plans db
                         (map (set_current_version fid (fp_current_version fp + 1))
                              (floor_plans db)))
                      (floor_plan_versions db ++ [v]).
Proof.
  unfold create_version, get_floor_plan_by_id.
  destruct (scalar_one_or_none _) as [[fp|]|e] eqn:Hget; [|refused..].
  apply scalar_one_or_none_Some in Hget.
  destruct (can_manage_plan_type user (fp_plan_type fp)) eqn:Hcan; cbn [negb];
    [|refused].
  destruct (validate_grid_data _ _ _ _) as [[] error] eqn:Hvalid; [|refused].
  destruct (version_pair_taken _ _) eqn:Htaken; [refused|].
  intros [= <- <-]. right. exists fp. split_and!; try done.
  rewrite validate_grid_data_head in Hvalid |- *.
  by destruct (violations _ _ _ _).
Qed.

Lemma filter_id_set_current_version fid fid' n (l : list FloorPlan) :
  filter (fun p => fp_id p = fid) (map (set_current_version fid' n) l)
  = map (set_current_version fid' n) (filter (fun p => fp_id p = fid) l).
Proof.
  induction l as [|p l IH]; [done|].
  cbn [map]. rewrite !filter_cons, IH.
  assert (fp_id (set_current_version fid' n p) = fp_id p) as ->
    by (unfold set_current_version; by case_decide).
  by destruct (decide (fp_id p = fid)).
Qed.

Lemma set_current_version_other fid' n (l : list FloorPlan) :
  Forall (fun p => fp_id p ≠ fid') l → map (set_current_version fid' n) l = l.
Proof.
  induction 1 as [|p l Hp _ IH]; [done|]. cbn [map]. rewrite IH.
  unfold set_current_version. by rewrite decide_False.
Qed.

(** A call on the floor plan itself: it fails and changes nothing, or it
    returns version [n + 1] and moves the counter to [n + 1]. *)
Lemma create_version_same db vid fid data user db' reply n :
  plan_at db fid n →
  create_version db vid fid data user = (db', reply) →
  (db' = db ∧ ∀ v e, reply ≠ Return (Some v, e))
  ∨ ∃ v, reply = Return (Some v, None)
         ∧ fpv_version v = n + 1 ∧ fpv_floor_plan_id v = fid
         ∧ fpv_grid_data v = fpvc_grid_data data
         ∧ versions_of db' fid = versions_of db fid ++ [v]
         ∧ plan_at db' fid (n + 1).
Proof.
  intros (Hn & (fp0 & Hfp0 & Hcur) & Hnums) Hcall.
  apply create_version_cases in Hcall as [?|(fp & Hfp & _ & _ & Hv)]; [by left|].
  right. rewrite Hfp0 in Hfp. injection Hfp as <-.
  destruct Hv as (_ & -> & ->). rewrite Hcur. eexists. split; [done|].
  assert (∀ x, versions_of (with_versions (with_floor_plans db x)
                 (floor_plan_versions db ++
                    [mkFloorPlanVersion vid fid (n + 1) (fpvc_grid_data data) true
                       (user_id user) (fpvc_change_notes data)])) fid
               = versions_of db fid ++
                    [mkFloorPlanVersion vid fid (n + 1) (fpvc_grid_data data) true
                       (user_id user) (fpvc_change_notes data)]) as Hvs.
  { intros x. unfold versions_of. cbn [floor_plan_versions with_versions].
    rewrite filter_app, filter_cons, filter_nil. by rewrite decide_True. }
  split_and!; try done.
  split_and!; [lia| |].
  - exists (set_current_version fid (n + 1) fp0).
    cbn [floor_plans with_versions with_floor_plans].
    rewrite filter_id_set_current_version, Hfp0. split; [done|].
    unfold set_current_version. case_decide; [done|].
    assert (fp0 ∈ filter (fun p => fp_id p = fid) (floor_plans db)) as Hin
      by (rewrite Hfp0; by left).
    apply list_elem_of_filter in Hin as [? _]. done.
  - unfold version_numbers. rewrite Hvs, map_app. cbn [map].
    fold (version_numbers db fid). rewrite Hnums, seqZ_snoc by lia.
    cbn [fpv_version]. do 2 f_equal. lia.
Qed.

(** A call on another floor plan leaves this one as it is. *)
Lemma create_version_other db vid fid fid' data user db' reply n :
  fid' ≠ fid →
  plan_at db fid n →
  create_version db vid fid' data user = (db', reply) →
  plan_at db' fid n
  ∧ versions_of db' fid = versions_of db fid
  ∧ ∀ v e, reply = Return (Some v, e) → fpv_floor_plan_id v ≠ fid.
Proof.
  intros Hne Hat Hcall.
  apply create_version_cases in Hcall as [[-> Hfail]|(fp & Hfp & _ & _ & Hv)].
  { split_and!; [done..|]. intros v e ->. by destruct (Hfail v e). }
  destruct Hv as (_ & -> & ->).
  assert (∀ x, versions_of (with_versions (with_floor_plans db x)
                 (floor_plan_versions db ++
                    [mkFloorPlanVersion vid fid' (fp_current_version fp + 1)
                       (fpvc_grid_data data) true (user_id user)
                       (fpvc_change_notes data)])) fid
               = versions_of db fid) as Hvs.
  { intros x. unfold versions_of. cbn [floor_plan_versions with_versions].
    rewrite filter_app, filter_cons, filter_nil.
    rewrite decide_False by done. by rewrite app_nil_r. }
  destruct Hat as (Hn & (fp0 & Hfp0 & Hcur) & Hnums).
  split_and!; [split_and!| |]; try done.
  - exists fp0. cbn [floor_plans with_versions with_floor_plans].
    rewrite filter_id_set_current_version, Hfp0. split; [|done].
    cbn [map]. unfold set_current_version. rewrite decide_False; [done|].
    assert (fp0 ∈ filter (fun p => fp_id p = fid) (floor_plans db)) as Hin
      by (rewrite Hfp0; by left).
    apply list_elem_of_filter in Hin as [? _]. congruence.
  - unfold version_numbers. by rewrite Hvs.
  - intros v e [= <-]. done.
Qed.

(** Any sequence of calls: the successful ones on the floor plan are
    numbered [n + 1], [n + 2], ... without a gap, and the counter and the
    stored versions follow. *)
Lemma create_versions_numbers fid requests :
  ∀ db n db' replies,
    plan_at db fid n →
    create_versions db requests = (db', replies) →
    let created := created_for fid replies in
    map fpv_version created = seqZ (n + 1) (Z.of_nat (length created))
    ∧ versions_of db' fid = versions_of db fid ++ created
    ∧ plan_at db' fid (n + Z.of_nat (length created)).
Proof.
  induction requests as [|request rest IH]; intros db n db' replies Hat Hrun.
  { injection Hrun as <- <-. cbn. rewrite app_nil_r, Z.add_0_r. done. }
  cbn [create_versions] in Hrun.
  destruct (create_version db _ _ _ _) as [db1 reply] eqn:Hcall.
  destruct (create_versions db1 rest) as [db2 replies'] eqn:Hrest.
  injection Hrun as <- <-.
  destruct (decide (vr_floor_plan_id request = fid)) as [Heq|Hne].
  - rewrite Heq in Hcall.
    destruct (create_version_same _ _ _ _ _ _ _ _ Hat Hcall)
      as [[-> Hfail]|(v & -> & Hv & Hvf & _ & Hvs & Hat1)].
    + destruct (IH _ _ _ _ Hat Hrest) as (H1 & H2 & H3).
      assert (created_for fid (reply :: replies') = created_for fid replies') as Hc.
      { unfold created_for. cbn [omap list_omap].
        destruct reply as [[[v|] e]|]; try done. by destruct (Hfail v e). }
      cbn zeta. rewrite Hc. done.
    + destruct (IH _ _ _ _ Hat1 Hrest) as (H1 & H2 & H3).
      assert (created_for fid (Return (Some v, None) :: replies')
              = v :: created_for fid replies') as Hc.
      { unfold created_for. cbn [omap list_omap]. by rewrite decide_True. }
      cbn zeta. rewrite Hc. cbn [map length]. split_and!.
      * rewrite seqZ_cons by lia. rewrite Hv. f_equal.
        rewrite H1. f_equal; lia.
      * rewrite H2, Hvs, <- app_assoc. done.
      * replace (n + Z.of_nat (S (length (created_for fid replies'))))
          with (n + 1 + Z.of_nat (length (created_for fid replies'))) by lia.
        done.
  - destruct (create_version_other _ _ _ _ _ _ _ _ _ Hne Hat Hcall)
      as (Hat1 & Hvs & Hfor).
    destruct (IH _ _ _ _ Hat1 Hrest) as (H1 & H2 & H3).
    assert (created_for fid (reply :: replies') = created_for fid replies') as Hc.
    { unfold created_for. cbn [omap list_omap].
      destruct reply as [[[v|] e]|]; try done.
      rewrite decide_False; [done|]. by eapply Hfor. }
    cbn zeta. rewrite Hc, H2, Hvs. done.
Qed.

(** A floor plan that was just created stands at version 1. *)
Lemma create_floor_plan_plan_at db new_id new_vid data user db1 fp :
  filter (fun p => fp_id p = new_id) (floor_plans db) = [] →
  versions_of db new_id = [] →
  create_floor_plan db new_id new_vid data user = (db1, Return (Some fp, None)) →
  fp_id fp = new_id ∧ fp_current_version fp = 1
  ∧ version_numbers db1 new_id = [1]
  ∧ plan_at db1 new_id 1.
Proof.
  intros Hfresh Hnov. unfold create_floor_plan.
  destruct (can_manage_plan_type _ _); cbn [negb]; [|intros [=]].
  destruct (scalar_one_or_none _) as [[?|]|]; [intros [=]| |intros [=]].
  destruct (validate_grid_data _ _ _ _) as [[] ?]; [|intros [=]].
  destruct (version_pair_taken _ _); [intros [=]|].
  intros [= <- <-]. cbn [fp_id fp_current_version].
  assert (version_numbers
            (with_versions
               (with_floor_plans db
                  (floor_plans db ++
                     [mkFloorPlan new_id (fpc_name data) (fpc_plan_type data)
                        (fpc_rows data) (fpc_columns data) (fpc_description data)
                        true 1 (user_id user)]))
               (floor_plan_versions db ++
                  [mkFloorPlanVersion new_vid new_id 1 (fpc_grid_data data) true
                     (user_id user) (Some "Initial version")])) new_id = [1]) as Hnums.
  { unfold version_numbers, versions_of in *.
    cbn [floor_plan_versions with_versions].
    rewrite filter_app, Hnov, filter_cons, filter_nil. by rewrite decide_True. }
  split_and!; try done.
  split_and!; [lia| |done].
  eexists. cbn [floor_plans with_versions with_floor_plans].
  rewrite filter_app, Hfresh, filter_cons, filter_nil.
  rewrite decide_True by done. done.
Qed.


(** Every successful call assigns the counter plus one and moves the counter
    to that number in the same step. *)
Lemma create_version_assigns_next db vid fid data user db' v e :
  create_version db vid fid data user = (db', Return (Some v, e)) →
  ∃ fp fp',
    get_floor_plan_by_id db fid = Return (Some fp)
    ∧ fpv_version v = fp_current_version fp + 1
    ∧ get_floor_plan_by_id db' fid = Return (Some fp')
    ∧ fp_current_version fp' = fpv_version v
    ∧ floor_plan_versions db' = floor_plan_versions db ++ [v].
Proof.
  intros Hcall.
  apply create_version_cases in Hcall as [[_ Hfail]|(fp & Hfp & _ & _ & Hv)];
    [by destruct (Hfail v e)|].
  destruct Hv as (_ & [= -> ->] & ->).
  assert (fp_id fp = fid) as Hid.
  { assert (fp ∈ filter (fun p => fp_id p = fid) (floor_plans db)) as Hin
      by (rewrite Hfp; by left).
    by apply list_elem_of_filter in Hin as [? _]. }
  exists fp, (set_current_version fid (fp_current_version fp + 1) fp).
  unfold get_floor_plan_by_id. cbn [floor_plans with_versions with_floor_plans].
  rewrite filter_id_set_current_version, Hfp. split_and!; try done.
  unfold set_current_version. by rewrite decide_True.
Qed.

(** C3: a successful [create_version] returns the floor plan's counter plus
    one and leaves the counter at that number.  So, from a floor plan that
    was created at version 1 and after any sequence of calls, of which some
    may fail or go to other floor plans, the versions of the floor plan are
    numbered exactly 1, ..., N, where N - 1 calls on it succeeded; they
    received 2, ..., N in this order; and [get_latest_version] returns
    version N. *)
Theorem create_version_numbers_without_gaps
    (db : DB) (new_id new_version_id : UUID) (floor_plan_data : FloorPlanCreate)
    (created_by : User) (db1 : DB) (floor_plan : FloorPlan)
    (requests : list VersionRequest) (db2 : DB)
    (replies : list (outcome (option FloorPlanVersion * option Msg))) :
  filter (fun p => fp_id p = new_id) (floor_plans db) = [] →
  versions_of db new_id = [] →
  create_floor_plan db new_id new_version_id floor_plan_data created_by
    = (db1, Return (Some floor_plan, None)) →
  create_versions db1 requests = (db2, replies) →
  let created := created_for new_id replies in
  let N := 1 + Z.of_nat (length created) in
  (∀ dba vid fid data user dbb v e,
     create_version dba vid fid data user = (dbb, Return (Some v, e)) →
     ∃ fp fp',
       get_floor_plan_by_id dba fid = Return (Some fp)
       ∧ fpv_version v = fp_current_version fp + 1
       ∧ get_floor_plan_by_id dbb fid = Return (Some fp')
       ∧ fp_current_version fp' = fpv_version v
       ∧ floor_plan_versions dbb = floor_plan_versions dba ++ [v])
  ∧ version_numbers db1 new_id = [1]
  ∧ map fpv_version created = seqZ 2 (Z.of_nat (length created))
  ∧ version_numbers db2 new_id = seqZ 1 N
  ∧ (∃ fp, get_floor_plan_by_id db2 new_id = Return (Some fp)
           ∧ fp_current_version fp = N)
  ∧ (∃ v, get_latest_version db2 new_id = Return (Some v)
          ∧ fpv_version v = N
          ∧ last (versions_of db2 new_id) = Some v).
Proof.
  intros Hfresh Hnov Hcreate Hrun created N.
  destruct (create_floor_plan_plan_at _ _ _ _ _ _ _ Hfresh Hnov Hcreate)
    as (_ & _ & Hone & Hat1).
  destruct (create_versions_numbers _ _ _ _ _ _ Hat1 Hrun) as (Hnums & _ & HatN).
  fold created in Hnums, HatN. fold N in HatN.
  split_and!.
  - intros. by eapply create_version_assigns_next.
  - done.
  - done.
  - by destruct HatN as (_ & _ & ?).
  - destruct HatN as (_ & (fp & Hfp & Hcur) & _). exists fp.
    unfold get_floor_plan_by_id. by rewrite Hfp.
  - destruct (get_latest_version_plan_at _ _ _ HatN) as (v & ? & ? & _ & ?). eauto.
Qed.

(** The desk floor is created and its layout updated four times; the second
    update is refused and the third is invalid.  The versions are 1, 2, 3. *)
Lemma create_version_numbers_without_gaps_witness :
  let db1 := (create_floor_plan Examples.empty_db 100 101
                Examples.desk_floor_create Examples.super_admin).1 in
  let db2 := (create_versions db1 Examples.layout_updates).1 in
  version_numbers db2 100 = [1; 2; 3]
  ∧ ∃ v, get_latest_version db2 100 = Return (Some v) ∧ fpv_version v = 3.
Proof.
  intros db1 db2.
  destruct (create_version_numbers_without_gaps Examples.empty_db 100 101
              Examples.desk_floor_create Examples.super_admin db1
              (mkFloorPlan 100 "Open space" DESK_AREA 3 3 None true 1 1)
              Examples.layout_updates db2
              (create_versions db1 Examples.layout_updates).2)
    as (_ & _ & _ & Hnums & _ & v & Hlatest & Hv & _);
    [reflexivity | reflexivity | reflexivity | reflexivity |].
  split; [exact Hnums | exists v; split; [exact Hlatest | exact Hv]].
Defined.

End VersionStore.

(** ** Parking availability and auto-assignment *)

Section ParkingAvailability.
Import ParkingService Reference Examples.

Lemma visit_cell_spec occupied r c cell available :
  visit_cell occupied r c cell available
  = available ++ map slot_info_of
                     (filter (fun pos => free_slot occupied pos = true) [(r, c, cell)]).
Proof.
  unfold visit_cell. rewrite filter_cons, filter_nil.
  unfold free_slot. cbn [snd fst slot_label_of].
  destruct (eq_str _ _); cbn [andb].
  - destruct (in_strs _ _); cbn [negb].
    + rewrite decide_False by done. by rewrite app_nil_r.
    + rewrite decide_True by done. done.
  - rewrite decide_False by done. by rewrite app_nil_r.
Qed.

Lemma scan_row_spec occupied r c row available :
  scan_row occupied r c row available
  = available ++ map slot_info_of
                     (filter (fun pos => free_slot occupied pos = true)
                             (cells_from r c row)).
Proof.
  revert c available. induction row as [|cell rest IH]; intros c available.
  - cbn. by rewrite app_nil_r.
  - cbn [scan_row cells_from]. rewrite IH, visit_cell_spec.
    change ((r, c, cell) :: cells_from r (S c) rest)
      with ([(r, c, cell)] ++ cells_from r (S c) rest).
    by rewrite filter_app, map_app, app_assoc.
Qed.

Lemma scan_grid_spec occupied r grid available :
  scan_grid occupied r grid available
  = available ++ map slot_info_of
                     (filter (fun pos => free_slot occupied pos = true)
                             (rows_from r grid)).
Proof.
  revert r available. induction grid as [|row rest IH]; intros r available.
  - cbn. by rewrite app_nil_r.
  - cbn [scan_grid rows_from]. rewrite IH, scan_row_spec.
    by rewrite filter_app, map_app, app_assoc.
Qed.

(** The labels that are filtered out are those of the allocations of the
    floor plan with [is_active = true] and no [exit_time]. *)
Lemma occupied_slots_of_spec db fid (label : json) :
  in_strs label (occupied_slots_of db fid) = true
  ↔ ∃ a, a ∈ parking_allocations db
         ∧ pa_floor_plan_id a = fid
         ∧ label = JStr (pa_slot_label a)
         ∧ pa_is_active a = true ∧ pa_exit_time a = None.
Proof.
  rewrite in_strs_true. unfold occupied_slots_of. split.
  - intros (s & Hs & ->). apply list_elem_of_fmap in Hs as (a & -> & Ha).
    apply list_elem_of_filter in Ha as [(Hf & Hact & Hexit) Hin]. eauto 10.
  - intros (a & Hin & Hf & -> & Hact & Hexit). exists (pa_slot_label a).
    split; [|done]. apply list_elem_of_fmap. exists a. split; [done|].
    apply list_elem_of_filter. by repeat split.
Qed.

(** Without a parking floor plan of that id, or without a version of it,
    nothing is available. *)
Lemma get_available_slots_nothing (db : DB) (floor_plan_id : UUID) :
  (filter (fun p => fp_id p = floor_plan_id) (floor_plans db) = []
   ∨ (∃ fp, filter (fun p => fp_id p = floor_plan_id) (floor_plans db) = [fp]
            ∧ (fp_plan_type fp ≠ PARKING
               ∨ latest_version db floor_plan_id = Return None))) →
  get_available_slots db floor_plan_id = Return [].
Proof.
  unfold get_available_slots. intros [-> | (fp & -> & Hwhy)]; [done|].
  cbn [scalar_one_or_none mbind outcome_bind].
  destruct Hwhy as [Hty | Hnone].
  - by rewrite bool_decide_eq_true_2.
  - case_bool_decide; [done|]. by rewrite Hnone.
Qed.

(** [ORDER BY version DESC LIMIT 1] selects the row whose version number is
    greater than that of every other row, wherever it is stored. *)
Lemma order_by_version_desc_limit_1_greatest
    (rows : list FloorPlanVersion) (v : FloorPlanVersion) :
  v ∈ rows →
  (∀ w, w ∈ rows → w = v ∨ fpv_version w < fpv_version v) →
  FloorPlanService.order_by_version_desc_limit_1 rows = [v].
Proof.
  intros Hin Hall. unfold FloorPlanService.order_by_version_desc_limit_1.
  assert (∀ rows best,
            (∀ w, w ∈ rows → w = v ∨ fpv_version w < fpv_version v) →
            match best with
            | None => v ∈ rows
            | Some b => b = v ∨ (fpv_version b < fpv_version v ∧ v ∈ rows)
            end →
            fold_left
              (fun best v =>
                 match best with
                 | None => Some v
                 | Some b => if fpv_version b <? fpv_version v then Some v else Some b
                 end) rows best = Some v) as Hfold.
  { clear. induction rows as [|w rest IH]; intros best Hall Hbest.
    - destruct best as [b|].
      + destruct Hbest as [-> | [_ Hin]]; [done|]. by apply elem_of_nil in Hin.
      + by apply elem_of_nil in Hbest.
    - cbn [fold_left]. apply IH; [intros u Hu; apply Hall; by right|].
      assert (w = v ∨ fpv_version w < fpv_version v) as Hw by (apply Hall; by left).
      assert (∀ u, fpv_version u < fpv_version v → v ∈ u :: rest → v ∈ rest) as Hrest.
      { intros u Hu Hv. apply elem_of_cons in Hv as [-> | Hv]; [lia | done]. }
      destruct best as [b|].
      + destruct Hbest as [-> | [Hb Hv]].
        * destruct (Z.ltb_spec (fpv_version v) (fpv_version w)); [|by left].
          destruct Hw as [-> | Hw]; [by left | lia].
        * destruct Hw as [-> | Hw].
          -- rewrite (proj2 (Z.ltb_lt _ _)) by done. by left.
          -- destruct (fpv_version b <? fpv_version w); right; split; eauto.
      + destruct Hw as [-> | Hw]; [by left|]. right. eauto. }
  by rewrite (Hfold rows None Hall Hin).
Qed.

(** C9: for a parking floor plan, [get_available_slots] returns the free
    slots of the grid of the latest version, the version of the floor plan
    with the greatest number whatever the order of the rows, in row-major
    order: the cells of type PARKING_SLOT whose label is not the label of
    an allocation of the floor plan with [is_active = true] and no
    [exit_time].  The auto-assignment loop takes the first of them, and
    [assign_visitor_slot] allocates that slot when no slot is requested. *)
Theorem get_available_slots_row_major
    (db : DB) (fp : FloorPlan) (v : FloorPlanVersion) :
  filter (fun p => fp_id p = fp_id fp) (floor_plans db) = [fp] →
  fp_plan_type fp = PARKING →
  v ∈ versions_of db (fp_id fp) →
  (∀ w, w ∈ versions_of db (fp_id fp) → w = v ∨ fpv_version w < fpv_version v) →
  let available := free_slots (occupied_slots_of db (fp_id fp)) (fpv_grid_data v) in
  get_available_slots db (fp_id fp) = Return available
  ∧ (∀ label : json,
       in_strs label (occupied_slots_of db (fp_id fp)) = true
       ↔ ∃ a, a ∈ parking_allocations db
              ∧ pa_floor_plan_id a = fp_id fp
              ∧ label = JStr (pa_slot_label a)
              ∧ pa_is_active a = true ∧ pa_exit_time a = None)
  ∧ (∀ rest,
       auto_assign db (fp :: rest)
       = match available with
         | first :: _ => Return (Some (first, fp))
         | [] => auto_assign db rest
         end)
  ∧ (∀ rest first slot_label new_id now visitor_data assigned_by,
       get_parking_floor_plans db = fp :: rest →
       head available = Some first →
       si_label first = JStr slot_label →
       can_manage_parking assigned_by = true →
       (2 ≤ String.length (strip (vpc_visitor_name visitor_data)))%nat →
       (∀ phone, vpc_visitor_phone visitor_data = Some phone →
                 phone = "" ∨ match_phone_pattern phone = true) →
       vpc_floor_plan_id visitor_data = None
         ∨ vpc_slot_label visitor_data = None
         ∨ vpc_slot_label visitor_data = Some "" →
       ∃ allocation,
         assign_visitor_slot db new_id now visitor_data assigned_by
         = (with_allocations db (parking_allocations db ++ [allocation]),
            Return (Some allocation, None))
         ∧ pa_floor_plan_id allocation = fp_id fp
         ∧ pa_slot_label allocation = slot_label
         ∧ pa_cell_row allocation = str_of_Z (Z.of_nat (si_row first))
         ∧ pa_cell_column allocation = str_of_Z (Z.of_nat (si_column first))
         ∧ pa_entry_time allocation = Some now
         ∧ pa_is_active allocation = true ∧ pa_exit_time allocation = None).
Proof.
  intros Hfp Hty Hin Hgreatest available.
  assert (latest_version db (fp_id fp) = Return (Some v)) as Hv.
  { unfold latest_version. fold (versions_of db (fp_id fp)).
    by rewrite (order_by_version_desc_limit_1_greatest _ v Hin Hgreatest). }
  assert (get_available_slots db (fp_id fp) = Return available) as Hget.
  { unfold get_available_slots. rewrite Hfp. cbn [scalar_one_or_none mbind outcome_bind].
    rewrite bool_decide_eq_false_2 by (by intros ?).
    rewrite Hv. cbn [mbind outcome_bind].
    rewrite scan_grid_spec. done. }
  assert (∀ rest,
       auto_assign db (fp :: rest)
       = match available with
         | first :: _ => Return (Some (first, fp))
         | [] => auto_assign db rest
         end) as Hauto.
  { intros rest. cbn [auto_assign]. rewrite Hget. done. }
  split_and!; [done | apply occupied_slots_of_spec | done |].
  intros rest first slot_label new_id now visitor_data assigned_by
    Hplans Hfirst Hlabel Hmanage Hname Hphone Hno_plan.
  eexists. split.
  - unfold assign_visitor_slot. rewrite Hmanage. cbn [negb].
    assert (vpc_visitor_name visitor_data ≠ "") as Hne.
    { intros Heq. rewrite Heq in Hname. cbn in Hname. lia. }
    rewrite bool_decide_eq_false_2 by done.
    rewrite (proj2 (Nat.ltb_ge _ _)) by done. cbn [orb].
    assert (match vpc_visitor_phone visitor_data with
            | Some phone =>
                negb (bool_decide (phone = "")) && negb (match_phone_pattern phone)
            | None => false
            end = false) as ->.
    { destruct (vpc_visitor_phone visitor_data) as [phone|]; [|done].
      destruct (Hphone phone eq_refl) as [-> | ->]; [done|].
      by rewrite andb_false_r. }
    rewrite Hplans.
    assert (match vpc_floor_plan_id visitor_data, vpc_slot_label visitor_data with
            | Some floor_plan_id, Some (String c l) =>
                requested_slot db floor_plan_id (String c l)
            | _, _ =>
                r ← auto_assign db (fp :: rest);
                match r with
                | Some hit => Return (inl hit)
                | None => Return (inr No_parking_slots_available)
                end
            end = Return (inl (first, fp))) as ->.
    { assert ((r ← auto_assign db (fp :: rest);
               match r with
               | Some hit => Return (inl hit)
               | None => Return (inr No_parking_slots_available)
               end) = Return (inl (first, fp)) :> outcome ((SlotInfo * FloorPlan) + Msg))
        as Hhit.
      { rewrite (Hauto rest). destruct available as [|first' ?]; [done|].
        by simplify_eq/=. }
      destruct Hno_plan as [-> | [-> | ->]]; [done| |].
      - by destruct (vpc_floor_plan_id visitor_data).
      - by destruct (vpc_floor_plan_id visitor_data). }
    rewrite Hlabel. reflexivity.
  - done.
Qed.

(** The floor was laid out twice: version 1 has its only slot, P0, at
    (0,0); version 2, stored after it, has slots at (1,1) and (1,2).  With
    both free the scan returns these two in this order, nothing of version
    1, and the visitor gets the slot at (1,1). *)
Lemma get_available_slots_row_major_witness :
  get_available_slots relaid_parking_floor 200
    = Return [mkSlotInfo 1 1 (JStr "P1") JNull; mkSlotInfo 1 2 (JStr "P2") JNull]
  ∧ auto_assign relaid_parking_floor [relaid_parking_plan]
    = Return (Some (mkSlotInfo 1 1 (JStr "P1") JNull, relaid_parking_plan))
  ∧ ∃ allocation,
      (assign_visitor_slot relaid_parking_floor 900 5000 visitor_request
                           parking_manager).2
        = Return (Some allocation, None)
      ∧ pa_slot_label allocation = "P1"
      ∧ pa_cell_row allocation = "1" ∧ pa_cell_column allocation = "1".
Proof.
  destruct (get_available_slots_row_major relaid_parking_floor relaid_parking_plan
              second_parking_version eq_refl eq_refl)
    as (Hget & _ & Hauto & Hassign).
  - apply list_elem_of_filter. split; [reflexivity|].
    apply elem_of_cons. right. apply elem_of_cons. by left.
  - intros w Hw. apply list_elem_of_filter in Hw as [_ Hw].
    apply elem_of_cons in Hw as [-> | Hw]; [right; by vm_compute|].
    apply list_elem_of_singleton in Hw as ->. by left.
  - split_and!.
    + exact Hget.
    + exact (Hauto []).
    + destruct (Hassign [] (mkSlotInfo 1 1 (JStr "P1") JNull) "P1" 900 5000
                  visitor_request parking_manager eq_refl eq_refl eq_refl eq_refl)
        as (allocation & Hreply & _ & Hlabel & Hrow & Hcol & _).
      * vm_compute. lia.
      * intros phone [= <-]. right. reflexivity.
      * left. reflexivity.
      * exists allocation. rewrite Hreply. split_and!; [reflexivity | assumption..].
Defined.

End ParkingAvailability.

(** ** Cell coordinates *)

Section CellCoordinates.
Import Reference Examples.

Lemma digit_val_bounds c : is_ascii_digit c = true → 0 ≤ digit_val c ≤ 9.
Proof.
  unfold is_ascii_digit, digit_val.
  rewrite andb_true_iff, !Nat.leb_le. lia.
Qed.

Lemma digits_value_nonneg s acc :
  all_digits s = true → 0 ≤ acc → 0 ≤ digits_value acc s.
Proof.
  revert acc. induction s as [|c s IH]; intros acc Hs Hacc; [done|].
  cbn [all_digits] in Hs. apply andb_true_iff in Hs as [Hc Hs].
  cbn [digits_value]. apply IH; [done|].
  pose proof (digit_val_bounds c Hc). lia.
Qed.

(** On a string of digits [int] returns a number that is not negative. *)
Lemma int_isdigit s :
  isdigit s = true → int s = Return (digits_value 0 s) ∧ 0 ≤ digits_value 0 s.
Proof.
  intros Hs. split.
  - destruct s as [|c s]; [done|].
    assert (is_ascii_digit c = true) as Hc.
    { cbn [isdigit all_digits] in Hs. by apply andb_true_iff in Hs as [? _]. }
    unfold int. rewrite Hs.
    destruct c as [[] [] [] [] [] [] [] []]; try reflexivity; cbv in Hc; discriminate Hc.
  - apply digits_value_nonneg; [|done]. by destruct s.
Qed.

Lemma index_in_range {A} (l : list A) (i : Z) :
  0 ≤ i < Z.of_nat (length l) →
  ∃ x, l !! Z.to_nat i = Some x ∧ index l i = Return x.
Proof.
  intros Hi. unfold index. cbv zeta.
  rewrite !(proj2 (Z.ltb_ge i 0)) by lia.
  rewrite (proj2 (Z.leb_gt (Z.of_nat (length l)) i)) by lia. cbn [orb].
  destruct (l !! Z.to_nat i) as [x|] eqn:Hl; [by exists x|].
  apply lookup_ge_None in Hl. lia.
Qed.

(** [validate_parking_slot] on numeric coordinates and a rectangular grid:
    coordinates outside the grid give the out-of-bounds error, and the grid
    is indexed only inside its bounds. *)
Lemma validate_parking_slot_checks_bounds
    (db : DB) (fp : FloorPlan) (v : FloorPlanVersion)
    (cell_row cell_column : string) (columns : nat) :
  isdigit cell_row = true →
  isdigit cell_column = true →
  filter (fun p => fp_id p = fp_id fp) (floor_plans db) = [fp] →
  fp_plan_type fp = PARKING →
  ParkingService.latest_version db (fp_id fp) = Return (Some v) →
  Forall (fun row => length row = columns) (fpv_grid_data v) →
  let r := digits_value 0 cell_row in
  let c := digits_value 0 cell_column in
  0 ≤ r ∧ 0 ≤ c
  ∧ (¬ (r < Z.of_nat (length (fpv_grid_data v)) ∧ c < Z.of_nat columns) →
     ParkingService.validate_parking_slot db (fp_id fp) cell_row cell_column
     = Return (false, Some Cell_coordinates_out_of_bounds))
  ∧ (r < Z.of_nat (length (fpv_grid_data v)) ∧ c < Z.of_nat columns →
     ∃ row cell,
       fpv_grid_data v !! Z.to_nat r = Some row ∧ row !! Z.to_nat c = Some cell
       ∧ ParkingService.validate_parking_slot db (fp_id fp) cell_row cell_column
         = Return (if eq_str (get cell "cell_type") (cell_type_value PARKING_SLOT)
                   then (true, None)
                   else (false, Some Cell_is_not_a_parking_slot))).
Proof.
  intros Hrow Hcol Hfp Hty Hv Hrect r c.
  destruct (int_isdigit _ Hrow) as [Hir Hr].
  destruct (int_isdigit _ Hcol) as [Hic Hc].
  fold r in Hir, Hr. fold c in Hic, Hc.
  assert (
    ParkingService.validate_parking_slot db (fp_id fp) cell_row cell_column
    = (out_of_bounds ←
         (if r >=? Z.of_nat (length (fpv_grid_data v)) then Return true
          else row0 ← index (fpv_grid_data v) 0;
               Return (c >=? Z.of_nat (length row0)));
       if out_of_bounds : bool then
         Return (false, Some Cell_coordinates_out_of_bounds)
       else
         row ← index (fpv_grid_data v) r;
         cell ← index row c;
         if negb (eq_str (get cell "cell_type") (cell_type_value PARKING_SLOT)) then
           Return (false, Some Cell_is_not_a_parking_slot)
         else Return (true, None))) as Hcode.
  { unfold ParkingService.validate_parking_slot.
    rewrite Hrow, Hcol. cbn [negb orb]. rewrite Hfp.
    cbn [scalar_one_or_none mbind outcome_bind].
    rewrite bool_decide_eq_false_2 by (by intros ?).
    rewrite Hv. cbn [mbind outcome_bind]. rewrite Hir, Hic. done. }
  split_and!; [done..| |].
  - intros Hout. rewrite Hcode.
    destruct (Z.geb_spec r (Z.of_nat (length (fpv_grid_data v)))) as [Hge|Hlt]; [done|].
    destruct (index_in_range (fpv_grid_data v) 0) as (row0 & Hrow0 & ->); [lia|].
    cbn [mbind outcome_bind].
    assert (length row0 = columns) as ->.
    { eapply (Forall_lookup_1 _ _ _ _ Hrect). exact Hrow0. }
    rewrite (proj2 (Z.geb_le _ _)) by lia. done.
  - intros [Hrlt Hclt]. rewrite Hcode.
    destruct (index_in_range (fpv_grid_data v) r) as (row & Hrw & Hirow); [lia|].
    assert (length row = columns) as Hlen
      by (eapply (Forall_lookup_1 _ _ _ _ Hrect); exact Hrw).
    destruct (index_in_range row c) as (cell & Hcell & Hicell); [lia|].
    exists row, cell. split_and!; [done..|].
    destruct (Z.geb_spec r (Z.of_nat (length (fpv_grid_data v)))) as [Hge|_]; [lia|].
    destruct (index_in_range (fpv_grid_data v) 0) as (row0 & Hrow0 & ->); [lia|].
    cbn [mbind outcome_bind].
    assert (length row0 = columns) as ->
      by (eapply (Forall_lookup_1 _ _ _ _ Hrect); exact Hrow0).
    destruct (Z.geb_spec c (Z.of_nat columns)) as [Hge|_]; [lia|].
    rewrite Hirow. cbn [mbind outcome_bind]. rewrite Hicell. cbn [mbind outcome_bind].
    by destruct (eq_str _ _).
Qed.

Lemma index_from_end {A} (l : list A) (i : Z) :
  - Z.of_nat (length l) ≤ i < 0 →
  ∃ x, l !! Z.to_nat (i + Z.of_nat (length l)) = Some x ∧ index l i = Return x.
Proof.
  intros Hi. unfold index. cbv zeta.
  rewrite !(proj2 (Z.ltb_lt i 0)) by lia.
  rewrite (proj2 (Z.ltb_ge (i + Z.of_nat (length l)) 0)) by lia.
  rewrite (proj2 (Z.leb_gt (Z.of_nat (length l)) (i + Z.of_nat (length l)))) by lia.
  cbn [orb].
  destruct (l !! Z.to_nat (i + Z.of_nat (length l))) as [x|] eqn:Hl; [by exists x|].
  apply lookup_ge_None in Hl. lia.
Qed.

(** The defect of [validate_desk_cell] in general: on a rectangular grid, a
    negative row with a column inside the grid is not refused; the verdict
    is that of the cell counted from the last row. *)
Lemma validate_desk_cell_wraps_around
    (db : DB) (floor_plan_id : UUID) (v : FloorPlanVersion)
    (cell_row cell_column : string) (r c : Z) (columns : nat) :
  FloorPlanService.get_latest_version db floor_plan_id = Return (Some v) →
  Forall (fun row => length row = columns) (fpv_grid_data v) →
  int cell_row = Return r →
  int cell_column = Return c →
  - Z.of_nat (length (fpv_grid_data v)) ≤ r < 0 →
  0 ≤ c < Z.of_nat columns →
  ∃ row cell,
    fpv_grid_data v !! Z.to_nat (r + Z.of_nat (length (fpv_grid_data v))) = Some row
    ∧ row !! Z.to_nat c = Some cell
    ∧ DeskService.validate_desk_cell db floor_plan_id cell_row cell_column
      = Return (if negb (eq_str (get cell "cell_type") (cell_type_value DESK))
                then (false, Some Cell_is_not_a_desk, None)
                else if negb (truthy (get_default cell "is_active" (JBool true)))
                then (false, Some Desk_is_not_active, None)
                else (true, None, Some (fpv_version v))).
Proof.
  intros Hv Hrect Hr Hc Hrow Hcol.
  destruct (index_from_end (fpv_grid_data v) r) as (row & Hrw & Hirow); [lia|].
  assert (length row = columns) as Hlen
    by (eapply (Forall_lookup_1 _ _ _ _ Hrect); exact Hrw).
  destruct (index_in_range row c) as (cell & Hcell & Hicell); [lia|].
  destruct (index_in_range (fpv_grid_data v) 0) as (row0 & Hrow0 & Hirow0); [lia|].
  assert (length row0 = columns) as Hlen0
    by (eapply (Forall_lookup_1 _ _ _ _ Hrect); exact Hrow0).
  exists row, cell. split_and!; [done..|].
  unfold DeskService.validate_desk_cell.
  unfold FloorPlanService.get_latest_version in Hv. rewrite Hv.
  cbn [mbind outcome_bind]. rewrite Hr, Hc. cbn [mbind outcome_bind].
  destruct (Z.geb_spec r (Z.of_nat (length (fpv_grid_data v)))) as [?|_]; [lia|].
  rewrite Hirow0. cbn [mbind outcome_bind]. rewrite Hlen0.
  destruct (Z.geb_spec c (Z.of_nat columns)) as [?|_]; [lia|].
  rewrite Hirow. cbn [mbind outcome_bind]. rewrite Hicell. cbn [mbind outcome_bind].
  destruct (negb (eq_str _ _)); [done|]. by destruct (negb (truthy _)).
Qed.
(** C7 (where the code departs from the claim): [validate_desk_cell] and
    [validate_table_cell] take [int] of the coordinates and compare them with
    the upper bounds only.  On the three by three desk floor, the pair
    (-2, -2) indexes the grid from its end, lands on desk D1 and is accepted;
    (-1, 0) lands on another cell and gives the wrong-cell-type error; and
    (-4, 0) escapes as [IndexError].  [validate_parking_slot] first insists
    on digits, so a negative coordinate never reaches the grid there, and a
    coordinate past the end gives the out-of-bounds error. *)
Theorem validate_desk_cell_negative_coordinates :
  DeskService.validate_desk_cell desk_floor 100 "-2" "-2" = Return (true, None, Some 1)
  ∧ DeskService.validate_desk_cell desk_floor 100 "-1" "0"
    = Return (false, Some Cell_is_not_a_desk, None)
  ∧ DeskService.validate_desk_cell desk_floor 100 "-4" "0" = Raise IndexError
  ∧ DeskService.validate_desk_cell desk_floor 100 "3" "0"
    = Return (false, Some Cell_coordinates_out_of_bounds, None)
  ∧ CafeteriaService.validate_table_cell desk_floor 100 "-2" "-2"
    = Return (false, Some Cell_is_not_a_cafeteria_table)
  ∧ ParkingService.validate_parking_slot parking_floor 200 "-2" "-2"
    = Return (false, Some Cell_row_and_column_must_be_numeric)
  ∧ ParkingService.validate_parking_slot parking_floor 200 "1" "3"
    = Return (false, Some Cell_coordinates_out_of_bounds).
Proof. vm_compute. repeat split. Qed.

End CellCoordinates.

(** ** Floats *)

Section Floats.
Import ParkingService.

Lemma round_half_even_le n d M :
  0 < d → n ≤ M * d → round_half_even n d ≤ M.
Proof.
  intros Hd Hn. unfold round_half_even.
  pose proof (Z.div_mod n d ltac:(lia)) as Hdm.
  pose proof (Z.mod_pos_bound n d Hd) as Hr.
  set (q := n / d) in *. set (r := n mod d) in *.
  assert (q ≤ M) by nia.
  destruct (Z.ltb_spec (2 * r) d); [done|].
  assert (q + 1 ≤ M) by nia.
  destruct (Z.ltb_spec d (2 * r)); [done|].
  by destruct (Z.even q).
Qed.

Lemma round_half_even_ge n d M :
  0 < d → M * d ≤ n → M ≤ round_half_even n d.
Proof.
  intros Hd Hn. unfold round_half_even.
  pose proof (Z.div_mod n d ltac:(lia)) as Hdm.
  pose proof (Z.mod_pos_bound n d Hd) as Hr.
  set (q := n / d) in *. set (r := n mod d) in *.
  assert (M ≤ q) by nia.
  destruct (Z.ltb_spec (2 * r) d); [done|].
  destruct (Z.ltb_spec d (2 * r)); [lia|].
  destruct (Z.even q); lia.
Qed.

(** The exponent that [nearest_float] keeps: none below 2^53 units, and
    otherwise the one that leaves 53 bits. *)
Lemma nearest_float_shift q s :
  s = Z.max 0 (Z.log2 q - 52) →
  0 ≤ s
  ∧ (0 < s → 2 ^ (52 + s) ≤ q)
  ∧ (∀ B, 53 ≤ B → q < 2 ^ B → s ≤ B - 53).
Proof.
  intros Hs. split_and!.
  - lia.
  - intros Hpos. assert (0 < q) as Hq.
    { destruct (Z.le_gt_cases q 0) as [Hle|]; [|done].
      rewrite (Z.log2_nonpos q Hle) in Hs. lia. }
    replace (52 + s) with (Z.log2 q) by lia. by apply Z.log2_spec.
  - intros B HB Hlt. destruct (Z.le_gt_cases q 0) as [Hle|Hq].
    + rewrite (Z.log2_nonpos q Hle) in Hs. lia.
    + apply Z.log2_lt_pow2 in Hlt; [|done]. lia.
Qed.

Lemma nearest_float_ge n d c K :
  0 ≤ n → 0 < d → 0 ≤ K → 0 ≤ c < 2 ^ 53 →
  c * 2 ^ K * d ≤ n → c * 2 ^ K ≤ nearest_float n d.
Proof.
  intros Hn Hd HK Hc Hle. unfold nearest_float.
  remember (Z.max 0 (Z.log2 (n / d) - 52)) as s eqn:Hs.
  destruct (nearest_float_shift (n / d) s Hs) as (Hs0 & Hbig & _). clear Hs.
  assert (0 < 2 ^ s) as Hps by (by apply Z.pow_pos_nonneg).
  destruct (Z.le_gt_cases s K) as [HsK | HsK].
  - assert (2 ^ K = 2 ^ (K - s) * 2 ^ s) as HKs.
    { rewrite <- Z.pow_add_r by lia. f_equal. lia. }
    assert (c * 2 ^ (K - s) ≤ round_half_even n (d * 2 ^ s)) as Hm.
    { apply round_half_even_ge; [nia|]. rewrite HKs in Hle. nia. }
    rewrite HKs. nia.
  - assert (2 ^ (52 + s) ≤ n / d) as Hq by (apply Hbig; lia).
    assert (2 ^ (52 + s) * d ≤ n) as Hqd.
    { pose proof (Z.mul_div_le n d Hd). nia. }
    assert (2 ^ (52 + s) = 2 ^ 52 * 2 ^ s) as H52 by (by rewrite Z.pow_add_r by lia).
    assert (2 ^ 52 ≤ round_half_even n (d * 2 ^ s)) as Hm.
    { apply round_half_even_ge; [nia|]. rewrite H52 in Hqd. nia. }
    assert (2 ^ s = 2 ^ (s - K) * 2 ^ K) as HsK'.
    { rewrite <- Z.pow_add_r by lia. f_equal. lia. }
    assert (2 ≤ 2 ^ (s - K)) as H2.
    { change 2 with (2 ^ 1) at 1. apply Z.pow_le_mono_r; lia. }
    assert (0 < 2 ^ K) by (by apply Z.pow_pos_nonneg).
    set (R := round_half_even n (d * 2 ^ s)) in *.
    rewrite HsK'.
    transitivity (2 ^ 52 * 2 * 2 ^ K); [change (2 ^ 52 * 2) with (2 ^ 53); nia|].
    rewrite Z.mul_assoc. apply Z.mul_le_mono_nonneg_r; [lia|].
    apply Z.mul_le_mono_nonneg; lia.
Qed.

Lemma nearest_float_le n d a b :
  0 ≤ n → 0 < d → 0 ≤ b → 0 ≤ a < 2 ^ 53 →
  n ≤ a * 2 ^ b * d → nearest_float n d ≤ a * 2 ^ b.
Proof.
  intros Hn Hd Hb Ha Hle. unfold nearest_float.
  remember (Z.max 0 (Z.log2 (n / d) - 52)) as s eqn:Hs.
  destruct (nearest_float_shift (n / d) s Hs) as (Hs0 & Hbig & _). clear Hs.
  assert (0 < 2 ^ s) as Hps by (by apply Z.pow_pos_nonneg).
  destruct (Z.le_gt_cases s b) as [Hsb | Hsb].
  - assert (2 ^ b = 2 ^ (b - s) * 2 ^ s) as Hbs.
    { rewrite <- Z.pow_add_r by lia. f_equal. lia. }
    assert (round_half_even n (d * 2 ^ s) ≤ a * 2 ^ (b - s)) as Hm.
    { apply round_half_even_le; [nia|]. rewrite Hbs in Hle. nia. }
    rewrite Hbs. nia.
  - exfalso.
    assert (2 ^ (52 + s) ≤ n / d) as Hq by (apply Hbig; lia).
    assert (n / d ≤ a * 2 ^ b) as Hup.
    { apply Z.div_le_upper_bound; [done|]. nia. }
    assert (2 ^ (52 + s) = 2 ^ 53 * 2 ^ (s - 1 - b) * 2 ^ b) as H52.
    { rewrite <- !Z.pow_add_r by lia. f_equal. lia. }
    assert (0 < 2 ^ (s - 1 - b)) by (apply Z.pow_pos_nonneg; lia).
    assert (0 < 2 ^ b) by (by apply Z.pow_pos_nonneg).
    assert (2 ^ 53 * 2 ^ b ≤ 2 ^ 53 * 2 ^ (s - 1 - b) * 2 ^ b) by nia.
    nia.
Qed.

Lemma nearest_float_0 d : 0 < d → nearest_float 0 d = 0.
Proof.
  intros Hd. unfold nearest_float. rewrite Z.div_0_l by lia. cbn [Z.log2 Z.sub Z.max].
  change (Z.max 0 (0 - 52)) with 0. rewrite Z.pow_0_r, Z.mul_1_r, Z.mul_1_r.
  unfold round_half_even. rewrite Z.div_0_l, Zmod_0_l by lia.
  by destruct (Z.ltb_spec (2 * 0) d); [|lia].
Qed.

(** The float quotient is exact in the minutes for a span of less than
    2^27 minutes. *)
Lemma duration_minutes_of_nonneg (us : Z) :
  0 ≤ us < 2 ^ 27 * MICROSECONDS_PER_MINUTE →
  int_of_float (float_div_int (total_seconds us) 60)
  = us `div` MICROSECONDS_PER_MINUTE.
Proof.
  unfold MICROSECONDS_PER_MINUTE, total_seconds. intros [H0 Hlt].
  destruct (Z.eq_dec us 0) as [-> | Hne]; [by vm_compute|].
  set (k := us `div` 60000000).
  assert (60000000 * k ≤ us < 60000000 * (k + 1)) as [Hk1 Hk2].
  { pose proof (Z.div_mod us 60000000 ltac:(lia)).
    pose proof (Z.mod_pos_bound us 60000000 ltac:(lia)). subst k. lia. }
  assert (0 ≤ k < 2 ^ 27) as [Hk0 Hk27].
  { split; [apply Z.div_pos; lia|]. apply Z.div_lt_upper_bound; lia. }
  unfold int_truediv, float_div_int, int_of_float, float_unit.
  rewrite (Z.sgn_pos us), (Z.abs_eq us), Z.mul_1_l by lia.
  remember 1074 as K eqn:HK.
  assert (26 ≤ K) as HK26 by lia. clear HK.
  set (U := 2 ^ K).
  assert (U = 2 ^ 26 * 2 ^ (K - 26)) as HU.
  { unfold U. rewrite <- Z.pow_add_r by lia. f_equal. lia. }
  assert (0 < 2 ^ (K - 26)) as HP by (apply Z.pow_pos_nonneg; lia).
  assert (2 ^ (K - 20) = 2 ^ 6 * 2 ^ (K - 26)) as HU20.
  { rewrite <- Z.pow_add_r by lia. f_equal. lia. }
  set (P := 2 ^ (K - 26)) in *.
  change (2 ^ 26) with 67108864 in HU. change (2 ^ 6) with 64 in HU20.
  change (2 ^ 27) with 134217728 in Hk27.
  change (10 ^ 6) with 1000000.
  set (x := nearest_float (us * U) 1000000).
  assert (60 * k * U ≤ x) as Hx1.
  { apply nearest_float_ge; [nia | lia | lia | | ].
    - change (2 ^ 53) with 9007199254740992. lia.
    - fold U. nia. }
  assert (x ≤ (60 * (k + 1) * 2 ^ 20 - 1) * 2 ^ (K - 20)) as Hx2.
  { apply nearest_float_le; [nia | lia | lia | | ].
    - change (2 ^ 53) with 9007199254740992. change (2 ^ 20) with 1048576. lia.
    - rewrite HU20, HU. change (2 ^ 20) with 1048576. nia. }
  assert (0 ≤ x) as Hx0 by nia.
  assert (Z.sgn x * nearest_float (Z.abs x) 60 = nearest_float x 60) as ->.
  { destruct (Z.eq_dec x 0) as [-> | ?]; [by rewrite nearest_float_0|].
    rewrite Z.sgn_pos, Z.abs_eq by lia. lia. }
  set (y := nearest_float x 60).
  assert (k * U ≤ y) as Hy1.
  { apply nearest_float_ge; [lia | lia | lia | | ].
    - change (2 ^ 53) with 9007199254740992. lia.
    - fold U. lia. }
  assert (y ≤ ((k + 1) * 2 ^ 26 - 1) * 2 ^ (K - 26)) as Hy2.
  { apply nearest_float_le; [lia | lia | lia | | ].
    - change (2 ^ 53) with 9007199254740992. change (2 ^ 26) with 67108864. lia.
    - fold P. rewrite HU20 in Hx2. fold P in Hx2.
      change (2 ^ 20) with 1048576 in Hx2. change (2 ^ 26) with 67108864. nia. }
  fold P in Hy2. change (2 ^ 26) with 67108864 in Hy2.
  assert (0 < U) by lia.
  rewrite Z.quot_div_nonneg by lia.
  symmetry. apply Z.div_unique with (y - k * U). lia. lia.
Qed.

Lemma duration_minutes_of_opp (entry_time exit_time : Z) :
  duration_minutes_of exit_time entry_time = - duration_minutes_of entry_time exit_time.
Proof.
  unfold duration_minutes_of, total_seconds, int_truediv, float_div_int, int_of_float.
  cbv zeta. replace (entry_time - exit_time) with (- (exit_time - entry_time)) by lia.
  set (d := exit_time - entry_time).
  rewrite Z.sgn_opp, Z.abs_opp, Z.mul_opp_l.
  set (x := Z.sgn d * nearest_float (Z.abs d * float_unit) (10 ^ 6)).
  rewrite Z.sgn_opp, Z.abs_opp, Z.mul_opp_l.
  apply Z.quot_opp_l. unfold float_unit. by apply Z.pow_nonzero.
Qed.

(** For a span of less than 2^27 minutes, some 255 years, the float
    quotient gives the elapsed minutes truncated towards zero. *)
Lemma duration_minutes_of_exact (entry_time exit_time : Z) :
  Z.abs (exit_time - entry_time) < 2 ^ 27 * MICROSECONDS_PER_MINUTE →
  duration_minutes_of entry_time exit_time
  = Z.quot (exit_time - entry_time) MICROSECONDS_PER_MINUTE.
Proof.
  intros Hspan. destruct (Z.le_gt_cases entry_time exit_time) as [Hle | Hgt].
  - unfold duration_minutes_of. cbv zeta.
    rewrite duration_minutes_of_nonneg by lia.
    symmetry. apply Z.quot_div_nonneg; [lia | done].
  - rewrite duration_minutes_of_opp. unfold duration_minutes_of at 1. cbv zeta.
    rewrite duration_minutes_of_nonneg by lia.
    rewrite <- Z.quot_div_nonneg by (done || lia).
    rewrite <- Z.quot_opp_l by done. f_equal. lia.
Qed.

End Floats.


(** ** Parking allocations *)

Section ParkingAllocations.
Import ParkingService Reference Examples.

Lemma get_allocation_by_id_held db (P : ParkingAllocation → Prop)
    `{!∀ a, Decision (P a)} held allocation :
  filter P (parking_allocations db) = [held] →
  get_allocation_by_id db (pa_id held) = Return (Some allocation) →
  allocation = held.
Proof.
  intros Hheld Hget. apply scalar_one_or_none_Some in Hget.
  apply filter_singleton_elem in Hheld as (Hin & _ & _).
  apply filter_singleton_elem in Hget as (_ & _ & Huniq).
  symmetry. by apply Huniq.
Qed.

(** What a successful [record_exit] is. *)
Lemma record_exit_cases db hid now allocation_id actor timestamp allocation :
  get_allocation_by_id db allocation_id = Return (Some allocation) →
  record_exit db hid now allocation_id actor timestamp
  = if bool_decide (pa_parking_type allocation = PT_VISITOR)
       && negb (can_manage_parking actor)
    then (db, Return (None, Some Only_Security_Admin_can_record_visitor_exits))
    else match pa_entry_time allocation, pa_exit_time allocation with
         | None, _ => (db, Return (None, Some No_entry_recorded))
         | Some _, Some _ => (db, Return (None, Some Exit_already_recorded))
         | Some entry_time, None =>
             let exit_time := default now timestamp in
             let released := set_exit exit_time allocation in
             (with_history (store db released)
                (parking_history db ++
                   [mkParkingHistory hid (pa_id allocation)
                      (pa_floor_plan_id allocation) (pa_slot_label allocation)
                      (pa_parking_type allocation) (pa_user_id allocation)
                      (pa_visitor_name allocation) (pa_vehicle_number allocation)
                      entry_time exit_time
                      (str_of_Z (duration_minutes_of entry_time exit_time))]),
              Return (Some released, None))
         end.
Proof.
  intros Hget. unfold record_exit. rewrite Hget.
  destruct (_ && _); [done|].
  destruct (pa_entry_time allocation) as [entry_time|]; [|done].
  by destruct (pa_exit_time allocation).
Qed.

(** The slot is validated before the user is looked at: Alice holds P1 and
    asks for a cell outside the grid.  The request is refused with the error
    of the slot validation, not with a conflict. *)
Lemma create_allocation_validation_comes_first :
  check_user_active_parking alice_parked (user_id alice) = Return (Some alice_on_P1)
  ∧ ∃ e,
      (create_allocation alice_parked 600 (employee_request alice "P2" "1" "9") alice).2
        = Return (None, Some e)
      ∧ kind_of e ≠ ConflictError.
Proof.
  split; [reflexivity|].
  exists Cell_coordinates_out_of_bounds. split; [reflexivity | discriminate].
Qed.

(** As long as [check_user_active_parking] finds exactly one allocation of
    an employee, a further employee-parking [create_allocation] for the same
    user never creates an allocation and leaves the database as it was; once
    the slot named by the request has passed [validate_parking_slot], which
    runs first, the reply is a conflict error, and it is the
    duplicate-allocation conflict when the slot is free.  After a successful
    [record_exit] on the held allocation the employee holds none, and a
    request for a valid, free slot succeeds. *)
Lemma one_active_parking_per_employee
    (db : DB) (user_id : UUID) (held : ParkingAllocation) :
  check_user_active_parking db user_id = Return (Some held) →
  (∀ new_id allocation_data created_by,
     pac_parking_type allocation_data = PT_EMPLOYEE →
     pac_user_id allocation_data = Some user_id →
     let result := create_allocation db new_id allocation_data created_by in
     result.1 = db
     ∧ (∀ a e, result.2 ≠ Return (Some a, e))
     ∧ (validate_parking_slot db (pac_floor_plan_id allocation_data)
          (pac_cell_row allocation_data) (pac_cell_column allocation_data)
        = Return (true, None) →
        ∀ free,
          check_slot_availability db (pac_floor_plan_id allocation_data)
            (pac_slot_label allocation_data) = Return free →
          ∃ e, result.2 = Return (None, Some e)
               ∧ kind_of e = ConflictError
               ∧ (free = true → e = User_already_has_active_parking)))
  ∧ (∀ hid now actor timestamp db1 released,
       record_exit db hid now (pa_id held) actor timestamp
         = (db1, Return (Some released, None)) →
       check_user_active_parking db1 user_id = Return None
       ∧ ∀ new_id allocation_data created_by,
           pac_parking_type allocation_data = PT_EMPLOYEE →
           pac_user_id allocation_data = Some user_id →
           validate_parking_slot db1 (pac_floor_plan_id allocation_data)
             (pac_cell_row allocation_data) (pac_cell_column allocation_data)
           = Return (true, None) →
           check_slot_availability db1 (pac_floor_plan_id allocation_data)
             (pac_slot_label allocation_data) = Return true →
           ∃ allocation,
             create_allocation db1 new_id allocation_data created_by
             = (with_allocations db1 (parking_allocations db1 ++ [allocation]),
                Return (Some allocation, None))
             ∧ pa_user_id allocation = Some user_id
             ∧ pa_slot_label allocation = pac_slot_label allocation_data
             ∧ check_user_active_parking
                 (with_allocations db1 (parking_allocations db1 ++ [allocation]))
                 user_id
               = Return (Some allocation)).
Proof.
  intros Hheld. split.
  - intros new_id allocation_data created_by Hty Huser result.
    subst result. unfold create_allocation.
    destruct (validate_parking_slot _ _ _ _) as [[[] error]|] eqn:Hvalid;
      [|split_and!; [done | by intros ? ? | by intros [=]]..].
    destruct (check_slot_availability _ _ _) as [[]|] eqn:Hfree.
    + rewrite decide_True by done. rewrite Huser, Hheld.
      cbn [mbind outcome_bind].
      rewrite bool_decide_eq_true_2 by (by eexists).
      split_and!; [done | by intros ? ? |].
      intros _ free [= <-]. eauto.
    + split_and!; [done | by intros ? ? |].
      intros _ free [= <-]. eexists. split_and!; [done..|]. intros [=].
    + split_and!; [done | by intros ? ? |]. intros _ free [=].
  - intros hid now actor timestamp db1 released Hexit.
    apply scalar_one_or_none_Some in Hheld as Hrows.
    destruct (get_allocation_by_id db (pa_id held)) as [[allocation|]|] eqn:Hget;
      [|unfold record_exit in Hexit; rewrite Hget in Hexit; by simplify_eq..].
    assert (allocation = held) as -> by (by eapply get_allocation_by_id_held).
    rewrite (record_exit_cases _ _ _ _ _ _ _ Hget) in Hexit.
    destruct (_ && _); [by simplify_eq|].
    destruct (pa_entry_time held) as [entry_time|]; [|by simplify_eq].
    destruct (pa_exit_time held); [by simplify_eq|].
    cbn zeta in Hexit. injection Hexit as <- <-.
    assert (check_user_active_parking
              (with_history (store db (set_exit (default now timestamp) held))
                 (parking_history db ++
                    [mkParkingHistory hid (pa_id held) (pa_floor_plan_id held)
                       (pa_slot_label held) (pa_parking_type held) (pa_user_id held)
                       (pa_visitor_name held) (pa_vehicle_number held) entry_time
                       (default now timestamp)
                       (str_of_Z (duration_minutes_of entry_time (default now timestamp)))]))
              user_id = Return None) as Hnone.
    { unfold check_user_active_parking, store.
      cbn [parking_allocations with_history with_allocations].
      rewrite (filter_write_back_gone pa_id); [done| |].
      - intros (_ & Hact & _). cbn in Hact. discriminate Hact.
      - apply filter_singleton_elem in Hrows as (_ & _ & Huniq).
        intros r Hr HP. cbn [pa_id set_exit]. by rewrite (Huniq r Hr HP). }
    split; [done|].
    intros new_id allocation_data created_by Hty Huser Hvalid Hfree.
    eexists. split_and!.
    + unfold create_allocation. rewrite Hvalid, Hfree.
      rewrite decide_True by done. rewrite Huser, Hnone.
      cbn [mbind outcome_bind].
      rewrite bool_decide_eq_false_2 by (by intros [? ?]).
      rewrite Hty. cbn [bool_decide andb]. 
      rewrite bool_decide_eq_false_2 by done. cbn [andb]. reflexivity.
    + done.
    + done.
    + apply scalar_one_or_none_None in Hnone.
      unfold check_user_active_parking in Hnone |- *.
      cbn [parking_allocations with_allocations] in Hnone |- *.
      rewrite filter_app, Hnone, filter_cons, filter_nil.
      rewrite decide_True; [done|]. by repeat split.
Qed.


(** C2 fails in the code: the check for an active allocation of the user is
    made for employee parking only.  A visitor-type [create_allocation] that
    carries the user id of an employee who holds an active allocation, made
    by someone who passes the parking gate for a valid, free slot, is
    accepted: the employee then holds two active allocations.  From then on
    [check_user_active_parking] raises [MultipleResultsFound], and so does
    every employee-parking [create_allocation] for that user that gets as far
    as the check, instead of returning the conflict. *)
Theorem visitor_type_allocation_breaks_one_per_employee
    (db : DB) (user_id : UUID) (held : ParkingAllocation)
    (new_id : UUID) (allocation_data : ParkingAllocationCreate) (created_by : User) :
  check_user_active_parking db user_id = Return (Some held) →
  pac_parking_type allocation_data = PT_VISITOR →
  pac_user_id allocation_data = Some user_id →
  can_manage_parking created_by = true →
  (∃ c name, pac_visitor_name allocation_data = Some (String c name)) →
  validate_parking_slot db (pac_floor_plan_id allocation_data)
    (pac_cell_row allocation_data) (pac_cell_column allocation_data)
  = Return (true, None) →
  check_slot_availability db (pac_floor_plan_id allocation_data)
    (pac_slot_label allocation_data) = Return true →
  ∃ second,
    let db' := with_allocations db (parking_allocations db ++ [second]) in
    create_allocation db new_id allocation_data created_by
    = (db', Return (Some second, None))
    ∧ pa_user_id second = Some user_id
    ∧ pa_is_active second = true ∧ pa_exit_time second = None
    ∧ filter (fun a => pa_user_id a = Some user_id ∧ occupying a)
             (parking_allocations db') = [held; second]
    ∧ check_user_active_parking db' user_id = Raise MultipleResultsFound
    ∧ ∀ new_id' allocation_data' created_by',
        pac_parking_type allocation_data' = PT_EMPLOYEE →
        pac_user_id allocation_data' = Some user_id →
        validate_parking_slot db' (pac_floor_plan_id allocation_data')
          (pac_cell_row allocation_data') (pac_cell_column allocation_data')
        = Return (true, None) →
        check_slot_availability db' (pac_floor_plan_id allocation_data')
          (pac_slot_label allocation_data') = Return true →
        create_allocation db' new_id' allocation_data' created_by'
        = (db', Raise MultipleResultsFound).
Proof.
  intros Hheld Hty Huser Hgate (c & name & Hname) Hvalid Hfree.
  apply scalar_one_or_none_Some in Hheld.
  set (second :=
         mkParkingAllocation new_id (pac_floor_plan_id allocation_data)
           (pac_slot_label allocation_data) (pac_cell_row allocation_data)
           (pac_cell_column allocation_data) (pac_parking_type allocation_data)
           (pac_user_id allocation_data) (pac_visitor_name allocation_data)
           (pac_visitor_phone allocation_data)
           (pac_visitor_company allocation_data)
           (pac_vehicle_number allocation_data) None None true
           (pac_notes allocation_data)).
  exists second. cbv zeta.
  assert (filter (fun a => pa_user_id a = Some user_id ∧ occupying a)
                 (parking_allocations db ++ [second])
          = [held; second]) as Htwo.
  { rewrite filter_app, Hheld, filter_cons, filter_nil.
    rewrite decide_True; [reflexivity|]. by repeat split. }
  split_and!.
  - unfold second, create_allocation. rewrite Hvalid, Hfree.
    rewrite decide_False by (rewrite Hty; discriminate).
    rewrite Hty, Hgate, Hname. cbn [negb andb].
    rewrite bool_decide_eq_true_2 by done. cbn [andb].
    rewrite bool_decide_eq_false_2 by (intros [[=]|[=]]).
    reflexivity.
  - done.
  - done.
  - done.
  - exact Htwo.
  - unfold check_user_active_parking. cbn [parking_allocations with_allocations].
    by rewrite Htwo.
  - intros new_id' allocation_data' created_by' Hty' Huser' Hvalid' Hfree'.
    unfold create_allocation. rewrite Hvalid', Hfree'.
    rewrite decide_True by done. rewrite Huser'.
    unfold check_user_active_parking. cbn [parking_allocations with_allocations].
    by rewrite Htwo.
Qed.

(** On the ramp Alice holds P1.  The parking manager books P2 as visitor
    parking under Alice's user id: accepted.  Alice's own request for P3
    then raises. *)
Lemma visitor_type_allocation_breaks_one_per_employee_witness :
  ∃ second,
    let db' := with_allocations ramp_parked [alice_on_ramp; second] in
    create_allocation ramp_parked 520 visitor_type_request_for_alice parking_manager
    = (db', Return (Some second, None))
    ∧ pa_user_id second = Some (user_id alice)
    ∧ check_user_active_parking db' (user_id alice) = Raise MultipleResultsFound
    ∧ create_allocation db' 521 (ramp_request "P3" "2") alice
      = (db', Raise MultipleResultsFound).
Proof.
  destruct (visitor_type_allocation_breaks_one_per_employee ramp_parked
              (user_id alice) alice_on_ramp 520 visitor_type_request_for_alice
              parking_manager eq_refl eq_refl eq_refl eq_refl)
    as (second & Hcreate & Huser & _ & _ & _ & Hcheck & Hnext).
  - by eexists _, _.
  - reflexivity.
  - reflexivity.
  - exists second. cbv zeta in *. split_and!.
    + exact Hcreate.
    + exact Huser.
    + exact Hcheck.
    + apply Hnext; [reflexivity | reflexivity | |].
      * injection Hcreate as _ <-. reflexivity.
      * injection Hcreate as _ <-. reflexivity.
Defined.

(** [can_manage_parking] is the gate of the specification at the PARKING
    plan type: SUPER_ADMIN, ADMIN, or a MANAGER of the parking domain. *)
Lemma can_manage_parking_spec (user : User) :
  can_manage_parking user
  = canManage (user_role user) (user_manager_type user) PARKING.
Proof.
  unfold can_manage_parking, canManage. cbn [domain_manager].
  destruct (user_role user); try reflexivity.
  rewrite decide_False, decide_False by done.
  rewrite bool_decide_eq_true_2 by done. cbn [andb].
  by destruct (bool_decide _).
Qed.

(** C5, as stated, fails twice.  A second exit of a visitor allocation,
    asked for by an employee, is refused for the actor's role and not as an
    invalid state: the gate comes before the look at [exit_time].  And the
    exit time is not compared with the entry time: Alice's entry is at
    10:00:30 and the exit is recorded with the timestamp 10:00:00; the call
    succeeds and the history row carries the duration "0", while the floor
    of -30 seconds over a minute is -1. *)
Lemma record_exit_departs_from_the_claim :
  (is_Some (pa_exit_time (set_exit (on_day (at_ 9 30)) visitor_on_P2))
   ∧ record_exit visitor_left 700 (on_day (at_ 11 0)) 501 alice None
     = (visitor_left, Return (None, Some Only_Security_Admin_can_record_visitor_exits)))
  ∧ let result :=
      record_exit alice_parked 700 (on_day (at_ 11 0)) 500 alice
                  (Some (on_day (at_ 10 0))) in
    ∃ released history,
      result.2 = Return (Some released, None)
      ∧ parking_history result.1 = [history]
      ∧ ph_exit_time history < ph_entry_time history
      ∧ ph_duration_minutes history = "0"
      ∧ str_of_Z ((ph_exit_time history - ph_entry_time history)
                  `div` MICROSECONDS_PER_MINUTE) = "-1".
Proof.
  split; [split; [by eexists | reflexivity]|].
  intros result. eexists _, _.
  split; [vm_compute; reflexivity|].
  split; [vm_compute; reflexivity|].
  split; [vm_compute; reflexivity|].
  split; vm_compute; reflexivity.
Qed.

(** C5, amended: [record_entry] refuses a second entry; [record_exit] on a
    visitor allocation first requires the parking gate (a parking manager,
    ADMIN or SUPER_ADMIN) and on an employee allocation never looks at the
    actor; past that gate it refuses an exit without an entry and a second
    exit, each time leaving the database as it was; otherwise it sets
    [exit_time], clears [is_active] and appends a history row with the entry
    and exit times and the duration in minutes.  The duration is
    [int(total_seconds() / 60)], computed in floats: for a span of less than
    2^27 minutes it is the elapsed time over a minute truncated towards
    zero, the floor whenever the exit is not before the entry; a longer span
    can be rounded up to the next minute.  The exit time is not compared
    with the entry time. *)
Theorem record_entry_exit_state_machine
    (db : DB) (allocation_id : UUID) (allocation : ParkingAllocation) :
  get_allocation_by_id db allocation_id = Return (Some allocation) →
  (∀ now timestamp,
     is_Some (pa_entry_time allocation) →
     record_entry db now allocation_id timestamp
     = (db, Return (None, Some Entry_already_recorded)))
  ∧ (∀ hid now actor timestamp,
       pa_parking_type allocation = PT_VISITOR →
       can_manage_parking actor = false →
       record_exit db hid now allocation_id actor timestamp
       = (db, Return (None, Some Only_Security_Admin_can_record_visitor_exits)))
  ∧ (∀ hid now actor actor' timestamp,
       pa_parking_type allocation = PT_EMPLOYEE →
       record_exit db hid now allocation_id actor timestamp
       = record_exit db hid now allocation_id actor' timestamp)
  ∧ (∀ hid now actor timestamp,
       pa_parking_type allocation = PT_EMPLOYEE ∨ can_manage_parking actor = true →
       (pa_entry_time allocation = None →
        record_exit db hid now allocation_id actor timestamp
        = (db, Return (None, Some No_entry_recorded)))
       ∧ (is_Some (pa_entry_time allocation) →
          is_Some (pa_exit_time allocation) →
          record_exit db hid now allocation_id actor timestamp
          = (db, Return (None, Some Exit_already_recorded)))
       ∧ (∀ entry_time,
            pa_entry_time allocation = Some entry_time →
            pa_exit_time allocation = None →
            let exit_time := default now timestamp in
            let released := set_exit exit_time allocation in
            ∃ history,
              record_exit db hid now allocation_id actor timestamp
              = (with_history (store db released) (parking_history db ++ [history]),
                 Return (Some released, None))
              ∧ pa_is_active released = false
              ∧ pa_exit_time released = Some exit_time
              ∧ pa_entry_time released = Some entry_time
              ∧ ph_allocation_id history = pa_id allocation
              ∧ ph_entry_time history = entry_time
              ∧ ph_exit_time history = exit_time
              ∧ ph_duration_minutes history
                = str_of_Z (int_of_float
                              (float_div_int (total_seconds (exit_time - entry_time)) 60))
              ∧ (Z.abs (exit_time - entry_time) < 2 ^ 27 * MICROSECONDS_PER_MINUTE →
                 ph_duration_minutes history
                 = str_of_Z (Z.quot (exit_time - entry_time) MICROSECONDS_PER_MINUTE))
              ∧ (entry_time ≤ exit_time →
                 Z.quot (exit_time - entry_time) MICROSECONDS_PER_MINUTE
                 = (exit_time - entry_time) `div` MICROSECONDS_PER_MINUTE)))
  ∧ (int_of_float (float_div_int (total_seconds 19704643199999999) 60) = 328410720
     ∧ Z.quot 19704643199999999 MICROSECONDS_PER_MINUTE = 328410719)
  ∧ (∀ actor, can_manage_parking actor
              = canManage (user_role actor) (user_manager_type actor) PARKING)
  ∧ kind_of Entry_already_recorded = InvalidStateError
  ∧ kind_of No_entry_recorded = InvalidStateError
  ∧ kind_of Exit_already_recorded = InvalidStateError
  ∧ kind_of Only_Security_Admin_can_record_visitor_exits = AuthorizationError.
Proof.
  intros Hget. split_and!; try done.
  - intros now timestamp Hentry. unfold record_entry. rewrite Hget.
    by rewrite bool_decide_eq_true_2.
  - intros hid now actor timestamp Hty Hcan.
    rewrite (record_exit_cases _ _ _ _ _ _ _ Hget), Hty, Hcan. done.
  - intros hid now actor actor' timestamp Hty.
    rewrite !(record_exit_cases _ _ _ _ _ _ _ Hget), Hty. done.
  - intros hid now actor timestamp Hgate.
    assert (bool_decide (pa_parking_type allocation = PT_VISITOR)
            && negb (can_manage_parking actor) = false) as Hpass.
    { destruct Hgate as [-> | ->]; [done|]. by rewrite andb_false_r. }
    rewrite (record_exit_cases _ _ _ _ _ _ _ Hget), Hpass.
    split_and!.
    + by intros ->.
    + by intros [? ->] [? ->].
    + intros entry_time Hentry Hexit exit_time released.
      rewrite Hentry, Hexit. eexists.
      split_and!; [first [reflexivity | exact Hentry]..| |].
      * intros Hspan. cbn [ph_duration_minutes]. f_equal.
        by apply duration_minutes_of_exact.
      * intros Horder. apply Z.quot_div_nonneg; [lia | done].
  - apply can_manage_parking_spec.
Qed.

(** Bob records the exit of Alice's car at 11:00: one hour less thirty
    seconds after her entry, so 59 minutes. *)
Lemma record_entry_exit_state_machine_witness :
  ∃ history,
    parking_history
      (record_exit alice_parked 700 (on_day (at_ 11 0)) 500 bob None).1 = [history]
    ∧ ph_duration_minutes history = "59".
Proof.
  destruct (record_entry_exit_state_machine alice_parked 500 alice_on_P1 eq_refl)
    as (_ & _ & _ & Hexit & _).
  destruct (Hexit 700 (on_day (at_ 11 0)) bob None (or_introl eq_refl))
    as (_ & _ & Hdone).
  destruct (Hdone (on_day (at_ 10 0 + 30000000)) eq_refl eq_refl)
    as (history & Hreply & _ & _ & _ & _ & _ & _ & _ & Hminutes & _).
  exists history. rewrite Hreply. split; [reflexivity|].
  rewrite Hminutes; [reflexivity | by vm_compute].
Defined.

(** Alice holds P1.  Her request for P2 is refused with the conflict; once
    her exit is recorded the same request is served. *)
Lemma one_active_parking_per_employee_witness :
  (create_allocation alice_parked 600 (employee_request alice "P2" "1" "2") alice).2
    = Return (None, Some User_already_has_active_parking)
  ∧ ∃ allocation,
      (create_allocation
         (record_exit alice_parked 700 (on_day (at_ 11 0)) 500 alice None).1
         600 (employee_request alice "P2" "1" "2") alice).2
      = Return (Some allocation, None).
Proof.
  destruct (one_active_parking_per_employee alice_parked 10 alice_on_P1 eq_refl)
    as [Hsecond Hafter].
  split.
  - destruct (Hsecond 600 (employee_request alice "P2" "1" "2") alice eq_refl eq_refl)
      as (_ & _ & Hconflict).
    destruct (Hconflict eq_refl true eq_refl) as (e & Hreply & _ & He).
    rewrite Hreply, (He eq_refl). reflexivity.
  - destruct (Hafter 700 (on_day (at_ 11 0)) alice None
                (record_exit alice_parked 700 (on_day (at_ 11 0)) 500 alice None).1
                (set_exit (on_day (at_ 11 0)) alice_on_P1) eq_refl)
      as [_ Hnew].
    destruct (Hnew 600 (employee_request alice "P2" "1" "2") alice
                eq_refl eq_refl eq_refl eq_refl)
      as (allocation & Hreply & _).
    exists allocation. rewrite Hreply. reflexivity.
Defined.

End ParkingAllocations.


(** ** The listing of the versions *)

Section VersionListing.
Import FloorPlanService Reference.

Lemma insert_by_version_desc_perm v l :
  insert_by_version_desc v l ≡ₚ v :: l.
Proof.
  induction l as [|w l IH]; [done|]. cbn.
  destruct (fpv_version v <? fpv_version w); [|done].
  rewrite IH. apply Permutation_swap.
Qed.

Lemma order_by_version_desc_perm rows : order_by_version_desc rows ≡ₚ rows.
Proof.
  induction rows as [|v rows IH]; [done|]. cbn.
  by rewrite insert_by_version_desc_perm, IH.
Qed.

Lemma insert_by_version_desc_sorted v l :
  StronglySorted newer_or_same l →
  StronglySorted newer_or_same (insert_by_version_desc v l).
Proof.
  induction 1 as [|w l Hl IH Hw]; cbn.
  - repeat constructor.
  - destruct (fpv_version v <? fpv_version w) eqn:Hlt.
    + apply Z.ltb_lt in Hlt. constructor; [done|].
      rewrite insert_by_version_desc_perm. constructor; [|done].
      unfold newer_or_same. lia.
    + apply Z.ltb_ge in Hlt. constructor; [by constructor|].
      constructor; [done|].
      eapply Forall_impl; [exact Hw|]. unfold newer_or_same. intros; cbn in *. lia.
Qed.

Lemma order_by_version_desc_sorted rows :
  StronglySorted newer_or_same (order_by_version_desc rows).
Proof.
  induction rows as [|v rows IH]; cbn; [constructor|].
  by apply insert_by_version_desc_sorted.
Qed.

Lemma head_insert_by_version_desc v l :
  head (insert_by_version_desc v l) = pick_first_newest v (head l).
Proof. destruct l as [|w l]; cbn; [done|]. by destruct (_ <? _). Qed.

Lemma head_order_by_version_desc rows :
  head (order_by_version_desc rows) = foldr pick_first_newest None rows.
Proof.
  unfold order_by_version_desc.
  induction rows as [|v rows IH]; [done|]. cbn [foldr].
  by rewrite head_insert_by_version_desc, IH.
Qed.

Lemma pick_latest_from rows b :
  fold_left
    (fun best v =>
       match best with
       | None => Some v
       | Some b => if fpv_version b <? fpv_version v then Some v else Some b
       end) rows (Some b)
  = match foldr pick_first_newest None rows with
    | None => Some b
    | Some m => if fpv_version b <? fpv_version m then Some m else Some b
    end.
Proof.
  revert b. induction rows as [|v rows IH]; intros b; [done|].
  cbn [fold_left foldr].
  destruct (fpv_version b <? fpv_version v) eqn:Hbv; rewrite IH;
    destruct (foldr pick_first_newest None rows) as [m|]; cbn;
    rewrite ?Hbv; try done.
  - destruct (fpv_version v <? fpv_version m) eqn:Hvm; cbn.
    + apply Z.ltb_lt in Hbv, Hvm.
      by rewrite (proj2 (Z.ltb_lt (fpv_version b) (fpv_version m))) by lia.
    + by rewrite Hbv.
  - destruct (fpv_version v <? fpv_version m) eqn:Hvm; cbn; [done|].
    rewrite Hbv. apply Z.ltb_ge in Hbv, Hvm.
    by rewrite (proj2 (Z.ltb_ge (fpv_version b) (fpv_version m))) by lia.
Qed.

Lemma order_by_version_desc_limit_1_head rows :
  order_by_version_desc_limit_1 rows
  = match head (order_by_version_desc rows) with Some v => [v] | None => [] end.
Proof.
  unfold order_by_version_desc_limit_1. rewrite head_order_by_version_desc.
  destruct rows as [|v rows]; [done|]. cbn [fold_left foldr].
  rewrite pick_latest_from. unfold pick_first_newest at 2.
  destruct (foldr pick_first_newest None rows) as [m|]; [|done].
  destruct (fpv_version v <? fpv_version m); done.
Qed.

Lemma get_latest_version_returns db fid :
  get_latest_version db fid = Return (head (list_versions db fid)).
Proof.
  unfold get_latest_version, list_versions.
  rewrite order_by_version_desc_limit_1_head.
  by destruct (head _).
Qed.

Lemma insert_by_version_desc_oldest v l :
  Forall (fun w => fpv_version v < fpv_version w) l →
  insert_by_version_desc v l = l ++ [v].
Proof.
  induction 1 as [|w l Hw _ IH]; [done|]. cbn.
  rewrite (proj2 (Z.ltb_lt _ _) Hw). by rewrite IH.
Qed.

Lemma order_by_version_desc_increasing rows a :
  map fpv_version rows = seqZ a (Z.of_nat (length rows)) →
  order_by_version_desc rows = reverse rows.
Proof.
  revert a. induction rows as [|v rows IH]; intros a Hnum; [done|].
  cbn [length] in Hnum. rewrite Nat2Z.inj_succ, seqZ_cons in Hnum by lia.
  cbn [map] in Hnum. injection Hnum as Hv Hrest.
  replace (Z.pred (Z.succ (Z.of_nat (length rows)))) with (Z.of_nat (length rows))
    in Hrest by lia.
  cbn [order_by_version_desc foldr]. fold (order_by_version_desc rows).
  rewrite (IH _ Hrest), reverse_cons.
  apply insert_by_version_desc_oldest.
  rewrite Forall_reverse, Forall_forall. intros w Hw.
  assert (fpv_version w ∈ map fpv_version rows) as Hin
    by (apply list_elem_of_fmap; eauto).
  rewrite Hrest in Hin. apply elem_of_seqZ in Hin. lia.
Qed.

Lemma map_reverse {A B} (f : A → B) (l : list A) :
  map f (reverse l) = reverse (map f l).
Proof. apply (fmap_reverse f l). Qed.

(** X1.  [list_versions] returns the versions of a floor plan, each once,
    newest first; its first element is what [get_latest_version] returns,
    which therefore never raises.  For a floor plan whose versions are
    numbered 1 to [n] the listing reads [n], ..., 1, and a successful
    [create_version] puts its version in front. *)
Theorem list_versions_newest_first (db : DB) (floor_plan_id : UUID) :
  list_versions db floor_plan_id ≡ₚ versions_of db floor_plan_id
  ∧ StronglySorted newer_or_same (list_versions db floor_plan_id)
  ∧ get_latest_version db floor_plan_id
    = Return (head (list_versions db floor_plan_id))
  ∧ (∀ n, plan_at db floor_plan_id n →
       map fpv_version (list_versions db floor_plan_id) = reverse (seqZ 1 n)
       ∧ ∀ new_version_id version_data created_by db' version error,
           create_version db new_version_id floor_plan_id version_data created_by
             = (db', Return (Some version, error)) →
           list_versions db' floor_plan_id
           = version :: list_versions db floor_plan_id).
Proof.
  split_and!.
  - apply order_by_version_desc_perm.
  - apply order_by_version_desc_sorted.
  - apply get_latest_version_returns.
  - intros n Hat.
    assert (∀ db0 m, plan_at db0 floor_plan_id m →
              list_versions db0 floor_plan_id = reverse (versions_of db0 floor_plan_id))
      as Hrev.
    { intros db0 m (Hm & _ & Hnums). unfold list_versions.
      apply (order_by_version_desc_increasing _ 1).
      unfold version_numbers, versions_of in Hnums. rewrite Hnums. f_equal.
      apply (f_equal length) in Hnums. rewrite length_map, length_seqZ in Hnums.
      lia. }
    split.
    + rewrite (Hrev db n Hat). destruct Hat as (_ & _ & Hnums).
      unfold version_numbers in Hnums. by rewrite <- Hnums, map_reverse.
    + intros vid data user db' version error Hcall.
      destruct (create_version_same _ _ _ _ _ _ _ _ Hat Hcall)
        as [[_ Hno]|(v & Hreply & _ & _ & _ & Hvs & Hat')];
        [by destruct (Hno version error)|].
      injection Hreply as <- _.
      rewrite (Hrev db' _ Hat'), (Hrev db n Hat), Hvs.
      by rewrite reverse_app.
Qed.

Lemma list_versions_newest_first_witness :
  let db1 := (create_floor_plan Examples.empty_db 100 101
                Examples.desk_floor_create Examples.super_admin).1 in
  let db2 := (create_version db1 102 100
                (mkFloorPlanVersionCreate Examples.desk_grid (Some "second"))
                Examples.super_admin).1 in
  map fpv_version (list_versions db1 100) = [1]
  ∧ map fpv_id (list_versions db2 100) = [102; 101].
Proof.
  cbv zeta.
  assert (plan_at (create_floor_plan Examples.empty_db 100 101
                     Examples.desk_floor_create Examples.super_admin).1 100 1) as Hat.
  { split_and!; [lia | by eexists | reflexivity]. }
  destruct (list_versions_newest_first
              (create_floor_plan Examples.empty_db 100 101
                 Examples.desk_floor_create Examples.super_admin).1 100)
    as (_ & _ & _ & Hplan).
  destruct (Hplan 1 Hat) as [Hnums Hnext]. split; [exact Hnums|].
  exact (f_equal (map fpv_id)
           (Hnext 102 (mkFloorPlanVersionCreate Examples.desk_grid (Some "second"))
                  Examples.super_admin _ _ _ eq_refl)).
Defined.

End VersionListing.


(** ** The cells of one type and the slots on offer *)

Section CellListing.
Import FloorPlanService Reference.

Lemma cells_in_row_spec tv r c row cells :
  cells_in_row tv r c row cells
  = cells ++ map cell_entry
               (filter (fun pos => eq_str (get pos.2 "cell_type") tv = true)
                       (cells_from r c row)).
Proof.
  revert c cells.
  induction row as [|cell row IH]; intros c cells; cbn [cells_in_row cells_from].
  - by rewrite filter_nil, app_nil_r.
  - rewrite IH, filter_cons. cbn [snd].
    destruct (eq_str (get cell "cell_type") tv) eqn:Hty.
    + rewrite decide_True by done. cbn [map]. by rewrite <- app_assoc.
    + rewrite decide_False by (by intros ?). done.
Qed.

Lemma cells_in_grid_spec tv r grid cells :
  cells_in_grid tv r grid cells
  = cells ++ map cell_entry
               (filter (fun pos => eq_str (get pos.2 "cell_type") tv = true)
                       (rows_from r grid)).
Proof.
  revert r cells.
  induction grid as [|row grid IH]; intros r cells; cbn [cells_in_grid rows_from].
  - by rewrite filter_nil, app_nil_r.
  - rewrite IH, cells_in_row_spec, filter_app, map_app, <- app_assoc. done.
Qed.

Lemma cell_with_position_own r c (cell : Cell) k :
  is_Some (cell !! k) → cell_with_position r c cell !! k = cell !! k.
Proof.
  intros [x Hx]. unfold cell_with_position.
  rewrite lookup_union_l'; [done | by rewrite Hx].
Qed.

Lemma cell_with_position_other r c (cell : Cell) k :
  k ≠ "row" → k ≠ "column" → cell_with_position r c cell !! k = cell !! k.
Proof.
  intros Hr Hc. unfold cell_with_position.
  destruct (cell !! k) as [x|] eqn:Hk.
  - rewrite lookup_union_l'; [done | by rewrite Hk].
  - rewrite lookup_union_r by done.
    rewrite lookup_insert_ne by done. rewrite lookup_singleton_ne by done. done.
Qed.

Lemma cell_with_position_row r c (cell : Cell) :
  cell !! "row" = None →
  cell_with_position r c cell !! "row" = Some (JNum (Z.of_nat r)).
Proof.
  intros Hk. unfold cell_with_position. rewrite lookup_union_r by done.
  by rewrite lookup_insert.
Qed.

Lemma cell_with_position_column r c (cell : Cell) :
  cell !! "column" = None →
  cell_with_position r c cell !! "column" = Some (JNum (Z.of_nat c)).
Proof.
  intros Hk. unfold cell_with_position. rewrite lookup_union_r by done.
  rewrite lookup_insert_ne by done. by rewrite lookup_singleton.
Qed.

Lemma get_cell_with_position r c (cell : Cell) k :
  k ≠ "row" → k ≠ "column" → get (cell_with_position r c cell) k = get cell k.
Proof. intros. unfold get. by rewrite cell_with_position_other. Qed.

Lemma get_default_cell_with_position r c (cell : Cell) k x :
  k ≠ "row" → k ≠ "column" →
  get_default (cell_with_position r c cell) k x = get_default cell k x.
Proof. intros. unfold get_default. by rewrite cell_with_position_other. Qed.

Lemma slot_open_cell_with_position r c (cell : Cell) :
  slot_open (cell_with_position r c cell)
  = truthy (get_default cell "is_active" (JBool true))
    && negb (truthy (get_default cell "is_occupied" (JBool false))).
Proof. unfold slot_open. by rewrite !get_default_cell_with_position. Qed.

Lemma slot_with_position_with_label r c (cell : Cell) :
  slot_with_position r c cell = with_label (cell_with_position r c cell).
Proof.
  unfold with_label. rewrite get_cell_with_position by done.
  unfold slot_with_position, cell_with_position.
  rewrite <- (assoc_L (∪)). by f_equal.
Qed.

Lemma slots_in_row_spec tv r c row slots :
  slots_in_row tv r c row slots
  = slots ++ map with_label
               (filter (fun d => slot_open d = true)
                  (map cell_entry
                     (filter (fun pos => eq_str (get pos.2 "cell_type") tv = true)
                             (cells_from r c row)))).
Proof.
  revert c slots.
  induction row as [|cell row IH]; intros c slots; cbn [slots_in_row cells_from].
  - by rewrite filter_nil, app_nil_r.
  - rewrite IH, filter_cons. cbn [snd].
    destruct (eq_str (get cell "cell_type") tv) eqn:Hty.
    + rewrite decide_True by done. cbn [map]. rewrite filter_cons.
      pose proof (slot_open_cell_with_position r c cell) as Hflags.
      change (cell_with_position r c cell) with (cell_entry (r, c, cell)) in Hflags.
      destruct (truthy _ && negb _) eqn:Hopen.
      * rewrite decide_True by done. cbn [map].
        change (cell_entry (r, c, cell)) with (cell_with_position r c cell).
        rewrite <- slot_with_position_with_label. by rewrite <- app_assoc.
      * rewrite decide_False; [done|]. by rewrite Hflags.
    + rewrite decide_False by (by intros ?). done.
Qed.

Lemma slots_in_grid_spec tv r grid slots :
  slots_in_grid tv r grid slots
  = slots ++ map with_label
               (filter (fun d => slot_open d = true)
                  (map cell_entry
                     (filter (fun pos => eq_str (get pos.2 "cell_type") tv = true)
                             (rows_from r grid)))).
Proof.
  revert r slots.
  induction grid as [|row grid IH]; intros r slots; cbn [slots_in_grid rows_from].
  - by rewrite filter_nil, app_nil_r.
  - rewrite IH, slots_in_row_spec, !filter_app, !map_app, filter_app, map_app,
      <- app_assoc.
    done.
Qed.

(** X2.  [get_cells_by_type] lists, in row-major order, the cells of the
    latest grid whose [cell_type] is the requested one, and nothing when the
    floor plan has no version.  Each entry carries every key of its cell
    unchanged; its ["row"] and ["column"] are the position of the cell,
    unless the cell has such a key of its own, which then wins. *)
Theorem get_cells_by_type_row_major
    (db : DB) (floor_plan_id : UUID) (cell_type : CellType)
    (version : option FloorPlanVersion) :
  get_latest_version db floor_plan_id = Return version →
  let grid := from_option fpv_grid_data [] version in
  let typed := typed_cells (cell_type_value cell_type) grid in
  get_cells_by_type db floor_plan_id cell_type = Return (map cell_entry typed)
  ∧ (∀ r c cell,
       (r, c, cell) ∈ typed
       ↔ (∃ row, grid !! r = Some row ∧ row !! c = Some cell)
         ∧ get cell "cell_type" = JStr (cell_type_value cell_type))
  ∧ (∀ d, d ∈ map cell_entry typed →
       get d "cell_type" = JStr (cell_type_value cell_type))
  ∧ (∀ r c cell k,
       is_Some (cell !! k) ∨ (k ≠ "row" ∧ k ≠ "column") →
       cell_entry (r, c, cell) !! k = cell !! k)
  ∧ (∀ r c cell,
       (cell !! "row" = None →
        cell_entry (r, c, cell) !! "row" = Some (JNum (Z.of_nat r)))
       ∧ (cell !! "column" = None →
          cell_entry (r, c, cell) !! "column" = Some (JNum (Z.of_nat c)))).
Proof.
  intros Hlatest grid typed. split_and!.
  - unfold get_cells_by_type. rewrite Hlatest. cbn.
    destruct version as [v|]; cbn; [|done].
    by rewrite cells_in_grid_spec.
  - intros r c cell. unfold typed, typed_cells.
    rewrite list_elem_of_filter, row_major_lookup, eq_str_true. cbn. tauto.
  - intros d Hd. apply list_elem_of_fmap in Hd as ([[r c] cell] & -> & Hpos).
    unfold typed, typed_cells in Hpos.
    apply list_elem_of_filter in Hpos as [Hty _]. cbn in Hty.
    apply eq_str_true in Hty. unfold cell_entry. cbn [fst snd].
    by rewrite get_cell_with_position.
  - intros r c cell k [Hk | [Hr Hc]].
    + by apply cell_with_position_own.
    + by apply cell_with_position_other.
  - intros r c cell. split.
    + apply cell_with_position_row.
    + apply cell_with_position_column.
Qed.

Lemma with_label_other (d : dict) k :
  k ≠ "label" → with_label d !! k = d !! k.
Proof.
  intros Hk. unfold with_label. destruct (d !! k) as [x|] eqn:Hd.
  - rewrite lookup_union_l'; [done | by rewrite Hd].
  - rewrite lookup_union_r by done. by rewrite lookup_singleton_ne.
Qed.

Lemma with_label_label (d : dict) : is_Some (with_label d !! "label").
Proof.
  unfold with_label. apply lookup_union_is_Some. right.
  rewrite lookup_singleton. by eexists.
Qed.

Lemma get_cells_by_type_row_major_witness :
  get_cells_by_type Examples.flagged_floor 300 PARKING_SLOT
  = Return (map cell_entry
              [ (0, 0, Examples.labelled "parking_slot" "P1");
                (0, 1, Examples.flagged "P3" "is_occupied" (JBool true));
                (0, 2, Examples.flagged "P4" "is_active" (JBool false));
                (0, 3, Examples.flagged "P5" "row" (JNum 7)) ])%nat
  ∧ cell_entry (0, 1, Examples.flagged "P3" "is_occupied" (JBool true))%nat !! "row"
    = Some (JNum 0)
  ∧ cell_entry (0, 3, Examples.flagged "P5" "row" (JNum 7))%nat !! "row"
    = Some (JNum 7).
Proof.
  destruct (get_cells_by_type_row_major Examples.flagged_floor 300 PARKING_SLOT
              (Some (mkFloorPlanVersion 301 300 1 Examples.flagged_grid true 1
                       (Some "Initial version"))) eq_refl)
    as (Hlist & _ & _ & Hown & Hpos).
  split_and!.
  - exact Hlist.
  - by apply (Hpos 0 1)%nat.
  - rewrite (Hown 0 3 (Examples.flagged "P5" "row" (JNum 7)) "row")%nat;
      [reflexivity|].
    left. by eexists.
Defined.

(** X3.  [get_available_slots] of the floor-plan service returns the
    entries of [get_cells_by_type] whose [is_active] is absent or truthy and
    whose [is_occupied] is absent or falsy, in the same order and with a
    ["label"] key added (null when the cell has none).  It reads the flags
    of the grid only. *)
Theorem get_available_slots_of_cells
    (db : DB) (floor_plan_id : UUID) (slot_type : CellType) :
  FloorPlanService.get_available_slots db floor_plan_id slot_type
  = (cells ← get_cells_by_type db floor_plan_id slot_type;
     Return (map with_label (filter (fun d => slot_open d = true) cells)))
  ∧ (∀ slots d,
       FloorPlanService.get_available_slots db floor_plan_id slot_type = Return slots →
       d ∈ slots →
       get d "cell_type" = JStr (cell_type_value slot_type)
       ∧ truthy (get_default d "is_active" (JBool true)) = true
       ∧ truthy (get_default d "is_occupied" (JBool false)) = false
       ∧ is_Some (d !! "label")).
Proof.
  assert (FloorPlanService.get_available_slots db floor_plan_id slot_type
          = (cells ← get_cells_by_type db floor_plan_id slot_type;
             Return (map with_label (filter (fun d => slot_open d = true) cells))))
    as Heq.
  { unfold FloorPlanService.get_available_slots, get_cells_by_type.
    destruct (get_latest_version db floor_plan_id) as [[v|]|e]; cbn; [|done..].
    by rewrite slots_in_grid_spec, cells_in_grid_spec. }
  split; [exact Heq|]. intros slots d Hslots Hd. rewrite Heq in Hslots.
  unfold get_cells_by_type in Hslots.
  destruct (get_latest_version db floor_plan_id) as [[v|]|e]; cbn in Hslots;
    simplify_eq; [|by apply elem_of_nil in Hd].
  rewrite cells_in_grid_spec in Hd. cbn [app] in Hd.
  apply list_elem_of_fmap in Hd as (d0 & -> & Hd0).
  apply list_elem_of_filter in Hd0 as [Hopen Hd0].
  apply list_elem_of_fmap in Hd0 as ([[r c] cell] & -> & Hpos).
  apply list_elem_of_filter in Hpos as [Hty _]. cbn in Hty.
  apply eq_str_true in Hty.
  unfold slot_open in Hopen. apply andb_true_iff in Hopen as [Hactive Hocc].
  apply negb_true_iff in Hocc.
  unfold get, get_default in *. rewrite !with_label_other by done.
  split_and!; [|done..|apply with_label_label].
  unfold cell_entry. cbn [fst snd]. by rewrite cell_with_position_other.
Qed.

Lemma get_available_slots_of_cells_witness :
  FloorPlanService.get_available_slots Examples.flagged_floor 300 PARKING_SLOT
  = Return [ slot_with_position 0 0 (Examples.labelled "parking_slot" "P1");
             slot_with_position 0 3 (Examples.flagged "P5" "row" (JNum 7)) ]
  ∧ get (slot_with_position 0 0 (Examples.labelled "parking_slot" "P1")) "cell_type"
    = JStr "parking_slot".
Proof.
  destruct (get_available_slots_of_cells Examples.flagged_floor 300 PARKING_SLOT)
    as [Heq Hslots].
  split; [by rewrite Heq|].
  by destruct (Hslots _ (slot_with_position 0 0
                           (Examples.labelled "parking_slot" "P1")) eq_refl)
    as (Hty & _); [by left|].
Defined.

End CellListing.


(** ** The soft delete of a floor plan *)

Section SoftDelete.
Import FloorPlanService Reference.

Lemma map_key_write_back {R} (key : R → Z) (b : R) (l : list R) :
  map key (write_back key b l) = map key l.
Proof.
  unfold write_back. induction l as [|r l IH]; [done|]. cbn [map].
  rewrite IH. by destruct (decide (key r = key b)) as [->|].
Qed.

Lemma get_floor_plan_by_id_id db fid fp :
  get_floor_plan_by_id db fid = Return (Some fp) →
  filter (fun p => fp_id p = fid) (floor_plans db) = [fp] ∧ fp_id fp = fid.
Proof.
  intros Hget. apply scalar_one_or_none_Some in Hget. split; [done|].
  by destruct (filter_singleton_elem (fun p => fp_id p = fid) fp _ Hget) as (_ & ? & _).
Qed.

(** What [delete_floor_plan] does once the plan is found and the caller may
    manage it. *)
Lemma delete_floor_plan_found db fid user fp :
  get_floor_plan_by_id db fid = Return (Some fp) →
  can_manage_plan_type user (fp_plan_type fp) = true →
  delete_floor_plan db fid user
  = (with_floor_plans db (write_back fp_id (set_is_active false fp) (floor_plans db)),
     Return (true, None)).
Proof. intros Hget Hcan. unfold delete_floor_plan. by rewrite Hget, Hcan. Qed.

Lemma delete_floor_plan_refused db fid user :
  (delete_floor_plan db fid user).2 ≠ Return (true, None) →
  (delete_floor_plan db fid user).1 = db.
Proof.
  unfold delete_floor_plan.
  destruct (get_floor_plan_by_id db fid) as [[fp|]|e]; cbn; [|done..].
  by destruct (can_manage_plan_type user (fp_plan_type fp)); cbn.
Qed.

(** X4.  [delete_floor_plan] removes nothing: for a caller who may manage
    the plan it answers [(True, None)], the plan stays retrievable with
    [is_active] false and every other column as before, no other plan and
    no version, booking, allocation or history row changes, and a second
    call changes nothing more. *)
Theorem delete_floor_plan_is_soft
    (db : DB) (floor_plan_id : UUID) (deleted_by : User) (floor_plan : FloorPlan) :
  get_floor_plan_by_id db floor_plan_id = Return (Some floor_plan) →
  can_manage_plan_type deleted_by (fp_plan_type floor_plan) = true →
  let result := delete_floor_plan db floor_plan_id deleted_by in
  let db' := result.1 in
  result.2 = Return (true, None)
  ∧ get_floor_plan_by_id db' floor_plan_id
    = Return (Some (set_is_active false floor_plan))
  ∧ fp_is_active (set_is_active false floor_plan) = false
  ∧ map fp_id (floor_plans db') = map fp_id (floor_plans db)
  ∧ (∀ other, other ≠ floor_plan_id →
       get_floor_plan_by_id db' other = get_floor_plan_by_id db other)
  ∧ floor_plan_versions db' = floor_plan_versions db
  ∧ (∀ n, get_version db' floor_plan_id n = get_version db floor_plan_id n)
  ∧ get_latest_version db' floor_plan_id = get_latest_version db floor_plan_id
  ∧ desk_bookings db' = desk_bookings db
  ∧ cafeteria_table_bookings db' = cafeteria_table_bookings db
  ∧ parking_allocations db' = parking_allocations db
  ∧ parking_history db' = parking_history db
  ∧ (∀ again, delete_floor_plan db' floor_plan_id again
              = (if can_manage_plan_type again (fp_plan_type floor_plan)
                 then (db', Return (true, None))
                 else (db', Return (false,
                         Some ("You don't have permission to delete "
                               +:+ plan_type_value (fp_plan_type floor_plan)
                               +:+ " floor plans"))))).
Proof.
  intros Hget Hcan. cbv zeta.
  destruct (get_floor_plan_by_id_id _ _ _ Hget) as [Hone Hid].
  rewrite (delete_floor_plan_found _ _ _ _ Hget Hcan). cbn [fst snd].
  set (db' := with_floor_plans db
                (write_back fp_id (set_is_active false floor_plan) (floor_plans db))).
  assert (get_floor_plan_by_id db' floor_plan_id
          = Return (Some (set_is_active false floor_plan))) as Hget'.
  { unfold get_floor_plan_by_id. cbn.
    rewrite filter_key_write_back by done. by rewrite Hone. }
  split_and!; try done.
  - cbn. apply map_key_write_back.
  - intros other Hother. unfold get_floor_plan_by_id. cbn.
    rewrite filter_other_key_write_back; [done|]. cbn. congruence.
  - intros again. unfold delete_floor_plan. rewrite Hget'.
    change (fp_plan_type (set_is_active false floor_plan))
      with (fp_plan_type floor_plan).
    change (set_is_active false (set_is_active false floor_plan))
      with (set_is_active false floor_plan).
    destruct (can_manage_plan_type again (fp_plan_type floor_plan)); cbn [negb];
      [|done].
    f_equal. rewrite write_back_same; [done|].
    apply scalar_one_or_none_Some in Hget'. cbn [fp_id set_is_active].
    by rewrite Hid.
Qed.

Lemma delete_floor_plan_is_soft_witness :
  let result :=
    delete_floor_plan Examples.parking_floor 200 Examples.parking_manager in
  result.2 = Return (true, None)
  ∧ get_floor_plan_by_id result.1 200
    = Return (Some (set_is_active false Examples.parking_plan))
  ∧ get_latest_version result.1 200 = get_latest_version Examples.parking_floor 200
  ∧ delete_floor_plan result.1 200 Examples.alice
    = (result.1, Return (false, Some "You don't have permission to delete PARKING floor plans")).
Proof.
  destruct (delete_floor_plan_is_soft Examples.parking_floor 200
              Examples.parking_manager Examples.parking_plan eq_refl eq_refl)
    as (Hreply & Hget & _ & _ & _ & _ & _ & Hlatest & _ & _ & _ & _ & Hagain).
  split_and!; [exact Hreply | exact Hget | exact Hlatest | exact (Hagain Examples.alice)].
Defined.

End SoftDelete.


(** ** The invariant of the floor-plan tables *)

Section StoreInvariant.
Import FloorPlanService Reference Invariants.

Lemma validate_grid_data_ok grid rows columns pt :
  validate_grid_data grid rows columns pt = (true, None) ↔ grid_ok grid rows columns pt.
Proof.
  rewrite validate_grid_data_head, <- violations_nil.
  destruct (violations grid rows columns pt); [done|].
  split; intros [=].
Qed.

Lemma validate_grid_data_true grid rows columns pt error :
  validate_grid_data grid rows columns pt = (true, error) → error = None.
Proof.
  rewrite validate_grid_data_head. by destruct (violations _ _ _ _); intros [=].
Qed.

Lemma filter_nil_not_elem_of {A} (P : A → Prop) `{!∀ x, Decision (P x)} (l : list A) :
  filter P l = [] ↔ ∀ x, x ∈ l → ¬ P x.
Proof.
  split.
  - intros Hnil x Hx HP.
    assert (x ∈ filter P l) as Hin by (by apply list_elem_of_filter).
    rewrite Hnil in Hin. by apply elem_of_nil in Hin.
  - intros Hall. induction l as [|x l IH]; [done|].
    rewrite filter_cons, decide_False by (apply Hall; by left).
    apply IH. intros y Hy. apply Hall. by right.
Qed.

(** What one call of [create_floor_plan] does. *)
Lemma create_floor_plan_cases db new_id new_vid data user db' reply :
  create_floor_plan db new_id new_vid data user = (db', reply) →
  (db' = db ∧ ∀ fp e, reply ≠ Return (Some fp, e))
  ∨ can_manage_plan_type user (fpc_plan_type data) = true
    ∧ filter (fun fp => fp_name fp = fpc_name data
                        ∧ fp_plan_type fp = fpc_plan_type data) (floor_plans db) = []
    ∧ grid_ok (fpc_grid_data data) (fpc_rows data) (fpc_columns data)
              (fpc_plan_type data)
    ∧ let fp := mkFloorPlan new_id (fpc_name data) (fpc_plan_type data)
                  (fpc_rows data) (fpc_columns data) (fpc_description data)
                  true 1 (user_id user) in
      let v := mkFloorPlanVersion new_vid new_id 1 (fpc_grid_data data) true
                 (user_id user) (Some "Initial version") in
      version_pair_taken db v = false
      ∧ reply = Return (Some fp, None)
      ∧ db' = with_versions (with_floor_plans db (floor_plans db ++ [fp]))
                            (floor_plan_versions db ++ [v]).
Proof.
  unfold create_floor_plan.
  destruct (can_manage_plan_type _ _) eqn:Hcan; cbn [negb];
    [|intros [= <- <-]; left; split; [done | by intros ? ?]].
  destruct (scalar_one_or_none _) as [[?|]|] eqn:Hname;
    [intros [= <- <-]; left; split; [done | by intros ? ?]|
     |intros [= <- <-]; left; split; [done | by intros ? ?]].
  apply scalar_one_or_none_None in Hname.
  destruct (validate_grid_data _ _ _ _) as [[] error] eqn:Hvalid;
    [|intros [= <- <-]; left; split; [done | by intros ? ?]].
  destruct (version_pair_taken _ _) eqn:Htaken;
    [intros [= <- <-]; left; split; [done | by intros ? ?]|].
  intros [= <- <-]. right. split_and!; try done.
  apply validate_grid_data_ok.
  by rewrite Hvalid, (validate_grid_data_true _ _ _ _ _ Hvalid).
Qed.

Lemma plan_at_elem db fid n :
  plan_at db fid n →
  ∃ fp, fp ∈ floor_plans db ∧ fp_id fp = fid ∧ fp_current_version fp = n
        ∧ filter (fun p => fp_id p = fid) (floor_plans db) = [fp].
Proof.
  intros (_ & (fp & Hfp & Hcur) & _). exists fp.
  destruct (filter_singleton_elem (fun p => fp_id p = fid) fp _ Hfp) as (? & ? & _).
  done.
Qed.

Lemma store_ok_versions_ok db : store_ok db → versions_ok db.
Proof.
  intros Hok. split; [apply (counters db Hok) | apply (versions_owned db Hok)].
Qed.

(** A floor plan with an owner of its versions keeps plan ids apart. *)
Lemma versions_ok_lookup db fid :
  versions_ok db →
  filter (fun p => fp_id p = fid) (floor_plans db) = []
  ∨ ∃ fp, filter (fun p => fp_id p = fid) (floor_plans db) = [fp]
          ∧ fp ∈ floor_plans db ∧ fp_id fp = fid
          ∧ plan_at db fid (fp_current_version fp).
Proof.
  intros Hok.
  destruct (filter (fun p => fp_id p = fid) (floor_plans db)) as [|fp rest] eqn:Hf;
    [by left|right].
  assert (fp ∈ filter (fun p => fp_id p = fid) (floor_plans db)) as Hin
    by (rewrite Hf; by left).
  apply list_elem_of_filter in Hin as [Hid Hin].
  pose proof (proj1 Hok fp Hin) as Hat. rewrite Hid in Hat.
  destruct (plan_at_elem _ _ _ Hat) as (fp' & _ & _ & _ & Hone).
  rewrite Hf in Hone. injection Hone as <- ->.
  exists fp. by rewrite <- Hf at 1.
Qed.

Lemma store_ok_lookup db fid :
  store_ok db →
  filter (fun p => fp_id p = fid) (floor_plans db) = []
  ∨ ∃ fp, filter (fun p => fp_id p = fid) (floor_plans db) = [fp]
          ∧ fp ∈ floor_plans db ∧ fp_id fp = fid
          ∧ plan_at db fid (fp_current_version fp).
Proof. intros Hok. by apply versions_ok_lookup, store_ok_versions_ok. Qed.

Lemma versions_ok_versions_of_fresh db new_id :
  versions_ok db → fresh_plan_id db new_id → versions_of db new_id = [].
Proof.
  intros Hok Hfresh. unfold versions_of. apply filter_nil_not_elem_of.
  intros v Hv Hid. destruct (proj2 Hok v Hv) as (fp & Hfp & Hfid & _).
  apply Hfresh. apply list_elem_of_fmap. exists fp. split; [congruence | done].
Qed.

Lemma store_ok_versions_of_fresh db new_id :
  store_ok db → fresh_plan_id db new_id → versions_of db new_id = [].
Proof. intros Hok. by apply versions_ok_versions_of_fresh, store_ok_versions_ok. Qed.

Lemma fresh_plan_id_filter db new_id :
  fresh_plan_id db new_id →
  filter (fun p => fp_id p = new_id) (floor_plans db) = [].
Proof.
  intros Hfresh. apply filter_nil_not_elem_of. intros fp Hfp Hid.
  apply Hfresh. apply list_elem_of_fmap. by exists fp.
Qed.

Lemma plan_at_map_plans (g : FloorPlan → FloorPlan) db fid n :
  (∀ p, fp_id (g p) = fp_id p) →
  (∀ p, fp_current_version (g p) = fp_current_version p) →
  plan_at db fid n →
  plan_at (with_floor_plans db (map g (floor_plans db))) fid n.
Proof.
  intros Hid Hcur (Hn & (fp & Hfp & Hfpn) & Hnums). split_and!; [done| |done].
  exists (g fp). cbn [floor_plans with_floor_plans]. split; [|by rewrite Hcur].
  assert (∀ l, filter (fun p => fp_id p = fid) (map g l)
               = map g (filter (fun p => fp_id p = fid) l)) as Hcomm.
  { induction l as [|p l IH]; [done|]. cbn [map]. rewrite !filter_cons, IH, Hid.
    by destruct (decide (fp_id p = fid)). }
  by rewrite Hcomm, Hfp.
Qed.

Lemma plan_at_append db fid n fp v :
  fp_id fp ≠ fid → fpv_floor_plan_id v ≠ fid →
  plan_at db fid n →
  plan_at (with_versions (with_floor_plans db (floor_plans db ++ [fp]))
                         (floor_plan_versions db ++ [v])) fid n.
Proof.
  intros Hfp Hv (Hn & (fp0 & Hfp0 & Hcur) & Hnums). split_and!; [done| |].
  - exists fp0. cbn [floor_plans with_versions with_floor_plans].
    rewrite filter_app, Hfp0, filter_cons, filter_nil.
    by rewrite decide_False.
  - unfold version_numbers, versions_of in *.
    cbn [floor_plan_versions with_versions].
    rewrite filter_app, filter_cons, filter_nil.
    rewrite decide_False by done. by rewrite app_nil_r.
Qed.

Lemma create_floor_plan_keeps_versions_ok db new_id new_vid data user :
  versions_ok db → fresh_plan_id db new_id →
  versions_ok (create_floor_plan db new_id new_vid data user).1.
Proof.
  intros Hok Hfresh.
  destruct (create_floor_plan db new_id new_vid data user) as [db' reply] eqn:Hcall.
  pose proof Hcall as Hcases.
  apply create_floor_plan_cases in Hcases
    as [[-> _]|(_ & Hname & Hgrid & _ & Hreply & Hdb)]; [done|].
  cbn [fst].
  destruct (create_floor_plan_plan_at db new_id new_vid data user db' _
              (fresh_plan_id_filter _ _ Hfresh)
              (versions_ok_versions_of_fresh _ _ Hok Hfresh)
              (eq_trans Hcall (f_equal (pair db') Hreply)))
    as (_ & _ & _ & Hnew).
  subst db'. split.
  - intros fp Hfp. cbn [floor_plans with_versions with_floor_plans] in Hfp.
    apply elem_of_app in Hfp as [Hfp | Hfp].
    + apply plan_at_append; cbn.
      * intros Heq. apply Hfresh. apply list_elem_of_fmap. by exists fp.
      * intros Heq. apply Hfresh. apply list_elem_of_fmap. by exists fp.
      * by apply (proj1 Hok).
    + apply list_elem_of_singleton in Hfp as ->. exact Hnew.
  - intros v Hv. cbn [floor_plan_versions floor_plans with_versions with_floor_plans] in *.
    apply elem_of_app in Hv as [Hv | Hv].
    + destruct (proj2 Hok v Hv) as (fp & Hfp & Hid & Hg).
      exists fp. split_and!; [|done..]. apply elem_of_app. by left.
    + apply list_elem_of_singleton in Hv as ->. eexists. split_and!.
      * apply elem_of_app. right. by left.
      * done.
      * done.
Qed.

Lemma create_floor_plan_keeps_store_ok db new_id new_vid data user :
  store_ok db → fresh_plan_id db new_id →
  store_ok (create_floor_plan db new_id new_vid data user).1.
Proof.
  intros Hok Hfresh.
  destruct (create_floor_plan_keeps_versions_ok db new_id new_vid data user
              (store_ok_versions_ok _ Hok) Hfresh) as [Hcounters Howned].
  destruct (create_floor_plan db new_id new_vid data user) as [db' reply] eqn:Hcall.
  apply create_floor_plan_cases in Hcall
    as [[-> _]|(_ & Hname & _ & _ & _ & Hdb)]; [done|].
  cbn [fst] in *. split; [|exact Hcounters|exact Howned].
  subst db'. cbn [floor_plans with_versions with_floor_plans]. rewrite map_app.
  apply NoDup_app. split_and!; [apply Hok| |apply NoDup_singleton].
  intros key Hold Hkey. apply list_elem_of_singleton in Hkey as ->.
  apply list_elem_of_fmap in Hold as (fp & Hkey & Hfp).
  pose proof (proj1 (filter_nil_not_elem_of _ _) Hname fp Hfp) as Hno.
  cbn in Hkey. apply Hno. by simplify_eq.
Qed.

Lemma create_version_keeps_versions_ok db vid fid data user :
  versions_ok db → versions_ok (create_version db vid fid data user).1.
Proof.
  intros Hok.
  destruct (create_version db vid fid data user) as [db' reply] eqn:Hcall.
  pose proof Hcall as Hcases.
  apply create_version_cases in Hcases
    as [[-> _]|(fp0 & Hfp0 & _ & Hgrid & _ & Hreply & Hdb)]; [done|].
  cbn [fst].
  destruct (filter_singleton_elem (fun p => fp_id p = fid) fp0 _ Hfp0)
    as (Hin0 & Hid0 & Huniq).
  split.
  - intros fp' Hfp'.
    assert (∃ p, p ∈ floor_plans db
                 ∧ fp' = set_current_version fid (fp_current_version fp0 + 1) p)
      as (p & Hp & ->).
    { subst db'. cbn [floor_plans with_versions with_floor_plans] in Hfp'.
      apply list_elem_of_fmap in Hfp' as (p & -> & Hp). by exists p. }
    pose proof (proj1 Hok p Hp) as Hat.
    destruct (decide (fp_id p = fid)) as [Hid|Hid].
    + assert (p = fp0) as -> by (by apply Huniq).
      rewrite Hid in Hat.
      destruct (create_version_same _ _ _ _ _ _ _ _ Hat Hcall)
        as [[_ Hno]|(v & _ & _ & _ & _ & _ & Hat')].
      { by destruct (Hno _ _ Hreply). }
      unfold set_current_version. rewrite decide_True by done. cbn. by rewrite Hid.
    + destruct (create_version_other _ _ _ _ _ _ _ _ _ (not_eq_sym Hid) Hat Hcall)
        as (Hat' & _).
      unfold set_current_version. by rewrite decide_False.
  - intros v Hv. subst db'.
    cbn [floor_plan_versions floor_plans with_versions with_floor_plans] in *.
    assert (∀ p, p ∈ floor_plans db →
              set_current_version fid (fp_current_version fp0 + 1) p
              ∈ map (set_current_version fid (fp_current_version fp0 + 1)) (floor_plans db))
      as Hmapped by (intros p Hp; apply list_elem_of_fmap; by exists p).
    apply elem_of_app in Hv as [Hv | Hv].
    + destruct (proj2 Hok v Hv) as (fp & Hfp & Hid & Hg).
      exists (set_current_version fid (fp_current_version fp0 + 1) fp).
      split; [by apply Hmapped|]. unfold set_current_version. by case_decide.
    + apply list_elem_of_singleton in Hv as ->.
      exists (set_current_version fid (fp_current_version fp0 + 1) fp0).
      split; [by apply Hmapped|]. unfold set_current_version.
      rewrite decide_True by done. cbn. split; [done|].
      by apply validate_grid_data_ok.
Qed.

Lemma create_version_keeps_store_ok db vid fid data user :
  store_ok db → store_ok (create_version db vid fid data user).1.
Proof.
  intros Hok.
  destruct (create_version_keeps_versions_ok db vid fid data user
              (store_ok_versions_ok _ Hok)) as [Hcounters Howned].
  destruct (create_version db vid fid data user) as [db' reply] eqn:Hcall.
  apply create_version_cases in Hcall
    as [[-> _]|(fp0 & _ & _ & _ & _ & _ & Hdb)]; [done|].
  cbn [fst] in *. split; [|exact Hcounters|exact Howned].
  subst db'. cbn [floor_plans with_versions with_floor_plans].
  rewrite map_map.
  assert (map (fun x => (fp_name (set_current_version fid (fp_current_version fp0 + 1) x),
                         fp_plan_type (set_current_version fid (fp_current_version fp0 + 1) x)))
              (floor_plans db)
          = map (fun fp => (fp_name fp, fp_plan_type fp)) (floor_plans db)) as ->;
    [|apply Hok].
  apply map_ext. intros p. unfold set_current_version. by case_decide.
Qed.

Lemma write_back_as_map {R} (key : R → Z) (g : R → R) (b : R) (l : list R) :
  (∀ r, r ∈ l → key r = key b → g r = b) →
  (∀ r, r ∈ l → key r ≠ key b → g r = r) →
  write_back key b l = map g l.
Proof.
  intros Hsame Hother. unfold write_back. apply map_ext_in. intros r Hr.
  apply list_elem_of_In in Hr. case_decide; symmetry; auto.
Qed.

Lemma delete_floor_plan_keeps_store_ok db fid user :
  store_ok db → store_ok (delete_floor_plan db fid user).1.
Proof.
  intros Hok. unfold delete_floor_plan.
  destruct (get_floor_plan_by_id db fid) as [[fp|]|e] eqn:Hget; [|done..].
  destruct (can_manage_plan_type user (fp_plan_type fp)); cbn [negb fst]; [|done].
  apply scalar_one_or_none_Some in Hget.
  destruct (filter_singleton_elem (fun p => fp_id p = fid) fp _ Hget)
    as (Hin & Hid & Huniq).
  set (g := fun p => if decide (fp_id p = fid) then set_is_active false p else p).
  rewrite (write_back_as_map fp_id g).
  2:{ intros r Hr Hk. unfold g. cbn in Hk. rewrite decide_True by congruence.
      f_equal. apply Huniq; [done | congruence]. }
  2:{ intros r Hr Hk. unfold g. cbn in Hk. rewrite decide_False by congruence. done. }
  assert (∀ p, fp_id (g p) = fp_id p) as Hgid by (intros p; unfold g; by case_decide).
  split.
  - cbn [floor_plans with_floor_plans]. rewrite map_map.
    assert (map (fun x => (fp_name (g x), fp_plan_type (g x))) (floor_plans db)
            = map (fun fp => (fp_name fp, fp_plan_type fp)) (floor_plans db)) as ->;
      [|apply Hok].
    apply map_ext. intros p. unfold g. by case_decide.
  - intros fp' Hfp'. cbn [floor_plans with_floor_plans] in Hfp'.
    apply list_elem_of_fmap in Hfp' as (p & -> & Hp).
    assert (fp_current_version (g p) = fp_current_version p) as ->
      by (unfold g; by case_decide).
    rewrite Hgid. apply plan_at_map_plans; [done| |by apply Hok].
    intros q. unfold g. by case_decide.
  - intros v Hv. cbn [floor_plan_versions floor_plans with_floor_plans] in *.
    destruct (versions_owned db Hok v Hv) as (p & Hp & Hpid & Hg).
    exists (g p). split; [apply list_elem_of_fmap; by exists p|].
    unfold g. by case_decide.
Qed.

(** A change of the floor plans that leaves their id, counter, dimensions
    and type alone keeps the versions in order. *)
Lemma versions_ok_map_plans (g : FloorPlan → FloorPlan) db :
  (∀ p, fp_id (g p) = fp_id p) →
  (∀ p, fp_current_version (g p) = fp_current_version p) →
  (∀ p, fp_rows (g p) = fp_rows p ∧ fp_columns (g p) = fp_columns p
        ∧ fp_plan_type (g p) = fp_plan_type p) →
  versions_ok db → versions_ok (with_floor_plans db (map g (floor_plans db))).
Proof.
  intros Hid Hcur Hdim [Hcounters Howned]. split.
  - intros fp' Hfp'. cbn [floor_plans with_floor_plans] in Hfp'.
    apply list_elem_of_fmap in Hfp' as (p & -> & Hp).
    rewrite Hid, Hcur. apply plan_at_map_plans; [done..|by apply Hcounters].
  - intros v Hv. cbn [floor_plan_versions floor_plans with_floor_plans] in *.
    destruct (Howned v Hv) as (p & Hp & Hpid & Hg).
    exists (g p). split; [apply list_elem_of_fmap; by exists p|].
    destruct (Hdim p) as (-> & -> & ->). by rewrite Hid.
Qed.

Lemma delete_floor_plan_keeps_versions_ok db fid user :
  versions_ok db → versions_ok (delete_floor_plan db fid user).1.
Proof.
  intros Hok. unfold delete_floor_plan.
  destruct (get_floor_plan_by_id db fid) as [[fp|]|e] eqn:Hget; [|done..].
  destruct (can_manage_plan_type user (fp_plan_type fp)); cbn [negb fst]; [|done].
  apply scalar_one_or_none_Some in Hget.
  destruct (filter_singleton_elem (fun p => fp_id p = fid) fp _ Hget)
    as (Hin & Hid & Huniq).
  set (g := fun p => if decide (fp_id p = fid) then set_is_active false p else p).
  rewrite (write_back_as_map fp_id g).
  2:{ intros r Hr Hk. unfold g. cbn in Hk. rewrite decide_True by congruence.
      f_equal. apply Huniq; [done | congruence]. }
  2:{ intros r Hr Hk. unfold g. cbn in Hk. rewrite decide_False by congruence. done. }
  apply versions_ok_map_plans; [..|done]; intros q; unfold g; by case_decide.
Qed.

(** What one call of [update_floor_plan] does. *)
Lemma update_floor_plan_cases db fid data user :
  (update_floor_plan db fid data user).1 = db
  ∨ ∃ fp,
      filter (fun p => fp_id p = fid) (floor_plans db) = [fp]
      ∧ can_manage_plan_type user (fp_plan_type fp) = true
      ∧ fpu_name data ≠ Some None
      ∧ update_floor_plan db fid data user
        = (with_floor_plans db
             (map (fun p => if decide (fp_id p = fid)
                            then apply_floor_plan_update data p else p)
                  (floor_plans db)),
           Return (Some (apply_floor_plan_update data fp), None)).
Proof.
  unfold update_floor_plan.
  destruct (get_floor_plan_by_id db fid) as [[fp|]|e] eqn:Hget; [|by left..].
  destruct (can_manage_plan_type user (fp_plan_type fp)) eqn:Hcan; cbn [negb];
    [|by left].
  case_bool_decide as Hnull; [by left|]. right. exists fp.
  apply scalar_one_or_none_Some in Hget.
  destruct (filter_singleton_elem (fun p => fp_id p = fid) fp _ Hget)
    as (Hin & Hid & Huniq).
  split_and!; [done..|]. f_equal. f_equal.
  apply write_back_as_map.
  - intros r Hr Hk. cbn in Hk. rewrite decide_True by congruence.
    f_equal. apply Huniq; [done | congruence].
  - intros r Hr Hk. cbn in Hk. by rewrite decide_False by congruence.
Qed.

Lemma update_floor_plan_keeps_versions_ok db fid data user :
  versions_ok db → versions_ok (update_floor_plan db fid data user).1.
Proof.
  intros Hok.
  destruct (update_floor_plan_cases db fid data user)
    as [-> | (fp & _ & _ & _ & ->)]; [done|]. cbn [fst].
  apply versions_ok_map_plans; [..|done]; intros q; by case_decide.
Qed.

(** Keys stay apart when the one row that changes gets a key that no other
    row carries. *)
Lemma NoDup_map_key_update {A K} (key : A → K) (g : A → A) (P : A → Prop)
    `{!∀ x, Decision (P x)} (l : list A) :
  NoDup (map key l) →
  (length (filter P l) ≤ 1)%nat →
  (∀ x, x ∈ l → ¬ P x → g x = x) →
  (∀ x, x ∈ l → P x →
     key (g x) = key x ∨ ∀ y, y ∈ l → ¬ P y → key (g x) ≠ key y) →
  NoDup (map key (map g l)).
Proof.
  induction l as [|x l IH]; [constructor|].
  cbn [map]. intros Hnd Hone Hsame Hnew.
  apply NoDup_cons in Hnd as [Hx Hnd]. rewrite filter_cons in Hone.
  assert (∀ y, y ∈ l → ¬ P y → g y = y) as Hsame'
    by (intros y Hy; apply Hsame; by right).
  destruct (decide (P x)) as [HPx | HPx].
  - assert (∀ y, y ∈ l → ¬ P y) as Hnone.
    { intros y Hy HPy.
      assert (y ∈ filter P l) as Hin by (by apply list_elem_of_filter).
      destruct (filter P l); [by apply elem_of_nil in Hin | cbn in Hone; lia]. }
    assert (map g l = l) as ->.
    { rewrite <- (map_id l) at 2. apply map_ext_in. intros y Hy.
      apply Hsame'; [by apply list_elem_of_In | apply Hnone; by apply list_elem_of_In]. }
    apply NoDup_cons. split; [|done].
    intros Hin. apply list_elem_of_fmap in Hin as (y & Hkey & Hy).
    destruct (Hnew x ltac:(by left) HPx) as [Hold | Hfresh].
    + apply Hx. apply list_elem_of_fmap. exists y. split; [congruence | done].
    + apply (Hfresh y); [by right | by apply Hnone | done].
  - rewrite (Hsame x) by (done || by left).
    apply NoDup_cons. split.
    + intros Hin. apply list_elem_of_fmap in Hin as (z & Hkey & Hz).
      apply list_elem_of_fmap in Hz as (y & -> & Hy).
      destruct (decide (P y)) as [HPy | HPy].
      * destruct (Hnew y ltac:(by right) HPy) as [Hold | Hfresh].
        -- apply Hx. apply list_elem_of_fmap. exists y. split; [congruence | done].
        -- apply (Hfresh x); [by left | done | done].
      * rewrite (Hsame' y Hy HPy) in Hkey.
        apply Hx. apply list_elem_of_fmap. by exists y.
    + apply IH; [done | done | done |].
      intros y Hy HPy. destruct (Hnew y ltac:(by right) HPy) as [Hold | Hfresh];
        [by left | right]. intros z Hz. apply Hfresh. by right.
Qed.

(** [update_floor_plan] keeps the names apart when it does not give the
    floor plan a name that another one of its type carries. *)
Lemma update_floor_plan_keeps_store_ok db fid data user :
  store_ok db →
  (∀ name target other,
     fpu_name data = Some (Some name) →
     get_floor_plan_by_id db fid = Return (Some target) →
     other ∈ floor_plans db → fp_id other ≠ fid →
     ¬ (fp_name other = name ∧ fp_plan_type other = fp_plan_type target)) →
  store_ok (update_floor_plan db fid data user).1.
Proof.
  intros Hok Hfree.
  destruct (update_floor_plan_keeps_versions_ok db fid data user
              (store_ok_versions_ok _ Hok)) as [Hcounters Howned].
  destruct (update_floor_plan_cases db fid data user)
    as [Hsame | (fp & Hone & _ & _ & Hcall)]; [by rewrite Hsame|].
  rewrite Hcall in *. cbn [fst] in *. split; [|exact Hcounters|exact Howned].
  cbn [floor_plans with_floor_plans].
  destruct (filter_singleton_elem (fun p => fp_id p = fid) fp _ Hone)
    as (Hin & Hid & Huniq).
  apply (NoDup_map_key_update _ _ (fun p => fp_id p = fid)).
  - apply Hok.
  - by rewrite Hone.
  - intros x _ Hx. by rewrite decide_False.
  - intros x Hx Hxid. rewrite decide_True by done.
    assert (x = fp) as -> by (by apply Huniq).
    destruct (fpu_name data) as [[name|]|] eqn:Hname;
      [right | left; cbn; by rewrite Hname..].
    intros y Hy Hyid Hkey. cbn in Hkey. rewrite Hname in Hkey.
    injection Hkey as Hn Ht.
    apply (Hfree name fp y eq_refl); [|done|done|done].
    unfold get_floor_plan_by_id. by rewrite Hone.
Qed.

Lemma NoDup_key_filter {A K} `{EqDecision K} (key : A → K) (k : K) (l : list A) :
  NoDup (map key l) → (length (filter (fun x => key x = k) l) ≤ 1)%nat.
Proof.
  induction l as [|x l IH]; [cbn; lia|]. cbn [map]. intros Hnd.
  apply NoDup_cons in Hnd as [Hx Hnd]. rewrite filter_cons.
  destruct (decide (key x = k)) as [Hk|Hk]; [|by apply IH].
  assert (filter (fun x => key x = k) l = []) as ->; [|cbn; lia].
  apply filter_nil_not_elem_of. intros y Hy Hky. apply Hx.
  apply list_elem_of_fmap. exists y. split; [congruence | done].
Qed.

Lemma scalar_one_or_none_returns {A} (rows : list A) :
  (length rows ≤ 1)%nat → ∃ r, scalar_one_or_none rows = Return r.
Proof. destruct rows as [|? [|? ?]]; cbn; intros; [by eexists..|lia]. Qed.

Lemma version_pair_taken_false db v :
  version_pair_taken db v = false
  ↔ ∀ w, w ∈ floor_plan_versions db →
         ¬ (fpv_floor_plan_id w = fpv_floor_plan_id v ∧ fpv_version w = fpv_version v).
Proof.
  unfold version_pair_taken. split.
  - intros Hno w Hw Hpair.
    assert (existsb (fun w => bool_decide (fpv_floor_plan_id w = fpv_floor_plan_id v
                                          ∧ fpv_version w = fpv_version v))
                    (floor_plan_versions db) = true) as Hyes; [|congruence].
    apply existsb_exists. exists w. split; [by apply list_elem_of_In|].
    by apply bool_decide_eq_true.
  - intros Hall. destruct (existsb _ _) eqn:Hex; [|done].
    apply existsb_exists in Hex as (w & Hw & Hpair).
    apply bool_decide_eq_true in Hpair. apply list_elem_of_In in Hw.
    by destruct (Hall w Hw).
Qed.

Lemma versions_ok_get_floor_plan_by_id db fid :
  versions_ok db → ∃ r, get_floor_plan_by_id db fid = Return r.
Proof.
  intros Hok. unfold get_floor_plan_by_id.
  destruct (versions_ok_lookup db fid Hok) as [-> | (fp & -> & _)]; by eexists.
Qed.

Lemma versions_ok_no_plan_no_version db fid :
  versions_ok db →
  filter (fun p => fp_id p = fid) (floor_plans db) = [] →
  versions_of db fid = [].
Proof.
  intros Hok Hnone. apply versions_ok_versions_of_fresh; [done|].
  intros Hin. apply list_elem_of_fmap in Hin as (fp & Hid & Hfp).
  by apply (proj1 (filter_nil_not_elem_of _ _) Hnone fp Hfp).
Qed.

Lemma versions_ok_get_version db fid n :
  versions_ok db → ∃ r, get_version db fid n = Return r.
Proof.
  intros Hok. unfold get_version. apply scalar_one_or_none_returns.
  assert (filter (fun v => fpv_floor_plan_id v = fid ∧ fpv_version v = n)
                 (floor_plan_versions db)
          = filter (fun v => fpv_version v = n) (versions_of db fid)) as ->.
  { unfold versions_of. rewrite list_filter_filter.
    apply list_filter_iff_Forall, Forall_forall. intros; tauto. }
  destruct (versions_ok_lookup db fid Hok) as [Hnone | (fp & _ & _ & _ & Hat)].
  - rewrite (versions_ok_no_plan_no_version _ _ Hok Hnone). cbn. lia.
  - apply NoDup_key_filter. destruct Hat as (_ & _ & Hnums).
    unfold version_numbers in Hnums. rewrite Hnums. apply NoDup_seqZ.
Qed.

Lemma versions_ok_create_version_returns db vid fid data user :
  versions_ok db → ∃ r, (create_version db vid fid data user).2 = Return r.
Proof.
  intros Hok. unfold create_version, get_floor_plan_by_id.
  destruct (versions_ok_lookup db fid Hok) as [-> | (fp & -> & _ & _ & Hat)];
    cbn [scalar_one_or_none]; [by eexists|].
  destruct (can_manage_plan_type user (fp_plan_type fp)); cbn [negb]; [|by eexists].
  destruct (validate_grid_data _ _ _ _) as [[] error]; [|by eexists].
  rewrite (proj2 (version_pair_taken_false _ _)); [by eexists|].
  intros w Hw [Hfid Hnum]. cbn in Hfid, Hnum.
  destruct Hat as (_ & _ & Hnums).
  assert (fpv_version w ∈ version_numbers db fid) as Hin.
  { unfold version_numbers, versions_of. apply list_elem_of_fmap. exists w.
    split; [done|]. by apply list_elem_of_filter. }
  rewrite Hnums in Hin. apply elem_of_seqZ in Hin. lia.
Qed.

Lemma store_ok_create_floor_plan_returns db new_id new_vid data user :
  store_ok db → fresh_plan_id db new_id →
  ∃ r, (create_floor_plan db new_id new_vid data user).2 = Return r.
Proof.
  intros Hok Hfresh. unfold create_floor_plan.
  destruct (can_manage_plan_type _ _); cbn [negb]; [|by eexists].
  destruct (scalar_one_or_none_returns
              (filter (fun fp => fp_name fp = fpc_name data
                                 ∧ fp_plan_type fp = fpc_plan_type data)
                      (floor_plans db))) as [[fp|] ->]; [| by eexists |].
  { assert (filter (fun fp => fp_name fp = fpc_name data
                              ∧ fp_plan_type fp = fpc_plan_type data) (floor_plans db)
            = filter (fun fp => (fp_name fp, fp_plan_type fp)
                                = (fpc_name data, fpc_plan_type data)) (floor_plans db))
      as ->.
    { apply list_filter_iff_Forall, Forall_forall. intros fp _.
      split; [by intros [-> ->] | by intros [= -> ->]]. }
    apply NoDup_key_filter, Hok. }
  destruct (validate_grid_data _ _ _ _) as [[] error]; [|by eexists].
  rewrite (proj2 (version_pair_taken_false _ _)); [by eexists|].
  intros w Hw [Hfid _]. cbn in Hfid.
  pose proof (store_ok_versions_of_fresh _ _ Hok Hfresh) as Hnone.
  apply (proj1 (filter_nil_not_elem_of _ _) Hnone w Hw Hfid).
Qed.

Lemma versions_ok_delete_floor_plan_returns db fid user :
  versions_ok db → ∃ r, (delete_floor_plan db fid user).2 = Return r.
Proof.
  intros Hok. unfold delete_floor_plan.
  destruct (versions_ok_get_floor_plan_by_id db fid Hok) as [[fp|] ->]; [|by eexists].
  destruct (can_manage_plan_type user (fp_plan_type fp)); by eexists.
Qed.

Lemma latest_version_elem db fid v :
  get_latest_version db fid = Return (Some v) →
  v ∈ floor_plan_versions db ∧ fpv_floor_plan_id v = fid.
Proof.
  rewrite get_latest_version_returns. intros [= Hhead].
  assert (v ∈ list_versions db fid) as Hin.
  { destruct (list_versions db fid); simplify_eq/=. by left. }
  unfold list_versions in Hin. rewrite order_by_version_desc_perm in Hin.
  apply list_elem_of_filter in Hin. tauto.
Qed.

Lemma grid_ok_rectangular grid rows columns pt :
  grid_ok grid rows columns pt →
  Forall (fun row => length row = Z.to_nat columns) grid.
Proof.
  intros [_ Hrows]. eapply Forall_impl; [exact Hrows|]. cbn. intros row [Hlen _]. lia.
Qed.

Lemma versions_ok_validate_parking_slot_returns db fid cell_row cell_column :
  versions_ok db →
  ∃ r, ParkingService.validate_parking_slot db fid cell_row cell_column = Return r.
Proof.
  intros Hok.
  destruct (isdigit cell_row) eqn:Hrow, (isdigit cell_column) eqn:Hcol.
  2-4: unfold ParkingService.validate_parking_slot; rewrite Hrow, Hcol; by eexists.
  destruct (versions_ok_lookup db fid Hok) as [Hnone | (fp & Hone & _ & <- & _)].
  { unfold ParkingService.validate_parking_slot. rewrite Hrow, Hcol, Hnone.
    by eexists. }
  destruct (decide (fp_plan_type fp = PARKING)) as [Hty|Hty].
  2:{ unfold ParkingService.validate_parking_slot. rewrite Hrow, Hcol, Hone.
      cbn. rewrite bool_decide_eq_true_2 by done. by eexists. }
  destruct (ParkingService.latest_version db (fp_id fp)) as [[v|]|e] eqn:Hlatest.
  - destruct (latest_version_elem _ _ _ Hlatest) as [Hv Hvid].
    destruct (proj2 Hok v Hv) as (fp' & _ & _ & Hgrid).
    apply grid_ok_rectangular in Hgrid.
    destruct (validate_parking_slot_checks_bounds db fp v cell_row cell_column _
                Hrow Hcol Hone Hty Hlatest Hgrid) as (_ & _ & Hout & Hin).
    destruct (decide (digits_value 0 cell_row < Z.of_nat (length (fpv_grid_data v))
                      ∧ digits_value 0 cell_column
                        < Z.of_nat (Z.to_nat (fp_columns fp')))) as [Hb|Hb].
    + destruct (Hin Hb) as (? & ? & _ & _ & ->). by eexists.
    + rewrite (Hout Hb). by eexists.
  - unfold ParkingService.validate_parking_slot. rewrite Hrow, Hcol, Hone.
    cbn. rewrite bool_decide_eq_false_2 by (by intros ?). rewrite Hlatest.
    by eexists.
  - change (ParkingService.latest_version db (fp_id fp))
      with (get_latest_version db (fp_id fp)) in Hlatest.
    by rewrite get_latest_version_returns in Hlatest.
Qed.

Lemma index_elem_of {A} (l : list A) (i : Z) (x : A) :
  index l i = Return x → x ∈ l.
Proof.
  unfold index. destruct (_ || _); [done|].
  destruct (l !! _) as [y|] eqn:Hy; [|done]. intros [= <-].
  by eapply list_elem_of_lookup_2.
Qed.

(** A cell of a validated grid has one of the types of its plan type. *)
Lemma grid_ok_cell_type grid rows columns pt row cell ct :
  grid_ok grid rows columns pt → row ∈ grid → cell ∈ row →
  eq_str (get cell "cell_type") (cell_type_value ct) = true →
  ∃ allowed, assoc_get VALID_CELL_TYPES pt = Some allowed ∧ ct ∈ allowed.
Proof.
  intros [_ Hrows] Hrow Hcell Hty.
  rewrite Forall_forall in Hrows. destruct (Hrows row Hrow) as [_ Hcells].
  rewrite Forall_forall in Hcells.
  destruct (Hcells cell Hcell) as (_ & ct' & allowed & Hallowed & Hct & Hval).
  apply eq_str_true in Hty. rewrite Hty in Hval. injection Hval as Hval.
  apply cell_type_value_inj in Hval as <-. eauto.
Qed.

Lemma validate_desk_cell_valid db fid cell_row cell_column error version :
  DeskService.validate_desk_cell db fid cell_row cell_column
    = Return (true, error, version) →
  ∃ v row cell,
    get_latest_version db fid = Return (Some v)
    ∧ row ∈ fpv_grid_data v ∧ cell ∈ row
    ∧ eq_str (get cell "cell_type") (cell_type_value DESK) = true
    ∧ truthy (get_default cell "is_active" (JBool true)) = true
    ∧ error = None ∧ version = Some (fpv_version v).
Proof.
  unfold DeskService.validate_desk_cell. fold (get_latest_version db fid).
  destruct (get_latest_version db fid) as [[v|]|e]; cbn [mbind outcome_bind];
    [|done..].
  destruct (int cell_row) as [r|]; cbn [mbind outcome_bind]; [|done].
  destruct (int cell_column) as [c|]; cbn [mbind outcome_bind]; [|done].
  destruct (r >=? _); cbn [mbind outcome_bind]; [done|].
  destruct (index (fpv_grid_data v) 0) as [row0|]; cbn [mbind outcome_bind]; [|done].
  destruct (c >=? _); [done|].
  destruct (index (fpv_grid_data v) r) as [row|] eqn:Hrow;
    cbn [mbind outcome_bind]; [|done].
  destruct (index row c) as [cell|] eqn:Hcell; cbn [mbind outcome_bind]; [|done].
  destruct (eq_str _ _) eqn:Hty; cbn [negb]; [|done].
  destruct (truthy _) eqn:Hact; cbn [negb]; [|done].
  intros [= <- <-]. exists v, row, cell.
  split_and!; try done; by eapply index_elem_of.
Qed.

Lemma validate_table_cell_valid db fid cell_row cell_column error :
  CafeteriaService.validate_table_cell db fid cell_row cell_column
    = Return (true, error) →
  ∃ v row cell,
    get_latest_version db fid = Return (Some v)
    ∧ row ∈ fpv_grid_data v ∧ cell ∈ row
    ∧ eq_str (get cell "cell_type") (cell_type_value CAFETERIA_TABLE) = true
    ∧ error = None.
Proof.
  unfold CafeteriaService.validate_table_cell. fold (get_latest_version db fid).
  destruct (get_latest_version db fid) as [[v|]|e]; cbn [mbind outcome_bind];
    [|done..].
  destruct (int cell_row) as [r|]; cbn [mbind outcome_bind]; [|done].
  destruct (int cell_column) as [c|]; cbn [mbind outcome_bind]; [|done].
  destruct (r >=? _); cbn [mbind outcome_bind]; [done|].
  destruct (index (fpv_grid_data v) 0) as [row0|]; cbn [mbind outcome_bind]; [|done].
  destruct (c >=? _); [done|].
  destruct (index (fpv_grid_data v) r) as [row|] eqn:Hrow;
    cbn [mbind outcome_bind]; [|done].
  destruct (index row c) as [cell|] eqn:Hcell; cbn [mbind outcome_bind]; [|done].
  destruct (eq_str _ _) eqn:Hty; cbn [negb]; [|done].
  intros [= <-]. exists v, row, cell.
  split_and!; try done; by eapply index_elem_of.
Qed.

(** The floor plan that owns the latest version of a plan id. *)
Lemma store_ok_latest_owner db fid v :
  store_ok db →
  get_latest_version db fid = Return (Some v) →
  ∃ fp, get_floor_plan_by_id db fid = Return (Some fp)
        ∧ fp ∈ floor_plans db ∧ fp_id fp = fid
        ∧ grid_ok (fpv_grid_data v) (fp_rows fp) (fp_columns fp) (fp_plan_type fp).
Proof.
  intros Hok Hlatest. destruct (latest_version_elem _ _ _ Hlatest) as [Hv Hvid].
  destruct (versions_owned db Hok v Hv) as (fp & Hfp & Hid & Hgrid).
  rewrite Hvid in Hid. exists fp. split_and!; try done.
  unfold get_floor_plan_by_id.
  destruct (store_ok_lookup db fid Hok) as [Hnone | (fp' & Hone & _)].
  - by destruct (proj1 (filter_nil_not_elem_of _ _) Hnone fp Hfp).
  - rewrite Hone. cbn. do 2 f_equal.
    destruct (filter_singleton_elem (fun p => fp_id p = fid) fp' _ Hone)
      as (_ & _ & Huniq).
    symmetry. by apply Huniq.
Qed.

Lemma store_ok_empty : store_ok Examples.empty_db.
Proof.
  split; cbn.
  - constructor.
  - intros fp Hfp. by apply elem_of_nil in Hfp.
  - intros v Hv. by apply elem_of_nil in Hv.
Qed.

Lemma store_ok_desk_floor : store_ok Examples.desk_floor.
Proof.
  change Examples.desk_floor
    with (create_floor_plan Examples.empty_db 100 101
            Examples.desk_floor_create Examples.super_admin).1.
  apply create_floor_plan_keeps_store_ok; [apply store_ok_empty|].
  intros Hin. by apply elem_of_nil in Hin.
Qed.

Lemma store_ok_parking_floor : store_ok Examples.parking_floor.
Proof.
  change Examples.parking_floor
    with (create_floor_plan Examples.empty_db 200 201
            (mkFloorPlanCreate "Basement" PARKING 3 3 None Examples.parking_grid)
            Examples.super_admin).1.
  apply create_floor_plan_keeps_store_ok; [apply store_ok_empty|].
  intros Hin. by apply elem_of_nil in Hin.
Qed.

Lemma versions_ok_update_floor_plan_returns db fid data user :
  versions_ok db →
  (∃ r, (update_floor_plan db fid data user).2 = Return r)
  ∨ ((update_floor_plan db fid data user).2 = Raise DBAPIError
     ∧ fpu_name data = Some None).
Proof.
  intros Hok. unfold update_floor_plan.
  destruct (versions_ok_get_floor_plan_by_id db fid Hok) as [[fp|] ->];
    [|left; by eexists].
  destruct (can_manage_plan_type user (fp_plan_type fp)); cbn [negb];
    [|left; by eexists].
  case_bool_decide; [by right | left; by eexists].
Qed.

Lemma store_ok_two_desk_floors : store_ok Examples.two_desk_floors.
Proof.
  change Examples.two_desk_floors
    with (create_floor_plan Examples.desk_floor 110 111
            (mkFloorPlanCreate "Annex" DESK_AREA 3 3 None Examples.desk_grid)
            Examples.super_admin).1.
  apply create_floor_plan_keeps_store_ok; [apply store_ok_desk_floor|].
  intros Hin. apply list_elem_of_singleton in Hin. discriminate Hin.
Qed.

(** X5.  What the writers of the floor-plan service keep of their tables.
    The versions are in order ([versions_ok]: every floor plan is there
    once, with versions numbered 1 to its counter, and every version is
    owned by a floor plan whose dimensions and type its grid passes) in the
    empty database and after every call of [create_floor_plan] (given a
    primary key that no plan carries), [create_version], [update_floor_plan]
    and [delete_floor_plan], whatever they answer.  The names stay unique
    inside a plan type as well ([store_ok]) under [create_floor_plan],
    [create_version] and [delete_floor_plan]; under [update_floor_plan] they
    do when the request sets no name or one that no other floor plan of the
    type carries.  [update_floor_plan] itself does not check this: renaming
    the second of two desk floors to the name of the first is accepted, and
    a later [create_floor_plan] under that name raises
    [MultipleResultsFound]. *)
Theorem floor_plan_store_invariant :
  store_ok (mkDB [] [] [] [] [] [])
  ∧ (∀ db new_id new_version_id floor_plan_data created_by,
       fresh_plan_id db new_id →
       let db' := (create_floor_plan db new_id new_version_id
                                     floor_plan_data created_by).1 in
       (versions_ok db → versions_ok db') ∧ (store_ok db → store_ok db'))
  ∧ (∀ db new_version_id floor_plan_id version_data created_by,
       let db' := (create_version db new_version_id floor_plan_id
                                  version_data created_by).1 in
       (versions_ok db → versions_ok db') ∧ (store_ok db → store_ok db'))
  ∧ (∀ db floor_plan_id deleted_by,
       let db' := (delete_floor_plan db floor_plan_id deleted_by).1 in
       (versions_ok db → versions_ok db') ∧ (store_ok db → store_ok db'))
  ∧ (∀ db floor_plan_id floor_plan_data updated_by,
       let db' := (update_floor_plan db floor_plan_id floor_plan_data
                                     updated_by).1 in
       (versions_ok db → versions_ok db')
       ∧ (store_ok db →
          (∀ name target other,
             fpu_name floor_plan_data = Some (Some name) →
             get_floor_plan_by_id db floor_plan_id = Return (Some target) →
             other ∈ floor_plans db → fp_id other ≠ floor_plan_id →
             ¬ (fp_name other = name
                ∧ fp_plan_type other = fp_plan_type target)) →
          store_ok db'))
  ∧ (let renamed :=
       update_floor_plan Examples.two_desk_floors 110
         Examples.rename_to_open_space Examples.super_admin in
     store_ok Examples.two_desk_floors
     ∧ (∃ floor_plan, renamed.2 = Return (Some floor_plan, None)
                      ∧ fp_name floor_plan = "Open space")
     ∧ versions_ok renamed.1
     ∧ ¬ store_ok renamed.1
     ∧ ∀ new_id new_version_id,
         (create_floor_plan renamed.1 new_id new_version_id
            Examples.desk_floor_create Examples.super_admin).2
         = Raise MultipleResultsFound).
Proof.
  split_and!.
  - apply store_ok_empty.
  - intros. split; intros; [by apply create_floor_plan_keeps_versions_ok
                           | by apply create_floor_plan_keeps_store_ok].
  - intros. split; intros; [by apply create_version_keeps_versions_ok
                           | by apply create_version_keeps_store_ok].
  - intros. split; intros; [by apply delete_floor_plan_keeps_versions_ok
                           | by apply delete_floor_plan_keeps_store_ok].
  - intros. split; intros; [by apply update_floor_plan_keeps_versions_ok
                           | by apply update_floor_plan_keeps_store_ok].
  - cbv zeta. split_and!.
    + apply store_ok_two_desk_floors.
    + by eexists.
    + apply update_floor_plan_keeps_versions_ok, store_ok_versions_ok,
        store_ok_two_desk_floors.
    + intros Hok. pose proof (names_unique _ Hok) as Hnames.
      vm_compute in Hnames. apply NoDup_cons in Hnames as [Hnot _].
      apply Hnot. by left.
    + reflexivity.
Qed.

Lemma floor_plan_store_invariant_witness :
  store_ok
    (update_floor_plan
       (delete_floor_plan
          (create_version
             (create_floor_plan Examples.desk_floor 110 111
                (mkFloorPlanCreate "Annex" DESK_AREA 3 3 None Examples.desk_grid)
                Examples.super_admin).1
             112 110
             (mkFloorPlanVersionCreate Examples.desk_grid (Some "second"))
             Examples.super_admin).1
          100 Examples.super_admin).1
       110
       (mkFloorPlanUpdate (Some (Some "Lobby")) None None None None)
       Examples.super_admin).1.
Proof.
  destruct floor_plan_store_invariant
    as (_ & Hcreate & Hversion & Hdelete & Hupdate & _).
  apply (proj2 (Hupdate _ _ _ _)).
  - apply (proj2 (Hdelete _ _ _)), (proj2 (Hversion _ _ _ _ _)).
    apply (proj2 (Hcreate Examples.desk_floor 110 111 _ _
                    ltac:(intros Hin; apply list_elem_of_singleton in Hin;
                          discriminate Hin))).
    apply store_ok_desk_floor.
  - intros name target other [= <-] _ Hother Hid [Hname _].
    vm_compute in Hother.
    apply elem_of_cons in Hother as [-> | Hother]; [discriminate Hname|].
    apply list_elem_of_singleton in Hother as ->. by apply Hid.
Defined.

(** X6.  While the versions are in order ([versions_ok], which every writer
    of the floor-plan service keeps) no lookup sees two rows:
    [get_floor_plan_by_id], [get_version], [create_version] and
    [delete_floor_plan] return; [update_floor_plan] returns unless the
    request sets the name to null, which the NOT NULL column rejects;
    [create_floor_plan] returns when moreover the names are unique inside a
    plan type and the primary key is fresh; and [validate_parking_slot]
    returns for coordinates that are ASCII text of at most 4300 characters
    (on which [isdigit] and [int] are Python's): its indexing stays inside
    the validated grid. *)
Theorem floor_plan_service_never_raises (db : DB) :
  versions_ok db →
  (∀ floor_plan_id, ∃ r, get_floor_plan_by_id db floor_plan_id = Return r)
  ∧ (∀ floor_plan_id version,
       ∃ r, get_version db floor_plan_id version = Return r)
  ∧ (∀ new_version_id floor_plan_id version_data created_by,
       ∃ r, (create_version db new_version_id floor_plan_id
                            version_data created_by).2 = Return r)
  ∧ (∀ floor_plan_id floor_plan_data updated_by,
       (∃ r, (update_floor_plan db floor_plan_id floor_plan_data
                                updated_by).2 = Return r)
       ∨ ((update_floor_plan db floor_plan_id floor_plan_data updated_by).2
            = Raise DBAPIError
          ∧ fpu_name floor_plan_data = Some None))
  ∧ (∀ floor_plan_id deleted_by,
       ∃ r, (delete_floor_plan db floor_plan_id deleted_by).2 = Return r)
  ∧ (∀ new_id new_version_id floor_plan_data created_by,
       NoDup (map (fun fp => (fp_name fp, fp_plan_type fp)) (floor_plans db)) →
       fresh_plan_id db new_id →
       ∃ r, (create_floor_plan db new_id new_version_id
                               floor_plan_data created_by).2 = Return r)
  ∧ (∀ floor_plan_id cell_row cell_column,
       isascii cell_row = true → isascii cell_column = true →
       (String.length cell_row ≤ MAX_STR_DIGITS)%nat →
       (String.length cell_column ≤ MAX_STR_DIGITS)%nat →
       ∃ r, ParkingService.validate_parking_slot db floor_plan_id
                                                 cell_row cell_column = Return r).
Proof.
  intros Hok. split_and!; intros.
  - by apply versions_ok_get_floor_plan_by_id.
  - by apply versions_ok_get_version.
  - by apply versions_ok_create_version_returns.
  - by apply versions_ok_update_floor_plan_returns.
  - by apply versions_ok_delete_floor_plan_returns.
  - apply store_ok_create_floor_plan_returns; [|done].
    by split; [|apply (proj1 Hok)|apply (proj2 Hok)].
  - by apply versions_ok_validate_parking_slot_returns.
Qed.

Lemma floor_plan_service_never_raises_witness :
  let renamed :=
    (update_floor_plan Examples.two_desk_floors 110
       Examples.rename_to_open_space Examples.super_admin).1 in
  (∃ r, (create_version renamed 112 110
           (mkFloorPlanVersionCreate Examples.parking_grid None)
           Examples.super_admin).2 = Return r)
  ∧ ∃ r, ParkingService.validate_parking_slot Examples.parking_floor 200 "7" "0"
         = Return r.
Proof.
  split.
  - destruct (floor_plan_service_never_raises
                (update_floor_plan Examples.two_desk_floors 110
                   Examples.rename_to_open_space Examples.super_admin).1)
      as (_ & _ & Hversion & _).
    + apply update_floor_plan_keeps_versions_ok, store_ok_versions_ok,
        store_ok_two_desk_floors.
    + apply Hversion.
  - destruct (floor_plan_service_never_raises Examples.parking_floor
                (store_ok_versions_ok _ store_ok_parking_floor))
      as (_ & _ & _ & _ & _ & _ & Hvalidate).
    apply Hvalidate; [reflexivity | reflexivity | |]; vm_compute; lia.
Defined.

(** X7.  [create_booking] never looks at the type of the floor plan, yet on
    consistent tables a desk booking is only ever created on a DESK_AREA
    plan and a table booking on a CAFETERIA plan: the cell it validates sits
    in a grid that passed [validate_grid_data] for the plan's type. *)
Theorem booking_needs_plan_of_its_type (db : DB) :
  store_ok db →
  (∀ new_id booking_data user db' booking error,
     DeskService.create_booking db new_id booking_data user
       = (db', Return (Some booking, error)) →
     ∃ fp, get_floor_plan_by_id db (DeskService.dbc_floor_plan_id booking_data)
             = Return (Some fp)
           ∧ fp_plan_type fp = DESK_AREA)
  ∧ (∀ new_id booking_data user db' booking error,
       CafeteriaService.create_booking db new_id booking_data user
         = (db', Return (Some booking, error)) →
       ∃ fp, get_floor_plan_by_id db (CafeteriaService.cbc_floor_plan_id booking_data)
               = Return (Some fp)
             ∧ fp_plan_type fp = CAFETERIA).
Proof.
  intros Hok. split.
  - intros new_id data user db' booking error. unfold DeskService.create_booking.
    destruct (DeskService.validate_desk_cell _ _ _ _) as [[[valid e] ver]|] eqn:Hvalid;
      [|done].
    destruct valid; cbn [negb]; [|done]. intros _.
    apply validate_desk_cell_valid in Hvalid
      as (v & row & cell & Hlatest & Hrow & Hcell & Hty & _).
    destruct (store_ok_latest_owner _ _ _ Hok Hlatest) as (fp & Hget & _ & _ & Hgrid).
    exists fp. split; [done|].
    destruct (grid_ok_cell_type _ _ _ _ _ _ _ Hgrid Hrow Hcell Hty)
      as (allowed & Hallowed & Hin).
    destruct (fp_plan_type fp); [done|..];
      vm_compute in Hallowed; injection Hallowed as <-;
      repeat (apply elem_of_cons in Hin as [?|Hin]; [done|]);
      by apply elem_of_nil in Hin.
  - intros new_id data user db' booking error. unfold CafeteriaService.create_booking.
    destruct (CafeteriaService.validate_table_cell _ _ _ _) as [[valid e]|] eqn:Hvalid;
      [|done].
    destruct valid; cbn [negb]; [|done]. intros _.
    apply validate_table_cell_valid in Hvalid
      as (v & row & cell & Hlatest & Hrow & Hcell & Hty & _).
    destruct (store_ok_latest_owner _ _ _ Hok Hlatest) as (fp & Hget & _ & _ & Hgrid).
    exists fp. split; [done|].
    destruct (grid_ok_cell_type _ _ _ _ _ _ _ Hgrid Hrow Hcell Hty)
      as (allowed & Hallowed & Hin).
    destruct (fp_plan_type fp); [|done|];
      vm_compute in Hallowed; injection Hallowed as <-;
      repeat (apply elem_of_cons in Hin as [?|Hin]; [done|]);
      by apply elem_of_nil in Hin.
Qed.

Lemma booking_needs_plan_of_its_type_witness :
  ∃ fp, get_floor_plan_by_id Examples.desk_floor 100 = Return (Some fp)
        ∧ fp_plan_type fp = DESK_AREA.
Proof.
  destruct (booking_needs_plan_of_its_type Examples.desk_floor store_ok_desk_floor)
    as [Hdesk _].
  eapply (Hdesk 1 (DeskService.mkDeskBookingCreate 100 "D1" "1" "1" 20240601
                     (Examples.at_ 9 0) (Examples.at_ 10 0) None) Examples.alice).
  vm_compute. reflexivity.
Defined.

End StoreInvariant.


(** ** Reading a version back *)

Section ReadBack.
Import FloorPlanService Reference Invariants.

Lemma get_version_append db plans v f n :
  get_version (with_versions (with_floor_plans db plans)
                             (floor_plan_versions db ++ [v])) f n
  = scalar_one_or_none
      (filter (fun w => fpv_floor_plan_id w = f ∧ fpv_version w = n)
              (floor_plan_versions db)
       ++ (if decide (fpv_floor_plan_id v = f ∧ fpv_version v = n) then [v] else [])).
Proof.
  unfold get_version. cbn [floor_plan_versions with_versions].
  rewrite filter_app, filter_cons, filter_nil. by destruct (decide _).
Qed.

(** X8.  A version that [create_version] returns can be read back:
    [get_version] finds it under its number, where it found nothing before,
    with the grid of the request; every other (floor plan, number) pair
    reads as before, and the counter of the floor plan stands at the new
    number. *)
Theorem created_version_is_read_back
    (db : DB) (new_version_id floor_plan_id : UUID)
    (version_data : FloorPlanVersionCreate) (created_by : User)
    (db' : DB) (version : FloorPlanVersion) (error : option Msg) :
  create_version db new_version_id floor_plan_id version_data created_by
    = (db', Return (Some version, error)) →
  get_version db' floor_plan_id (fpv_version version) = Return (Some version)
  ∧ get_version db floor_plan_id (fpv_version version) = Return None
  ∧ fpv_grid_data version = fpvc_grid_data version_data
  ∧ fpv_created_by_id version = user_id created_by
  ∧ (∀ f n, (f, n) ≠ (floor_plan_id, fpv_version version) →
            get_version db' f n = get_version db f n)
  ∧ (∃ fp, get_floor_plan_by_id db' floor_plan_id = Return (Some fp)
           ∧ fp_current_version fp = fpv_version version).
Proof.
  intros Hcall.
  destruct (create_version_assigns_next _ _ _ _ _ _ _ _ Hcall)
    as (fp0 & fp' & _ & _ & Hget' & Hcur' & _).
  apply create_version_cases in Hcall
    as [[_ Hno]|(fp & Hfp & _ & _ & Htaken & Hreply & ->)];
    [by destruct (Hno version error)|].
  injection Hreply as -> ->.
  set (v := mkFloorPlanVersion new_version_id floor_plan_id
              (fp_current_version fp + 1) (fpvc_grid_data version_data) true
              (user_id created_by) (fpvc_change_notes version_data)) in *.
  assert (filter (fun w => fpv_floor_plan_id w = floor_plan_id
                           ∧ fpv_version w = fp_current_version fp + 1)
                 (floor_plan_versions db) = []) as Hnone.
  { apply filter_nil_not_elem_of.
    exact (proj1 (version_pair_taken_false db v) Htaken). }
  split_and!; try done.
  - rewrite get_version_append. cbn [fpv_version fpv_floor_plan_id v].
    by rewrite Hnone, decide_True.
  - unfold get_version. cbn [fpv_version v]. by rewrite Hnone.
  - intros f n Hne. rewrite get_version_append.
    rewrite decide_False; [by rewrite app_nil_r|].
    cbn. intros [<- <-]. done.
  - by exists fp'.
Qed.

Lemma created_version_is_read_back_witness :
  let result :=
    create_version Examples.desk_floor 102 100
      (mkFloorPlanVersionCreate Examples.desk_grid (Some "second"))
      Examples.super_admin in
  let version :=
    mkFloorPlanVersion 102 100 2 Examples.desk_grid true 1 (Some "second") in
  get_version result.1 100 2 = Return (Some version)
  ∧ get_version Examples.desk_floor 100 2 = Return None
  ∧ get_version result.1 100 1 = get_version Examples.desk_floor 100 1.
Proof.
  cbv zeta.
  destruct (created_version_is_read_back Examples.desk_floor 102 100
              (mkFloorPlanVersionCreate Examples.desk_grid (Some "second"))
              Examples.super_admin _ _ _ eq_refl)
    as (Hnew & Hbefore & _ & _ & Hother & _).
  split_and!; [exact Hnew | exact Hbefore |].
  apply (Hother 100 1). intros [=].
Defined.

End ReadBack.


(** ** The gate of the floor-plan endpoints *)

Section EndpointGate.
Import FloorPlanService FloorPlansEndpoint.

Lemma check_floor_plan_access_None (user : User) (plan_type : FloorPlanType) :
  check_floor_plan_access user plan_type = None
  ↔ can_manage_plan_type user plan_type = true.
Proof.
  unfold check_floor_plan_access, can_manage_plan_type.
  destruct user as [uid role mt]. cbn [user_role user_manager_type].
  destruct role, mt as [[]|], plan_type; vm_compute; split; congruence.
Qed.

(** The messages that [validate_grid_data] can return. *)
Lemma validate_cells_message valid pt r c row e :
  validate_cells valid pt r c row = Some e →
  match e with
  | Cell_missing_cell_type _ _ | Invalid_cell_type _ _ _ _ _ => True
  | _ => False
  end.
Proof.
  revert c. induction row as [|cell row IH]; intros c; [done|].
  cbn [validate_cells]. destruct (negb _); [by intros [= <-]|].
  destruct (negb _); [by intros [= <-] | apply IH].
Qed.

Lemma validate_grid_data_message grid rows columns pt ok e :
  validate_grid_data grid rows columns pt = (ok, Some e) →
  match e with
  | Grid_must_have_exactly_rows _ | Row_must_have_exactly_columns _ _
  | Cell_missing_cell_type _ _ | Invalid_cell_type _ _ _ _ _ => True
  | _ => False
  end.
Proof.
  unfold validate_grid_data. destruct (negb _); [by intros [= <- <-]|].
  destruct (validate_rows _ _ _ _ _) as [e'|] eqn:Hrows; [|done].
  intros [= <- <-]. revert Hrows. generalize 0%nat.
  induction grid as [|row grid IH]; intros r; [done|].
  cbn [validate_rows]. destruct (negb _); [by intros [= <-]|].
  destruct (validate_cells _ _ _ _ _) as [e''|] eqn:Hcells; [|apply IH].
  intros [= <-]. apply validate_cells_message in Hcells. by destruct e''.
Qed.

(** X9.  The gate of the endpoints and the gate of the service agree:
    [check_floor_plan_access] returns without raising exactly when
    [can_manage_plan_type] is true, and the detail of its 403 tells a
    manager of another domain from a user who is no manager.  So behind the
    gate [create_floor_plan] and [create_version] never answer with their
    own permission message, and [delete_floor_plan] of a plan that exists
    succeeds. *)
Theorem check_floor_plan_access_agrees (user : User) (plan_type : FloorPlanType) :
  (check_floor_plan_access user plan_type = None
   ↔ can_manage_plan_type user plan_type = true)
  ∧ (∀ d, check_floor_plan_access user plan_type = Some d →
          match d with
          | Manager_or_Admin_access_required =>
              user_role user = TEAM_LEAD ∨ user_role user = EMPLOYEE
          | Only_manager_can_manage required_type value =>
              user_role user = MANAGER
              ∧ required_type = assoc_get PLAN_TYPE_TO_MANAGER_TYPE plan_type
              ∧ is_Some required_type
              ∧ user_manager_type user ≠ required_type
              ∧ value = plan_type_value plan_type
          end)
  ∧ (check_floor_plan_access user plan_type = None →
     (∀ db new_id new_version_id floor_plan_data value,
        fpc_plan_type floor_plan_data = plan_type →
        (create_floor_plan db new_id new_version_id floor_plan_data user).2
        ≠ Return (None, Some (No_permission_to_create value)))
     ∧ (∀ db new_version_id floor_plan_id version_data floor_plan value,
          get_floor_plan_by_id db floor_plan_id = Return (Some floor_plan) →
          fp_plan_type floor_plan = plan_type →
          (create_version db new_version_id floor_plan_id version_data user).2
          ≠ Return (None, Some (No_permission_to_modify value)))
     ∧ (∀ db floor_plan_id floor_plan,
          get_floor_plan_by_id db floor_plan_id = Return (Some floor_plan) →
          fp_plan_type floor_plan = plan_type →
          (delete_floor_plan db floor_plan_id user).2 = Return (true, None))).
Proof.
  split_and!.
  - apply check_floor_plan_access_None.
  - unfold check_floor_plan_access.
    destruct user as [uid role mt]. cbn [user_role user_manager_type].
    intros d. destruct role, mt as [[]|], plan_type; vm_compute;
      intros [= <-]; intuition (try congruence; eauto).
  - intros Hgate. apply check_floor_plan_access_None in Hgate. split_and!.
    + intros db new_id new_vid data value <-. unfold create_floor_plan.
      rewrite Hgate. cbn [negb].
      destruct (scalar_one_or_none _) as [[?|]|]; [done| |done].
      destruct (validate_grid_data _ _ _ _) as [[] error] eqn:Hvalid.
      * by destruct (version_pair_taken _ _).
      * cbn. intros [= ->]. by apply validate_grid_data_message in Hvalid.
    + intros db vid fid data fp value Hget <-. unfold create_version.
      rewrite Hget, Hgate. cbn [negb].
      destruct (validate_grid_data _ _ _ _) as [[] error] eqn:Hvalid.
      * by destruct (version_pair_taken _ _).
      * cbn. intros [= ->]. by apply validate_grid_data_message in Hvalid.
    + intros db fid fp Hget <-. unfold delete_floor_plan.
      by rewrite Hget, Hgate.
Qed.

Lemma check_floor_plan_access_agrees_witness :
  check_floor_plan_access Examples.parking_manager PARKING = None
  ∧ check_floor_plan_access Examples.parking_manager DESK_AREA
    = Some (Only_manager_can_manage (Some MT_DESK_CONFERENCE) "DESK_AREA")
  ∧ (delete_floor_plan Examples.parking_floor 200 Examples.parking_manager).2
    = Return (true, None).
Proof.
  destruct (check_floor_plan_access_agrees Examples.parking_manager PARKING)
    as (Hgate & _ & Hbehind).
  assert (check_floor_plan_access Examples.parking_manager PARKING = None) as Hopen
    by (by apply Hgate).
  destruct (Hbehind Hopen) as (_ & _ & Hdelete).
  split_and!; [exact Hopen | reflexivity |].
  by apply (Hdelete Examples.parking_floor 200 Examples.parking_plan).
Defined.

End EndpointGate.


(** ** The schedule of the desk bookings *)

Section DeskSchedule.
Import DeskService Reference Invariants.

Lemma elem_of_write_back {R} (key : R → Z) (b : R) (l : list R) (x : R) :
  x ∈ write_back key b l → x = b ∨ (x ∈ l ∧ key x ≠ key b).
Proof.
  unfold write_back. intros Hx. apply list_elem_of_fmap in Hx as (r & -> & Hr).
  case_decide; [by left | by right].
Qed.

Lemma desk_clash_sym b1 b2 : desk_clash b1 b2 → desk_clash b2 b1.
Proof. unfold desk_clash, canonical_overlap. intuition congruence. Qed.

Lemma desk_clash_blocks b x excl :
  desk_clash x b → excl ≠ Some (dbk_id x) →
  desk_blocks (dbk_floor_plan_id b) (dbk_desk_label b) (dbk_booking_date b)
              (dbk_start_time b) (dbk_end_time b) excl x.
Proof. unfold desk_clash, desk_blocks, desk_active. intuition. Qed.

(** What one call of [create_booking] does. *)
Lemma desk_create_booking_cases db new_id data user db' reply :
  create_booking db new_id data user = (db', reply) →
  (db' = db ∧ ∀ b e, reply ≠ Return (Some b, e))
  ∨ ∃ version,
      validate_desk_cell db (dbc_floor_plan_id data) (dbc_cell_row data)
                         (dbc_cell_column data) = Return (true, None, version)
      ∧ check_booking_overlap db (dbc_floor_plan_id data) (dbc_desk_label data)
          (dbc_booking_date data) (dbc_start_time data) (dbc_end_time data) None
        = Return false
      ∧ let b := mkDeskBooking new_id (dbc_floor_plan_id data)
                   (str_of_Z (default 0 version)) (dbc_desk_label data)
                   (dbc_cell_row data) (dbc_cell_column data) (user_id user)
                   (dbc_booking_date data) (dbc_start_time data)
                   (dbc_end_time data) CONFIRMED (dbc_notes data) in
        reply = Return (Some b, None)
        ∧ db' = with_desk_bookings db (desk_bookings db ++ [b]).
Proof.
  unfold create_booking.
  destruct (validate_desk_cell _ _ _ _) as [[[valid error] version]|] eqn:Hvalid;
    [|intros [= <- <-]; left; split; [done | by intros ? ?]].
  destruct valid; cbn [negb];
    [|intros [= <- <-]; left; split; [done | by intros ? ?]].
  destruct (check_booking_overlap _ _ _ _ _ _ _) as [[]|] eqn:Hcheck;
    [intros [= <- <-]; left; split; [done | by intros ? ?]|
     |intros [= <- <-]; left; split; [done | by intros ? ?]].
  intros [= <- <-]. right. exists version. split_and!; try done.
  destruct (validate_desk_cell_valid _ _ _ _ _ _ Hvalid)
    as (? & ? & ? & _ & _ & _ & _ & _ & -> & _).
  done.
Qed.

Lemma desk_check_free db fid label date st en excl :
  st < en →
  Forall (fun b => dbk_start_time b < dbk_end_time b) (desk_bookings db) →
  check_booking_overlap db fid label date st en excl = Return false →
  ∀ x, x ∈ desk_bookings db → ¬ desk_blocks fid label date st en excl x.
Proof.
  intros Hwin Hrows. rewrite desk_check_booking_overlap_cases by done.
  destruct (filter _ _) as [|? [|? ?]] eqn:Hf; [|done..]. intros _.
  exact (proj1 (filter_nil_not_elem_of _ _) Hf).
Qed.

Lemma desk_schedule_append db b :
  desk_schedule_ok db →
  dbk_id b ∉ map dbk_id (desk_bookings db) →
  dbk_start_time b < dbk_end_time b →
  (∀ x, x ∈ desk_bookings db → ¬ desk_clash x b) →
  desk_schedule_ok (with_desk_bookings db (desk_bookings db ++ [b])).
Proof.
  intros [Hids Hwins Hclash] Hfresh Hwin Hfree. split;
    cbn [desk_bookings with_desk_bookings].
  - rewrite map_app. apply NoDup_app. split_and!; [done| |apply NoDup_singleton].
    intros i Hi Hb. apply list_elem_of_singleton in Hb as ->. done.
  - apply Forall_app. split; [done|]. by repeat constructor.
  - intros b1 b2 H1 H2 Hne.
    apply elem_of_app in H1 as [H1|H1], H2 as [H2|H2];
      rewrite ?list_elem_of_singleton in *; subst.
    + by apply Hclash.
    + by apply Hfree.
    + intros Hc. by apply (Hfree b2 H2), desk_clash_sym.
    + done.
Qed.

Lemma desk_schedule_write_back db b b' :
  desk_schedule_ok db →
  b ∈ desk_bookings db →
  dbk_id b' = dbk_id b →
  dbk_start_time b' < dbk_end_time b' →
  (∀ x, x ∈ desk_bookings db → dbk_id x ≠ dbk_id b → ¬ desk_clash b' x) →
  desk_schedule_ok (store db b').
Proof.
  intros [Hids Hwins Hclash] Hb Hid Hwin Hfree. split;
    rewrite desk_store_write_back; cbn [desk_bookings with_desk_bookings].
  - by rewrite map_key_write_back.
  - apply Forall_forall. intros x Hx.
    apply elem_of_write_back in Hx as [-> | [Hx _]]; [done|].
    rewrite Forall_forall in Hwins. by apply Hwins.
  - intros b1 b2 H1 H2 Hne.
    apply elem_of_write_back in H1 as [-> | [H1 Hk1]],
                                H2 as [-> | [H2 Hk2]].
    + done.
    + apply Hfree; [done | congruence].
    + intros Hc. apply desk_clash_sym in Hc. revert Hc.
      apply Hfree; [done | congruence].
    + by apply Hclash.
Qed.

Lemma desk_get_booking_by_id_elem db booking_id b :
  get_booking_by_id db booking_id = Return (Some b) →
  b ∈ desk_bookings db ∧ dbk_id b = booking_id.
Proof.
  intros Hget. apply scalar_one_or_none_Some in Hget.
  destruct (filter_singleton_elem (fun x => dbk_id x = booking_id) b _ Hget)
    as (? & ? & _).
  done.
Qed.

Lemma desk_create_booking_keeps_schedule db new_id data user :
  desk_schedule_ok db →
  new_id ∉ map dbk_id (desk_bookings db) →
  dbc_start_time data < dbc_end_time data →
  desk_schedule_ok (create_booking db new_id data user).1.
Proof.
  intros Hok Hfresh Hwin.
  destruct (create_booking db new_id data user) as [db' reply] eqn:Hcall.
  apply desk_create_booking_cases in Hcall
    as [[-> _]|(version & _ & Hcheck & _ & ->)]; [done|].
  cbn [fst]. apply desk_schedule_append; [done..|].
  intros x Hx Hc.
  apply (desk_check_free _ _ _ _ _ _ _ Hwin (desk_windows db Hok) Hcheck x Hx).
  by apply (desk_clash_blocks _ x None) in Hc.
Qed.

Lemma desk_update_booking_keeps_schedule db booking_id u user :
  desk_schedule_ok db →
  (∀ b, get_booking_by_id db booking_id = Return (Some b) →
        default (dbk_start_time b) (dbu_start_time u)
          < default (dbk_end_time b) (dbu_end_time u)
        ∧ (dbu_start_time u = None → dbu_end_time u = None →
           desk_active (apply_update u b) → desk_active b)) →
  desk_schedule_ok (update_booking db booking_id u user).1.
Proof.
  intros Hok Hreq. unfold update_booking.
  destruct (get_booking_by_id db booking_id) as [[b|]|e] eqn:Hget; [|done..].
  destruct (Hreq b eq_refl) as [Hwin Hstatus].
  destruct (desk_get_booking_by_id_elem _ _ _ Hget) as [Hb Hid].
  destruct (_ && _); [done|].
  destruct (bool_decide (is_Some (dbu_start_time u))
            || bool_decide (is_Some (dbu_end_time u))) eqn:Htimes.
  - destruct (check_booking_overlap _ _ _ _ _ _ _) as [[]|] eqn:Hcheck; [done| |done].
    cbn [fst]. apply (desk_schedule_write_back db b); [done..|].
    intros x Hx Hne Hc.
    apply (desk_check_free _ _ _ _ _ _ _ Hwin (desk_windows db Hok) Hcheck x Hx).
    apply desk_clash_sym in Hc.
    apply (desk_clash_blocks _ x (Some booking_id)) in Hc; [done|congruence].
  - cbn [fst]. apply orb_false_iff in Htimes as [Hs He].
    apply bool_decide_eq_false in Hs, He.
    assert (dbu_start_time u = None) as Hs'
      by (destruct (dbu_start_time u); [destruct Hs; by eexists | done]).
    assert (dbu_end_time u = None) as He'
      by (destruct (dbu_end_time u); [destruct He; by eexists | done]).
    apply (desk_schedule_write_back db b); [done..|].
    intros x Hx Hne Hc.
    apply (desk_no_clash db Hok b x Hb Hx (not_eq_sym Hne)).
    destruct Hc as (? & ? & ? & Hact & ? & Hov).
    unfold apply_update in Hov. cbn in Hov. rewrite Hs', He' in Hov. cbn in Hov.
    split_and!; try done. by apply Hstatus.
Qed.

Lemma desk_cancel_booking_keeps_schedule db booking_id user :
  desk_schedule_ok db → desk_schedule_ok (cancel_booking db booking_id user).1.
Proof.
  intros Hok. unfold cancel_booking.
  destruct (get_booking_by_id db booking_id) as [[b|]|e] eqn:Hget; [|done..].
  destruct (desk_get_booking_by_id_elem _ _ _ Hget) as [Hb Hid].
  destruct (_ && _); [done|]. cbn [fst].
  apply (desk_schedule_write_back db b); [done..| |].
  - pose proof (desk_windows db Hok) as Hw. rewrite Forall_forall in Hw.
    by apply (Hw b).
  - intros x _ _ (_ & _ & _ & [Hact|Hact] & _); done.
Qed.

Lemma filter_only {A} (P : A → Prop) `{!∀ x, Decision (P x)} (l : list A) (b : A) :
  NoDup l → b ∈ l → (∀ x, x ∈ l → P x ↔ x = b) → filter P l = [b].
Proof.
  intros Hnd Hb Honly. induction l as [|x l IH]; [by apply elem_of_nil in Hb|].
  apply NoDup_cons in Hnd as [Hx Hnd]. rewrite filter_cons.
  destruct (decide (P x)) as [HP|HP].
  - apply Honly in HP as ->; [|by left]. f_equal.
    apply filter_nil_not_elem_of. intros y Hy HPy.
    apply Honly in HPy as ->; [done | by right].
  - apply IH; [done| |].
    + apply elem_of_cons in Hb as [->|Hb]; [|done].
      destruct HP. apply Honly; [by left | done].
    + intros y Hy. apply Honly. by right.
Qed.

Lemma NoDup_map_key {A K} (key : A → K) (l : list A) :
  NoDup (map key l) → NoDup l.
Proof. apply (NoDup_fmap_1 key). Qed.

Lemma desk_cancel_frees db booking_id b user :
  desk_schedule_ok db →
  get_booking_by_id db booking_id = Return (Some b) →
  dbk_user_id b = user_id user
    ∨ user_role user = ADMIN ∨ user_role user = SUPER_ADMIN →
  desk_active b →
  check_booking_overlap db (dbk_floor_plan_id b) (dbk_desk_label b)
    (dbk_booking_date b) (dbk_start_time b) (dbk_end_time b) None = Return true
  ∧ check_booking_overlap (cancel_booking db booking_id user).1
      (dbk_floor_plan_id b) (dbk_desk_label b)
      (dbk_booking_date b) (dbk_start_time b) (dbk_end_time b) None = Return false.
Proof.
  intros Hok Hget Hmay Hact.
  destruct (desk_get_booking_by_id_elem _ _ _ Hget) as [Hb Hid].
  pose proof (desk_windows db Hok) as Hwins.
  assert (dbk_start_time b < dbk_end_time b) as Hwin
    by (rewrite Forall_forall in Hwins; by apply Hwins).
  assert (∀ x, x ∈ desk_bookings db → dbk_id x ≠ dbk_id b →
            ¬ desk_blocks (dbk_floor_plan_id b) (dbk_desk_label b)
                (dbk_booking_date b) (dbk_start_time b) (dbk_end_time b) None x)
    as Hothers.
  { intros x Hx Hne (? & ? & ? & ? & _ & ?).
    apply (desk_no_clash db Hok x b Hx Hb Hne). by split_and!. }
  split.
  - rewrite desk_check_booking_overlap_cases by done.
    rewrite (filter_only _ _ b); [done| |done|].
    + eapply NoDup_map_key, Hok.
    + intros x Hx. split.
      * intros Hblocks. destruct (decide (dbk_id x = dbk_id b)) as [Heq|Hne].
        -- pose proof (desk_ids_unique db Hok) as Hnd.
           eapply (NoDup_fmap_1 dbk_id) in Hnd as Hnd'.
           apply list_elem_of_lookup in Hx as [i Hi], Hb as [j Hj].
           assert (i = j) as ->; [|congruence].
           eapply NoDup_lookup; [exact Hnd| |].
           ++ rewrite list_lookup_fmap, Hi. done.
           ++ rewrite list_lookup_fmap, Hj. cbn. by rewrite Heq.
        -- by destruct (Hothers x Hx Hne).
      * intros ->. unfold desk_blocks, canonical_overlap. by split_and!.
  - destruct (desk_cancel_any_status db booking_id b user Hget Hmay) as (-> & _).
    cbn [fst].
    assert (desk_schedule_ok (store db (set_status CANCELLED b))) as Hok'.
    { pose proof (desk_cancel_booking_keeps_schedule db booking_id user Hok) as H.
      destruct (desk_cancel_any_status db booking_id b user Hget Hmay) as (Heq & _).
      by rewrite Heq in H. }
    rewrite desk_check_booking_overlap_cases by (done || apply Hok').
    rewrite (proj2 (filter_nil_not_elem_of _ _)); [done|].
    intros x Hx. rewrite desk_store_write_back in Hx.
    cbn [desk_bookings with_desk_bookings] in Hx.
    apply elem_of_write_back in Hx as [-> | [Hx Hne]].
    + intros (_ & _ & _ & [Hs|Hs] & _); done.
    + by apply Hothers.
Qed.

(** Once a booking is cancelled its window can be booked again. *)
Lemma desk_rebook_after_cancel db booking_id b user :
  desk_schedule_ok db →
  get_booking_by_id db booking_id = Return (Some b) →
  dbk_user_id b = user_id user
    ∨ user_role user = ADMIN ∨ user_role user = SUPER_ADMIN →
  desk_active b →
  ∀ new_id notes other version,
    validate_desk_cell db (dbk_floor_plan_id b) (dbk_cell_row b) (dbk_cell_column b)
      = Return (true, None, version) →
    ∃ again,
      (create_booking (cancel_booking db booking_id user).1 new_id
         (mkDeskBookingCreate (dbk_floor_plan_id b) (dbk_desk_label b)
            (dbk_cell_row b) (dbk_cell_column b) (dbk_booking_date b)
            (dbk_start_time b) (dbk_end_time b) notes) other).2
      = Return (Some again, None)
      ∧ dbk_user_id again = user_id other
      ∧ dbk_status again = CONFIRMED.
Proof.
  intros Hok Hget Hmay Hact new_id notes other version Hvalid.
  destruct (desk_cancel_frees db booking_id b user Hok Hget Hmay Hact) as [_ Hfree].
  destruct (desk_cancel_any_status db booking_id b user Hget Hmay) as (Hcancel & _).
  rewrite Hcancel in Hfree |- *. cbn [fst] in Hfree |- *.
  eexists. unfold create_booking.
  cbn [dbc_floor_plan_id dbc_cell_row dbc_cell_column dbc_desk_label
       dbc_booking_date dbc_start_time dbc_end_time dbc_notes].
  change (validate_desk_cell (store db (set_status CANCELLED b))
            (dbk_floor_plan_id b) (dbk_cell_row b) (dbk_cell_column b))
    with (validate_desk_cell db (dbk_floor_plan_id b) (dbk_cell_row b)
            (dbk_cell_column b)).
  rewrite Hvalid. cbn [negb]. rewrite Hfree. cbn [snd]. split; [reflexivity|]. done.
Qed.

Lemma desk_schedule_ok_desk_booked : desk_schedule_ok Examples.desk_booked.
Proof.
  split; cbn.
  - apply NoDup_singleton.
  - by repeat constructor.
  - intros b1 b2 H1 H2. apply list_elem_of_singleton in H1 as ->.
    by apply list_elem_of_singleton in H2 as ->.
Qed.

(** X10.  The desk bookings stay a schedule: unique ids, windows that end
    after they start, and no two PENDING or CONFIRMED bookings of one desk
    on one day that overlap.  [create_booking] keeps it for a fresh id and
    a window that ends after it starts (what the request schema checks);
    [update_booking] keeps it when the resulting window ends after it
    starts and the update does not bring an inactive booking back without
    setting a time (such an update is not checked for overlap);
    [cancel_booking] always keeps it. *)
Theorem desk_schedule_stays_conflict_free (db : DB) :
  desk_schedule_ok db →
  (∀ new_id booking_data user,
     new_id ∉ map dbk_id (desk_bookings db) →
     dbc_start_time booking_data < dbc_end_time booking_data →
     desk_schedule_ok (create_booking db new_id booking_data user).1)
  ∧ (∀ booking_id booking_data user,
       (∀ booking,
          get_booking_by_id db booking_id = Return (Some booking) →
          default (dbk_start_time booking) (dbu_start_time booking_data)
            < default (dbk_end_time booking) (dbu_end_time booking_data)
          ∧ (dbu_start_time booking_data = None →
             dbu_end_time booking_data = None →
             desk_active (apply_update booking_data booking) →
             desk_active booking)) →
       desk_schedule_ok (update_booking db booking_id booking_data user).1)
  ∧ (∀ booking_id user,
       desk_schedule_ok (cancel_booking db booking_id user).1).
Proof.
  intros Hok. split_and!; intros.
  - by apply desk_create_booking_keeps_schedule.
  - by apply desk_update_booking_keeps_schedule.
  - by apply desk_cancel_booking_keeps_schedule.
Qed.

Lemma desk_schedule_stays_conflict_free_witness :
  desk_schedule_ok
    (create_booking Examples.desk_booked 2
       (mkDeskBookingCreate 100 "D1" "1" "1" 20240601
          (Examples.at_ 10 0) (Examples.at_ 11 0) None) Examples.bob).1
  ∧ desk_schedule_ok
      (update_booking Examples.desk_booked 1
         (mkDeskBookingUpdate (Some (Examples.at_ 8 0)) None None None)
         Examples.alice).1.
Proof.
  destruct (desk_schedule_stays_conflict_free Examples.desk_booked
              desk_schedule_ok_desk_booked) as (Hcreate & Hupdate & _).
  split.
  - apply Hcreate; [|vm_compute; reflexivity].
    intros Hin. apply list_elem_of_singleton in Hin. discriminate.
  - apply Hupdate. intros booking [= <-]. split; [vm_compute; reflexivity|].
    intros [=].
Defined.

End DeskSchedule.


(** ** The schedule of the cafeteria table bookings *)

Section TableSchedule.
Import CafeteriaService Reference Invariants.

Lemma table_clash_sym b1 b2 : table_clash b1 b2 → table_clash b2 b1.
Proof. unfold table_clash, canonical_overlap. intuition congruence. Qed.

Lemma table_clash_blocks b x excl :
  table_clash x b → excl ≠ Some (cbk_id x) →
  table_blocks (cbk_floor_plan_id b) (cbk_table_label b) (cbk_booking_date b)
              (cbk_start_time b) (cbk_end_time b) excl x.
Proof. unfold table_clash, table_blocks, table_active. intuition. Qed.

(** What one call of [create_booking] does. *)
Lemma table_create_booking_cases db new_id data user db' reply :
  create_booking db new_id data user = (db', reply) →
  (db' = db ∧ ∀ b e, reply ≠ Return (Some b, e))
  ∨ validate_table_cell db (cbc_floor_plan_id data) (cbc_cell_row data)
                        (cbc_cell_column data) = Return (true, None)
    ∧ check_booking_overlap db (cbc_floor_plan_id data) (cbc_table_label data)
        (cbc_booking_date data) (cbc_start_time data) (cbc_end_time data) None
      = Return false
    ∧ let b := mkCafeteriaTableBooking new_id (cbc_floor_plan_id data)
                 (cbc_table_label data)
                 (cbc_cell_row data) (cbc_cell_column data) (user_id user)
                 (cbc_booking_date data) (cbc_start_time data)
                 (cbc_end_time data) (cbc_guest_count data)
                 CONFIRMED (cbc_notes data) in
      reply = Return (Some b, None)
      ∧ db' = with_table_bookings db (cafeteria_table_bookings db ++ [b]).
Proof.
  unfold create_booking.
  destruct (validate_table_cell _ _ _ _) as [[valid error]|] eqn:Hvalid;
    [|intros [= <- <-]; left; split; [done | by intros ? ?]].
  destruct valid; cbn [negb];
    [|intros [= <- <-]; left; split; [done | by intros ? ?]].
  destruct (check_booking_overlap _ _ _ _ _ _ _) as [[]|] eqn:Hcheck;
    [intros [= <- <-]; left; split; [done | by intros ? ?]|
     |intros [= <- <-]; left; split; [done | by intros ? ?]].
  intros [= <- <-]. right. split_and!; try done.
  destruct (validate_table_cell_valid _ _ _ _ _ Hvalid)
    as (? & ? & ? & _ & _ & _ & _ & ->).
  done.
Qed.

Lemma table_check_free db fid label date st en excl :
  st < en →
  Forall (fun b => cbk_start_time b < cbk_end_time b) (cafeteria_table_bookings db) →
  check_booking_overlap db fid label date st en excl = Return false →
  ∀ x, x ∈ cafeteria_table_bookings db → ¬ table_blocks fid label date st en excl x.
Proof.
  intros Hwin Hrows. rewrite table_check_booking_overlap_cases by done.
  destruct (filter _ _) as [|? [|? ?]] eqn:Hf; [|done..]. intros _.
  exact (proj1 (filter_nil_not_elem_of _ _) Hf).
Qed.

Lemma table_schedule_append db b :
  table_schedule_ok db →
  cbk_id b ∉ map cbk_id (cafeteria_table_bookings db) →
  cbk_start_time b < cbk_end_time b →
  (∀ x, x ∈ cafeteria_table_bookings db → ¬ table_clash x b) →
  table_schedule_ok (with_table_bookings db (cafeteria_table_bookings db ++ [b])).
Proof.
  intros [Hids Hwins Hclash] Hfresh Hwin Hfree. split;
    cbn [cafeteria_table_bookings with_table_bookings].
  - rewrite map_app. apply NoDup_app. split_and!; [done| |apply NoDup_singleton].
    intros i Hi Hb. apply list_elem_of_singleton in Hb as ->. done.
  - apply Forall_app. split; [done|]. by repeat constructor.
  - intros b1 b2 H1 H2 Hne.
    apply elem_of_app in H1 as [H1|H1], H2 as [H2|H2];
      rewrite ?list_elem_of_singleton in *; subst.
    + by apply Hclash.
    + by apply Hfree.
    + intros Hc. by apply (Hfree b2 H2), table_clash_sym.
    + done.
Qed.

Lemma table_schedule_write_back db b b' :
  table_schedule_ok db →
  b ∈ cafeteria_table_bookings db →
  cbk_id b' = cbk_id b →
  cbk_start_time b' < cbk_end_time b' →
  (∀ x, x ∈ cafeteria_table_bookings db → cbk_id x ≠ cbk_id b → ¬ table_clash b' x) →
  table_schedule_ok (store db b').
Proof.
  intros [Hids Hwins Hclash] Hb Hid Hwin Hfree. split;
    rewrite table_store_write_back; cbn [cafeteria_table_bookings with_table_bookings].
  - by rewrite map_key_write_back.
  - apply Forall_forall. intros x Hx.
    apply elem_of_write_back in Hx as [-> | [Hx _]]; [done|].
    rewrite Forall_forall in Hwins. by apply Hwins.
  - intros b1 b2 H1 H2 Hne.
    apply elem_of_write_back in H1 as [-> | [H1 Hk1]],
                                H2 as [-> | [H2 Hk2]].
    + done.
    + apply Hfree; [done | congruence].
    + intros Hc. apply table_clash_sym in Hc. revert Hc.
      apply Hfree; [done | congruence].
    + by apply Hclash.
Qed.

Lemma table_get_booking_by_id_elem db booking_id b :
  get_booking_by_id db booking_id = Return (Some b) →
  b ∈ cafeteria_table_bookings db ∧ cbk_id b = booking_id.
Proof.
  intros Hget. apply scalar_one_or_none_Some in Hget.
  destruct (filter_singleton_elem (fun x => cbk_id x = booking_id) b _ Hget)
    as (? & ? & _).
  done.
Qed.

Lemma table_create_booking_keeps_schedule db new_id data user :
  table_schedule_ok db →
  new_id ∉ map cbk_id (cafeteria_table_bookings db) →
  cbc_start_time data < cbc_end_time data →
  table_schedule_ok (create_booking db new_id data user).1.
Proof.
  intros Hok Hfresh Hwin.
  destruct (create_booking db new_id data user) as [db' reply] eqn:Hcall.
  apply table_create_booking_cases in Hcall
    as [[-> _]|(_ & Hcheck & _ & ->)]; [done|].
  cbn [fst]. apply table_schedule_append; [done..|].
  intros x Hx Hc.
  apply (table_check_free _ _ _ _ _ _ _ Hwin (table_windows db Hok) Hcheck x Hx).
  by apply (table_clash_blocks _ x None) in Hc.
Qed.

Lemma table_update_booking_keeps_schedule db booking_id u user :
  table_schedule_ok db →
  (∀ b, get_booking_by_id db booking_id = Return (Some b) →
        default (cbk_start_time b) (cbu_start_time u)
          < default (cbk_end_time b) (cbu_end_time u)
        ∧ (cbu_start_time u = None → cbu_end_time u = None →
           table_active (apply_update u b) → table_active b)) →
  table_schedule_ok (update_booking db booking_id u user).1.
Proof.
  intros Hok Hreq. unfold update_booking.
  destruct (get_booking_by_id db booking_id) as [[b|]|e] eqn:Hget; [|done..].
  destruct (Hreq b eq_refl) as [Hwin Hstatus].
  destruct (table_get_booking_by_id_elem _ _ _ Hget) as [Hb Hid].
  destruct (_ && _); [done|].
  destruct (bool_decide (is_Some (cbu_start_time u))
            || bool_decide (is_Some (cbu_end_time u))) eqn:Htimes.
  - destruct (check_booking_overlap _ _ _ _ _ _ _) as [[]|] eqn:Hcheck; [done| |done].
    cbn [fst]. apply (table_schedule_write_back db b); [done..|].
    intros x Hx Hne Hc.
    apply (table_check_free _ _ _ _ _ _ _ Hwin (table_windows db Hok) Hcheck x Hx).
    apply table_clash_sym in Hc.
    apply (table_clash_blocks _ x (Some booking_id)) in Hc; [done|congruence].
  - cbn [fst]. apply orb_false_iff in Htimes as [Hs He].
    apply bool_decide_eq_false in Hs, He.
    assert (cbu_start_time u = None) as Hs'
      by (destruct (cbu_start_time u); [destruct Hs; by eexists | done]).
    assert (cbu_end_time u = None) as He'
      by (destruct (cbu_end_time u); [destruct He; by eexists | done]).
    apply (table_schedule_write_back db b); [done..|].
    intros x Hx Hne Hc.
    apply (table_no_clash db Hok b x Hb Hx (not_eq_sym Hne)).
    destruct Hc as (? & ? & ? & Hact & ? & Hov).
    unfold apply_update in Hov. cbn in Hov. rewrite Hs', He' in Hov. cbn in Hov.
    split_and!; try done. by apply Hstatus.
Qed.

Lemma table_cancel_booking_keeps_schedule db booking_id user :
  table_schedule_ok db → table_schedule_ok (cancel_booking db booking_id user).1.
Proof.
  intros Hok. unfold cancel_booking.
  destruct (get_booking_by_id db booking_id) as [[b|]|e] eqn:Hget; [|done..].
  destruct (table_get_booking_by_id_elem _ _ _ Hget) as [Hb Hid].
  destruct (_ && _); [done|]. cbn [fst].
  apply (table_schedule_write_back db b); [done..| |].
  - pose proof (table_windows db Hok) as Hw. rewrite Forall_forall in Hw.
    by apply (Hw b).
  - intros x _ _ (_ & _ & _ & [Hact|Hact] & _); done.
Qed.

Lemma table_cancel_frees db booking_id b user :
  table_schedule_ok db →
  get_booking_by_id db booking_id = Return (Some b) →
  cbk_user_id b = user_id user
    ∨ user_role user = ADMIN ∨ user_role user = SUPER_ADMIN →
  table_active b →
  check_booking_overlap db (cbk_floor_plan_id b) (cbk_table_label b)
    (cbk_booking_date b) (cbk_start_time b) (cbk_end_time b) None = Return true
  ∧ check_booking_overlap (cancel_booking db booking_id user).1
      (cbk_floor_plan_id b) (cbk_table_label b)
      (cbk_booking_date b) (cbk_start_time b) (cbk_end_time b) None = Return false.
Proof.
  intros Hok Hget Hmay Hact.
  destruct (table_get_booking_by_id_elem _ _ _ Hget) as [Hb Hid].
  pose proof (table_windows db Hok) as Hwins.
  assert (cbk_start_time b < cbk_end_time b) as Hwin
    by (rewrite Forall_forall in Hwins; by apply Hwins).
  assert (∀ x, x ∈ cafeteria_table_bookings db → cbk_id x ≠ cbk_id b →
            ¬ table_blocks (cbk_floor_plan_id b) (cbk_table_label b)
                (cbk_booking_date b) (cbk_start_time b) (cbk_end_time b) None x)
    as Hothers.
  { intros x Hx Hne (? & ? & ? & ? & _ & ?).
    apply (table_no_clash db Hok x b Hx Hb Hne). by split_and!. }
  split.
  - rewrite table_check_booking_overlap_cases by done.
    rewrite (filter_only _ _ b); [done| |done|].
    + eapply NoDup_map_key, Hok.
    + intros x Hx. split.
      * intros Hblocks. destruct (decide (cbk_id x = cbk_id b)) as [Heq|Hne].
        -- pose proof (table_ids_unique db Hok) as Hnd.
           eapply (NoDup_fmap_1 cbk_id) in Hnd as Hnd'.
           apply list_elem_of_lookup in Hx as [i Hi], Hb as [j Hj].
           assert (i = j) as ->; [|congruence].
           eapply NoDup_lookup; [exact Hnd| |].
           ++ rewrite list_lookup_fmap, Hi. done.
           ++ rewrite list_lookup_fmap, Hj. cbn. by rewrite Heq.
        -- by destruct (Hothers x Hx Hne).
      * intros ->. unfold table_blocks, canonical_overlap. by split_and!.
  - destruct (table_cancel_any_status db booking_id b user Hget Hmay) as (-> & _).
    cbn [fst].
    assert (table_schedule_ok (store db (set_status CANCELLED b))) as Hok'.
    { pose proof (table_cancel_booking_keeps_schedule db booking_id user Hok) as H.
      destruct (table_cancel_any_status db booking_id b user Hget Hmay) as (Heq & _).
      by rewrite Heq in H. }
    rewrite table_check_booking_overlap_cases by (done || apply Hok').
    rewrite (proj2 (filter_nil_not_elem_of _ _)); [done|].
    intros x Hx. rewrite table_store_write_back in Hx.
    cbn [cafeteria_table_bookings with_table_bookings] in Hx.
    apply elem_of_write_back in Hx as [-> | [Hx Hne]].
    + intros (_ & _ & _ & [Hs|Hs] & _); done.
    + by apply Hothers.
Qed.

(** Once a booking is cancelled its window can be booked again. *)
Lemma table_rebook_after_cancel db booking_id b user :
  table_schedule_ok db →
  get_booking_by_id db booking_id = Return (Some b) →
  cbk_user_id b = user_id user
    ∨ user_role user = ADMIN ∨ user_role user = SUPER_ADMIN →
  table_active b →
  ∀ new_id notes other,
    validate_table_cell db (cbk_floor_plan_id b) (cbk_cell_row b) (cbk_cell_column b)
      = Return (true, None) →
    ∃ again,
      (create_booking (cancel_booking db booking_id user).1 new_id
         (mkCafeteriaBookingCreate (cbk_floor_plan_id b) (cbk_table_label b)
            (cbk_cell_row b) (cbk_cell_column b) (cbk_booking_date b)
            (cbk_start_time b) (cbk_end_time b) (cbk_guest_count b) notes) other).2
      = Return (Some again, None)
      ∧ cbk_user_id again = user_id other
      ∧ cbk_status again = CONFIRMED.
Proof.
  intros Hok Hget Hmay Hact new_id notes other Hvalid.
  destruct (table_cancel_frees db booking_id b user Hok Hget Hmay Hact) as [_ Hfree].
  destruct (table_cancel_any_status db booking_id b user Hget Hmay) as (Hcancel & _).
  rewrite Hcancel in Hfree |- *. cbn [fst] in Hfree |- *.
  eexists. unfold create_booking.
  cbn [cbc_floor_plan_id cbc_cell_row cbc_cell_column cbc_table_label
       cbc_booking_date cbc_start_time cbc_end_time cbc_guest_count cbc_notes].
  change (validate_table_cell (store db (set_status CANCELLED b))
            (cbk_floor_plan_id b) (cbk_cell_row b) (cbk_cell_column b))
    with (validate_table_cell db (cbk_floor_plan_id b) (cbk_cell_row b)
            (cbk_cell_column b)).
  rewrite Hvalid. cbn [negb]. rewrite Hfree. cbn [snd]. split; [reflexivity|]. done.
Qed.

Lemma table_schedule_ok_table_booked : table_schedule_ok Examples.table_booked.
Proof.
  split; cbn.
  - apply NoDup_singleton.
  - by repeat constructor.
  - intros b1 b2 H1 H2. apply list_elem_of_singleton in H1 as ->.
    by apply list_elem_of_singleton in H2 as ->.
Qed.

(** X11.  The cafeteria table bookings stay a schedule in the same sense,
    under the same conditions on [create_booking] and [update_booking] of the
    cafeteria service, and always under its [cancel_booking]. *)
Theorem table_schedule_stays_conflict_free (db : DB) :
  table_schedule_ok db →
  (∀ new_id booking_data user,
     new_id ∉ map cbk_id (cafeteria_table_bookings db) →
     cbc_start_time booking_data < cbc_end_time booking_data →
     table_schedule_ok (create_booking db new_id booking_data user).1)
  ∧ (∀ booking_id booking_data user,
       (∀ booking,
          get_booking_by_id db booking_id = Return (Some booking) →
          default (cbk_start_time booking) (cbu_start_time booking_data)
            < default (cbk_end_time booking) (cbu_end_time booking_data)
          ∧ (cbu_start_time booking_data = None →
             cbu_end_time booking_data = None →
             table_active (apply_update booking_data booking) →
             table_active booking)) →
       table_schedule_ok (update_booking db booking_id booking_data user).1)
  ∧ (∀ booking_id user,
       table_schedule_ok (cancel_booking db booking_id user).1).
Proof.
  intros Hok. split_and!; intros.
  - by apply table_create_booking_keeps_schedule.
  - by apply table_update_booking_keeps_schedule.
  - by apply table_cancel_booking_keeps_schedule.
Qed.

Lemma table_schedule_stays_conflict_free_witness :
  table_schedule_ok
    (create_booking Examples.table_booked 2
       (mkCafeteriaBookingCreate 300 "T1" "1" "1" 20240601
          (Examples.at_ 10 0) (Examples.at_ 11 0) "2" None) Examples.bob).1
  ∧ table_schedule_ok (cancel_booking Examples.table_booked 1 Examples.alice).1.
Proof.
  destruct (table_schedule_stays_conflict_free Examples.table_booked
              table_schedule_ok_table_booked) as (Hcreate & _ & Hcancel).
  split; [|apply Hcancel].
  apply Hcreate; [|vm_compute; reflexivity].
  intros Hin. apply list_elem_of_singleton in Hin. discriminate.
Defined.

End TableSchedule.

(** ** Cancelling frees the window *)

Section BookingWindows.
Import Reference Invariants.

(** X12.  Cancelling an active booking frees exactly its window.  In a
    schedule the overlap check of the booking's own window answers [True]
    before the cancellation and [False] after it, and a new booking of the
    same desk (or table) and window is then accepted, provided the cell
    still validates. *)
Theorem cancel_booking_frees_the_window (db : DB) (booking_id : UUID) (user : User) :
  (∀ b : DeskBooking,
     desk_schedule_ok db →
     DeskService.get_booking_by_id db booking_id = Return (Some b) →
     dbk_user_id b = user_id user
       ∨ user_role user = ADMIN ∨ user_role user = SUPER_ADMIN →
     desk_active b →
     let db' := (DeskService.cancel_booking db booking_id user).1 in
     DeskService.check_booking_overlap db (dbk_floor_plan_id b) (dbk_desk_label b)
       (dbk_booking_date b) (dbk_start_time b) (dbk_end_time b) None = Return true
     ∧ DeskService.check_booking_overlap db' (dbk_floor_plan_id b) (dbk_desk_label b)
         (dbk_booking_date b) (dbk_start_time b) (dbk_end_time b) None = Return false
     ∧ ∀ new_id notes other version,
         DeskService.validate_desk_cell db (dbk_floor_plan_id b)
           (dbk_cell_row b) (dbk_cell_column b) = Return (true, None, version) →
         ∃ again,
           (DeskService.create_booking db' new_id
              (DeskService.mkDeskBookingCreate (dbk_floor_plan_id b)
                 (dbk_desk_label b) (dbk_cell_row b) (dbk_cell_column b)
                 (dbk_booking_date b) (dbk_start_time b) (dbk_end_time b) notes)
              other).2
           = Return (Some again, None)
           ∧ dbk_user_id again = user_id other
           ∧ dbk_status again = CONFIRMED)
  ∧ (∀ b : CafeteriaTableBooking,
       table_schedule_ok db →
       CafeteriaService.get_booking_by_id db booking_id = Return (Some b) →
       cbk_user_id b = user_id user
         ∨ user_role user = ADMIN ∨ user_role user = SUPER_ADMIN →
       table_active b →
       let db' := (CafeteriaService.cancel_booking db booking_id user).1 in
       CafeteriaService.check_booking_overlap db (cbk_floor_plan_id b)
         (cbk_table_label b) (cbk_booking_date b) (cbk_start_time b)
         (cbk_end_time b) None = Return true
       ∧ CafeteriaService.check_booking_overlap db' (cbk_floor_plan_id b)
           (cbk_table_label b) (cbk_booking_date b) (cbk_start_time b)
           (cbk_end_time b) None = Return false
       ∧ ∀ new_id notes other,
           CafeteriaService.validate_table_cell db (cbk_floor_plan_id b)
             (cbk_cell_row b) (cbk_cell_column b) = Return (true, None) →
           ∃ again,
             (CafeteriaService.create_booking db' new_id
                (CafeteriaService.mkCafeteriaBookingCreate (cbk_floor_plan_id b)
                   (cbk_table_label b) (cbk_cell_row b) (cbk_cell_column b)
                   (cbk_booking_date b) (cbk_start_time b) (cbk_end_time b)
                   (cbk_guest_count b) notes)
                other).2
             = Return (Some again, None)
             ∧ cbk_user_id again = user_id other
             ∧ cbk_status again = CONFIRMED).
Proof.
  split.
  - intros b Hok Hget Hmay Hact db'.
    destruct (desk_cancel_frees db booking_id b user Hok Hget Hmay Hact)
      as [Hbefore Hafter].
    split_and!; [done..|]. intros new_id notes other version Hvalid.
    by apply (desk_rebook_after_cancel db booking_id b user Hok Hget Hmay Hact
                new_id notes other version).
  - intros b Hok Hget Hmay Hact db'.
    destruct (table_cancel_frees db booking_id b user Hok Hget Hmay Hact)
      as [Hbefore Hafter].
    split_and!; [done..|]. intros new_id notes other Hvalid.
    by apply (table_rebook_after_cancel db booking_id b user Hok Hget Hmay Hact
                new_id notes other).
Qed.

Lemma cancel_booking_frees_the_window_witness :
  let db' := (DeskService.cancel_booking Examples.desk_booked 1 Examples.alice).1 in
  DeskService.check_booking_overlap Examples.desk_booked 100 "D1" 20240601
    (Examples.at_ 9 0) (Examples.at_ 10 0) None = Return true
  ∧ DeskService.check_booking_overlap db' 100 "D1" 20240601
      (Examples.at_ 9 0) (Examples.at_ 10 0) None = Return false
  ∧ ∃ again,
      (DeskService.create_booking db' 2
         (DeskService.mkDeskBookingCreate 100 "D1" "1" "1" 20240601
            (Examples.at_ 9 0) (Examples.at_ 10 0) None) Examples.bob).2
      = Return (Some again, None).
Proof.
  destruct (cancel_booking_frees_the_window Examples.desk_booked 1 Examples.alice)
    as [Hdesk _].
  destruct (Hdesk (Examples.desk_booking 1 10 (Examples.at_ 9 0) (Examples.at_ 10 0)
                     CONFIRMED)
              desk_schedule_ok_desk_booked eq_refl (or_introl eq_refl)
              (or_intror eq_refl))
    as (Hbefore & Hafter & Hagain).
  split_and!; [exact Hbefore | exact Hafter |].
  destruct (Hagain 2 None Examples.bob (Some 1) eq_refl) as (again & Hreply & _).
  by exists again.
Defined.

End BookingWindows.


(** ** Numerals and blanks *)

Section Numerals.

Lemma digit_char (d : nat) :
  (d < 10)%nat →
  is_ascii_digit (ascii_of_nat (48 + d)) = true
  ∧ digit_val (ascii_of_nat (48 + d)) = Z.of_nat d.
Proof.
  intros Hd. unfold is_ascii_digit, digit_val.
  rewrite nat_ascii_embedding by lia. split; [|lia].
  apply andb_true_iff. split; apply Nat.leb_le; lia.
Qed.

(** The digits that [nat_digits] writes in front of [acc] are the decimal
    numeral of [n]. *)
Lemma nat_digits_value fuel n acc :
  (n < fuel)%nat →
  (all_digits acc = true → all_digits (nat_digits fuel n acc) = true)
  ∧ nat_digits fuel n acc ≠ ""
  ∧ ∃ k : nat, ∀ a,
      digits_value a (nat_digits fuel n acc)
      = digits_value (a * 10 ^ Z.of_nat k + Z.of_nat n) acc.
Proof.
  revert n acc. induction fuel as [|fuel IH]; intros n acc Hn; [lia|].
  cbn [nat_digits].
  destruct (digit_char (n mod 10)) as [Hdig Hval];
    [apply Nat.mod_upper_bound; lia|].
  destruct (n <? 10)%nat eqn:Hsmall.
  - apply Nat.ltb_lt in Hsmall. split_and!.
    + intros Hacc. cbn [all_digits]. by rewrite Hdig, Hacc.
    + done.
    + exists 1%nat. intros a. cbn [digits_value]. rewrite Hval.
      rewrite Nat.mod_small by done. f_equal. lia.
  - apply Nat.ltb_ge in Hsmall.
    assert (n / 10 < fuel)%nat as Hdiv.
    { assert (n / 10 < n)%nat by (apply Nat.div_lt; lia). lia. }
    destruct (IH (n / 10)%nat (String (ascii_of_nat (48 + n mod 10)) acc) Hdiv)
      as (Hall & Hne & k & Hk).
    split_and!.
    + intros Hacc. apply Hall. cbn [all_digits]. by rewrite Hdig, Hacc.
    + done.
    + exists (S k). intros a. rewrite Hk. cbn [digits_value]. rewrite Hval.
      f_equal. rewrite Nat2Z.inj_succ, Z.pow_succ_r by lia.
      pose proof (Nat.div_mod_eq n 10) as Hdm.
      assert (Z.of_nat n = 10 * Z.of_nat (n / 10) + Z.of_nat (n mod 10)) as -> by lia.
      lia.
Qed.

(** [int(str(n)) == n] for a natural number [n], and [str(n).isdigit()]. *)
Lemma int_str_of_nat (n : nat) :
  isdigit (str_of_Z (Z.of_nat n)) = true
  ∧ int (str_of_Z (Z.of_nat n)) = Return (Z.of_nat n)
  ∧ digits_value 0 (str_of_Z (Z.of_nat n)) = Z.of_nat n.
Proof.
  unfold str_of_Z. rewrite (proj2 (Z.ltb_ge _ _)) by lia.
  rewrite Z.abs_eq, Nat2Z.id by lia.
  destruct (nat_digits_value (S n) n "") as (Hall & Hne & k & Hk); [lia|].
  assert (isdigit (nat_digits (S n) n "") = true) as Hdig.
  { unfold isdigit. destruct (nat_digits (S n) n "") eqn:Hs; [done|].
    by apply Hall. }
  assert (digits_value 0 (nat_digits (S n) n "") = Z.of_nat n) as Hv.
  { rewrite Hk. cbn [digits_value]. lia. }
  split_and!; [done| |done]. destruct (int_isdigit _ Hdig) as [-> _]. by rewrite Hv.
Qed.

Lemma lstrip_head s :
  match lstrip s with String c _ => is_space c = false | EmptyString => True end.
Proof.
  induction s as [|c s IH]; [done|]. cbn [lstrip].
  destruct (is_space c) eqn:Hc; [done|]. done.
Qed.

Lemma rstrip_last s :
  match ParkingService.last_char (rstrip s) with
  | Some c => is_space c = false
  | None => rstrip s = ""
  end.
Proof.
  induction s as [|c s IH]; [done|]. cbn [rstrip].
  destruct (rstrip s) as [|d t] eqn:Hs.
  - destruct (is_space c) eqn:Hc; [done|]. done.
  - change (ParkingService.last_char (String c (String d t)))
      with (ParkingService.last_char (String d t)).
    by destruct (ParkingService.last_char (String d t)).
Qed.

Lemma rstrip_head c s :
  is_space c = false → ∃ t, rstrip (String c s) = String c t.
Proof.
  intros Hc. cbn [rstrip]. destruct (rstrip s); [|by eexists].
  rewrite Hc. by eexists.
Qed.

(** [s.strip()] neither starts nor ends with whitespace. *)
Lemma strip_trimmed s :
  match strip s with String c _ => is_space c = false | EmptyString => True end
  ∧ match ParkingService.last_char (strip s) with
    | Some c => is_space c = false
    | None => strip s = ""
    end.
Proof.
  unfold strip. split; [|apply rstrip_last].
  pose proof (lstrip_head s) as Hhead.
  destruct (lstrip s) as [|c t]; [done|].
  destruct (rstrip_head c t Hhead) as [t' ->]. done.
Qed.

End Numerals.


(** ** The desks on offer *)

Section DeskAvailability.
Import DeskService Reference Invariants.

Lemma visit_desk_spec booked r c cell available :
  visit_desk booked r c cell available
  = available ++ map desk_info_of
                     (filter (fun pos => free_desk booked pos = true) [(r, c, cell)]).
Proof.
  unfold visit_desk. rewrite filter_cons, filter_nil.
  unfold free_desk. cbn [snd fst desk_label_of].
  destruct (eq_str _ _); cbn [andb].
  - destruct (truthy _); cbn [andb].
    + destruct (in_strs _ _); cbn [negb].
      * rewrite decide_False by done. by rewrite app_nil_r.
      * rewrite decide_True by done. done.
    + rewrite decide_False by done. by rewrite app_nil_r.
  - rewrite decide_False by done. by rewrite app_nil_r.
Qed.

Lemma scan_desk_row_spec booked r c row available :
  scan_desk_row booked r c row available
  = available ++ map desk_info_of
                     (filter (fun pos => free_desk booked pos = true)
                             (cells_from r c row)).
Proof.
  revert c available. induction row as [|cell rest IH]; intros c available.
  - cbn. by rewrite app_nil_r.
  - cbn [scan_desk_row cells_from]. rewrite IH, visit_desk_spec.
    change ((r, c, cell) :: cells_from r (S c) rest)
      with ([(r, c, cell)] ++ cells_from r (S c) rest).
    by rewrite filter_app, map_app, app_assoc.
Qed.

Lemma scan_desk_grid_spec booked r grid available :
  scan_desk_grid booked r grid available
  = available ++ map desk_info_of
                     (filter (fun pos => free_desk booked pos = true)
                             (rows_from r grid)).
Proof.
  revert r available. induction grid as [|row rest IH]; intros r available.
  - cbn. by rewrite app_nil_r.
  - cbn [scan_desk_grid rows_from]. rewrite IH, scan_desk_row_spec.
    by rewrite filter_app, map_app, app_assoc.
Qed.

(** The booked labels are those for which the overlap query of
    [check_booking_overlap] finds a row. *)
Lemma booked_desks_of_overlap_query db fid date st en label :
  in_strs (JStr label) (booked_desks_of db fid date st en) = true
  ↔ overlap_query db fid label date st en None ≠ [].
Proof.
  rewrite in_strs_true. unfold booked_desks_of, overlap_query. split.
  - intros (s & Hs & [= <-]) Hnone.
    apply list_elem_of_fmap in Hs as (b & Hl & Hb).
    apply list_elem_of_filter in Hb as [Hwhere Hb].
    apply (proj1 (filter_nil_not_elem_of _ _) Hnone b Hb).
    unfold booked_where in Hwhere. rewrite !andb_true_iff in Hwhere.
    destruct Hwhere as [[[Hf Hd] Hs] Ht]. cbn beta. unfold overlap_where.
    by rewrite Hf, Hd, Hs, Ht, (bool_decide_eq_true_2 _ (eq_sym Hl)).
  - intros Hsome.
    destruct (filter _ _) as [|b rest] eqn:Hq; [done|].
    assert (b ∈ filter (fun b => overlap_where fid label date st en b = true)
                       (desk_bookings db)) as Hb by (rewrite Hq; by left).
    apply list_elem_of_filter in Hb as [Hwhere Hb].
    unfold overlap_where in Hwhere. rewrite !andb_true_iff in Hwhere.
    destruct Hwhere as [[[[Hf Hl] Hd] Hs] Ht]. apply bool_decide_eq_true in Hl.
    exists label. split; [|done]. apply list_elem_of_fmap. exists b.
    split; [done|]. apply list_elem_of_filter. split; [|done].
    unfold booked_where. by rewrite Hf, Hd, Hs, Ht.
Qed.

Lemma check_booking_overlap_false db fid label date st en excl :
  check_booking_overlap db fid label date st en excl = Return false
  ↔ overlap_query db fid label date st en excl = [].
Proof.
  unfold check_booking_overlap.
  destruct (overlap_query _ _ _ _ _ _ _) as [|? [|? ?]]; cbn; split; intros;
    by simplify_eq.
Qed.

Lemma get_available_desks_spec db fid date st en version :
  FloorPlanService.get_latest_version db fid = Return version →
  get_available_desks db fid date st en
  = Return (free_desks (booked_desks_of db fid date st en)
                       (from_option fpv_grid_data [] version)).
Proof.
  intros Hv. unfold get_available_desks.
  unfold FloorPlanService.get_latest_version in Hv. rewrite Hv.
  cbn [mbind outcome_bind]. destruct version as [v|]; cbn; [|done].
  by rewrite scan_desk_grid_spec.
Qed.

Lemma validate_desk_cell_in_range
    (db : DB) (floor_plan_id : UUID) (v : FloorPlanVersion)
    (cell_row cell_column : string) (r c : Z) (columns : nat) :
  FloorPlanService.get_latest_version db floor_plan_id = Return (Some v) →
  Forall (fun row => length row = columns) (fpv_grid_data v) →
  int cell_row = Return r →
  int cell_column = Return c →
  0 ≤ r < Z.of_nat (length (fpv_grid_data v)) →
  0 ≤ c < Z.of_nat columns →
  ∃ row cell,
    fpv_grid_data v !! Z.to_nat r = Some row
    ∧ row !! Z.to_nat c = Some cell
    ∧ validate_desk_cell db floor_plan_id cell_row cell_column
      = Return (if negb (eq_str (get cell "cell_type") (cell_type_value DESK))
                then (false, Some Cell_is_not_a_desk, None)
                else if negb (truthy (get_default cell "is_active" (JBool true)))
                then (false, Some Desk_is_not_active, None)
                else (true, None, Some (fpv_version v))).
Proof.
  intros Hv Hrect Hr Hc Hrow Hcol.
  destruct (index_in_range (fpv_grid_data v) r) as (row & Hrw & Hirow); [lia|].
  assert (length row = columns) as Hlen
    by (eapply (Forall_lookup_1 _ _ _ _ Hrect); exact Hrw).
  destruct (index_in_range row c) as (cell & Hcell & Hicell); [lia|].
  destruct (index_in_range (fpv_grid_data v) 0) as (row0 & Hrow0 & Hirow0); [lia|].
  assert (length row0 = columns) as Hlen0
    by (eapply (Forall_lookup_1 _ _ _ _ Hrect); exact Hrow0).
  exists row, cell. split_and!; [done..|].
  unfold validate_desk_cell.
  unfold FloorPlanService.get_latest_version in Hv. rewrite Hv.
  cbn [mbind outcome_bind]. rewrite Hr, Hc. cbn [mbind outcome_bind].
  destruct (Z.geb_spec r (Z.of_nat (length (fpv_grid_data v)))) as [?|_]; [lia|].
  rewrite Hirow0. cbn [mbind outcome_bind]. rewrite Hlen0.
  destruct (Z.geb_spec c (Z.of_nat columns)) as [?|_]; [lia|].
  rewrite Hirow. cbn [mbind outcome_bind]. rewrite Hicell. cbn [mbind outcome_bind].
  destruct (negb (eq_str _ _)); [done|]. by destruct (negb (truthy _)).
Qed.

Lemma booked_desks_of_check db fid date st en label :
  in_strs (JStr label) (booked_desks_of db fid date st en) = true
  ↔ check_booking_overlap db fid label date st en None ≠ Return false.
Proof. by rewrite booked_desks_of_overlap_query, check_booking_overlap_false. Qed.

Lemma free_desks_check db fid date st en grid info label :
  info ∈ free_desks (booked_desks_of db fid date st en) grid →
  di_label info = JStr label →
  check_booking_overlap db fid label date st en None = Return false.
Proof.
  intros Hinfo Hlabel. unfold free_desks in Hinfo.
  apply list_elem_of_fmap in Hinfo as (pos & -> & Hpos).
  apply list_elem_of_filter in Hpos as [Hfree _].
  unfold free_desk in Hfree. rewrite !andb_true_iff in Hfree.
  destruct Hfree as [_ Hfree]. apply negb_true_iff in Hfree.
  change (desk_label_of pos = JStr label) in Hlabel. rewrite Hlabel in Hfree.
  destruct (check_booking_overlap db fid label date st en None) as [[]|e] eqn:Hcheck;
    [|done|].
  - assert (in_strs (JStr label) (booked_desks_of db fid date st en) = true) as Hyes;
      [|congruence].
    apply booked_desks_of_check. by rewrite Hcheck.
  - assert (in_strs (JStr label) (booked_desks_of db fid date st en) = true) as Hyes;
      [|congruence].
    apply booked_desks_of_check. by rewrite Hcheck.
Qed.

(** X13.  [get_available_desks] and [check_booking_overlap] agree.  The
    listing is the row-major list of the active desk cells of the latest
    grid whose label is not booked, and a label counts as booked exactly
    when the overlap check for it does not answer [False]: a listed desk
    passes the check, and an active desk that is not listed fails it (or
    makes it raise). *)
Theorem get_available_desks_agrees_with_booking_check
    (db : DB) (floor_plan_id : UUID) (booking_date start_time end_time : Z)
    (version : option FloorPlanVersion) :
  FloorPlanService.get_latest_version db floor_plan_id = Return version →
  let grid := from_option fpv_grid_data [] version in
  let booked :=
    booked_desks_of db floor_plan_id booking_date start_time end_time in
  get_available_desks db floor_plan_id booking_date start_time end_time
    = Return (free_desks booked grid)
  ∧ (∀ label,
       in_strs (JStr label) booked = true
       ↔ check_booking_overlap db floor_plan_id label booking_date
           start_time end_time None ≠ Return false)
  ∧ (∀ info label,
       info ∈ free_desks booked grid → di_label info = JStr label →
       check_booking_overlap db floor_plan_id label booking_date
         start_time end_time None = Return false)
  ∧ (∀ pos label,
       pos ∈ row_major grid →
       eq_str (get pos.2 "cell_type") (cell_type_value DESK) = true →
       truthy (get_default pos.2 "is_active" (JBool true)) = true →
       desk_label_of pos = JStr label →
       (desk_info_of pos ∈ free_desks booked grid
        ↔ check_booking_overlap db floor_plan_id label booking_date
            start_time end_time None = Return false)).
Proof.
  intros Hv grid booked.
  split_and!; [by apply get_available_desks_spec | | |].
  - intros label. apply booked_desks_of_check.
  - intros info label. apply free_desks_check.
  - intros pos label Hpos Hty Hact Hlabel. split.
    + intros Hin. by apply (free_desks_check _ _ _ _ _ grid (desk_info_of pos)).
    + intros Hfree. unfold free_desks. apply list_elem_of_fmap. exists pos.
      split; [done|]. apply list_elem_of_filter. split; [|done].
      unfold free_desk. rewrite Hty, Hact, Hlabel. cbn [andb].
      destruct (in_strs (JStr label) booked) eqn:Hb; [|done].
      apply booked_desks_of_check in Hb. by destruct Hb.
Qed.

Lemma get_available_desks_agrees_with_booking_check_witness :
  get_available_desks Examples.desk_booked 100 20240601
    (Examples.at_ 9 30) (Examples.at_ 10 30) = Return []
  ∧ get_available_desks Examples.desk_booked 100 20240601
      (Examples.at_ 10 0) (Examples.at_ 11 0)
    = Return [mkDeskInfo 1 1 (JStr "D1") JNull]
  ∧ check_booking_overlap Examples.desk_booked 100 "D1" 20240601
      (Examples.at_ 10 0) (Examples.at_ 11 0) None = Return false.
Proof.
  pose (v := mkFloorPlanVersion 101 100 1 Examples.desk_grid true 1
               (Some "Initial version")).
  destruct (get_available_desks_agrees_with_booking_check Examples.desk_booked 100
              20240601 (Examples.at_ 9 30) (Examples.at_ 10 30) (Some v) eq_refl)
    as (Hbusy & _).
  destruct (get_available_desks_agrees_with_booking_check Examples.desk_booked 100
              20240601 (Examples.at_ 10 0) (Examples.at_ 11 0) (Some v) eq_refl)
    as (Hfree & _ & Hcheck & _).
  split_and!; [exact Hbusy | exact Hfree |].
  apply (Hcheck (mkDeskInfo 1 1 (JStr "D1") JNull)); [|reflexivity].
  vm_compute. by left.
Defined.

(** X14.  A desk that [get_available_desks] lists can be booked: on
    consistent floor-plan tables [create_booking] with the listed label and
    coordinates (written as text, as the request carries them) for the same
    day and window is accepted and stores a CONFIRMED booking of the
    caller. *)
Theorem listed_desk_can_be_booked
    (db : DB) (floor_plan_id : UUID) (booking_date start_time end_time : Z)
    (listed : list DeskInfo) (info : DeskInfo) (label : string) :
  store_ok db →
  get_available_desks db floor_plan_id booking_date start_time end_time
    = Return listed →
  info ∈ listed →
  di_label info = JStr label →
  ∀ new_id notes user,
    ∃ booking,
      create_booking db new_id
        (mkDeskBookingCreate floor_plan_id label
           (str_of_Z (Z.of_nat (di_row info))) (str_of_Z (Z.of_nat (di_column info)))
           booking_date start_time end_time notes) user
      = (with_desk_bookings db (desk_bookings db ++ [booking]),
         Return (Some booking, None))
      ∧ dbk_id booking = new_id
      ∧ dbk_user_id booking = user_id user
      ∧ dbk_floor_plan_id booking = floor_plan_id
      ∧ dbk_desk_label booking = label
      ∧ dbk_booking_date booking = booking_date
      ∧ dbk_start_time booking = start_time
      ∧ dbk_end_time booking = end_time
      ∧ dbk_status booking = CONFIRMED.
Proof.
  intros Hok Hget Hinfo Hlabel new_id notes user.
  destruct (FloorPlanService.get_latest_version db floor_plan_id)
    as [version|e] eqn:Hv;
    [|by rewrite get_latest_version_returns in Hv].
  rewrite (get_available_desks_spec _ _ _ _ _ _ Hv) in Hget. injection Hget as <-.
  pose proof (free_desks_check _ _ _ _ _ _ _ _ Hinfo Hlabel) as Hfree.
  unfold free_desks in Hinfo.
  apply list_elem_of_fmap in Hinfo as ([[r c] cell] & -> & Hpos).
  apply list_elem_of_filter in Hpos as [Hdesk Hpos].
  unfold free_desk in Hdesk. rewrite !andb_true_iff in Hdesk.
  destruct Hdesk as [[Hty Hact] _]. cbn [snd] in Hty, Hact.
  destruct version as [v|]; [|by apply elem_of_nil in Hpos].
  cbn [from_option] in Hpos. apply row_major_lookup in Hpos as (row & Hrow & Hc).
  cbn [desk_info_of di_row di_column fst snd].
  destruct (int_str_of_nat r) as (_ & Hr & _).
  destruct (int_str_of_nat c) as (_ & Hcol & _).
  destruct (latest_version_elem db floor_plan_id v Hv) as [Hvin _].
  destruct (versions_owned db Hok v Hvin) as (owner & _ & _ & Hgrid).
  apply grid_ok_rectangular in Hgrid.
  destruct (validate_desk_cell_in_range db floor_plan_id v _ _ _ _ _
              Hv Hgrid Hr Hcol) as (row' & cell' & Hrow' & Hc' & Hvalid).
  { apply lookup_lt_Some in Hrow. lia. }
  { rewrite Forall_forall in Hgrid.
    rewrite <- (Hgrid row) by (by eapply list_elem_of_lookup_2).
    apply lookup_lt_Some in Hc. lia. }
  rewrite Nat2Z.id in Hrow', Hc'.
  rewrite Hrow in Hrow'. injection Hrow' as <-.
  rewrite Hc in Hc'. injection Hc' as <-.
  rewrite Hty, Hact in Hvalid. cbn [negb] in Hvalid.
  eexists. unfold create_booking.
  cbn [dbc_floor_plan_id dbc_cell_row dbc_cell_column dbc_desk_label
       dbc_booking_date dbc_start_time dbc_end_time dbc_notes].
  rewrite Hvalid. cbn [negb]. rewrite Hfree. split; [reflexivity|]. done.
Qed.

Lemma listed_desk_can_be_booked_witness :
  ∃ booking,
    (create_booking Examples.desk_booked 2
       (mkDeskBookingCreate 100 "D1" "1" "1" 20240601
          (Examples.at_ 10 0) (Examples.at_ 11 0) None) Examples.bob).2
    = Return (Some booking, None)
    ∧ dbk_status booking = CONFIRMED.
Proof.
  assert (store_ok Examples.desk_booked) as Hok.
  { destruct store_ok_desk_floor as [Hnames Hcounters Hversions].
    split; [exact Hnames | exact Hcounters | exact Hversions]. }
  destruct (listed_desk_can_be_booked Examples.desk_booked 100 20240601
              (Examples.at_ 10 0) (Examples.at_ 11 0)
              [mkDeskInfo 1 1 (JStr "D1") JNull] (mkDeskInfo 1 1 (JStr "D1") JNull)
              "D1" Hok eq_refl (list_elem_of_here _ _) eq_refl 2 None Examples.bob)
    as (booking & Hcall & _ & _ & _ & _ & _ & _ & _ & Hstatus).
  exists booking. split; [|exact Hstatus].
  exact (f_equal snd Hcall).
Defined.

End DeskAvailability.


(** ** The invariants of the parking service *)

Section ParkingInvariants.
Import ParkingService Reference Invariants.

Local Ltac kept :=
  intros [= <- <-]; left; split; [done | by intros ? ?].

Lemma validate_parking_slot_true db fid cell_row cell_column error :
  validate_parking_slot db fid cell_row cell_column = Return (true, error) →
  error = None.
Proof.
  unfold validate_parking_slot.
  destruct (_ || _); [done|].
  destruct (scalar_one_or_none _) as [[fp|]|]; cbn [mbind outcome_bind]; [|done..].
  destruct (bool_decide _); [done|].
  destruct (latest_version db fid) as [[v|]|]; cbn [mbind outcome_bind]; [|done..].
  destruct (int cell_row) as [r|]; cbn [mbind outcome_bind]; [|done].
  destruct (int cell_column) as [c|]; cbn [mbind outcome_bind]; [|done].
  destruct (r >=? _); cbn [mbind outcome_bind]; [done|].
  destruct (index (fpv_grid_data v) 0) as [row0|]; cbn [mbind outcome_bind]; [|done].
  destruct (c >=? _); [done|].
  destruct (index (fpv_grid_data v) r) as [row|]; cbn [mbind outcome_bind]; [|done].
  destruct (index row c) as [cell|]; cbn [mbind outcome_bind]; [|done].
  destruct (eq_str _ _); cbn [negb]; [|done].
  by intros [= <-].
Qed.

(** What one call of [create_allocation] does. *)
Lemma create_allocation_cases db new_id data user db' reply :
  create_allocation db new_id data user = (db', reply) →
  (db' = db ∧ ∀ a e, reply ≠ Return (Some a, e))
  ∨ check_slot_availability db (pac_floor_plan_id data) (pac_slot_label data)
      = Return true
    ∧ validate_parking_slot db (pac_floor_plan_id data) (pac_cell_row data)
        (pac_cell_column data) = Return (true, None)
    ∧ let a := mkParkingAllocation new_id (pac_floor_plan_id data)
                 (pac_slot_label data) (pac_cell_row data) (pac_cell_column data)
                 (pac_parking_type data) (pac_user_id data)
                 (pac_visitor_name data) (pac_visitor_phone data)
                 (pac_visitor_company data) (pac_vehicle_number data)
                 None None true (pac_notes data) in
      reply = Return (Some a, None)
      ∧ db' = with_allocations db (parking_allocations db ++ [a]).
Proof.
  unfold create_allocation.
  destruct (validate_parking_slot _ _ _ _) as [[[] error]|] eqn:Hvalid; [|kept..].
  apply validate_parking_slot_true in Hvalid as Herr. subst error.
  destruct (check_slot_availability _ _ _) as [[]|] eqn:Hfree; [|kept..].
  destruct (if decide (pac_parking_type data = PT_EMPLOYEE) then _ else _)
    as [[?|]|]; [kept| |kept].
  destruct (_ && _); [kept|]. destruct (_ && _); [kept|].
  intros [= <- <-]. right. done.
Qed.

Lemma auto_assign_hit db plans slot_info target :
  auto_assign db plans = Return (Some (slot_info, target)) →
  target ∈ plans
  ∧ ∃ rest, get_available_slots db (fp_id target) = Return (slot_info :: rest).
Proof.
  induction plans as [|fp plans IH]; [done|]. cbn [auto_assign].
  destruct (get_available_slots db (fp_id fp)) as [[|first rest]|] eqn:Hget;
    cbn [mbind outcome_bind]; [| |done].
  - intros Hrest. destruct (IH Hrest) as [? ?]. split; [by right | done].
  - intros [= <- <-]. split; [by left | by eexists].
Qed.

Lemma find_label_in_row_label slot_label r c row slot_info :
  find_label_in_row slot_label r c row = Some slot_info →
  si_label slot_info = JStr slot_label.
Proof.
  revert c. induction row as [|cell row IH]; intros c; [done|]. cbn.
  destruct (eq_str _ _); [by intros [= <-] | apply IH].
Qed.

Lemma find_label_in_grid_label slot_label r grid slot_info :
  find_label_in_grid slot_label r grid = Some slot_info →
  si_label slot_info = JStr slot_label.
Proof.
  revert r. induction grid as [|row grid IH]; intros r; [done|]. cbn.
  destruct (find_label_in_row slot_label r 0 row) eqn:Hrow.
  - intros [= <-]. by eapply find_label_in_row_label.
  - apply IH.
Qed.

Lemma requested_slot_hit db fid slot_label slot_info target :
  requested_slot db fid slot_label = Return (inl (slot_info, target)) →
  fp_id target = fid ∧ fp_plan_type target = PARKING
  ∧ target ∈ floor_plans db
  ∧ check_slot_availability db fid slot_label = Return true
  ∧ si_label slot_info = JStr slot_label.
Proof.
  unfold requested_slot.
  destruct (scalar_one_or_none _) as [[fp|]|] eqn:Hfp; cbn [mbind outcome_bind];
    [|done..].
  apply scalar_one_or_none_Some in Hfp.
  destruct (filter_singleton_elem _ fp _ Hfp) as (Hin & [Hid Hty] & _).
  destruct (check_slot_availability db fid slot_label) as [[]|] eqn:Hfree;
    cbn [mbind outcome_bind negb]; [|done..].
  destruct (latest_version db fid) as [[v|]|]; cbn [mbind outcome_bind]; [|done..].
  destruct (find_label_in_grid slot_label 0 (fpv_grid_data v)) eqn:Hfind; [|done].
  intros [= <- <-]. split_and!; try done. by eapply find_label_in_grid_label.
Qed.

(** What one call of [assign_visitor_slot] does. *)
Lemma assign_visitor_slot_cases db new_id now data user db' reply :
  assign_visitor_slot db new_id now data user = (db', reply) →
  (db' = db ∧ ∀ a e, reply ≠ Return (Some a, e))
  ∨ ∃ slot_info target slot_label,
      can_manage_parking user = true
      ∧ (2 ≤ String.length (strip (vpc_visitor_name data)))%nat
      ∧ ((∃ fid, vpc_floor_plan_id data = Some fid
                 ∧ vpc_slot_label data = Some slot_label
                 ∧ requested_slot db fid slot_label
                   = Return (inl (slot_info, target)))
         ∨ auto_assign db (get_parking_floor_plans db)
           = Return (Some (slot_info, target)))
      ∧ si_label slot_info = JStr slot_label
      ∧ let a := mkParkingAllocation new_id (fp_id target) slot_label
                   (str_of_Z (Z.of_nat (si_row slot_info)))
                   (str_of_Z (Z.of_nat (si_column slot_info)))
                   PT_VISITOR None
                   (Some (strip (vpc_visitor_name data)))
                   (vpc_visitor_phone data) (vpc_visitor_company data)
                   (vpc_vehicle_number data) (Some now) None true
                   (vpc_notes data) in
        reply = Return (Some a, None)
        ∧ db' = with_allocations db (parking_allocations db ++ [a]).
Proof.
  unfold assign_visitor_slot.
  destruct (can_manage_parking user) eqn:Hcan; cbn [negb]; [|kept].
  destruct (_ || _) eqn:Hname; [kept|].
  apply orb_false_iff in Hname as [_ Hname]. apply Nat.ltb_ge in Hname.
  destruct (match vpc_visitor_phone data with Some _ => _ | None => _ end); [kept|].
  destruct (get_parking_floor_plans db) as [|fp0 plans] eqn:Hplans; [kept|].
  destruct (match vpc_floor_plan_id data with Some _ => _ | None => _ end)
    as [[[slot_info target]|error]|] eqn:Hfound; [|kept..].
  destruct (si_label slot_info) as [| | |slot_label] eqn:Hlabel; [kept..|].
  intros [= <- <-]. right. exists slot_info, target, slot_label.
  split_and!; try done.
  destruct (vpc_floor_plan_id data) as [fid|], (vpc_slot_label data) as [[|c l]|];
    try (right;
         destruct (auto_assign db (fp0 :: plans)) as [[hit|]|];
         cbn [mbind outcome_bind] in Hfound; by simplify_eq).
  left. exists fid.
  destruct (requested_slot_hit _ _ _ _ _ Hfound) as (_ & _ & _ & _ & Hl).
  rewrite Hlabel in Hl. injection Hl as ->. done.
Qed.

Lemma check_slot_availability_free db fid slot_label :
  check_slot_availability db fid slot_label = Return true
  ↔ occupants db fid slot_label = [].
Proof.
  unfold check_slot_availability, occupants.
  destruct (filter _ _) as [|? [|? ?]]; cbn; split; intros; by simplify_eq.
Qed.

Lemma check_slot_availability_returns db fid slot_label :
  (length (occupants db fid slot_label) ≤ 1)%nat →
  ∃ free, check_slot_availability db fid slot_label = Return free.
Proof.
  unfold check_slot_availability, occupants.
  destruct (filter _ _) as [|? [|? ?]]; cbn; intros; [by eexists..|lia].
Qed.

Lemma occupants_append db a fid slot_label :
  occupants (with_allocations db (parking_allocations db ++ [a])) fid slot_label
  = occupants db fid slot_label
    ++ filter (fun a => pa_floor_plan_id a = fid
                        ∧ pa_slot_label a = slot_label ∧ occupying a) [a].
Proof. unfold occupants. cbn [parking_allocations with_allocations]. apply filter_app. Qed.

Lemma slots_exclusive_append db a :
  slots_exclusive db →
  occupants db (pa_floor_plan_id a) (pa_slot_label a) = [] →
  slots_exclusive (with_allocations db (parking_allocations db ++ [a])).
Proof.
  intros Hex Hfree fid slot_label. rewrite occupants_append, length_app.
  rewrite filter_cons, filter_nil.
  destruct (decide _) as [(<- & <- & _)|_]; cbn [length].
  - rewrite Hfree. cbn. lia.
  - specialize (Hex fid slot_label). lia.
Qed.

Lemma length_filter_write_back {R} (key : R → Z) (P : R → Prop)
    `{!∀ r, Decision (P r)} (b : R) (l : list R) :
  (∀ r, r ∈ l → key r = key b → P b → P r) →
  (length (filter P (write_back key b l)) ≤ length (filter P l))%nat.
Proof.
  intros Hkeep. unfold write_back. induction l as [|r l IH]; [done|].
  cbn [map]. rewrite !filter_cons.
  assert (length (filter P (map (fun r => if decide (key r = key b) then b else r) l))
          ≤ length (filter P l))%nat as IH'
    by (apply IH; intros; apply Hkeep; [by right | done..]).
  destruct (decide (key r = key b)) as [Hk|Hk].
  - destruct (decide (P b)) as [Hb|Hb].
    + rewrite decide_True by (apply Hkeep; [by left | done..]). cbn. lia.
    + destruct (decide (P r)); cbn; lia.
  - destruct (decide (P r)); cbn; lia.
Qed.

Lemma get_allocation_by_id_elem db allocation_id a :
  get_allocation_by_id db allocation_id = Return (Some a) →
  a ∈ parking_allocations db ∧ pa_id a = allocation_id
  ∧ ∀ r, r ∈ parking_allocations db → pa_id r = allocation_id → r = a.
Proof.
  intros Hget. apply scalar_one_or_none_Some in Hget.
  by destruct (filter_singleton_elem (fun x => pa_id x = allocation_id) a _ Hget)
    as (? & ? & ?).
Qed.

Lemma slots_exclusive_store db a a' :
  slots_exclusive db →
  get_allocation_by_id db (pa_id a) = Return (Some a) →
  pa_id a' = pa_id a →
  pa_floor_plan_id a' = pa_floor_plan_id a →
  pa_slot_label a' = pa_slot_label a →
  (occupying a' → occupying a) →
  slots_exclusive (store db a').
Proof.
  intros Hex Hget Hid Hfid Hlabel Hocc fid slot_label.
  destruct (get_allocation_by_id_elem _ _ _ Hget) as (_ & _ & Huniq).
  etrans; [|apply (Hex fid slot_label)].
  unfold occupants, store. cbn [parking_allocations with_allocations].
  apply length_filter_write_back. intros r Hr Hk (H1 & H2 & H3).
  rewrite (Huniq r Hr) by congruence. split_and!; [congruence..|by apply Hocc].
Qed.

Lemma get_available_slots_unoccupied db fid available slot_info slot_label :
  get_available_slots db fid = Return available →
  slot_info ∈ available →
  si_label slot_info = JStr slot_label →
  occupants db fid slot_label = [].
Proof.
  unfold get_available_slots.
  destruct (scalar_one_or_none _) as [[fp|]|]; cbn [mbind outcome_bind];
    [| |done].
  2:{ intros [= <-] Hin. by apply elem_of_nil in Hin. }
  destruct (bool_decide _).
  { intros [= <-] Hin. by apply elem_of_nil in Hin. }
  destruct (latest_version db fid) as [[v|]|]; cbn [mbind outcome_bind]; [| |done].
  2:{ intros [= <-] Hin. by apply elem_of_nil in Hin. }
  intros [= <-] Hin Hlabel. rewrite scan_grid_spec in Hin. cbn [app] in Hin.
  apply list_elem_of_fmap in Hin as (pos & -> & Hpos).
  apply list_elem_of_filter in Hpos as [Hfree _].
  unfold free_slot in Hfree. apply andb_true_iff in Hfree as [_ Hfree].
  apply negb_true_iff in Hfree. cbn in Hlabel. rewrite Hlabel in Hfree.
  apply filter_nil_not_elem_of. intros a Ha (Hfid & Hl & Hact & Hexit).
  assert (in_strs (JStr slot_label) (occupied_slots_of db fid) = true) as Hyes;
    [|congruence].
  apply occupied_slots_of_spec. exists a. split_and!; try done. by rewrite Hl.
Qed.

Lemma create_allocation_keeps_exclusive db new_id data user :
  slots_exclusive db → slots_exclusive (create_allocation db new_id data user).1.
Proof.
  intros Hex.
  destruct (create_allocation db new_id data user) as [db' reply] eqn:Hcall.
  apply create_allocation_cases in Hcall as [[-> _]|(Hfree & _ & _ & ->)]; [done|].
  cbn [fst]. apply slots_exclusive_append; [done|].
  by apply check_slot_availability_free.
Qed.

Lemma assign_visitor_slot_keeps_exclusive db new_id now data user :
  slots_exclusive db →
  slots_exclusive (assign_visitor_slot db new_id now data user).1.
Proof.
  intros Hex.
  destruct (assign_visitor_slot db new_id now data user) as [db' reply] eqn:Hcall.
  apply assign_visitor_slot_cases in Hcall
    as [[-> _]|(slot_info & target & slot_label & _ & _ & Hhow & Hlabel & _ & ->)];
    [done|].
  cbn [fst]. apply slots_exclusive_append; [done|]. cbn.
  destruct Hhow as [(fid & _ & _ & Hreq) | Hauto].
  - destruct (requested_slot_hit _ _ _ _ _ Hreq) as (<- & _ & _ & Hfree & _).
    by apply check_slot_availability_free.
  - destruct (auto_assign_hit _ _ _ _ Hauto) as (_ & rest & Hget).
    eapply get_available_slots_unoccupied; [exact Hget | by left | done].
Qed.

Lemma record_entry_keeps_exclusive db now allocation_id timestamp :
  slots_exclusive db →
  slots_exclusive (record_entry db now allocation_id timestamp).1.
Proof.
  intros Hex. unfold record_entry.
  destruct (get_allocation_by_id db allocation_id) as [[a|]|] eqn:Hget; [|done..].
  destruct (bool_decide _); [done|]. cbn [fst].
  destruct (get_allocation_by_id_elem _ _ _ Hget) as (_ & <- & _).
  by apply (slots_exclusive_store db a).
Qed.

Lemma record_exit_keeps_exclusive db hid now allocation_id user timestamp :
  slots_exclusive db →
  slots_exclusive (record_exit db hid now allocation_id user timestamp).1.
Proof.
  intros Hex.
  destruct (get_allocation_by_id db allocation_id) as [[a|]|] eqn:Hget.
  - rewrite (record_exit_cases _ _ _ _ _ _ _ Hget).
    destruct (_ && _); [done|].
    destruct (pa_entry_time a), (pa_exit_time a); [done| |done..].
    cbn [fst]. intros fid slot_label.
    destruct (get_allocation_by_id_elem _ _ _ Hget) as (_ & <- & _).
    apply (slots_exclusive_store db a); try done.
    by intros [[=] _].
  - unfold record_exit. by rewrite Hget.
  - unfold record_exit. by rewrite Hget.
Qed.

Lemma elem_of_write_back_other {R} (key : R → Z) (b : R) (l : list R) (x : R) :
  x ∈ l → key x ≠ key b → x ∈ write_back key b l.
Proof.
  intros Hx Hk. unfold write_back. apply list_elem_of_fmap. exists x.
  split; [by rewrite decide_False | done].
Qed.

Lemma elem_of_write_back_same {R} (key : R → Z) (b : R) (l : list R) (x : R) :
  x ∈ l → key x = key b → b ∈ write_back key b l.
Proof.
  intros Hx Hk. unfold write_back. apply list_elem_of_fmap. exists x.
  split; [by rewrite decide_True | done].
Qed.

(** The exit of the allocation that occupies a slot leaves the slot without
    an occupant. *)
Lemma record_exit_frees db hid now allocation_id user timestamp a db' released :
  slots_exclusive db →
  get_allocation_by_id db allocation_id = Return (Some a) →
  pa_is_active a = true →
  record_exit db hid now allocation_id user timestamp
    = (db', Return (Some released, None)) →
  occupants db (pa_floor_plan_id a) (pa_slot_label a) = [a]
  ∧ occupants db' (pa_floor_plan_id a) (pa_slot_label a) = [].
Proof.
  intros Hex Hget Hactive. rewrite (record_exit_cases _ _ _ _ _ _ _ Hget).
  destruct (_ && _); [done|].
  destruct (pa_entry_time a) as [entry|] eqn:Hentry; [|done].
  destruct (pa_exit_time a) eqn:Hexit; [done|]. intros [= <- <-].
  destruct (get_allocation_by_id_elem _ _ _ Hget) as (Ha & Hid & Huniq).
  assert (occupants db (pa_floor_plan_id a) (pa_slot_label a) = [a]) as Hone.
  { specialize (Hex (pa_floor_plan_id a) (pa_slot_label a)).
    assert (a ∈ occupants db (pa_floor_plan_id a) (pa_slot_label a)) as Hin.
    { unfold occupants. apply list_elem_of_filter. by split_and!. }
    destruct (occupants db _ _) as [|x [|y rest]]; [by apply elem_of_nil in Hin| |].
    - by apply list_elem_of_singleton in Hin as ->.
    - cbn in Hex. lia. }
  split; [done|].
  unfold occupants. cbn [parking_allocations with_history store with_allocations].
  apply filter_write_back_gone.
  - by intros (_ & _ & _ & [=]).
  - intros r Hr Hocc.
    assert (r ∈ occupants db (pa_floor_plan_id a) (pa_slot_label a)) as Hin
      by (unfold occupants; by apply list_elem_of_filter).
    rewrite Hone in Hin. by apply list_elem_of_singleton in Hin as ->.
Qed.

Lemma get_available_slots_found db fp v :
  filter (fun p => fp_id p = fp_id fp) (floor_plans db) = [fp] →
  fp_plan_type fp = PARKING →
  latest_version db (fp_id fp) = Return (Some v) →
  get_available_slots db (fp_id fp)
  = Return (free_slots (occupied_slots_of db (fp_id fp)) (fpv_grid_data v)).
Proof.
  intros Hfp Hty Hv. unfold get_available_slots. rewrite Hfp.
  cbn [scalar_one_or_none mbind outcome_bind].
  rewrite bool_decide_eq_false_2 by (by intros ?).
  rewrite Hv. cbn [mbind outcome_bind]. by rewrite scan_grid_spec.
Qed.

Lemma occupied_slots_of_occupants db fid slot_label :
  in_strs (JStr slot_label) (occupied_slots_of db fid) = true
  ↔ occupants db fid slot_label ≠ [].
Proof.
  rewrite occupied_slots_of_spec. split.
  - intros (a & Ha & Hfid & [= Hl] & Hact & Hexit) Hnone.
    apply (proj1 (filter_nil_not_elem_of _ _) Hnone a Ha). by split_and!.
  - intros Hsome. destruct (occupants db fid slot_label) as [|a rest] eqn:Hocc; [done|].
    assert (a ∈ occupants db fid slot_label) as Hin by (rewrite Hocc; by left).
    apply list_elem_of_filter in Hin as [(Hfid & Hl & Hact & Hexit) Hin].
    exists a. split_and!; try done. by rewrite Hl.
Qed.

Lemma free_slots_elem occupied grid pos :
  pos ∈ row_major grid →
  eq_str (get pos.2 "cell_type") (cell_type_value PARKING_SLOT) = true →
  in_strs (slot_label_of pos) occupied = false →
  slot_info_of pos ∈ free_slots occupied grid.
Proof.
  intros Hpos Hty Hfree. unfold free_slots. apply list_elem_of_fmap. exists pos.
  split; [done|]. apply list_elem_of_filter. split; [|done].
  unfold free_slot. by rewrite Hty, Hfree.
Qed.

Lemma free_slots_not_elem occupied grid info slot_label :
  info ∈ free_slots occupied grid →
  si_label info = JStr slot_label →
  in_strs (JStr slot_label) occupied = false.
Proof.
  intros Hin Hlabel. unfold free_slots in Hin.
  apply list_elem_of_fmap in Hin as (pos & -> & Hpos).
  apply list_elem_of_filter in Hpos as [Hfree _].
  unfold free_slot in Hfree. apply andb_true_iff in Hfree as [_ Hfree].
  apply negb_true_iff in Hfree. cbn in Hlabel. by rewrite Hlabel in Hfree.
Qed.

Lemma slots_exclusive_alice_parked : slots_exclusive Examples.alice_parked.
Proof.
  intros fid label. unfold occupants. cbn [parking_allocations Examples.alice_parked].
  rewrite filter_cons, filter_nil. destruct (decide _); cbn; lia.
Qed.

(** X15.  [record_exit] frees the slot.  When no slot is occupied twice and
    the exit of the active allocation of a slot is recorded,
    [check_slot_availability] for that slot answers [False] before and
    [True] after, and the parking-slot cells of the latest grid that carry
    the label, missing from [get_available_slots] before, are listed
    after. *)
Theorem record_exit_frees_the_slot
    (db : DB) (new_history_id : UUID) (now : Z) (allocation_id : UUID)
    (recorded_by : User) (timestamp : option Z)
    (allocation released : ParkingAllocation) (db' : DB) :
  slots_exclusive db →
  get_allocation_by_id db allocation_id = Return (Some allocation) →
  pa_is_active allocation = true →
  record_exit db new_history_id now allocation_id recorded_by timestamp
    = (db', Return (Some released, None)) →
  let floor_plan_id := pa_floor_plan_id allocation in
  let slot_label := pa_slot_label allocation in
  check_slot_availability db floor_plan_id slot_label = Return false
  ∧ check_slot_availability db' floor_plan_id slot_label = Return true
  ∧ slots_exclusive db'
  ∧ (∀ fp v pos,
       filter (fun p => fp_id p = floor_plan_id) (floor_plans db) = [fp] →
       fp_plan_type fp = PARKING →
       latest_version db floor_plan_id = Return (Some v) →
       pos ∈ row_major (fpv_grid_data v) →
       eq_str (get pos.2 "cell_type") (cell_type_value PARKING_SLOT) = true →
       slot_label_of pos = JStr slot_label →
       ∃ before after,
         get_available_slots db floor_plan_id = Return before
         ∧ get_available_slots db' floor_plan_id = Return after
         ∧ (slot_info_of pos ∉ before)
         ∧ slot_info_of pos ∈ after).
Proof.
  intros Hex Hget Hactive Hcall floor_plan_id slot_label.
  destruct (record_exit_frees _ _ _ _ _ _ _ _ _ Hex Hget Hactive Hcall)
    as [Hbefore Hafter].
  assert (db' = (record_exit db new_history_id now allocation_id
                             recorded_by timestamp).1) as Hdb'
    by (by rewrite Hcall).
  assert (floor_plans db' = floor_plans db
          ∧ floor_plan_versions db' = floor_plan_versions db) as [Hplans Hversions].
  { rewrite Hdb', (record_exit_cases _ _ _ _ _ _ _ Hget).
    destruct (_ && _); [done|].
    by destruct (pa_entry_time allocation), (pa_exit_time allocation). }
  split_and!.
  - unfold check_slot_availability. fold (occupants db floor_plan_id slot_label).
    unfold floor_plan_id, slot_label. by rewrite Hbefore.
  - by apply check_slot_availability_free.
  - rewrite Hdb'. by apply record_exit_keeps_exclusive.
  - intros fp v pos Hfp Hty Hv Hpos Hcell Hlabel.
    assert (fp_id fp = floor_plan_id) as Hid
      by (by destruct (filter_singleton_elem _ fp _ Hfp) as (_ & ? & _)).
    rewrite <- Hid in *.
    eexists _, _. split_and!.
    + by apply get_available_slots_found.
    + apply get_available_slots_found; [by rewrite Hplans | done|].
      unfold latest_version. by rewrite Hversions.
    + intros Hin. eapply free_slots_not_elem in Hin; [|exact Hlabel].
      assert (in_strs (JStr slot_label) (occupied_slots_of db (fp_id fp)) = true)
        as Hyes; [|congruence].
      apply occupied_slots_of_occupants. rewrite Hid.
      unfold floor_plan_id, slot_label. by rewrite Hbefore.
    + apply free_slots_elem; [done..|]. rewrite Hlabel.
      destruct (in_strs _ _) eqn:Hocc; [|done].
      apply occupied_slots_of_occupants in Hocc. destruct Hocc.
      by rewrite Hid.
Qed.

(** What a call of the parking service changes, if anything. *)
Lemma after_effect db call :
  after db call = db
  ∨ (∃ a, pa_exit_time a = None
          ∧ after db call = with_allocations db (parking_allocations db ++ [a]))
  ∨ (∃ a t, get_allocation_by_id db (pa_id a) = Return (Some a)
            ∧ pa_entry_time a = None
            ∧ after db call = store db (set_entry_time t a))
  ∨ (∃ a entry t hid,
       get_allocation_by_id db (pa_id a) = Return (Some a)
       ∧ pa_entry_time a = Some entry ∧ pa_exit_time a = None
       ∧ after db call
         = with_history (store db (set_exit t a))
             (parking_history db ++
                [mkParkingHistory hid (pa_id a) (pa_floor_plan_id a)
                   (pa_slot_label a) (pa_parking_type a) (pa_user_id a)
                   (pa_visitor_name a) (pa_vehicle_number a) entry t
                   (str_of_Z (duration_minutes_of entry t))])).
Proof.
  destruct call as [new_id data user|new_id now data user|now id ts|hid now id user ts];
    cbn [after].
  - destruct (create_allocation db new_id data user) as [db' reply] eqn:Hcall.
    apply create_allocation_cases in Hcall as [[-> _]|(_ & _ & _ & ->)];
      [by left|right; left]. eexists. split; [|reflexivity]. done.
  - destruct (assign_visitor_slot db new_id now data user) as [db' reply] eqn:Hcall.
    apply assign_visitor_slot_cases in Hcall
      as [[-> _]|(? & ? & ? & _ & _ & _ & _ & _ & ->)]; [by left|right; left].
    eexists. split; [|reflexivity]. done.
  - unfold record_entry.
    destruct (get_allocation_by_id db id) as [[a|]|] eqn:Hget; [|by left..].
    destruct (get_allocation_by_id_elem _ _ _ Hget) as (_ & <- & _).
    destruct (bool_decide (is_Some (pa_entry_time a))) eqn:Hentry; [by left|].
    right; right; left. exists a, (timestamp_or_now ts now). split_and!; try done.
    apply bool_decide_eq_false in Hentry.
    destruct (pa_entry_time a); [destruct Hentry; by eexists | done].
  - destruct (get_allocation_by_id db id) as [[a|]|] eqn:Hget.
    + rewrite (record_exit_cases _ _ _ _ _ _ _ Hget).
      destruct (get_allocation_by_id_elem _ _ _ Hget) as (_ & <- & _).
      destruct (_ && _); [by left|].
      destruct (pa_entry_time a) as [entry|] eqn:Hentry; [|by left].
      destruct (pa_exit_time a) eqn:Hexit; [by left|].
      right; right; right. exists a, entry, (default now ts), hid. done.
    + left. unfold record_exit. by rewrite Hget.
    + left. unfold record_exit. by rewrite Hget.
Qed.

Lemma after_keeps_history_backed db call :
  history_backed db → history_backed (after db call).
Proof.
  intros Hback.
  destruct (after_effect db call)
    as [-> | [(a & _ & ->) | [(a & t & Hget & Hentry & ->)
       | (a & entry & t & hid & Hget & Hentry & Hexit & ->)]]]; [done|..].
  - intros h Hh. destruct (Hback h Hh) as (b & Hb & Hrest).
    exists b. split; [|done]. cbn. apply elem_of_app. by left.
  - intros h Hh. destruct (Hback h Hh) as (b & Hb & Hid & Hrest).
    exists b. split; [|done]. cbn [parking_allocations store with_allocations].
    apply elem_of_write_back_other; [done|]. cbn. intros Heq.
    destruct (get_allocation_by_id_elem _ _ _ Hget) as (_ & _ & Huniq).
    rewrite (Huniq b Hb Heq) in Hrest. destruct Hrest as (_ & _ & He & _).
    congruence.
  - intros h Hh. cbn [parking_history with_history] in Hh.
    destruct (get_allocation_by_id_elem _ _ _ Hget) as (Ha & _ & Huniq).
    apply elem_of_app in Hh as [Hh|Hh].
    + destruct (Hback h Hh) as (b & Hb & Hid & Hrest).
      exists b. split; [|done].
      cbn [parking_allocations store with_history with_allocations].
      apply elem_of_write_back_other; [done|]. cbn. intros Heq.
      rewrite (Huniq b Hb Heq) in Hrest. destruct Hrest as (_ & _ & _ & He & _).
      congruence.
    + apply list_elem_of_singleton in Hh as ->. exists (set_exit t a).
      split; [|done].
      cbn [parking_allocations store with_history with_allocations].
      by apply (elem_of_write_back_same pa_id _ _ a).
Qed.

Lemma after_history_grows db call :
  ∃ new, parking_history (after db call) = parking_history db ++ new
         ∧ (length new ≤ 1)%nat.
Proof.
  destruct (after_effect db call)
    as [-> | [(a & _ & ->) | [(a & t & _ & _ & ->)
       | (a & entry & t & hid & _ & _ & _ & ->)]]].
  - exists []. split; [by rewrite app_nil_r | cbn; lia].
  - exists []. split; [by rewrite app_nil_r | cbn; lia].
  - exists []. split; [by rewrite app_nil_r | cbn; lia].
  - eexists [_]. split; [done | cbn; lia].
Qed.

Lemma after_keeps_closed db call b :
  b ∈ parking_allocations db → closed b → b ∈ parking_allocations (after db call).
Proof.
  intros Hb [Hentry Hexit].
  destruct (after_effect db call)
    as [-> | [(a & _ & ->) | [(a & t & Hget & Ha & ->)
       | (a & entry & t & hid & Hget & _ & Ha & ->)]]]; [done|..].
  - cbn. apply elem_of_app. by left.
  - cbn [parking_allocations store with_allocations].
    apply elem_of_write_back_other; [done|]. cbn. intros Heq.
    destruct (get_allocation_by_id_elem _ _ _ Hget) as (_ & _ & Huniq).
    rewrite (Huniq b Hb Heq), Ha in Hentry. by destruct Hentry.
  - cbn [parking_allocations store with_history with_allocations].
    apply elem_of_write_back_other; [done|]. cbn. intros Heq.
    destruct (get_allocation_by_id_elem _ _ _ Hget) as (_ & _ & Huniq).
    rewrite (Huniq b Hb Heq), Ha in Hexit. by destruct Hexit.
Qed.

Lemma after_keeps_exclusive db call :
  slots_exclusive db → slots_exclusive (after db call).
Proof.
  intros Hex. destruct call; cbn [after].
  - by apply create_allocation_keeps_exclusive.
  - by apply assign_visitor_slot_keeps_exclusive.
  - by apply record_entry_keeps_exclusive.
  - by apply record_exit_keeps_exclusive.
Qed.

Lemma record_exit_frees_the_slot_witness :
  let db' := (record_exit Examples.alice_parked 700
                (Examples.on_day (Examples.at_ 11 0)) 500 Examples.alice None).1 in
  check_slot_availability Examples.alice_parked 200 "P1" = Return false
  ∧ check_slot_availability db' 200 "P1" = Return true.
Proof.
  destruct (record_exit_frees_the_slot Examples.alice_parked 700
              (Examples.on_day (Examples.at_ 11 0)) 500 Examples.alice None
              Examples.alice_on_P1 _ _ slots_exclusive_alice_parked
              eq_refl eq_refl eq_refl)
    as (Hbefore & Hafter & _).
  split; [exact Hbefore | exact Hafter].
Defined.

Lemma foldl_after_keeps (P : DB → Prop) (calls : list ParkingCall) :
  (∀ db call, P db → P (after db call)) →
  ∀ db, P db → P (foldl after db calls).
Proof.
  intros Hstep. induction calls as [|call calls IH]; intros db Hdb; [done|].
  cbn [foldl]. by apply IH, Hstep.
Qed.

(** X16.  No slot is ever occupied twice.  If every (floor plan, label) pair
    has at most one allocation with [is_active] true and no exit time, the
    same holds after any sequence of [create_allocation],
    [assign_visitor_slot], [record_entry] and [record_exit] calls, whatever
    they answer; in such a state [check_slot_availability] never raises. *)
Theorem parking_slots_stay_exclusive (db : DB) (calls : list ParkingCall) :
  slots_exclusive db →
  slots_exclusive (foldl after db calls)
  ∧ ∀ floor_plan_id slot_label,
      ∃ free, check_slot_availability (foldl after db calls)
                                      floor_plan_id slot_label = Return free.
Proof.
  intros Hex.
  assert (slots_exclusive (foldl after db calls)) as Hex'
    by (apply (foldl_after_keeps slots_exclusive); [apply after_keeps_exclusive | done]).
  split; [done|]. intros fid label. apply check_slot_availability_returns, Hex'.
Qed.

Lemma parking_slots_stay_exclusive_witness :
  let calls :=
    [ Create_allocation 600 (Examples.employee_request Examples.bob "P2" "1" "2")
                        Examples.bob;
      Create_allocation 601 (Examples.employee_request Examples.bob "P1" "1" "1")
                        Examples.bob;
      Record_exit 700 (Examples.on_day (Examples.at_ 11 0)) 500 Examples.alice None ] in
  slots_exclusive (foldl after Examples.alice_parked calls)
  ∧ ∃ free, check_slot_availability (foldl after Examples.alice_parked calls)
                                    200 "P1" = Return free.
Proof.
  intros calls.
  destruct (parking_slots_stay_exclusive Examples.alice_parked calls
              slots_exclusive_alice_parked) as [Hex Hcheck].
  split; [exact Hex | apply Hcheck].
Defined.

(** X17.  The parking history is a ledger.  Over any sequence of calls of
    the parking service: if every history row records an allocation with
    the same slot, entry and exit time that is no longer active, this stays
    so; the history only grows, at its end and by at most one row per call;
    and an allocation whose entry and exit are recorded is never changed
    again. *)
Theorem parking_history_is_a_ledger (db : DB) (calls : list ParkingCall) :
  (history_backed db → history_backed (foldl after db calls))
  ∧ (∃ new, parking_history (foldl after db calls) = parking_history db ++ new
            ∧ (length new ≤ length calls)%nat)
  ∧ (∀ a, a ∈ parking_allocations db → closed a →
          a ∈ parking_allocations (foldl after db calls)).
Proof.
  split_and!.
  - apply (foldl_after_keeps history_backed). apply after_keeps_history_backed.
  - revert db. induction calls as [|call calls IH]; intros db.
    + exists []. split; [by rewrite app_nil_r | done].
    + cbn [foldl]. destruct (IH (after db call)) as (new2 & -> & Hlen2).
      destruct (after_history_grows db call) as (new1 & -> & Hlen1).
      exists (new1 ++ new2). split; [by rewrite app_assoc|].
      rewrite length_app. cbn [length]. lia.
  - revert db. induction calls as [|call calls IH]; intros db a Ha Hclosed; [done|].
    cbn [foldl]. apply IH; [|done]. by apply after_keeps_closed.
Qed.

Lemma parking_history_is_a_ledger_witness :
  let calls :=
    [ Record_exit 700 (Examples.on_day (Examples.at_ 11 0)) 500 Examples.alice None;
      Record_exit 701 (Examples.on_day (Examples.at_ 12 0)) 500 Examples.alice None ] in
  history_backed (foldl after Examples.alice_parked calls)
  ∧ (length (parking_history (foldl after Examples.alice_parked calls)) ≤ 2)%nat.
Proof.
  intros calls.
  destruct (parking_history_is_a_ledger Examples.alice_parked calls)
    as (Hbacked & (new & Hgrow & Hlen) & _).
  split.
  - apply Hbacked. intros h Hh. by apply elem_of_nil in Hh.
  - rewrite Hgrow. exact Hlen.
Defined.

End ParkingInvariants.


(** ** The automatic assignment of a visitor slot *)

Section VisitorAssignment.
Import ParkingService Reference Invariants.

Lemma get_available_slots_nonempty db fid slot_info rest :
  get_available_slots db fid = Return (slot_info :: rest) →
  ∃ fp v, filter (fun p => fp_id p = fid) (floor_plans db) = [fp]
          ∧ fp_plan_type fp = PARKING
          ∧ latest_version db fid = Return (Some v).
Proof.
  unfold get_available_slots.
  destruct (scalar_one_or_none _) as [[fp|]|] eqn:Hfp; cbn [mbind outcome_bind];
    [|done..].
  apply scalar_one_or_none_Some in Hfp.
  destruct (bool_decide (fp_plan_type fp ≠ PARKING)) eqn:Hty; [done|].
  apply bool_decide_eq_false in Hty.
  destruct (latest_version db fid) as [[v|]|]; cbn [mbind outcome_bind]; [|done..].
  intros _. exists fp, v. split_and!; try done.
  by destruct (decide (fp_plan_type fp = PARKING)).
Qed.

(** X18.  A slot that [assign_visitor_slot] picks by itself is a real, free
    slot.  On consistent floor-plan tables the allocation it returns sits on
    an active PARKING plan; the coordinates it stores, written as text, pass
    [validate_parking_slot]; the slot had no occupant and now has this one;
    the allocation is of type visitor and entered at the time of the call;
    and the visitor's name is stored stripped, at least two characters long,
    with no blank at either end. *)
Theorem auto_assigned_visitor_slot_is_valid
    (db : DB) (new_id : UUID) (now : Z) (visitor_data : VisitorParkingCreate)
    (assigned_by : User) (db' : DB) (allocation : ParkingAllocation)
    (error : option Msg) :
  store_ok db →
  vpc_floor_plan_id visitor_data = None ∨ vpc_slot_label visitor_data = None →
  assign_visitor_slot db new_id now visitor_data assigned_by
    = (db', Return (Some allocation, error)) →
  (∃ fp, fp ∈ floor_plans db ∧ fp_id fp = pa_floor_plan_id allocation
         ∧ fp_plan_type fp = PARKING ∧ fp_is_active fp = true)
  ∧ validate_parking_slot db' (pa_floor_plan_id allocation)
      (pa_cell_row allocation) (pa_cell_column allocation) = Return (true, None)
  ∧ occupants db (pa_floor_plan_id allocation) (pa_slot_label allocation) = []
  ∧ occupants db' (pa_floor_plan_id allocation) (pa_slot_label allocation)
    = [allocation]
  ∧ pa_parking_type allocation = PT_VISITOR
  ∧ pa_entry_time allocation = Some now
  ∧ pa_visitor_name allocation = Some (strip (vpc_visitor_name visitor_data))
  ∧ (2 ≤ String.length (strip (vpc_visitor_name visitor_data)))%nat
  ∧ match strip (vpc_visitor_name visitor_data) with
    | String c _ => is_space c = false
    | EmptyString => True
    end
  ∧ match last_char (strip (vpc_visitor_name visitor_data)) with
    | Some c => is_space c = false
    | None => True
    end.
Proof.
  intros Hok Hauto Hcall.
  apply assign_visitor_slot_cases in Hcall
    as [[_ Hno]|(slot_info & target & slot_label & _ & Hname & Hhow & Hlabel
                 & Hreply & ->)];
    [by destruct (Hno allocation error)|].
  injection Hreply as -> ->.
  destruct Hhow as [(fid & Hfid & Hl & _) | Hassign];
    [destruct Hauto; congruence|].
  destruct (auto_assign_hit _ _ _ _ Hassign) as (Hplan & rest & Hget).
  unfold get_parking_floor_plans in Hplan.
  apply list_elem_of_filter in Hplan as [[Hty Hactive] Hin].
  destruct (get_available_slots_nonempty _ _ _ _ Hget) as (fp & v & Hone & _ & Hv).
  assert (fp = target) as ->.
  { destruct (filter_singleton_elem _ fp _ Hone) as (_ & _ & Huniq).
    symmetry. by apply Huniq. }
  rewrite (get_available_slots_found _ _ _ Hone Hty Hv) in Hget.
  injection Hget as Hget.
  assert (slot_info ∈ free_slots (occupied_slots_of db (fp_id target))
                                 (fpv_grid_data v)) as Hslot
    by (rewrite Hget; by left).
  unfold free_slots in Hslot.
  apply list_elem_of_fmap in Hslot as ([[r c] cell] & -> & Hpos).
  apply list_elem_of_filter in Hpos as [Hfree Hpos].
  unfold free_slot in Hfree. apply andb_true_iff in Hfree as [Hcell Hfree].
  cbn [snd] in Hcell. apply row_major_lookup in Hpos as (row & Hrow & Hc).
  cbn [pa_floor_plan_id pa_cell_row pa_cell_column pa_slot_label pa_parking_type
       pa_entry_time pa_visitor_name slot_info_of si_row si_column fst snd].
  assert (occupants db (fp_id target) slot_label = []) as Hfree'.
  { destruct (occupants db (fp_id target) slot_label) eqn:Hocc; [done|].
    apply negb_true_iff in Hfree.
    change (slot_label_of (r, c, cell) = JStr slot_label) in Hlabel.
    rewrite Hlabel in Hfree.
    assert (in_strs (JStr slot_label) (occupied_slots_of db (fp_id target)) = true)
      as Hyes; [|congruence].
    apply occupied_slots_of_occupants. by rewrite Hocc. }
  destruct (strip_trimmed (vpc_visitor_name visitor_data)) as [Hhead Hlast].
  split_and!; try done.
  - by exists target.
  - change (validate_parking_slot db (fp_id target) (str_of_Z (Z.of_nat r))
              (str_of_Z (Z.of_nat c)) = Return (true, None)).
    destruct (int_str_of_nat r) as (Hr1 & _ & Hr2).
    destruct (int_str_of_nat c) as (Hc1 & _ & Hc2).
    destruct (latest_version_elem db (fp_id target) v Hv) as [Hvin _].
    destruct (versions_owned db Hok v Hvin) as (owner & _ & _ & Hgrid).
    apply grid_ok_rectangular in Hgrid.
    destruct (validate_parking_slot_checks_bounds db target v _ _ _
                Hr1 Hc1 Hone Hty Hv Hgrid) as (_ & _ & _ & Hin_bounds).
    rewrite Hr2, Hc2, !Nat2Z.id in Hin_bounds.
    destruct Hin_bounds as (row' & cell' & Hrow' & Hc' & ->).
    + split.
      * apply lookup_lt_Some in Hrow. lia.
      * rewrite Forall_forall in Hgrid.
        rewrite <- (Hgrid row) by (by eapply list_elem_of_lookup_2).
        apply lookup_lt_Some in Hc. lia.
    + rewrite Hrow in Hrow'. injection Hrow' as <-.
      rewrite Hc in Hc'. injection Hc' as <-. by rewrite Hcell.
  - rewrite occupants_append, Hfree'. cbn [app].
    rewrite filter_cons, filter_nil. by rewrite decide_True.
  - by destruct (last_char _).
Qed.

Lemma auto_assigned_visitor_slot_is_valid_witness :
  let result :=
    assign_visitor_slot Examples.parking_floor 900 5000
      Examples.visitor_request Examples.parking_manager in
  ∃ allocation,
    result.2 = Return (Some allocation, None)
    ∧ validate_parking_slot result.1 (pa_floor_plan_id allocation)
        (pa_cell_row allocation) (pa_cell_column allocation) = Return (true, None)
    ∧ pa_visitor_name allocation = Some "Grace Hopper".
Proof.
  cbv zeta.
  destruct (assign_visitor_slot Examples.parking_floor 900 5000
              Examples.visitor_request Examples.parking_manager)
    as [db' [[[allocation|] error]|e]] eqn:Hcall;
    [|vm_compute in Hcall; discriminate..].
  destruct (auto_assigned_visitor_slot_is_valid Examples.parking_floor 900 5000
              Examples.visitor_request Examples.parking_manager db' allocation error
              store_ok_parking_floor (or_introl eq_refl) Hcall)
    as (_ & Hvalid & _ & _ & _ & _ & Hname & _).
  exists allocation. split_and!; [|exact Hvalid|exact Hname].
  vm_compute in Hcall. injection Hcall as _ _ <-. reflexivity.
Defined.

End VisitorAssignment.

(** ** A parking plan after its soft delete *)

Section DeletedParkingPlan.
Import FloorPlanService ParkingService Reference Invariants.

Lemma filter_key_map {R} (key : R → Z) (g : R → R) (f : Z) (l : list R) :
  (∀ r, key (g r) = key r) →
  filter (fun r => key r = f) (map g l) = map g (filter (fun r => key r = f) l).
Proof.
  intros Hkey. induction l as [|r l IH]; [done|]. cbn [map].
  rewrite !filter_cons, IH, Hkey. by destruct (decide (key r = f)).
Qed.

Lemma deleted_plan_lookup db fid fp f :
  filter (fun p => fp_id p = fid) (floor_plans db) = [fp] →
  filter (fun p => fp_id p = f)
         (write_back fp_id (set_is_active false fp) (floor_plans db))
  = map (fun p => if decide (fp_id p = fid) then set_is_active false p else p)
        (filter (fun p => fp_id p = f) (floor_plans db)).
Proof.
  intros Hone.
  destruct (filter_singleton_elem _ fp _ Hone) as (_ & Hid & Huniq).
  rewrite (write_back_as_map fp_id
             (fun p => if decide (fp_id p = fid) then set_is_active false p else p)).
  - apply filter_key_map. intros p. by case_decide.
  - intros r Hr Hk. cbn in Hk. rewrite decide_True by congruence.
    f_equal. apply Huniq; [done | congruence].
  - intros r Hr Hk. cbn in Hk. rewrite decide_False by congruence. done.
Qed.

Lemma deleted_plan_validate db fid fp f cell_row cell_column :
  filter (fun p => fp_id p = fid) (floor_plans db) = [fp] →
  validate_parking_slot
    (with_floor_plans db (write_back fp_id (set_is_active false fp) (floor_plans db)))
    f cell_row cell_column
  = validate_parking_slot db f cell_row cell_column.
Proof.
  intros Hone. unfold validate_parking_slot.
  destruct (_ || _); [done|]. cbn [floor_plans with_floor_plans].
  rewrite (deleted_plan_lookup _ _ _ _ Hone).
  destruct (filter (fun p => fp_id p = f) (floor_plans db)) as [|p [|q rest]];
    cbn [map scalar_one_or_none mbind outcome_bind]; [done| |done].
  assert (fp_plan_type (if decide (fp_id p = fid) then set_is_active false p else p)
          = fp_plan_type p) as -> by (by case_decide).
  done.
Qed.

Lemma deleted_plan_available db fid fp f :
  filter (fun p => fp_id p = fid) (floor_plans db) = [fp] →
  ParkingService.get_available_slots
    (with_floor_plans db (write_back fp_id (set_is_active false fp) (floor_plans db))) f
  = ParkingService.get_available_slots db f.
Proof.
  intros Hone. unfold ParkingService.get_available_slots.
  cbn [floor_plans with_floor_plans].
  rewrite (deleted_plan_lookup _ _ _ _ Hone).
  destruct (filter (fun p => fp_id p = f) (floor_plans db)) as [|p [|q rest]];
    cbn [map scalar_one_or_none mbind outcome_bind]; [done| |done].
  assert (fp_plan_type (if decide (fp_id p = fid) then set_is_active false p else p)
          = fp_plan_type p) as -> by (by case_decide).
  done.
Qed.

(** X19.  A soft-deleted parking plan is only hidden from the automatic
    assignment.  After [delete_floor_plan], [get_parking_floor_plans] no
    longer returns the plan, so [assign_visitor_slot] never picks a slot on
    it by itself; but [validate_parking_slot], [get_available_slots] and the
    answers of [create_allocation] are the same as before: none of them
    reads [is_active]. *)
Theorem deleted_parking_plan_is_only_hidden
    (db : DB) (floor_plan_id : UUID) (deleted_by : User) (floor_plan : FloorPlan) :
  get_floor_plan_by_id db floor_plan_id = Return (Some floor_plan) →
  can_manage_plan_type deleted_by (fp_plan_type floor_plan) = true →
  let db' := (delete_floor_plan db floor_plan_id deleted_by).1 in
  (∀ p, p ∈ get_parking_floor_plans db' → fp_id p ≠ floor_plan_id)
  ∧ (∀ new_id now visitor_data assigned_by allocation error,
       vpc_floor_plan_id visitor_data = None ∨ vpc_slot_label visitor_data = None →
       (assign_visitor_slot db' new_id now visitor_data assigned_by).2
         = Return (Some allocation, error) →
       pa_floor_plan_id allocation ≠ floor_plan_id)
  ∧ (∀ f cell_row cell_column,
       validate_parking_slot db' f cell_row cell_column
       = validate_parking_slot db f cell_row cell_column)
  ∧ (∀ f, ParkingService.get_available_slots db' f
          = ParkingService.get_available_slots db f)
  ∧ (∀ new_id allocation_data created_by,
       (create_allocation db' new_id allocation_data created_by).2
       = (create_allocation db new_id allocation_data created_by).2).
Proof.
  intros Hget Hcan. cbv zeta.
  rewrite (delete_floor_plan_found _ _ _ _ Hget Hcan). cbn [fst].
  destruct (get_floor_plan_by_id_id _ _ _ Hget) as [Hone Hid].
  set (db' := with_floor_plans db
                (write_back fp_id (set_is_active false floor_plan) (floor_plans db))).
  assert (∀ p, p ∈ get_parking_floor_plans db' → fp_id p ≠ floor_plan_id) as Hhidden.
  { intros p Hp. unfold get_parking_floor_plans in Hp.
    apply list_elem_of_filter in Hp as [[_ Hactive] Hp].
    cbn [floor_plans with_floor_plans db'] in Hp.
    apply elem_of_write_back in Hp as [-> | [_ Hne]]; [done|].
    cbn in Hne. congruence. }
  split_and!.
  - done.
  - intros new_id now data user a e Hauto Hcall.
    destruct (assign_visitor_slot db' new_id now data user) as [db2 reply] eqn:Hrun.
    cbn [snd] in Hcall. subst reply.
    apply assign_visitor_slot_cases in Hrun
      as [[_ Hno]|(slot_info & target & slot_label & _ & _ & Hhow & _ & Hreply & _)];
      [by destruct (Hno a e)|].
    injection Hreply as -> ->. cbn [pa_floor_plan_id].
    destruct Hhow as [(fid & Hfid & Hl & _) | Hassign];
      [destruct Hauto; congruence|].
    destruct (auto_assign_hit _ _ _ _ Hassign) as (Hplan & _).
    by apply Hhidden.
  - intros. apply (deleted_plan_validate _ _ _ _ _ _ Hone).
  - intros. apply (deleted_plan_available _ _ _ _ Hone).
  - intros new_id data user. unfold create_allocation.
    rewrite (deleted_plan_validate _ _ _ _ _ _ Hone).
    destruct (validate_parking_slot db _ _ _) as [[[] ?]|]; [|done..].
    change (check_slot_availability db' (pac_floor_plan_id data) (pac_slot_label data))
      with (check_slot_availability db (pac_floor_plan_id data) (pac_slot_label data)).
    destruct (check_slot_availability db _ _) as [[]|]; [|done..].
    destruct (decide (pac_parking_type data = PT_EMPLOYEE)).
    + destruct (pac_user_id data) as [u|]; [|done].
      change (check_user_active_parking db' u) with (check_user_active_parking db u).
      destruct (check_user_active_parking db u) as [[?|]|]; cbn; [done| |done].
      destruct (_ && _); [done|]. by destruct (_ && _).
    + cbn. destruct (_ && _); [done|]. by destruct (_ && _).
Qed.

Lemma deleted_parking_plan_is_only_hidden_witness :
  let db' := (delete_floor_plan Examples.parking_floor 200
                                Examples.parking_manager).1 in
  validate_parking_slot db' 200 "1" "1" = Return (true, None)
  ∧ (assign_visitor_slot db' 900 5000 Examples.visitor_request
                         Examples.parking_manager).2
    = Return (None, Some No_parking_floor_plans_available)
  ∧ ∃ allocation,
      (create_allocation db' 600
         (Examples.employee_request Examples.alice "P1" "1" "1") Examples.alice).2
      = Return (Some allocation, None).
Proof.
  destruct (deleted_parking_plan_is_only_hidden Examples.parking_floor 200
              Examples.parking_manager Examples.parking_plan eq_refl eq_refl)
    as (_ & _ & Hvalidate & _ & Hcreate).
  split_and!.
  - rewrite Hvalidate. reflexivity.
  - reflexivity.
  - rewrite Hcreate. eexists. vm_compute. reflexivity.
Defined.

End DeletedParkingPlan.
